(** * rtconf: IRQ / PCI / kernel-thread discovery, correlation and CPU binding

    A shallow embedding of the Python package [rtconf] (modules [tools],
    [cset], [irqs], [pcidevices], [kthread], [functions], [meta_obj],
    [macros], and the special rules of [rtlinux_configs]) and the
    properties of its codecs, correlation passes, binder and sampler.

    Conventions of the embedding.
    - Python [int] is [Z]; [str] is [string] (code points below 128).
    - A Python call that may raise returns [Res A]: [Ok a] or [Raise e].
    - [list.sort()] on integers is [py_sort]; a callee that sorts its
      argument in place is followed, in the caller, by the sorted list.
    - [dict] is [gmap]; [set] of CPU ids is [gset Z].
    - Python [float] and numpy [float64] are IEEE 754 binary64 values,
      [spec_float] with its round-to-nearest-even operations. *)

From Stdlib Require Import ZArith Lia Ascii String Floats.SpecFloat.
From stdpp Require Import base list sorting gmap strings.

Local Open Scope Z_scope.

(* ===================================================================== *)
(** ** Exceptions and results *)
(* ===================================================================== *)

Inductive exn : Type :=
| AssertionError
| ValueError
| IndexError
| KeyError
| RuntimeError
| PermissionError
| ProcessLookupError
| FileNotFoundError
| OSError
| ProcfsWriteError
| ZeroDivisionError
| OverflowError.

Inductive Res (A : Type) : Type :=
| Ok (a : A)
| Raise (e : exn).
Arguments Ok {A} a.
Arguments Raise {A} e.

Global Instance res_ret : MRet Res := fun A a => Ok a.
Global Instance res_bind : MBind Res := fun A B k r =>
  match r with
  | Ok a => k a
  | Raise e => Raise e
  end.

Definition is_Ok {A} (r : Res A) : Prop :=
  match r with Ok _ => True | Raise _ => False end.

(** A list comprehension whose body may raise: the first failure wins. *)
Fixpoint res_mapM {A B} (f : A -> Res B) (l : list A) : Res (list B) :=
  match l with
  | [] => Ok []
  | x :: l' => y ← f x ; ys ← res_mapM f l' ; Ok (y :: ys)
  end.

(** A [for] loop threading one accumulator, whose body may raise. *)
Fixpoint res_foldM {A B} (f : B -> A -> Res B) (b : B) (l : list A) : Res B :=
  match l with
  | [] => Ok b
  | x :: l' => b' ← f b x ; res_foldM f b' l'
  end.

(* ===================================================================== *)
(** ** Python string primitives used by the package *)
(* ===================================================================== *)

Module PyStr.

(** [str.isspace] on code points below 128. *)
Definition is_space (c : ascii) : bool :=
  let n := nat_of_ascii c in
  ((9 <=? n)%nat && (n <=? 13)%nat) || ((28 <=? n)%nat && (n <=? 32)%nat).

(** The value of a decimal digit. *)
Definition is_digit (c : ascii) : option Z :=
  let n := Z.of_nat (nat_of_ascii c) in
  if (48 <=? n) && (n <=? 57) then Some (n - 48) else None.

Definition is_dec (c : ascii) : bool :=
  match is_digit c with Some _ => true | None => false end.

(** The character of a digit [0 <= d < 10]. *)
Definition digit_char (d : Z) : ascii := ascii_of_nat (Z.to_nat (48 + d)).

Fixpoint all_chars (P : ascii -> bool) (s : string) : bool :=
  match s with
  | EmptyString => true
  | String c s' => P c && all_chars P s'
  end.

(** [c in s] for a one-character needle. *)
Fixpoint mem (c : ascii) (s : string) : bool :=
  match s with
  | EmptyString => false
  | String c' s' => Ascii.eqb c' c || mem c s'
  end.

(** [s[1:]] *)
Definition tail (s : string) : string :=
  match s with
  | EmptyString => EmptyString
  | String _ s' => s'
  end.

(** [s.startswith(p)] *)
Definition startswith (p s : string) : bool := String.prefix p s.

(** [s.split(sep)] for a one-character separator: every occurrence
    splits, empty pieces are kept. *)
Fixpoint split (sep : ascii) (s : string) : list string :=
  match s with
  | EmptyString => [EmptyString]
  | String c s' =>
      if Ascii.eqb c sep then EmptyString :: split sep s'
      else match split sep s' with
           | [] => [String c EmptyString]
           | w :: ws => String c w :: ws
           end
  end.

(** [s.replace(c, '')] for a one-character [c]. *)
Fixpoint remove_char (c : ascii) (s : string) : string :=
  match s with
  | EmptyString => EmptyString
  | String c' s' =>
      if Ascii.eqb c' c then remove_char c s' else String c' (remove_char c s')
  end.

Fixpoint lstrip (s : string) : string :=
  match s with
  | EmptyString => EmptyString
  | String c s' => if is_space c then lstrip s' else s
  end.

Fixpoint rstrip (s : string) : string :=
  match s with
  | EmptyString => EmptyString
  | String c s' =>
      match rstrip s' with
      | EmptyString => if is_space c then EmptyString else String c EmptyString
      | r => String c r
      end
  end.

Definition strip (s : string) : string := rstrip (lstrip s).

(** [s.split()] and [s.split(None, maxsplit)]: runs of whitespace
    separate the words; once [maxsplit] splits are done the rest of the
    line, leading whitespace removed, is the last word.  [inword] tells
    that the head of the result is the word being read. *)
Definition cons_head (c : ascii) (ws : list string) : list string :=
  match ws with
  | [] => [String c EmptyString]
  | w :: ws' => String c w :: ws'
  end.

Fixpoint split_ws_go (maxsplit : option nat) (inword : bool) (s : string)
  : list string :=
  match s with
  | EmptyString => if inword then [EmptyString] else []
  | String c s' =>
      if is_space c then
        if inword then EmptyString :: split_ws_go maxsplit false s'
        else split_ws_go maxsplit false s'
      else if inword then cons_head c (split_ws_go maxsplit true s')
      else match maxsplit with
           | Some O => [s]
           | _ => cons_head c (split_ws_go (Nat.pred <$> maxsplit) true s')
           end
  end.

Definition split_ws (maxsplit : option nat) (s : string) : list string :=
  split_ws_go maxsplit false s.

(** [int(s)] and [int(s, 16)]: surrounding whitespace, an optional
    sign, for base 16 an optional [0x] prefix, then digits with single
    underscores between them.  [ValueError] otherwise. *)
Definition hex_digit (c : ascii) : option Z :=
  match is_digit c with
  | Some d => Some d
  | None =>
      match c with
      | "a" | "A" => Some 10 | "b" | "B" => Some 11 | "c" | "C" => Some 12
      | "d" | "D" => Some 13 | "e" | "E" => Some 14 | "f" | "F" => Some 15
      | _ => None
      end%char
  end.

Definition digit_of (base : Z) (c : ascii) : option Z :=
  if base =? 16 then hex_digit c else is_digit c.

Inductive int_lex := LexStart | LexPrefix | LexDigit | LexUnderscore.

Fixpoint parse_digits (base : Z) (st : int_lex) (acc : Z) (s : string) : option Z :=
  match s with
  | EmptyString => match st with LexDigit => Some acc | _ => None end
  | String c s' =>
      match digit_of base c with
      | Some d => parse_digits base LexDigit (base * acc + d) s'
      | None =>
          if Ascii.eqb c "_" then
            match st with
            | LexDigit | LexPrefix => parse_digits base LexUnderscore acc s'
            | _ => None
            end
          else None
      end
  end.

Definition parse_unsigned (base : Z) (s : string) : option Z :=
  match s with
  | String "0" (String x s') =>
      if (base =? 16) && (Ascii.eqb x "x" || Ascii.eqb x "X")
      then parse_digits base LexPrefix 0 s'
      else parse_digits base LexStart 0 s
  | _ => parse_digits base LexStart 0 s
  end.

(** The whitespace [int()] skips around the digits of an ASCII string:
    blank, tab, line feed, vertical tab, form feed, carriage return (not
    the separators 28 to 31, which [str.strip] removes). *)
Definition is_int_space (c : ascii) : bool :=
  let n := nat_of_ascii c in
  ((9 <=? n)%nat && (n <=? 13)%nat) || (n =? 32)%nat.

Fixpoint int_lstrip (s : string) : string :=
  match s with
  | EmptyString => EmptyString
  | String c s' => if is_int_space c then int_lstrip s' else s
  end.

Fixpoint int_rstrip (s : string) : string :=
  match s with
  | EmptyString => EmptyString
  | String c s' =>
      match int_rstrip s' with
      | EmptyString => if is_int_space c then EmptyString else String c EmptyString
      | r => String c r
      end
  end.

Definition int_strip (s : string) : string := int_rstrip (int_lstrip s).

Definition int_base (base : Z) (s : string) : Res Z :=
  let r :=
    match int_strip s with
    | String "-" s' => Z.opp <$> parse_unsigned base s'
    | String "+" s' => parse_unsigned base s'
    | s' => parse_unsigned base s'
    end in
  match r with
  | Some z => Ok z
  | None => Raise ValueError
  end.

Definition int (s : string) : Res Z := int_base 10 s.

(** [str(n)] / [f'{n}'] for an integer. *)
Fixpoint str_nonneg (fuel : nat) (n : Z) (acc : string) : string :=
  let acc' := String (digit_char (n mod 10)) acc in
  match fuel with
  | O => acc'
  | S fuel' => if n <? 10 then acc' else str_nonneg fuel' (n / 10) acc'
  end.

Definition str (n : Z) : string :=
  if n <? 0 then String "-" (str_nonneg (Z.to_nat (Z.log2 (- n))) (- n) EmptyString)
  else str_nonneg (Z.to_nat (Z.log2 n)) n EmptyString.

End PyStr.

(** [list.sort()] on integers. *)
Definition py_sort (l : list Z) : list Z := merge_sort Z.le l.

(** [l[i]] with Python's negative indices; [IndexError] out of range. *)
Definition py_index {A} (l : list A) (i : Z) : Res A :=
  let n := Z.of_nat (length l) in
  let j := if i <? 0 then i + n else i in
  if (0 <=? j) && (j <? n) then
    match l !! Z.to_nat j with
    | Some x => Ok x
    | None => Raise IndexError
    end
  else Raise IndexError.

(* ===================================================================== *)
(** ** tools.py: the CPU-set codecs *)
(* ===================================================================== *)

(** One iteration of the [for token in range_str.split(',')] loop. *)
Definition range_token (int_list : list Z) (token : string) : Res (list Z) :=
  if PyStr.mem "-" token then
    lh ← res_mapM PyStr.int (PyStr.split "-" token) ;
    match lh with
    | [l; h] =>
        if l <=? h then Ok (int_list ++ seqZ l (h + 1 - l))
        else Raise AssertionError
    | _ => Raise ValueError
    end
  else
    v ← PyStr.int token ; Ok (int_list ++ [v]).

Definition range_to_list (range_str : string) : Res (list Z) :=
  if (String.length range_str =? 0)%nat then Ok []
  else res_foldM range_token [] (PyStr.split "," range_str).

(** The body of the loop of [list_to_range_notation], on the pair
    [(pending, s)]. *)
Definition range_notation_step (st : list Z * string) (c : Z) : list Z * string :=
  let '(pending, s) := st in
  match pending with
  | [] => ([c], s)
  | p0 :: _ =>
      if decide (c = List.last pending 0 + 1) then (pending ++ [c], s)
      else if (length pending =? 1)%nat then
        ([c], s +:+ "," +:+ PyStr.str p0)
      else
        ([c], s +:+ "," +:+ PyStr.str p0 +:+ "-" +:+ PyStr.str (List.last pending 0))
  end.

(** [list_to_range_notation(cpu_list)]: the returned string.  The call
    also leaves its argument sorted ([cpu_list.sort()]). *)
Definition list_to_range_notation (cpu_list : list Z) : Res string :=
  let cpu_list := py_sort cpu_list in
  let '(pending, s) := foldl range_notation_step ([], EmptyString) (cpu_list ++ [-1]) in
  if decide (pending = [-1]) then Ok (PyStr.tail s) else Raise AssertionError.

(** [mask_to_list]: the [while mask > 0] loop runs once per bit of
    [mask]; [fuel] counts the iterations left, [None] is fuel exhausted. *)
Fixpoint mask_to_list_loop (fuel : nat) (mask cc : Z) (int_list : list Z)
  : option (list Z) :=
  if 0 <? mask then
    match fuel with
    | O => None
    | S fuel' =>
        let int_list := if Z.land mask 1 =? 0 then int_list else int_list ++ [cc] in
        mask_to_list_loop fuel' (Z.shiftr mask 1) (cc + 1) int_list
    end
  else Some int_list.

Definition mask_to_list (mask : Z) : Res (list Z) :=
  if 0 <=? mask then
    match mask_to_list_loop (S (Z.to_nat (Z.log2 mask))) mask 0 [] with
    | Some l => Ok l
    | None => Ok []
    end
  else Raise AssertionError.

(** [list_to_mask]: [1 << cc] raises [ValueError] on a negative [cc]. *)
Definition list_to_mask_step (mask cc : Z) : Res Z :=
  if cc <? 0 then Raise ValueError else Ok (Z.lor mask (Z.shiftl 1 cc)).

Definition list_to_mask (cpu_list : list Z) : Res Z :=
  res_foldM list_to_mask_step 0 cpu_list.


(** ** tools.py: [maskstr_to_int] *)

(** Comma-grouped hexadecimal, as the kernel prints wide masks. *)
Definition maskstr_to_int (maskstr : string) : Res Z :=
  PyStr.int_base 16 (PyStr.remove_char "," maskstr).

(* ===================================================================== *)
(** ** Python floats *)
(* ===================================================================== *)

(** A Python [float], a numpy [float64]: an IEEE 754 binary64 value. *)
Definition float : Type := spec_float.

Global Instance float_eq_dec : EqDecision float.
Proof. solve_decision. Defined.

(** [0.0] *)
Definition f64_zero : float := S754_zero false.

(** The conversion of an integer to the nearest [float64], ties to even;
    an integer beyond the greatest float gives an infinity. *)
Definition f64_of_Z (n : Z) : float := binary_normalize 53 1024 n 0 false.

(** [x - y] and [x / y] on [float64]; a division by zero gives an
    infinity or a NaN. *)
Definition f64_sub (x y : float) : float := SFsub 53 1024 x y.
Definition f64_div (x y : float) : float := SFdiv 53 1024 x y.

(** [float(n)] for a Python [int]: an integer too large for a [float]
    raises. *)
Definition py_float_of_int (n : Z) : Res float :=
  match f64_of_Z n with
  | S754_infinity _ => Raise OverflowError
  | x => Ok x
  end.

(* ===================================================================== *)
(** ** The machine: exceptions over state, the operating system, the log *)
(* ===================================================================== *)

(** A computation over a mutable state [S] that returns or raises; the
    state written before a [raise] stays written. *)
Definition M (S A : Type) : Type := S -> Res A * S.

Global Instance M_ret {S} : MRet (M S) := fun A a s => (Ok a, s).
Global Instance M_bind {S} : MBind (M S) := fun A B k m s =>
  match m s with
  | (Ok a, s') => k a s'
  | (Raise e, s') => (Raise e, s')
  end.

Definition raise {S A} (e : exn) : M S A := fun s => (Raise e, s).
Definition lift_res {S A} (r : Res A) : M S A := fun s => (r, s).
Definition get_state {S} : M S S := fun s => (Ok s, s).
Definition modify {S} (f : S -> S) : M S unit := fun s => (Ok tt, f s).

(** [assert b] *)
Definition py_assert {S} (b : bool) : M S unit :=
  if b then mret tt else raise AssertionError.

(** [try: m  except <classes matched by sel>: h] *)
Definition try_except {S A} (m : M S A) (sel : exn -> bool) (h : exn -> M S A)
  : M S A :=
  fun s =>
    match m s with
    | (Raise e, s') => if sel e then h e s' else (Raise e, s')
    | r => r
    end.

(** [for x in l: body] *)
Fixpoint for_each {S A} (l : list A) (body : A -> M S unit) : M S unit :=
  match l with
  | [] => mret tt
  | x :: l' => body x ;; for_each l' body
  end.

(** Run a computation on a part of the state. *)
Definition zoom {S T A} (rd : S -> T) (wr : T -> S -> S) (m : M T A) : M S A :=
  fun s => let '(r, t') := m (rd s) in (r, wr t' s).

(** [except OSError] also catches its subclasses. *)
Definition is_OSError (e : exn) : bool :=
  match e with
  | OSError | PermissionError | ProcessLookupError | FileNotFoundError => true
  | _ => false
  end.

Inductive level := DEBUG | INFO | WARNING | ERROR | CRITICAL.

(** What the program does to the outside, in order.  A log record keeps
    its level and the fixed text of its call site. *)
Inductive event :=
| EvLog (lvl : level) (site : string)
| EvGetuid
| EvTime
| EvRead (file : string)
| EvWrite (file content : string)
| EvKill (pid sig : Z)
| EvGetaffinity (pid : Z)
| EvRun (argv : list string)
| EvCsetProc (args : string).

(** The kernel-facing operations that change affinity, grouping or
    scheduling policy. *)
Definition is_kernel_write (ev : event) : bool :=
  match ev with
  | EvWrite _ _ | EvRun _ | EvCsetProc _ => true
  | _ => false
  end.

(** The operating system, as the package calls it.  [W] is the state of
    the outside world; every call may change it. *)
Class OS (W : Type) := {
  (** [os.getuid()] *)
  os_getuid : W -> Z;
  (** [time.time()] *)
  os_time : W -> float * W;
  (** [open(file).readlines()] *)
  os_readlines : string -> W -> Res (list string) * W;
  (** [with open(file, 'w') as f: ret = f.write(content)] *)
  os_write : string -> string -> W -> Res Z * W;
  (** [os.kill(pid, sig)] *)
  os_kill : Z -> Z -> W -> Res unit * W;
  (** [os.sched_getaffinity(pid)] *)
  os_sched_getaffinity : Z -> W -> Res (gset Z) * W;
  (** [subprocess.run(argv).returncode] *)
  os_run : list string -> W -> Res Z * W;
  (** [cpuset.commands.proc.func] on the parsed [cset proc] arguments *)
  os_cset_proc : string -> W -> Res unit * W;
}.

(** Constants read once at import of [tools], and Python's [float()]. *)
Class Platform := {
  CPU_COUNT : nat;
  NUMA_CPULIST : list (gset Z);
  py_float : string -> Res float;
}.

Record sys (W : Type) := Sys { world : W; trace : list event }.
Arguments Sys {W} _ _.
Arguments world {W} _.
Arguments trace {W} _.

Section SysOps.
Context {W : Type} {Hos : OS W}.

Definition emit (ev : event) : M (sys W) unit :=
  modify (fun s => Sys (world s) (trace s ++ [ev])).

Definition log (lvl : level) (site : string) : M (sys W) unit :=
  emit (EvLog lvl site).

(** One call into the operating system: recorded, then answered. *)
Definition os_call {A} (ev : event) (f : W -> Res A * W) : M (sys W) A :=
  fun s => let '(r, w') := f (world s) in (r, Sys w' (trace s ++ [ev])).

Definition getuid : M (sys W) Z :=
  os_call EvGetuid (fun w => (Ok (os_getuid w), w)).

Definition time_time : M (sys W) float :=
  os_call EvTime (fun w => let '(t, w') := os_time w in (Ok t, w')).

(** [@root_decorator] *)
Definition root_decorator {A} (func : M (sys W) A) : M (sys W) A :=
  uid ← getuid ;
  if negb (uid =? 0) then raise PermissionError else func.

(** [tools.procfs_write] *)
Definition procfs_write (file content : string) : M (sys W) unit :=
  root_decorator (
    ret ← os_call (EvWrite file content) (os_write file content) ;
    if ret <=? 0 then raise ProcfsWriteError else mret tt).

(** [tools.procfs_read] *)
Definition procfs_read (file : string) : M (sys W) (list string) :=
  content ← os_call (EvRead file) (os_readlines file) ;
  mret (PyStr.rstrip <$> content).

(** [tools.cset_proc_call] *)
Definition cset_proc_call (cmd_args : string) : M (sys W) unit :=
  root_decorator (
    log INFO "cset_proc_call()" ;;
    os_call (EvCsetProc cmd_args) (os_cset_proc cmd_args)).

(** [subprocess.run(cmd.split()).returncode] *)
Definition sproc_run (cmd : string) : M (sys W) Z :=
  let argv := PyStr.split_ws None cmd in
  os_call (EvRun argv) (os_run argv).

End SysOps.

(** Lifting a system-level computation to a state that carries an object
    (or the object store) next to the system. *)
Definition on_sys {T W A} (m : M (sys W) A) : M (T * sys W) A :=
  zoom snd (fun s' ts => (ts.1, s')) m.
Definition get_self {T W} : M (T * sys W) T := fun ts => (Ok ts.1, ts).
Definition set_self {T W} (f : T -> T) : M (T * sys W) unit :=
  modify (fun ts => (f ts.1, ts.2)).

(** A property of the state that a computation keeps, however it ends. *)
Definition keeps {S A} (I : S -> Prop) (m : M S A) : Prop :=
  forall s, I s -> I (m s).2.


(** A property of the object a state carries. *)
Definition on_obj {T W} (P : T -> Prop) : T * sys W -> Prop := fun ts => P ts.1.

(* ===================================================================== *)
(** ** numpy arrays of the sampler *)
(* ===================================================================== *)

(** An element of an array of dtype [object]: a Python [int] or
    [float]. *)
Inductive pyobj := PyInt (n : Z) | PyFloat (x : float).

(** A one-dimensional array, by dtype. *)
Inductive ndarray :=
| Int64Array (l : list Z)
| Uint64Array (l : list Z)
| Float64Array (l : list float)
| ObjectArray (l : list pyobj).

(** [len(a)] *)
Definition np_len (a : ndarray) : nat :=
  match a with
  | Int64Array l | Uint64Array l => length l
  | Float64Array l => length l
  | ObjectArray l => length l
  end.

(** [int64] and [uint64] wrap-around. *)
Definition wrap64 (z : Z) : Z := (z + 2 ^ 63) mod 2 ^ 64 - 2 ^ 63.
Definition wrapu64 (z : Z) : Z := z mod 2 ^ 64.

(** The dtype numpy finds for one Python [int]: [int64] when it fits,
    [uint64] when only that fits, [object] otherwise. *)
Definition fits_int64 (z : Z) : bool := (- 2 ^ 63 <=? z) && (z <? 2 ^ 63).
Definition fits_uint64 (z : Z) : bool := (0 <=? z) && (z <? 2 ^ 64).

(** [np.asarray(counts)] for a list of Python [int]s: the common dtype of
    the elements, where [int64] and [uint64] together promote to [float64];
    an empty list gives an empty [float64] array. *)
Definition np_asarray (counts : list Z) : ndarray :=
  match counts with
  | [] => Float64Array []
  | _ =>
      if forallb fits_int64 counts then Int64Array counts
      else if forallb (fun z => fits_uint64 z && negb (fits_int64 z)) counts
      then Uint64Array counts
      else if forallb (fun z => fits_int64 z || fits_uint64 z) counts
      then Float64Array (f64_of_Z <$> counts)
      else ObjectArray (PyInt <$> counts)
  end.

(** [np.zeros(n, np.int64)] and [np.zeros(n, np.float64)] *)
Definition np_zeros_int64 (n : nat) : ndarray := Int64Array (replicate n 0).
Definition np_zeros_float64 (n : nat) : ndarray := Float64Array (replicate n f64_zero).

(** The casts numpy applies to the operands of a mixed operation: to
    [float64] (not for an [object] array) and to [object]. *)
Definition as_float64 (a : ndarray) : option (list float) :=
  match a with
  | Int64Array l | Uint64Array l => Some (f64_of_Z <$> l)
  | Float64Array l => Some l
  | ObjectArray _ => None
  end.
Definition as_object (a : ndarray) : list pyobj :=
  match a with
  | Int64Array l | Uint64Array l => PyInt <$> l
  | Float64Array l => PyFloat <$> l
  | ObjectArray l => l
  end.

(** An elementwise operation on two one-dimensional arrays, with numpy's
    broadcasting of a one-element operand; other shape mismatches raise
    [ValueError]. *)
Definition broadcast {A B C} (f : A -> B -> C) (a : list A) (b : list B)
  : Res (list C) :=
  if (length a =? length b)%nat then Ok (zip_with f a b)
  else match a, b with
       | [x], _ => Ok (f x <$> b)
       | _, [y] => Ok ((fun x => f x y) <$> a)
       | _, _ => Raise ValueError
       end.

(** [x - y] on two Python numbers. *)
Definition py_sub (x y : pyobj) : Res pyobj :=
  match x, y with
  | PyInt m, PyInt n => Ok (PyInt (m - n))
  | PyInt m, PyFloat v => u ← py_float_of_int m ; Ok (PyFloat (f64_sub u v))
  | PyFloat u, PyInt n => v ← py_float_of_int n ; Ok (PyFloat (f64_sub u v))
  | PyFloat u, PyFloat v => Ok (PyFloat (f64_sub u v))
  end.

(** [x / d] for a Python number and a Python [float]. *)
Definition py_truediv (x : pyobj) (d : float) : Res pyobj :=
  u ← match x with
      | PyInt m => py_float_of_int m
      | PyFloat u => Ok u
      end ;
  match d with
  | S754_zero _ => Raise ZeroDivisionError
  | _ => Ok (PyFloat (f64_div u d))
  end.

(** [a - b] on two arrays.  Two [int64] (two [uint64]) arrays subtract
    with wrap-around; an [int64] and a [uint64] array, or a [float64]
    array and any of these, subtract as [float64]; with an [object] array
    the elements subtract as Python numbers. *)
Definition np_sub (a b : ndarray) : Res ndarray :=
  match a, b with
  | Int64Array x, Int64Array y =>
      l ← broadcast (fun p q => wrap64 (p - q)) x y ; Ok (Int64Array l)
  | Uint64Array x, Uint64Array y =>
      l ← broadcast (fun p q => wrapu64 (p - q)) x y ; Ok (Uint64Array l)
  | _, _ =>
      match as_float64 a, as_float64 b with
      | Some x, Some y => l ← broadcast f64_sub x y ; Ok (Float64Array l)
      | _, _ =>
          rs ← broadcast py_sub (as_object a) (as_object b) ;
          l ← res_mapM id rs ;
          Ok (ObjectArray l)
      end
  end.

(** [a / d] for an array and a Python [float]: a [float64] array, where
    a division by zero gives an infinity or a NaN; the elements of an
    [object] array divide as Python numbers, and raise as they do. *)
Definition np_div (a : ndarray) (d : float) : Res ndarray :=
  match a with
  | Int64Array l | Uint64Array l =>
      Ok (Float64Array ((fun n => f64_div (f64_of_Z n) d) <$> l))
  | Float64Array l => Ok (Float64Array ((fun u => f64_div u d) <$> l))
  | ObjectArray l => l ← res_mapM (fun x => py_truediv x d) l ; Ok (ObjectArray l)
  end.

(* ===================================================================== *)
(** ** cset.py *)
(* ===================================================================== *)

Module CPUSpec.

Record t := Make {
  name : string;
  cpu_list : list Z;
  mask : Z;
  mem_list : option (list Z);
  no_irqbalance : bool;
}.

(** The spec after a callee sorted its [cpu_list] in place. *)
Definition sorted (c : t) : t :=
  Make (name c) (py_sort (cpu_list c)) (mask c) (mem_list c) (no_irqbalance c).

(** [x is None], as the integer Python adds up. *)
Definition is_None {A} (o : option A) : Z :=
  match o with Some _ => 0 | None => 1 end.

Section methods.
Context {W : Type} {Hos : OS W}.

Definition __init__ (name : string) (str_spec : option string)
    (cpu_list : option (list Z)) (mem_list : option (list Z))
    (mask : option Z) (no_irqbalance : bool) : M (sys W) t :=
  log DEBUG "CPUSpec::__init__" ;;
  py_assert (is_None str_spec + is_None cpu_list + is_None mask =? 2) ;;
  cpu_list ← match str_spec with
             | Some str_spec => lift_res (range_to_list str_spec)
             | None =>
                 match mask with
                 | Some mask => lift_res (mask_to_list mask)
                 | None =>
                     match cpu_list with
                     | Some cpu_list => mret cpu_list
                     | None => raise AssertionError
                     end
                 end
             end ;
  let cpu_list := py_sort cpu_list in
  mask ← lift_res (list_to_mask cpu_list) ;
  mret (Make name cpu_list mask mem_list no_irqbalance).

End methods.

(** [get_str]: the returned string; [cpu_list] is left sorted. *)
Definition get_str (self : t) : Res string :=
  list_to_range_notation (cpu_list self).

End CPUSpec.

(* ===================================================================== *)
(** ** pcidevices.py *)
(* ===================================================================== *)

Inductive IRQ_TYPE := NONE | LEGACY | MSI.

Module PCIDevice.

Record t := Make {
  pci_addr : string;
  irq_type : IRQ_TYPE;
  irq_list : list Z;
  cpu_set : gset Z;
  numa_node : Z;
  driver : string;
  net_iface : string;
  ip_addr : string;
}.

Definition add_driver_info (driver : string) (self : t) : t :=
  Make (pci_addr self) (irq_type self) (irq_list self) (cpu_set self)
       (numa_node self) driver (net_iface self) (ip_addr self).

End PCIDevice.

(** Python [str] comparison [a < b]: lexicographic on code points. *)
Definition str_lt (a b : string) : bool := String.ltb a b.

(** A reference to an object of the run (an [IRQ] or a [KThread]). *)
Definition ref := nat.

(* ===================================================================== *)
(** ** irqs.py *)
(* ===================================================================== *)

Module IRQ.

Record t := Make {
  id : Z;
  procfs_folder : string;
  _smp_affinity : Z;
  _smp_affinity_list : list Z;
  _eff_affinity : Z;
  _eff_affinity_list : list Z;
  best_node : Z;
  pci_device : option PCIDevice.t;
  kthread : option ref;
  _count : Z;
  _unhandled : Z;
  _last_unhandled_ms : Z;
  _counts : ndarray;
  _counts_time : float;
  _counts_hz : ndarray;
  was_pinned_successfully_once : bool;
}.

Definition set_smp (m : Z) (self : t) : t :=
  Make (id self) (procfs_folder self) m (_smp_affinity_list self)
    (_eff_affinity self) (_eff_affinity_list self) (best_node self)
    (pci_device self) (kthread self) (_count self) (_unhandled self)
    (_last_unhandled_ms self) (_counts self) (_counts_time self)
    (_counts_hz self) (was_pinned_successfully_once self).
Definition set_smp_list (l : list Z) (self : t) : t :=
  Make (id self) (procfs_folder self) (_smp_affinity self) l
    (_eff_affinity self) (_eff_affinity_list self) (best_node self)
    (pci_device self) (kthread self) (_count self) (_unhandled self)
    (_last_unhandled_ms self) (_counts self) (_counts_time self)
    (_counts_hz self) (was_pinned_successfully_once self).
Definition set_eff (m : Z) (self : t) : t :=
  Make (id self) (procfs_folder self) (_smp_affinity self) (_smp_affinity_list self)
    m (_eff_affinity_list self) (best_node self)
    (pci_device self) (kthread self) (_count self) (_unhandled self)
    (_last_unhandled_ms self) (_counts self) (_counts_time self)
    (_counts_hz self) (was_pinned_successfully_once self).
Definition set_eff_list (l : list Z) (self : t) : t :=
  Make (id self) (procfs_folder self) (_smp_affinity self) (_smp_affinity_list self)
    (_eff_affinity self) l (best_node self)
    (pci_device self) (kthread self) (_count self) (_unhandled self)
    (_last_unhandled_ms self) (_counts self) (_counts_time self)
    (_counts_hz self) (was_pinned_successfully_once self).
Definition set_pci (dev : option PCIDevice.t) (self : t) : t :=
  Make (id self) (procfs_folder self) (_smp_affinity self) (_smp_affinity_list self)
    (_eff_affinity self) (_eff_affinity_list self) (best_node self)
    dev (kthread self) (_count self) (_unhandled self)
    (_last_unhandled_ms self) (_counts self) (_counts_time self)
    (_counts_hz self) (was_pinned_successfully_once self).
Definition set_best_node (n : Z) (self : t) : t :=
  Make (id self) (procfs_folder self) (_smp_affinity self) (_smp_affinity_list self)
    (_eff_affinity self) (_eff_affinity_list self) n
    (pci_device self) (kthread self) (_count self) (_unhandled self)
    (_last_unhandled_ms self) (_counts self) (_counts_time self)
    (_counts_hz self) (was_pinned_successfully_once self).
Definition set_kthread (k : option ref) (self : t) : t :=
  Make (id self) (procfs_folder self) (_smp_affinity self) (_smp_affinity_list self)
    (_eff_affinity self) (_eff_affinity_list self) (best_node self)
    (pci_device self) k (_count self) (_unhandled self)
    (_last_unhandled_ms self) (_counts self) (_counts_time self)
    (_counts_hz self) (was_pinned_successfully_once self).
Definition set_spurious (c u l : Z) (self : t) : t :=
  Make (id self) (procfs_folder self) (_smp_affinity self) (_smp_affinity_list self)
    (_eff_affinity self) (_eff_affinity_list self) (best_node self)
    (pci_device self) (kthread self) c u l
    (_counts self) (_counts_time self)
    (_counts_hz self) (was_pinned_successfully_once self).
Definition set_counts (counts : ndarray) (time : float) (hz : ndarray) (self : t) : t :=
  Make (id self) (procfs_folder self) (_smp_affinity self) (_smp_affinity_list self)
    (_eff_affinity self) (_eff_affinity_list self) (best_node self)
    (pci_device self) (kthread self) (_count self) (_unhandled self)
    (_last_unhandled_ms self) counts time hz (was_pinned_successfully_once self).
Definition set_pinned (b : bool) (self : t) : t :=
  Make (id self) (procfs_folder self) (_smp_affinity self) (_smp_affinity_list self)
    (_eff_affinity self) (_eff_affinity_list self) (best_node self)
    (pci_device self) (kthread self) (_count self) (_unhandled self)
    (_last_unhandled_ms self) (_counts self) (_counts_time self)
    (_counts_hz self) b.

Section methods.
Context {W : Type} {Hos : OS W} {pf : Platform}.

Local Abbreviation Self := (M (t * sys W)).

(** The fields [__init__] sets before it reads the kernel. *)
Definition fresh (id : Z) : t :=
  Make id ("/proc/irq/" +:+ PyStr.str id) 0 [] 0 [] (-2) None None 0 0 0
       (np_zeros_int64 CPU_COUNT) f64_zero (np_zeros_float64 CPU_COUNT) false.

(** [__repr__], for its effects: both affinity lists are sorted in
    place by [list_to_range_notation], which may raise. *)
Definition __repr__ : Self unit :=
  self ← get_self ;
  set_self (set_smp_list (py_sort (_smp_affinity_list self))) ;;
  _ ← lift_res (list_to_range_notation (_smp_affinity_list self)) ;
  set_self (set_eff_list (py_sort (_eff_affinity_list self))) ;;
  _ ← lift_res (list_to_range_notation (_eff_affinity_list self)) ;
  mret tt.

Definition update_counts (time_now : float) (counts : ndarray) : Self unit :=
  on_sys (log DEBUG "IRQ::update_counts()") ;;
  py_assert (np_len counts =? CPU_COUNT)%nat ;;
  self ← get_self ;
  delta ← lift_res (np_sub counts (_counts self)) ;
  hz ← lift_res (np_div delta (f64_sub time_now (_counts_time self))) ;
  set_self (set_counts (_counts self) (_counts_time self) hz) ;;
  set_self (set_counts (_counts self) time_now hz) ;;
  set_self (set_counts counts time_now hz).

Definition procfs_read (file : string) : Self (list string) :=
  self ← get_self ;
  on_sys (procfs_read (procfs_folder self +:+ "/" +:+ file)).

Definition procfs_write (file content : string) : Self unit :=
  self ← get_self ;
  on_sys (root_decorator
            (procfs_write (procfs_folder self +:+ "/" +:+ file) content)).

(** [int(spurious[i].split()[1])] *)
Definition spurious_field (spurious : list string) (i : Z) : Res Z :=
  line ← py_index spurious i ;
  word ← py_index (PyStr.split_ws None line) 1 ;
  PyStr.int word.

Definition refresh_contents : Self unit :=
  on_sys (log DEBUG "IRQ::refresh_contents()") ;;
  lines ← procfs_read "smp_affinity" ;
  m ← lift_res (line ← py_index lines 0 ; maskstr_to_int line) ;
  set_self (set_smp m) ;;
  l ← lift_res (mask_to_list m) ;
  set_self (set_smp_list l) ;;
  lines ← procfs_read "effective_affinity" ;
  m ← lift_res (line ← py_index lines 0 ; maskstr_to_int line) ;
  set_self (set_eff m) ;;
  l ← lift_res (mask_to_list m) ;
  set_self (set_eff_list l) ;;
  spurious ← procfs_read "spurious" ;
  c ← lift_res (spurious_field spurious 0) ;
  self ← get_self ;
  set_self (set_spurious c (_unhandled self) (_last_unhandled_ms self)) ;;
  u ← lift_res (spurious_field spurious 1) ;
  set_self (set_spurious c u (_last_unhandled_ms self)) ;;
  l ← lift_res (spurious_field spurious 2) ;
  set_self (set_spurious c u l).

Definition __init__ (id : Z) : M (sys W) t :=
  fun s =>
    let '(r, (self, s')) :=
      (on_sys (log DEBUG "IRQ::__init__") ;; refresh_contents) (fresh id, s) in
    (_ ← r ; Ok self, s').

Definition register_pci_device (dev : PCIDevice.t) : Self unit :=
  __repr__ ;;
  on_sys (log INFO "IRQ::register_pci_device()") ;;
  set_self (set_pci (Some dev)) ;;
  set_self (set_best_node (PCIDevice.numa_node dev)).

Definition register_kthread (kthread : ref) : Self unit :=
  __repr__ ;;
  on_sys (log INFO "IRQ::register_kthread()") ;;
  set_self (set_kthread (Some kthread)).

Definition get_pin_to_cpu : Self (list Z) :=
  refresh_contents ;;
  self ← get_self ;
  set_self (set_smp_list (py_sort (_smp_affinity_list self))) ;;
  _ ← lift_res (list_to_range_notation (_smp_affinity_list self)) ;
  on_sys (log INFO "IRQ::get_pin_to_cpu()") ;;
  self ← get_self ;
  mret (_smp_affinity_list self).

(** The branch of [set_pin_to_cpu] that chooses the effective target
    ([cpu_list] already sorted by the first log line). *)
Definition numa_effective (cpu_list : list Z) (numaify_subset_ok : bool)
  : Self (list Z) :=
  self ← get_self ;
  if 0 <=? best_node self then
    node ← lift_res (py_index NUMA_CPULIST (best_node self)) ;
    let superset_bool := bool_decide (Forall (fun c => c ∈ node) cpu_list) in
    if negb superset_bool then
      if numaify_subset_ok then
        mret (filter (fun c => c ∈ node) cpu_list)
      else
        _ ← lift_res (list_to_range_notation cpu_list) ;
        on_sys (log ERROR "Pinning IRQ to CPUs not on NUMA node") ;;
        mret cpu_list
    else mret cpu_list
  else mret cpu_list.

(** The rest of [set_pin_to_cpu]: write the effective target, read
    the affinity back, record a success. *)
Definition write_and_verify (cpu_list cpu_list_effective : list Z)
  : Self (list Z) :=
  try_except
    (content ← lift_res (list_to_range_notation cpu_list_effective) ;
     procfs_write "smp_affinity_list" content)
    is_OSError
    (fun _ =>
       self ← get_self ;
       set_self (set_smp_list (py_sort (_smp_affinity_list self))) ;;
       _ ← lift_res (list_to_range_notation (_smp_affinity_list self)) ;
       _ ← lift_res (list_to_range_notation cpu_list) ;
       on_sys (log DEBUG "IRQ::set_pin_to_cpu OSError")) ;;
  pinned ← get_pin_to_cpu ;
  (if bool_decide (list_to_set pinned =@{gset Z} list_to_set cpu_list_effective)
   then set_self (set_pinned true) else mret tt) ;;
  mret pinned.

Definition set_pin_to_cpu_body (cpu_list : list Z) (numaify_subset_ok : bool)
  : Self (list Z) :=
  _ ← lift_res (list_to_range_notation cpu_list) ;
  let cpu_list := py_sort cpu_list in
  on_sys (log INFO "IRQ::set_pin_to_cpu()") ;;
  py_assert (0 <? length cpu_list)%nat ;;
  cpu_list_effective ← numa_effective cpu_list numaify_subset_ok ;
  write_and_verify cpu_list cpu_list_effective.

Definition set_pin_to_cpu (cpu_list : list Z) (numaify_subset_ok : bool)
  : Self (list Z) :=
  uid ← on_sys getuid ;
  if negb (uid =? 0) then raise PermissionError
  else set_pin_to_cpu_body cpu_list numaify_subset_ok.

End methods.

End IRQ.

(* ===================================================================== *)
(** ** kthread.py *)
(* ===================================================================== *)

Inductive KThreadTypeEnum :=
| KWORKER | KSOFTIRQD | MIGRATION | IRQ_WORK | IDLE_INJECT | CPUHP | PR
| NVIDIA_MODESET | JBD2
| KT_IRQ | RCUB | RCUC | RCUOG | RCUOP
| OTHER.

Inductive KSchedTypeEnum := FIFO | OTH | UNKNOWN.

Module KThread.

Record t := Make {
  pid : Z;
  name : string;
  _alive : bool;
  sched_cls : KSchedTypeEnum;
  kthread_type : KThreadTypeEnum;
  _irq_number : option Z;
  _irq_obj : option ref;
  _is_rcu : bool;
  _rcuc_cpu : option Z;
  was_cset_successfully_once : bool;
  _comm : string;
  _cpuset : string;
  sched_info : gmap string string;
  _runtime : float;
  _runtime_incr : float;
  _migrations : Z;
  _migrations_incr : Z;
  _nr_sw : Z;
  _nr_sw_incr : Z;
  _nr_sw_vol : Z;
  _nr_sw_vol_incr : Z;
  _nr_sw_unvol : Z;
  _nr_sw_unvol_incr : Z;
  _dt_last_contents : float;
  _time_last_contents : float;
}.

Definition set_alive (b : bool) (self : t) : t :=
  Make (pid self) (name self) b (sched_cls self) (kthread_type self)
    (_irq_number self) (_irq_obj self) (_is_rcu self) (_rcuc_cpu self)
    (was_cset_successfully_once self) (_comm self) (_cpuset self)
    (sched_info self) (_runtime self) (_runtime_incr self)
    (_migrations self) (_migrations_incr self) (_nr_sw self)
    (_nr_sw_incr self) (_nr_sw_vol self) (_nr_sw_vol_incr self)
    (_nr_sw_unvol self) (_nr_sw_unvol_incr self) (_dt_last_contents self)
    (_time_last_contents self).
Definition set_irq_obj (o : option ref) (self : t) : t :=
  Make (pid self) (name self) (_alive self) (sched_cls self)
    (kthread_type self) (_irq_number self) o (_is_rcu self) (_rcuc_cpu self)
    (was_cset_successfully_once self) (_comm self) (_cpuset self)
    (sched_info self) (_runtime self) (_runtime_incr self)
    (_migrations self) (_migrations_incr self) (_nr_sw self)
    (_nr_sw_incr self) (_nr_sw_vol self) (_nr_sw_vol_incr self)
    (_nr_sw_unvol self) (_nr_sw_unvol_incr self) (_dt_last_contents self)
    (_time_last_contents self).
Definition set_cset_ok (b : bool) (self : t) : t :=
  Make (pid self) (name self) (_alive self) (sched_cls self)
    (kthread_type self) (_irq_number self) (_irq_obj self) (_is_rcu self)
    (_rcuc_cpu self) b (_comm self) (_cpuset self) (sched_info self)
    (_runtime self) (_runtime_incr self) (_migrations self)
    (_migrations_incr self) (_nr_sw self) (_nr_sw_incr self)
    (_nr_sw_vol self) (_nr_sw_vol_incr self) (_nr_sw_unvol self)
    (_nr_sw_unvol_incr self) (_dt_last_contents self)
    (_time_last_contents self).
Definition set_comm (v : string) (self : t) : t :=
  Make (pid self) (name self) (_alive self) (sched_cls self)
    (kthread_type self) (_irq_number self) (_irq_obj self) (_is_rcu self)
    (_rcuc_cpu self) (was_cset_successfully_once self) v (_cpuset self)
    (sched_info self) (_runtime self) (_runtime_incr self)
    (_migrations self) (_migrations_incr self) (_nr_sw self)
    (_nr_sw_incr self) (_nr_sw_vol self) (_nr_sw_vol_incr self)
    (_nr_sw_unvol self) (_nr_sw_unvol_incr self) (_dt_last_contents self)
    (_time_last_contents self).
Definition set_cpuset (v : string) (self : t) : t :=
  Make (pid self) (name self) (_alive self) (sched_cls self)
    (kthread_type self) (_irq_number self) (_irq_obj self) (_is_rcu self)
    (_rcuc_cpu self) (was_cset_successfully_once self) (_comm self) v
    (sched_info self) (_runtime self) (_runtime_incr self)
    (_migrations self) (_migrations_incr self) (_nr_sw self)
    (_nr_sw_incr self) (_nr_sw_vol self) (_nr_sw_vol_incr self)
    (_nr_sw_unvol self) (_nr_sw_unvol_incr self) (_dt_last_contents self)
    (_time_last_contents self).
Definition set_sched_info (v : gmap string string) (self : t) : t :=
  Make (pid self) (name self) (_alive self) (sched_cls self)
    (kthread_type self) (_irq_number self) (_irq_obj self) (_is_rcu self)
    (_rcuc_cpu self) (was_cset_successfully_once self) (_comm self)
    (_cpuset self) v (_runtime self) (_runtime_incr self) (_migrations self)
    (_migrations_incr self) (_nr_sw self) (_nr_sw_incr self)
    (_nr_sw_vol self) (_nr_sw_vol_incr self) (_nr_sw_unvol self)
    (_nr_sw_unvol_incr self) (_dt_last_contents self)
    (_time_last_contents self).
Definition set_runtime (d : float) (v : float) (self : t) : t :=
  Make (pid self) (name self) (_alive self) (sched_cls self)
    (kthread_type self) (_irq_number self) (_irq_obj self) (_is_rcu self)
    (_rcuc_cpu self) (was_cset_successfully_once self) (_comm self)
    (_cpuset self) (sched_info self) v d (_migrations self)
    (_migrations_incr self) (_nr_sw self) (_nr_sw_incr self)
    (_nr_sw_vol self) (_nr_sw_vol_incr self) (_nr_sw_unvol self)
    (_nr_sw_unvol_incr self) (_dt_last_contents self)
    (_time_last_contents self).
Definition set_migrations (d : Z) (v : Z) (self : t) : t :=
  Make (pid self) (name self) (_alive self) (sched_cls self)
    (kthread_type self) (_irq_number self) (_irq_obj self) (_is_rcu self)
    (_rcuc_cpu self) (was_cset_successfully_once self) (_comm self)
    (_cpuset self) (sched_info self) (_runtime self) (_runtime_incr self) v
    d (_nr_sw self) (_nr_sw_incr self) (_nr_sw_vol self)
    (_nr_sw_vol_incr self) (_nr_sw_unvol self) (_nr_sw_unvol_incr self)
    (_dt_last_contents self) (_time_last_contents self).
Definition set_nr_sw (d : Z) (v : Z) (self : t) : t :=
  Make (pid self) (name self) (_alive self) (sched_cls self)
    (kthread_type self) (_irq_number self) (_irq_obj self) (_is_rcu self)
    (_rcuc_cpu self) (was_cset_successfully_once self) (_comm self)
    (_cpuset self) (sched_info self) (_runtime self) (_runtime_incr self)
    (_migrations self) (_migrations_incr self) v d (_nr_sw_vol self)
    (_nr_sw_vol_incr self) (_nr_sw_unvol self) (_nr_sw_unvol_incr self)
    (_dt_last_contents self) (_time_last_contents self).
Definition set_nr_sw_vol (d : Z) (v : Z) (self : t) : t :=
  Make (pid self) (name self) (_alive self) (sched_cls self)
    (kthread_type self) (_irq_number self) (_irq_obj self) (_is_rcu self)
    (_rcuc_cpu self) (was_cset_successfully_once self) (_comm self)
    (_cpuset self) (sched_info self) (_runtime self) (_runtime_incr self)
    (_migrations self) (_migrations_incr self) (_nr_sw self)
    (_nr_sw_incr self) v d (_nr_sw_unvol self) (_nr_sw_unvol_incr self)
    (_dt_last_contents self) (_time_last_contents self).
Definition set_nr_sw_unvol (d : Z) (v : Z) (self : t) : t :=
  Make (pid self) (name self) (_alive self) (sched_cls self)
    (kthread_type self) (_irq_number self) (_irq_obj self) (_is_rcu self)
    (_rcuc_cpu self) (was_cset_successfully_once self) (_comm self)
    (_cpuset self) (sched_info self) (_runtime self) (_runtime_incr self)
    (_migrations self) (_migrations_incr self) (_nr_sw self)
    (_nr_sw_incr self) (_nr_sw_vol self) (_nr_sw_vol_incr self) v d
    (_dt_last_contents self) (_time_last_contents self).
Definition set_dt_last_contents (v : float) (self : t) : t :=
  Make (pid self) (name self) (_alive self) (sched_cls self)
    (kthread_type self) (_irq_number self) (_irq_obj self) (_is_rcu self)
    (_rcuc_cpu self) (was_cset_successfully_once self) (_comm self)
    (_cpuset self) (sched_info self) (_runtime self) (_runtime_incr self)
    (_migrations self) (_migrations_incr self) (_nr_sw self)
    (_nr_sw_incr self) (_nr_sw_vol self) (_nr_sw_vol_incr self)
    (_nr_sw_unvol self) (_nr_sw_unvol_incr self) v
    (_time_last_contents self).
Definition set_time_last_contents (v : float) (self : t) : t :=
  Make (pid self) (name self) (_alive self) (sched_cls self)
    (kthread_type self) (_irq_number self) (_irq_obj self) (_is_rcu self)
    (_rcuc_cpu self) (was_cset_successfully_once self) (_comm self)
    (_cpuset self) (sched_info self) (_runtime self) (_runtime_incr self)
    (_migrations self) (_migrations_incr self) (_nr_sw self)
    (_nr_sw_incr self) (_nr_sw_vol self) (_nr_sw_vol_incr self)
    (_nr_sw_unvol self) (_nr_sw_unvol_incr self) (_dt_last_contents self) v.

(** Lookup of an enumeration member by value; [None] is the [_missing_]
    hook. *)
Definition kthread_type_by_value (value : string) : option KThreadTypeEnum :=
  if decide (value = "kworker") then Some KWORKER
  else if decide (value = "ksoftirqd") then Some KSOFTIRQD
  else if decide (value = "migration") then Some MIGRATION
  else if decide (value = "irq_work") then Some IRQ_WORK
  else if decide (value = "idle_inject") then Some IDLE_INJECT
  else if decide (value = "cpuhp") then Some CPUHP
  else if decide (value = "pr") then Some PR
  else if decide (value = "nvidia-modeset") then Some NVIDIA_MODESET
  else if decide (value = "jbd2") then Some JBD2
  else if decide (value = "irq") then Some KT_IRQ
  else if decide (value = "rcub") then Some RCUB
  else if decide (value = "rcuc") then Some RCUC
  else if decide (value = "rcuog") then Some RCUOG
  else if decide (value = "rcuop") then Some RCUOP
  else if decide (value = "other") then Some OTHER
  else None.

Definition sched_type_by_value (value : string) : option KSchedTypeEnum :=
  if decide (value = "FF") then Some FIFO
  else if decide (value = "TS") then Some OTH
  else if decide (value = "UNKNOWN") then Some UNKNOWN
  else None.

(** [s[1:-1]] *)
Fixpoint drop_last (s : string) : string :=
  match s with
  | EmptyString => EmptyString
  | String c EmptyString => EmptyString
  | String c s' => String c (drop_last s')
  end.
Definition inner (s : string) : string := drop_last (PyStr.tail s).

(** The dictionary comprehension of [refresh_contents] over the lines
    of the scheduler file that hold a colon. *)
Definition parse_sched (lines : list string) : gmap string string :=
  foldl (fun d l =>
           match PyStr.split ":" l with
           | k :: v :: _ => <[PyStr.strip k := PyStr.strip v]> d
           | _ => d
           end)
        ∅ (List.filter (PyStr.mem ":") (drop 2 lines)).

Definition lookup_key (info : gmap string string) (key : string) : Res string :=
  match info !! key with
  | Some v => Ok v
  | None => Raise KeyError
  end.

Section methods.
Context {W : Type} {Hos : OS W} {pf : Platform}.

Local Abbreviation Self := (M (t * sys W)).

Definition KThreadTypeEnum_call (value : string) : M (sys W) KThreadTypeEnum :=
  match kthread_type_by_value value with
  | Some v => mret v
  | None => log WARNING "KThreadTypeEnum::_missing_" ;; mret OTHER
  end.

Definition KSchedTypeEnum_call (value : string) : M (sys W) KSchedTypeEnum :=
  match sched_type_by_value value with
  | Some v => mret v
  | None => log WARNING "KSchedTypeEnum::_missing_" ;; mret UNKNOWN
  end.

Definition alive : Self bool :=
  self ← get_self ;
  if negb (_alive self) then mret false
  else
    try_except
      (on_sys (os_call (EvKill (pid self) 0) (os_kill (pid self) 0)) ;;
       mret true)
      (fun e => match e with
                | PermissionError | ProcessLookupError => true
                | _ => false
                end)
      (fun e => match e with
                | PermissionError => mret true
                | _ =>
                    on_sys (log WARNING "KTread::alive - pid has terminated.") ;;
                    set_self (set_alive false) ;;
                    mret false
                end).

Definition procfs_read (file : string) : Self (list string) :=
  self ← get_self ;
  on_sys (procfs_read ("/proc/" +:+ PyStr.str (pid self) +:+ "/" +:+ file)).

Definition procfs_write (file content : string) : Self unit :=
  self ← get_self ;
  on_sys (root_decorator
            (procfs_write ("/proc/" +:+ PyStr.str (pid self) +:+ "/" +:+ file)
                          content)).

Definition refresh_contents : Self unit :=
  on_sys (log DEBUG "KThread::refresh_contents") ;;
  lines ← procfs_read "comm" ;
  comm ← lift_res (py_index lines 0) ;
  set_self (set_comm comm) ;;
  lines ← procfs_read "cpuset" ;
  cpuset ← lift_res (py_index lines 0) ;
  set_self (set_cpuset (PyStr.tail cpuset)) ;;
  lines ← procfs_read "sched" ;
  let info := parse_sched lines in
  set_self (set_sched_info info) ;;
  runtime ← lift_res (v ← lookup_key info "se.sum_exec_runtime" ; py_float v) ;
  self ← get_self ;
  set_self (set_runtime (f64_sub runtime (_runtime self)) runtime) ;;
  migrations ← lift_res (v ← lookup_key info "se.nr_migrations" ; PyStr.int v) ;
  set_self (set_migrations (migrations - _migrations self) migrations) ;;
  nr_sw ← lift_res (v ← lookup_key info "nr_switches" ; PyStr.int v) ;
  set_self (set_nr_sw (nr_sw - _nr_sw self) nr_sw) ;;
  nr_sw_vol ← lift_res (v ← lookup_key info "nr_voluntary_switches" ; PyStr.int v) ;
  set_self (set_nr_sw_vol (nr_sw_vol - _nr_sw_vol self) nr_sw_vol) ;;
  nr_sw_unvol ← lift_res (v ← lookup_key info "nr_involuntary_switches" ; PyStr.int v) ;
  set_self (set_nr_sw_unvol (nr_sw_unvol - _nr_sw_unvol self) nr_sw_unvol) ;;
  time_now ← on_sys time_time ;
  set_self (set_dt_last_contents (f64_sub time_now (_dt_last_contents self))) ;;
  set_self (set_time_last_contents time_now).

(** The attributes [__init__] derives from the thread's name. *)
Definition parse_name (name : string)
  : M (sys W) (KThreadTypeEnum * option Z * bool * option Z) :=
  let slashsplit := PyStr.split "/" (inner name) in
  kthread_type ← (if PyStr.mem "/" name
                  then first ← lift_res (py_index slashsplit 0) ;
                       KThreadTypeEnum_call first
                  else mret OTHER) ;
  match kthread_type with
  | KT_IRQ =>
      py_assert (1 <? length slashsplit)%nat ;;
      n ← lift_res (second ← py_index slashsplit 1 ;
                    head ← py_index (PyStr.split "-" second) 0 ;
                    PyStr.int head) ;
      mret (kthread_type, Some n, false, None)
  | RCUC | RCUOG | RCUB | RCUOP =>
      py_assert (1 <? length slashsplit)%nat ;;
      c ← lift_res (second ← py_index slashsplit 1 ; PyStr.int second) ;
      mret (kthread_type, None, true, Some c)
  | _ => mret (kthread_type, None, false, None)
  end.

Definition __init__ (pid : Z) (name sched_cls : string) : M (sys W) t :=
  let self := Make pid name true UNKNOWN OTHER None None false None false
                   "" "" ∅ f64_zero f64_zero 0 0 0 0 0 0 0 0 f64_zero f64_zero in
  fun s =>
    let '(r, (self, s')) :=
      (on_sys (log DEBUG "KThread::__init__") ;;
       _ ← alive ;
       sched_cls ← on_sys (KSchedTypeEnum_call sched_cls) ;
       '(kthread_type, irq_number, is_rcu, rcuc_cpu) ← on_sys (parse_name name) ;
       set_self (fun self =>
         Make pid name (_alive self) sched_cls kthread_type irq_number None
              is_rcu rcuc_cpu false "" "" ∅ f64_zero f64_zero 0 0 0 0 0 0 0 0 f64_zero f64_zero) ;;
       refresh_contents) (self, s) in
    (_ ← r ; Ok self, s').

Definition register_interrupt (irq : ref) : Self unit :=
  on_sys (log INFO "KThread::register_interrupt") ;;
  set_self (set_irq_obj (Some irq)).

Definition get_taskset : Self CPUSpec.t :=
  self ← get_self ;
  affinity ← try_except
               (on_sys (os_call (EvGetaffinity (pid self))
                                (os_sched_getaffinity (pid self))))
               (fun e => match e with ProcessLookupError => true | _ => false end)
               (fun _ => set_self (set_alive false) ;; mret ∅) ;
  let affinity_list := elements affinity in
  _ ← lift_res (list_to_range_notation affinity_list) ;
  on_sys (log INFO "KThread::get_taskset") ;;
  on_sys (CPUSpec.__init__ ("kt_anon@" +:+ PyStr.str (pid self)) None
                           (Some affinity_list) None None false).

Definition pin_taskset (taskset : CPUSpec.t) : Self unit :=
  uid ← on_sys getuid ;
  if negb (uid =? 0) then raise PermissionError
  else
    _ ← lift_res (CPUSpec.get_str taskset) ;
    on_sys (log INFO "KThread::pin_taskset") ;;
    self ← get_self ;
    cpus ← lift_res (CPUSpec.get_str taskset) ;
    let cmd := "taskset -pc " +:+ cpus +:+ " " +:+ PyStr.str (pid self) in
    returncode ← on_sys (sproc_run cmd) ;
    if negb (returncode =? 0)
    then on_sys (log WARNING "KThread::pin_taskset failed")
    else mret tt.

Definition pin_cset (cpuset : CPUSpec.t) : Self unit :=
  uid ← on_sys getuid ;
  if negb (uid =? 0) then raise PermissionError
  else
    _ ← lift_res (CPUSpec.get_str cpuset) ;
    on_sys (log INFO "KThread::pin_cset") ;;
    self ← get_self ;
    on_sys (cset_proc_call ("-k -m --force " +:+ PyStr.str (pid self) +:+ " root")) ;;
    pin_taskset cpuset ;;
    on_sys (cset_proc_call ("-k -m --force " +:+ PyStr.str (pid self) +:+ " "
                            +:+ CPUSpec.name cpuset)) ;;
    refresh_contents ;;
    now_cpuset ← get_taskset ;
    if negb (bool_decide (list_to_set (CPUSpec.cpu_list now_cpuset)
                          =@{gset Z} list_to_set (CPUSpec.cpu_list cpuset)))
    then
      _ ← lift_res (CPUSpec.get_str cpuset) ;
      _ ← lift_res (CPUSpec.get_str now_cpuset) ;
      on_sys (log ERROR "KThread::pin_cset: failed to assign")
    else set_self (set_cset_ok true).

Definition chrt_ff (rtprio : Z) : Self unit :=
  uid ← on_sys getuid ;
  if negb (uid =? 0) then raise PermissionError
  else
    on_sys (log INFO "KThread::chrt_ff") ;;
    self ← get_self ;
    _ ← on_sys (sproc_run ("chrt -f -p " +:+ PyStr.str rtprio +:+ " "
                           +:+ PyStr.str (pid self))) ;
    mret tt.

Definition chrt_oth : Self unit :=
  uid ← on_sys getuid ;
  if negb (uid =? 0) then raise PermissionError
  else
    on_sys (log INFO "KThread::chrt_oth") ;;
    self ← get_self ;
    _ ← on_sys (sproc_run ("chrt -o -p 0 " +:+ PyStr.str (pid self))) ;
    mret tt.

End methods.

End KThread.

(* ===================================================================== *)
(** ** The objects of a run *)
(* ===================================================================== *)

(** [IRQ] and [KThread] objects are shared and mutated in place: they live
    in a store and are named by reference. *)
Record objs := Objs {
  irq_store : ref -> IRQ.t;
  kthread_store : ref -> KThread.t;
}.

Definition upd {A} (a : ref) (v : A) (h : ref -> A) : ref -> A :=
  fun x => if decide (x = a) then v else h x.

(** A method call on the [IRQ] (the [KThread]) behind a reference. *)
Definition on_irq {W A} (a : ref) (m : M (IRQ.t * sys W) A) : M (objs * sys W) A :=
  zoom (fun os => (irq_store os.1 a, os.2))
       (fun is' os => (Objs (upd a is'.1 (irq_store os.1)) (kthread_store os.1), is'.2))
       m.
Definition on_kthread {W A} (a : ref) (m : M (KThread.t * sys W) A)
  : M (objs * sys W) A :=
  zoom (fun os => (kthread_store os.1 a, os.2))
       (fun ks' os => (Objs (irq_store os.1) (upd a ks'.1 (kthread_store os.1)), ks'.2))
       m.
Definition the_irq {W} (a : ref) : M (objs * sys W) IRQ.t :=
  fun os => (Ok (irq_store os.1 a), os).
Definition the_kthread {W} (a : ref) : M (objs * sys W) KThread.t :=
  fun os => (Ok (kthread_store os.1 a), os).

(* ===================================================================== *)
(** ** functions.py *)
(* ===================================================================== *)

(** One row of the interrupt table. *)
Record one_int := OneInt {
  num_cpus : nat;
  type_device : option string;
  counts : ndarray;
}.

(** The body of the loop over [content[1:]] in
    [update_from_proc_interrupts]. *)
Definition parse_interrupt_line (cpu_names : list string)
    (data : gmap string one_int) (line : string) : Res (gmap string one_int) :=
  let parts := PyStr.split_ws (Some (length cpu_names + 1)%nat) line in
  first ← py_index parts 0 ;
  let irq_name := PyStr.remove_char ":" first in
  one ← (if (length parts =? length cpu_names + 2)%nat then
           type_device ← py_index parts (-1) ;
           counts ← res_mapM PyStr.int (fst <$> zip (removelast (tail parts)) cpu_names) ;
           Ok (OneInt (length cpu_names) (Some type_device) (np_asarray counts))
         else
           counts ← res_mapM PyStr.int (fst <$> zip (tail parts) cpu_names) ;
           Ok (OneInt (length cpu_names) None (np_asarray counts))) ;
  Ok (<[irq_name := one]> data).

(** The name of a row of the interrupt table: its first word, colons
    removed. *)
Definition row_name (cpu_names : list string) (line : string) : string :=
  PyStr.remove_char ":"
    (default "" (head (PyStr.split_ws (Some (length cpu_names + 1)%nat) line))).

(** The row names of a snapshot. *)
Definition row_names (content : list string) : list string :=
  let cpu_names := PyStr.split_ws None (default "" (head content)) in
  row_name cpu_names <$> drop 1 content.

Section functions.
Context {W : Type} {Hos : OS W} {pf : Platform}.

Local Abbreviation Run := (M (objs * sys W)).

(** The rows of the table, keyed by name; raises as the parser does. *)
Definition read_interrupt_table (content : list string)
  : M (sys W) (gmap string one_int) :=
  cpu_names ← try_except
                (line ← lift_res (py_index content 0) ;
                 mret (PyStr.split_ws None line))
                (fun _ => true)
                (fun _ =>
                   log CRITICAL "Invalid first line of content for /proc/interrupts" ;;
                   raise AssertionError) ;
  if (length cpu_names <? 1)%nat
     || negb (PyStr.startswith "CPU" (default "" (head cpu_names)))
  then
    log CRITICAL "Unable to determine number of CPUs in /proc/interrupts" ;;
    raise AssertionError
  else
    data ← lift_res (res_foldM (parse_interrupt_line cpu_names) ∅ (drop 1 content)) ;
    if (size data <? 1)%nat then
      log CRITICAL "No information in /proc/interrupts" ;;
      raise AssertionError
    else mret data.

(** [update_from_proc_interrupts] up to its last loop: the time of the
    snapshot and its rows. *)
Definition take_snapshot : M (sys W) (float * gmap string one_int) :=
  time_now ← time_time ;
  content ← procfs_read "/proc/interrupts" ;
  log DEBUG "update_from_proc_interrupts" ;;
  data ← read_interrupt_table content ;
  mret (time_now, data).

(** The body of the last loop of [update_from_proc_interrupts]. *)
Definition track_one (time_now : float) (data : gmap string one_int) (irq : ref)
  : Run unit :=
  self ← the_irq irq ;
  match data !! PyStr.str (IRQ.id self) with
  | Some row => on_irq irq (IRQ.update_counts time_now (counts row))
  | None => mret tt
  end.

(** The last loop of [update_from_proc_interrupts]. *)
Definition update_tracked (time_now : float) (data : gmap string one_int)
    (irq_list : list ref) : Run unit :=
  for_each irq_list (track_one time_now data).

Definition update_from_proc_interrupts (irq_list : list ref) : Run unit :=
  '(time_now, data) ← on_sys take_snapshot ;
  update_tracked time_now data irq_list.

(** The reverse map of [match_irq_and_pci]: raw interrupt number to the
    device that keeps it. *)
Definition claim (dev : PCIDevice.t) (reverse_lookup : gmap Z PCIDevice.t)
    (pci_irq : Z) : gmap Z PCIDevice.t :=
  match reverse_lookup !! pci_irq with
  | None => <[pci_irq := dev]> reverse_lookup
  | Some holder =>
      if str_lt (PCIDevice.pci_addr holder) (PCIDevice.pci_addr dev)
      then <[pci_irq := dev]> reverse_lookup
      else reverse_lookup
  end.

Definition pci_reverse_lookup (devs : list PCIDevice.t) : gmap Z PCIDevice.t :=
  foldl (fun reverse_lookup dev =>
           foldl (claim dev) reverse_lookup (PCIDevice.irq_list dev))
        ∅ devs.

(** The body of the loop of [match_irq_and_pci] over the IRQs. *)
Definition attach (reverse_lookup : gmap Z PCIDevice.t) (irq : ref) : Run unit :=
  self ← the_irq irq ;
  match reverse_lookup !! IRQ.id self with
  | Some dev => on_irq irq (IRQ.register_pci_device dev)
  | None => mret tt
  end.

Definition match_irq_and_pci (irqs : list ref) (devs : list PCIDevice.t)
  : Run unit :=
  on_sys (log DEBUG "match_irq_and_pci()") ;;
  let reverse_lookup := pci_reverse_lookup devs in
  for_each irqs (attach reverse_lookup) ;;
  on_sys (log INFO "match_irq_and_pci: Matched IRQs to PCI devices.").

Definition kthread_reverse_lookup (store : ref -> KThread.t) (kthreads : list ref)
  : gmap Z ref :=
  foldl (fun reverse_lookup kthread =>
           match KThread._irq_number (store kthread) with
           | Some n => <[n := kthread]> reverse_lookup
           | None => reverse_lookup
           end)
        ∅ kthreads.

(** The body of the loop of [match_kthread_and_irq] over the IRQs. *)
Definition pair_up (reverse_lookup : gmap Z ref) (irq : ref) : Run unit :=
  self ← the_irq irq ;
  match reverse_lookup !! IRQ.id self with
  | Some kthread =>
      on_irq irq (IRQ.register_kthread kthread) ;;
      on_kthread kthread (KThread.register_interrupt irq)
  | None => mret tt
  end.

Definition match_kthread_and_irq (irqs kthreads : list ref) : Run unit :=
  on_sys (log DEBUG "match_kthread_and_irq()") ;;
  os ← get_state ;
  let reverse_lookup := kthread_reverse_lookup (kthread_store os.1) kthreads in
  for_each irqs (pair_up reverse_lookup) ;;
  on_sys (log INFO "match_irq_and_pci: Matched IRQ/KThread pairs.").

End functions.

(* ===================================================================== *)
(** ** meta_obj.py *)
(* ===================================================================== *)

Module EDTObject.

Record t := Make {
  irq : ref;
  kthread : ref;
  pci_device : PCIDevice.t;
}.

Section methods.
Context {W : Type} {Hos : OS W} {pf : Platform}.

Local Abbreviation Run := (M (objs * sys W)).

Definition __init__ (irq kthread : option ref) : Run t :=
  on_sys (log DEBUG "EDTObject::__init__") ;;
  '(irq, kthread) ←
    match irq with
    | Some irq =>
        self_irq ← the_irq irq ;
        match IRQ.kthread self_irq with
        | Some kthread => mret (irq, kthread)
        | None => raise AssertionError
        end
    | None =>
        match kthread with
        | Some kthread =>
            self_kthread ← the_kthread kthread ;
            match KThread._irq_obj self_kthread with
            | Some irq => mret (irq, kthread)
            | None => raise AssertionError
            end
        | None => raise ValueError
        end
    end ;
  self_irq ← the_irq irq ;
  match IRQ.pci_device self_irq with
  | None => raise AssertionError
  | Some pci_device =>
      on_sys (log WARNING "EDTObject::__init__ - bound together") ;;
      mret (Make irq kthread pci_device)
  end.

Definition bind_to_cset (self : t) (cset : CPUSpec.t) (ktprio : option Z)
  : Run unit :=
  _ ← lift_res (CPUSpec.get_str cset) ;
  let cset := CPUSpec.sorted cset in
  on_sys (log INFO "EDTObject::bind_to_cset") ;;
  py_assert (length (CPUSpec.cpu_list cset) =? 1)%nat ;;
  cpu ← lift_res (py_index (CPUSpec.cpu_list cset) 0) ;
  self_irq ← the_irq (irq self) ;
  node ← lift_res (py_index NUMA_CPULIST (IRQ.best_node self_irq)) ;
  if negb (bool_decide (cpu ∈ node)) then
    on_sys (log CRITICAL "EDTObj: use of favorite NUMA node required.") ;;
    raise RuntimeError
  else
    _ ← on_irq (irq self) (IRQ.set_pin_to_cpu (CPUSpec.cpu_list cset) false) ;
    on_kthread (kthread self) (KThread.pin_cset cset) ;;
    match ktprio with
    | Some ktprio => on_kthread (kthread self) (KThread.chrt_ff ktprio)
    | None => mret tt
    end ;;
    irq_cpulist ← on_irq (irq self) IRQ.get_pin_to_cpu ;
    kt_cpuset ← on_kthread (kthread self) KThread.get_taskset ;
    let kt_cpulist := CPUSpec.cpu_list kt_cpuset in
    py_assert ((length irq_cpulist =? 1)%nat
               && bool_decide (head irq_cpulist = Some cpu)) ;;
    py_assert ((length kt_cpulist =? 1)%nat
               && bool_decide (head kt_cpulist = Some cpu)).

End methods.

End EDTObject.

(* ===================================================================== *)
(** ** Sequences of method calls *)
(* ===================================================================== *)


(** A caller of one [KThread]. *)
Inductive kthread_call :=
| KtAlive
| KtRefreshContents
| KtRegisterInterrupt (irq : ref)
| KtGetTaskset
| KtPinTaskset (taskset : CPUSpec.t)
| KtPinCset (cpuset : CPUSpec.t)
| KtChrtFf (rtprio : Z)
| KtChrtOth.

Section calls.
Context {W : Type} {Hos : OS W} {pf : Platform}.


Definition kthread_step (c : kthread_call) (st : KThread.t * sys W)
  : KThread.t * sys W :=
  match c with
  | KtAlive => (KThread.alive st).2
  | KtRefreshContents => (KThread.refresh_contents st).2
  | KtRegisterInterrupt irq => (KThread.register_interrupt irq st).2
  | KtGetTaskset => (KThread.get_taskset st).2
  | KtPinTaskset taskset => (KThread.pin_taskset taskset st).2
  | KtPinCset cpuset => (KThread.pin_cset cpuset st).2
  | KtChrtFf rtprio => (KThread.chrt_ff rtprio st).2
  | KtChrtOth => (KThread.chrt_oth st).2
  end.

Definition kthread_steps (cs : list kthread_call) (st : KThread.t * sys W)
  : KThread.t * sys W :=
  foldl (fun st c => kthread_step c st) st cs.

End calls.

(* ===================================================================== *)
(** ** Range notation, as the interface describes it *)
(* ===================================================================== *)

Module RangeNotation.

(** A token for the inclusive run [lo..hi]. *)
Definition token (r : Z * Z) : string :=
  if decide (r.1 = r.2) then PyStr.str r.1
  else PyStr.str r.1 +:+ "-" +:+ PyStr.str r.2.

(** The CPUs a list of runs stands for. *)
Definition expand (rs : list (Z * Z)) : list Z :=
  mjoin ((fun r => seqZ r.1 (r.2 + 1 - r.1)) <$> rs).

(** Runs are maximal when consecutive runs neither touch nor overlap. *)
Fixpoint gapped (rs : list (Z * Z)) : Prop :=
  match rs with
  | r1 :: ((r2 :: _) as rest) => r1.2 + 1 < r2.1 /\ gapped rest
  | _ => True
  end.

(** What the serializer has appended after a list of runs. *)
Definition flat (rs : list (Z * Z)) : string :=
  foldr (fun r acc => "," +:+ token r +:+ acc) "" rs.

(** The runs of a list, read greedily from the left. *)
Fixpoint runs_from (lo hi : Z) (l : list Z) : list (Z * Z) :=
  match l with
  | [] => [(lo, hi)]
  | c :: l' =>
      if decide (c = hi + 1) then runs_from lo c l'
      else (lo, hi) :: runs_from c c l'
  end.
Definition runs (l : list Z) : list (Z * Z) :=
  match l with
  | [] => []
  | c :: l' => runs_from c c l'
  end.

End RangeNotation.

(* ===================================================================== *)
(** ** A scripted operating system, for running the model *)
(* ===================================================================== *)

(** The world is the number of calls made so far; the script answers each
    call from that number and the call's arguments. *)
Module Scripted.

Record script := Script {
  uid : Z;
  clock : nat -> float;
  readlines : nat -> string -> Res (list string);
  write : nat -> string -> string -> Res Z;
  kill : nat -> Z -> Res unit;
  sched_getaffinity : nat -> Z -> Res (gset Z);
  run : nat -> list string -> Res Z;
  cset_proc : nat -> string -> Res unit;
}.

Definition os (sc : script) : OS nat := {|
  os_getuid _ := uid sc;
  os_time n := (clock sc n, S n);
  os_readlines file n := (readlines sc n file, S n);
  os_write file content n := (write sc n file content, S n);
  os_kill pid _ n := (kill sc n pid, S n);
  os_sched_getaffinity pid n := (sched_getaffinity sc n pid, S n);
  os_run argv n := (run sc n argv, S n);
  os_cset_proc args n := (cset_proc sc n args, S n);
|}.

Definition files (fs : list (string * list string)) (file : string)
  : Res (list string) :=
  match list_to_map (M := gmap string (list string)) fs !! file with
  | Some lines => Ok lines
  | None => Raise FileNotFoundError
  end.

Definition start : sys nat := Sys O [].

End Scripted.

Module ScriptedExamples.
Import Scripted.

(** Root, a clock at zero, no files, writes that succeed, processes that
    exist and may run nowhere. *)
Definition idle : script :=
  Script 0 (fun _ => f64_zero) (fun _ _ => Raise FileNotFoundError)
         (fun _ _ content => Ok (Z.of_nat (String.length content)))
         (fun _ _ => Ok tt) (fun _ _ => Ok ∅) (fun _ _ => Ok 0) (fun _ _ => Ok tt).

(** A machine with one CPU and one NUMA node. *)
Definition one_cpu : Platform :=
  {| CPU_COUNT := 1; NUMA_CPULIST := [{[0]}]; py_float := fun _ => Ok f64_zero |}.

Definition ten : float := f64_of_Z 10.

(** IRQ 42 of that machine, and an interrupt table with a row for it
    and a row for no tracked IRQ. *)
Definition irq42_files (count : string) : list (string * list string) :=
  [("/proc/irq/42/smp_affinity", ["1"]);
   ("/proc/irq/42/effective_affinity", ["1"]);
   ("/proc/irq/42/spurious", ["count 0"; "unhandled 0"; "last_unhandled 0 ms"]);
   ("/proc/interrupts",
    ["           CPU0";
     " 42:        " +:+ count +:+ "   PCI-MSI 524288-edge      eth0";
     "NMI:          0   Non-maskable interrupts"])]%string.

(** The first sample is taken at time 10 and reads a count of 100. *)
Definition sampled_at_ten : script :=
  Script 0 (fun _ => ten) (fun _ => files (irq42_files "100"))
         (fun _ _ content => Ok (Z.of_nat (String.length content)))
         (fun _ _ => Ok tt) (fun _ _ => Ok ∅) (fun _ _ => Ok 0) (fun _ _ => Ok tt).

(** The first sample is taken at time 0. *)
Definition sampled_at_zero : script :=
  Script 0 (fun _ => f64_zero) (fun _ => files (irq42_files "100"))
         (fun _ _ content => Ok (Z.of_nat (String.length content)))
         (fun _ _ => Ok tt) (fun _ _ => Ok ∅) (fun _ _ => Ok 0) (fun _ _ => Ok tt).

(** The first probe finds no such process; every later call is
    answered as if the process existed (its pid was given out again). *)
Definition vanished : script :=
  Script 0 (fun _ => f64_zero) (fun _ _ => Raise FileNotFoundError)
         (fun _ _ content => Ok (Z.of_nat (String.length content)))
         (fun n _ => match n with O => Raise ProcessLookupError | _ => Ok tt end)
         (fun _ _ => Ok {[0]}) (fun _ _ => Ok 0) (fun _ _ => Ok tt).

Definition no_kthread : KThread.t :=
  KThread.Make 0 "" true UNKNOWN OTHER None None false None false
               "" "" ∅ f64_zero f64_zero 0 0 0 0 0 0 0 0 f64_zero f64_zero.

(** A store that holds [irq] behind every reference. *)
Definition store_of (irq : IRQ.t) : objs :=
  Objs (fun _ => irq) (fun _ => no_kthread).

End ScriptedExamples.

Module SamplerExample.
Import Scripted ScriptedExamples.

(** IRQ 42, constructed on the one-CPU machine, and the system after
    its construction. *)
Definition irq42 : IRQ.t :=
  match IRQ.__init__ (Hos := os sampled_at_ten) (pf := one_cpu) 42 start with
  | (Ok self, _) => self
  | (Raise _, _) => IRQ.fresh (pf := one_cpu) 42
  end.
Definition constructed : sys nat :=
  (IRQ.__init__ (Hos := os sampled_at_ten) (pf := one_cpu) 42 start).2.

(** A store with IRQ 42 behind reference 0 and, behind every other
    reference, an IRQ 7 that the table has no row for. *)
Definition two_irqs : objs :=
  Objs (fun a => match a with O => irq42 | _ => IRQ.fresh (pf := one_cpu) 7 end)
       (fun _ => no_kthread).

(** The row of IRQ 42 in the table. *)
Definition row42 : one_int :=
  OneInt 1 (Some "PCI-MSI 524288-edge      eth0"%string) (Int64Array [100]).

End SamplerExample.

Module PciExample.

Definition dev01 : PCIDevice.t :=
  PCIDevice.Make "0000:01:00.0" LEGACY [42] {[0]} 0 "" "" "".
Definition dev02 : PCIDevice.t :=
  PCIDevice.Make "0000:02:00.0" LEGACY [42] {[0]} 0 "" "" "".

End PciExample.

Module PinExample.
Import ScriptedExamples.

(** One NUMA node with CPUs 0 to 3. *)
Definition one_node : Platform :=
  {| CPU_COUNT := 16; NUMA_CPULIST := [{[0; 1; 2; 3]}];
     py_float := fun _ => Ok f64_zero |}.

(** IRQ 42 with node 0 as its preferred node. *)
Definition irq_on_node0 : IRQ.t := IRQ.set_best_node 0 SamplerExample.irq42.


(** The events of a run that follow the first [n], log records
    left out. *)
Definition calls_after (n : nat) (s : sys nat) : list event :=
  List.filter (fun ev => match ev with EvLog _ _ => false | _ => true end)
              (drop n (trace s)).

End PinExample.

Module BundleExample.
Import ScriptedExamples.

(** IRQ 42 after [register_kthread] and [register_pci_device] alone: it
    names kernel thread 0 and a device, and the thread names no IRQ. *)
Definition half_linked : objs :=
  Objs (fun _ => IRQ.set_pci (Some PciExample.dev02)
                   (IRQ.set_kthread (Some 0%nat) SamplerExample.irq42))
       (fun _ => no_kthread).

(** IRQ 42 names thread 0, which names the IRQ behind reference 1. *)
Definition cross_linked : objs :=
  Objs (fun _ => IRQ.set_pci (Some PciExample.dev02)
                   (IRQ.set_kthread (Some 0%nat) SamplerExample.irq42))
       (fun _ => KThread.set_irq_obj (Some 1%nat) no_kthread).

(** The files of kernel thread 77, next to those of IRQ 42; every
    process may run on CPU 0 only. *)
Definition thread77_files : list (string * list string) :=
  [("/proc/77/comm", ["irq/42-eth0"]);
   ("/proc/77/cpuset", ["/rt"]);
   ("/proc/77/sched",
    ["irq/42-eth0 (77, #threads: 1)";
     "-------------------------------------------------------------------";
     "se.sum_exec_runtime                          :            12.500000";
     "se.nr_migrations                             :                    3";
     "nr_switches                                  :                   10";
     "nr_voluntary_switches                        :                    7";
     "nr_involuntary_switches                      :                    3";
     "current_node=0, numa_group_id=0"])]%string.

Definition settled : Scripted.script :=
  Scripted.Script 0 (fun _ => ten)
    (fun _ => Scripted.files (irq42_files "100" ++ thread77_files))
    (fun _ _ content => Ok (Z.of_nat (String.length content)))
    (fun _ _ => Ok tt) (fun _ _ => Ok {[0]}) (fun _ _ => Ok 0) (fun _ _ => Ok tt).

Definition thread77 : KThread.t :=
  KThread.Make 77 "[irq/42-eth0]" true FIFO KT_IRQ (Some 42) (Some 0%nat) false None
               false "" "" ∅ f64_zero f64_zero 0 0 0 0 0 0 0 0 f64_zero f64_zero.

(** IRQ 42, on node 0, linked with thread 77 and its device. *)
Definition linked : objs :=
  Objs (fun _ => IRQ.set_best_node 0
                   (IRQ.set_pci (Some PciExample.dev02)
                      (IRQ.set_kthread (Some 0%nat) SamplerExample.irq42)))
       (fun _ => thread77).

Definition bundle : EDTObject.t := EDTObject.Make 0%nat 0%nat PciExample.dev02.

Definition cpu0 : CPUSpec.t := CPUSpec.Make "rt" [0] 1 None false.
Definition cpu0_and_1 : CPUSpec.t := CPUSpec.Make "rt" [1; 2] 6 None false.
Definition cpu5 : CPUSpec.t := CPUSpec.Make "rt" [5] 32 None false.

End BundleExample.

(* ===================================================================== *)
(** ** Predicates on objects *)
(* ===================================================================== *)

Section predicates.
Context {pf : Platform}.

(** A property of an [IRQ] that assigning the affinity fields and the
    spurious-interrupt counters does not break. *)
Definition irq_stable (P : IRQ.t -> Prop) : Prop :=
  (forall m x, P x -> P (IRQ.set_smp m x))
  /\ (forall l x, P x -> P (IRQ.set_smp_list l x))
  /\ (forall m x, P x -> P (IRQ.set_eff m x))
  /\ (forall l x, P x -> P (IRQ.set_eff_list l x))
  /\ (forall c u l x, P x -> P (IRQ.set_spurious c u l x)).

(** The sampler's fields and the identity of a fresh [IRQ]. *)
Definition no_baseline (id : Z) (x : IRQ.t) : Prop :=
  IRQ.id x = id
  /\ IRQ._counts x = np_zeros_int64 CPU_COUNT
  /\ IRQ._counts_time x = f64_zero
  /\ IRQ._counts_hz x = np_zeros_float64 CPU_COUNT.

(** What a pass of the sampler over the references [l] leaves alone:
    the kernel threads, every identity, and every [IRQ] that is not in
    [l] or has no row in the table. *)
Definition tracked_frame (data : gmap string one_int) (l : list ref)
    (os os' : objs) : Prop :=
  kthread_store os' = kthread_store os
  /\ (forall a, IRQ.id (irq_store os' a) = IRQ.id (irq_store os a))
  /\ (forall a, a ∉ l \/ data !! PyStr.str (IRQ.id (irq_store os a)) = None ->
                irq_store os' a = irq_store os a).

(** The rates of a first sample: the [float64] quotient of every count
    by the time of the sample. *)
Definition first_rates (t : float) (l : list Z) : list float :=
  (fun c => f64_div (f64_of_Z c) t) <$> l.

(** Every row of a parsed table holds [np.asarray] of the integers of
    its line. *)
Definition rows_parsed (data : gmap string one_int) : Prop :=
  forall k row, data !! k = Some row -> exists l, counts row = np_asarray l.

(** Values an [int64] holds. *)
Definition int64 (z : Z) : Prop := - 2 ^ 63 <= z < 2 ^ 63.

End predicates.

(** The claims of a device list, in the order [match_irq_and_pci] visits
    them: each device with each raw interrupt number it lists. *)
Definition claims (devs : list PCIDevice.t) : list (PCIDevice.t * Z) :=
  devs ≫= (fun dev => (fun n => (dev, n)) <$> PCIDevice.irq_list dev).

(** The holder of every claimed number has the greatest bus address among
    the devices that claim it. *)
Definition greatest_claimant (cl : list (PCIDevice.t * Z))
    (reverse_lookup : gmap Z PCIDevice.t) : Prop :=
  forall n,
    match reverse_lookup !! n with
    | Some w =>
        (w, n) ∈ cl
        /\ forall d, (d, n) ∈ cl ->
             String.leb (PCIDevice.pci_addr d) (PCIDevice.pci_addr w) = true
    | None => forall d, (d, n) ∉ cl
    end.

(** An [IRQ] that carries the device the reverse map holds for its id. *)
Definition matched (reverse_lookup : gmap Z PCIDevice.t) (x : IRQ.t) : Prop :=
  forall w, reverse_lookup !! IRQ.id x = Some w ->
            IRQ.pci_device x = Some w /\ IRQ.best_node x = PCIDevice.numa_node w.

(* ===================================================================== *)
(** ** tools.py: the other procfs and sysctl helpers *)
(* ===================================================================== *)

(** [s.replace(c, d)] for one-character [c] and [d]. *)
Fixpoint str_replace_char (c d : ascii) (s : string) : string :=
  match s with
  | EmptyString => EmptyString
  | String c' s' =>
      String (if Ascii.eqb c' c then d else c') (str_replace_char c d s')
  end.

(** A configuration value, [Union[str, int]], and [str(value)]. *)
Inductive str_or_int := VStr (s : string) | VInt (n : Z).

Definition py_str (value : str_or_int) : string :=
  match value with
  | VStr s => s
  | VInt n => PyStr.str n
  end.

(** [except FileNotFoundError] *)
Definition is_FileNotFoundError (e : exn) : bool :=
  match e with FileNotFoundError => true | _ => false end.

Section SysctlOps.
Context {W : Type} {Hos : OS W}.

(** [tools.procfs_write_list] *)
Definition procfs_write_list (config : list (string * str_or_int))
  : M (sys W) unit :=
  root_decorator (
    for_each config (fun fv => procfs_write fv.1 (py_str fv.2))).

(** [tools.sysctl_write] *)
Definition sysctl_write (sysctl_key contents : string) : M (sys W) unit :=
  root_decorator (
    let sysctl_file := "/proc/sys/" +:+ str_replace_char "." "/" sysctl_key in
    try_except
      (procfs_write sysctl_file contents)
      is_FileNotFoundError
      (fun _ => log ERROR "sysctl_write: key does not exist")).

(** [tools.sysctl_write_list] *)
Definition sysctl_write_list (config : list (string * str_or_int))
  : M (sys W) unit :=
  root_decorator (
    for_each config (fun kv => sysctl_write kv.1 (py_str kv.2))).

(** [tools.sysctl_read] *)
Definition sysctl_read (sysctl_key : string) : M (sys W) string :=
  let sysctl_file := "/proc/sys/" +:+ str_replace_char "." "/" sysctl_key in
  try_except
    (lines ← procfs_read sysctl_file ;
     lift_res (py_index lines 0))
    is_FileNotFoundError
    (fun _ => log ERROR "sysctl_read: key does not exist" ;; mret ""%string).

End SysctlOps.

(* ===================================================================== *)
(** ** cset.py: [CPUSpec.create] *)
(* ===================================================================== *)

Section CPUSpecOps.
Context {W : Type} {Hos : OS W}.

(** [subprocess.run(argv).returncode] *)
Definition sproc_run_argv (argv : list string) : M (sys W) Z :=
  os_call (EvRun argv) (os_run argv).

(** [CPUSpec.create]; the command line is split at every blank. *)
Definition CPUSpec_create (self : CPUSpec.t) : M (sys W) unit :=
  root_decorator (
    cpu_str ← lift_res (CPUSpec.get_str self) ;
    log INFO "CPUSpec::create" ;;
    let cmd := "cset set --cpu " +:+ cpu_str in
    cmd ← match CPUSpec.mem_list self with
          | Some mem_list =>
              mem_str ← lift_res (list_to_range_notation mem_list) ;
              mret (cmd +:+ " -m " +:+ mem_str)
          | None => mret cmd
          end ;
    let cmd := cmd +:+ " --set " +:+ CPUSpec.name self in
    r ← sproc_run_argv (PyStr.split " " cmd) ;
    if negb (r =? 0) then log ERROR "CPUSpec::create failed"
    else mret tt).

End CPUSpecOps.

(* ===================================================================== *)
(** ** functions.py: the bundles of a driver or of a network interface *)
(* ===================================================================== *)

(** [list.sort(key=...)] with string keys: a stable sort. *)
Fixpoint insert_by_key {A} (key : A -> string) (x : A) (l : list A) : list A :=
  match l with
  | [] => [x]
  | y :: l' => if str_lt (key y) (key x) then y :: insert_by_key key x l' else x :: l
  end.

Definition py_sort_by_key {A} (key : A -> string) (l : list A) : list A :=
  foldr (insert_by_key key) [] l.

(** [irq.pci_device is not None and <test>(irq.pci_device)] *)
Definition device_has (test : PCIDevice.t -> bool) (self : IRQ.t) : bool :=
  match IRQ.pci_device self with
  | Some dev => test dev
  | None => false
  end.

Section identify.
Context {W : Type}.

Local Abbreviation Run := (M (objs * sys W)).

(** [[EDTObject(irq=irq) for irq in irq_list if <test>]] *)
Fixpoint bundles_where (test : PCIDevice.t -> bool) (irq_list : list ref)
  : Run (list EDTObject.t) :=
  match irq_list with
  | [] => mret []
  | irq :: rest =>
      self ← the_irq irq ;
      if device_has test self then
        e ← EDTObject.__init__ (Some irq) None ;
        es ← bundles_where test rest ;
        mret (e :: es)
      else bundles_where test rest
  end.

Definition identify_fg_objs (irq_list : list ref) (driver : string)
  : Run (list EDTObject.t) :=
  fg_objs ← bundles_where
              (fun dev => bool_decide (PCIDevice.driver dev = driver)) irq_list ;
  mret (py_sort_by_key (fun e => PCIDevice.pci_addr (EDTObject.pci_device e)) fg_objs).

Definition identify_net_objs (irq_list : list ref) (iface : string)
  : Run (list EDTObject.t) :=
  bundles_where (fun dev => bool_decide (PCIDevice.net_iface dev = iface)) irq_list.

End identify.

(* ===================================================================== *)
(** ** rtlinux_configs.py: the special rules of [AORTSConfig] *)
(* ===================================================================== *)

Module AORTSConfig.





Section methods.
Context {W : Type} {Hos : OS W} {pf : Platform}.

(** The state the method works on: the set [irqs_nobalancing] of the
    configuration, the objects and the system. *)
Local Abbreviation Cfg := (M (gset ref * (objs * sys W))).






End methods.

End AORTSConfig.

(* ===================================================================== *)
(** ** macros.py: parking the IRQs, creating the cpusets *)
(* ===================================================================== *)

Section macros.
Context {W : Type} {Hos : OS W} {pf : Platform}.

Local Abbreviation Run := (M (objs * sys W)).

Definition irq_parking (irqs : list ref) (cpus : CPUSpec.t) : Run unit :=
  uid ← on_sys getuid ;
  if negb (uid =? 0) then raise PermissionError
  else
    _ ← lift_res (CPUSpec.get_str cpus) ;
    let cpus := CPUSpec.sorted cpus in
    on_sys (log WARNING "irq_parking()") ;;
    _ ← on_sys (sproc_run_argv ["systemctl"; "stop"; "irqbalance"]) ;
    for_each irqs (fun irq =>
      _ ← on_irq irq (IRQ.set_pin_to_cpu (CPUSpec.cpu_list cpus) true) ;
      mret tt).

Definition cset_creation (csets : list CPUSpec.t) (shield_cpus : CPUSpec.t)
  : M (sys W) unit :=
  root_decorator (
    _ ← lift_res (CPUSpec.get_str shield_cpus) ;
    let shield_cpus := CPUSpec.sorted shield_cpus in
    log WARNING "cset_creation()" ;;
    cpus ← lift_res (list_to_range_notation (CPUSpec.cpu_list shield_cpus)) ;
    _ ← sproc_run_argv (PyStr.split " " ("cset shield -c " +:+ cpus)) ;
    _ ← sproc_run_argv (PyStr.split " " "cset set -d user") ;
    match CPUSpec.mem_list shield_cpus with
    | None => raise AssertionError
    | Some mem_list =>
        mem_range ← lift_res (list_to_range_notation mem_list) ;
        _ ← sproc_run_argv (PyStr.split " " ("cset set -m " +:+ mem_range +:+ " system")) ;
        for_each csets CPUSpec_create ;;
        _ ← sproc_run "cset proc -m -k --force --threads -f root -t system" ;
        _ ← sproc_run "cset proc -k --force root -t system" ;
        mret tt
    end).

End macros.

(* ===================================================================== *)
(** ** tools.py: reading the machine through shell pipelines *)
(* ===================================================================== *)

(** [subprocess.run(cmd, shell=True, stdout=PIPE).stdout.decode()]: the
    text a pipeline prints. *)
Class Shell (W : Type) := {
  os_shell_stdout : string -> W -> Res string * W;
}.

(** The line feed. *)
Definition LF : ascii := ascii_of_nat 10.

(** [text.split('\n')[:-1]] *)
Definition output_lines (text : string) : list string :=
  removelast (PyStr.split LF text).

(** The body of the loop of [parse_numa_info] over [range(nodes)]. *)
Definition numa_node_cpus (res : list string) (nn : Z) : Res (gset Z) :=
  line ← py_index res (nn + 1) ;
  field ← py_index (PyStr.split ":" line) 1 ;
  cpus ← range_to_list (PyStr.strip field) ;
  Ok (list_to_set cpus).

(** [parse_numa_info], from the lines of [lscpu | grep NUMA]. *)
Definition parse_numa_lines (res : list string) : Res (Z * list (gset Z)) :=
  first ← py_index res 0 ;
  field ← py_index (PyStr.split ":" first) 1 ;
  nodes ← PyStr.int field ;
  sets_per_node ← res_mapM (numa_node_cpus res) (seqZ 0 nodes) ;
  Ok (nodes, sets_per_node).

(** The text that prints the given lines, each ended by a line feed,
    and then [rest]. *)
Definition printed (lines : list string) (rest : string) : string :=
  foldr (fun l acc => l +:+ String LF acc) rest lines.

(** The short key [XXYY] of a bus address [XX:YY.Z]. *)
Definition short_address (r : string) : string :=
  PyStr.remove_char ":" (default ""%string (head (PyStr.split "." r))).

(** The double quote. *)
Definition DQ : string := String (ascii_of_nat 34) EmptyString.

Section ShellOps.
Context {W : Type} {Hos : OS W} {Hsh : Shell W}.

Definition shell_stdout (cmd : string) : M (sys W) string :=
  os_call (EvRun ["/bin/sh"; "-c"; cmd]) (os_shell_stdout cmd).

Definition parse_numa_info : M (sys W) (Z * list (gset Z)) :=
  text ← shell_stdout "lscpu | grep NUMA" ;
  lift_res (parse_numa_lines (output_lines text)).

(** [parse_lsmod]: the first column, title line left out. *)
Definition parse_lsmod : M (sys W) (list string) :=
  text ← shell_stdout "lsmod" ;
  lift_res (res_mapM (fun l => py_index (PyStr.split_ws None l) 0)
                     (drop 1 (output_lines text))).

(** The three [parse_lspci_for_*] functions differ in the pipeline
    they run. *)
Definition parse_lspci (cmd : string) (format_colons : bool)
  : M (sys W) (list string) :=
  text ← shell_stdout cmd ;
  let res := output_lines text in
  if format_colons then mret ((fun r => "0000:" +:+ r) <$> res)
  else mret (short_address <$> res).

Definition parse_lspci_for_edt_boards : bool -> M (sys W) (list string) :=
  parse_lspci ("lspci | grep " +:+ DQ +:+ "Engineering Design Team, Inc." +:+ DQ
               +:+ " | awk '{print $1}'").

Definition parse_lspci_for_fpdp_boards : bool -> M (sys W) (list string) :=
  parse_lspci ("lspci | grep " +:+ DQ +:+ "Systran Corp Device 464d" +:+ DQ
               +:+ " | awk '{print $1}'").

Definition parse_lspci_for_pci_switches : bool -> M (sys W) (list string) :=
  parse_lspci ("lspci | grep " +:+ DQ +:+ "PCI bridge:" +:+ DQ
               +:+ " | awk '{print $1}'").

End ShellOps.

(** Two states of an [IRQ] that differ at most in the device, the
    preferred node and the order of the two affinity lists. *)
Definition same_but_device (x x' : IRQ.t) : Prop :=
  IRQ.id x' = IRQ.id x
  /\ IRQ.procfs_folder x' = IRQ.procfs_folder x
  /\ IRQ._smp_affinity x' = IRQ._smp_affinity x
  /\ IRQ._smp_affinity_list x' ≡ₚ IRQ._smp_affinity_list x
  /\ IRQ._eff_affinity x' = IRQ._eff_affinity x
  /\ IRQ._eff_affinity_list x' ≡ₚ IRQ._eff_affinity_list x
  /\ IRQ.kthread x' = IRQ.kthread x
  /\ IRQ._count x' = IRQ._count x
  /\ IRQ._unhandled x' = IRQ._unhandled x
  /\ IRQ._last_unhandled_ms x' = IRQ._last_unhandled_ms x
  /\ IRQ._counts x' = IRQ._counts x
  /\ IRQ._counts_time x' = IRQ._counts_time x
  /\ IRQ._counts_hz x' = IRQ._counts_hz x
  /\ IRQ.was_pinned_successfully_once x' = IRQ.was_pinned_successfully_once x.

(** A character that is not whitespace. *)
Definition no_space (c : ascii) : bool := negb (PyStr.is_space c).

(** The attributes of a [KThread] that only [__init__] assigns. *)
Definition named (pid : Z) (name : string) (ty : KThreadTypeEnum)
    (num : option Z) (rcu : bool) (cpu : option Z) (x : KThread.t) : Prop :=
  KThread.pid x = pid /\ KThread.name x = name /\ KThread.kthread_type x = ty
  /\ KThread._irq_number x = num /\ KThread._is_rcu x = rcu
  /\ KThread._rcuc_cpu x = cpu /\ KThread._irq_obj x = None
  /\ KThread.was_cset_successfully_once x = false.

(** The last thread of a list that carries the interrupt number [n]. *)
Definition last_with (store : ref -> KThread.t) (kthreads : list ref)
    (n : Z) (k : ref) : Prop :=
  exists l1 l2,
    kthreads = l1 ++ k :: l2
    /\ KThread._irq_number (store k) = Some n
    /\ Forall (fun k2 => KThread._irq_number (store k2) <> Some n) l2.

(* ===================================================================== *)
(** ** More scripted machines *)
(* ===================================================================== *)

Module MoreExamples.
Import Scripted ScriptedExamples.

(** An ordinary user on the idle machine. *)
Definition user : script :=
  Script 1000 (fun _ => f64_zero) (fun _ _ => Raise FileNotFoundError)
         (fun _ _ content => Ok (Z.of_nat (String.length content)))
         (fun _ _ => Ok tt) (fun _ _ => Ok ∅) (fun _ _ => Ok 0) (fun _ _ => Ok tt).

(** Root on a machine that has every sysctl key but [net.core.missing],
    and whose [vm.swappiness] reads 60. *)
Definition sysctl_machine : script :=
  Script 0 (fun _ => f64_zero)
         (fun _ => files [("/proc/sys/vm/swappiness", ["60" +:+ String LF ""]);
                          ("/proc/sys/vm/empty", [])])
         (fun _ file content =>
            if String.eqb file "/proc/sys/net/core/missing"
            then Raise FileNotFoundError
            else Ok (Z.of_nat (String.length content)))
         (fun _ _ => Ok tt) (fun _ _ => Ok ∅) (fun _ _ => Ok 0) (fun _ _ => Ok tt).

(** IRQ 42 and the thread that serves it, before they are paired. *)
Definition unpaired : objs :=
  Objs (fun _ => SamplerExample.irq42)
       (fun _ => KThread.set_irq_obj None BundleExample.thread77).

(** Root on a machine whose interrupt table has the given lines. *)
Definition table_machine (lines : list string) : script :=
  Script 0 (fun _ => ten) (fun _ => files [("/proc/interrupts", lines)])
         (fun _ _ content => Ok (Z.of_nat (String.length content)))
         (fun _ _ => Ok tt) (fun _ _ => Ok ∅) (fun _ _ => Ok 0) (fun _ _ => Ok tt).

(** Two IRQs served by thread 0, on the devices at 02:00.0 (behind
    reference 0) and 01:00.0 (behind every other reference), both driven
    by [edt]; and the same store with the second IRQ left without a
    thread. *)
Definition on_device (dev : PCIDevice.t) (kthread : option ref) : IRQ.t :=
  IRQ.set_pci (Some (PCIDevice.add_driver_info "edt" dev))
              (IRQ.set_kthread kthread SamplerExample.irq42).
Definition two_boards : objs :=
  Objs (fun a => match a with
                 | O => on_device PciExample.dev02 (Some 0%nat)
                 | _ => on_device PciExample.dev01 (Some 0%nat)
                 end)
       (fun _ => BundleExample.thread77).
Definition one_board_unserved : objs :=
  Objs (fun a => match a with
                 | O => on_device PciExample.dev02 (Some 0%nat)
                 | _ => on_device PciExample.dev01 None
                 end)
       (fun _ => BundleExample.thread77).

(** A network card on interface [eth0], and a store in which IRQ 42
    (behind reference 0) belongs to it while the IRQs behind the other
    references have no device. *)
Definition nic : PCIDevice.t :=
  PCIDevice.Make "0000:03:00.0" MSI [42] {[0]} 0 "mlx5_core" "eth0" "10.0.0.1".
Definition with_nic : objs :=
  Objs (fun a => match a with
                 | O => IRQ.set_pci (Some nic)
                          (IRQ.set_kthread (Some 0%nat) SamplerExample.irq42)
                 | _ => SamplerExample.irq42
                 end)
       (fun _ => BundleExample.thread77).

(** Root on a machine where no process is found any more. *)
Definition gone : script :=
  Script 0 (fun _ => f64_zero) (fun _ _ => Raise FileNotFoundError)
         (fun _ _ content => Ok (Z.of_nat (String.length content)))
         (fun _ _ => Raise ProcessLookupError) (fun _ _ => Raise ProcessLookupError)
         (fun _ _ => Ok 1) (fun _ _ => Ok tt).

(** IRQ 42 with NUMA node 0 as its preferred node. *)
Definition irq42_on_node0 : IRQ.t := IRQ.set_best_node 0 SamplerExample.irq42.

(** A shell every pipeline of which prints the same text, and what
    [lscpu | grep NUMA] prints on a machine with two nodes of four CPUs. *)
Definition printing (text : string) : Shell nat :=
  {| os_shell_stdout := fun _ w => (Ok text, S w) |}.
Definition two_nodes : string :=
  "NUMA node(s):          2" +:+ String LF
    ("NUMA node0 CPU(s):     0-3" +:+ String LF
       ("NUMA node1 CPU(s):     4-7" +:+ String LF "")).

(** What [lspci | grep ... | awk '{print $1}'] prints for two
    matching devices. *)
Definition two_bridges : string :=
  "00:1c.0" +:+ String LF ("3b:00.1" +:+ String LF "").

(** What [lsmod] prints with two modules loaded. *)
Definition two_modules : string :=
  printed ["Module                  Size  Used by";
           "edt                   4096  0";
           "nvme                 49152  2"]%string "".

Definition tweaks : list (string * str_or_int) :=
  [("net.core.missing", VInt 1); ("vm.swappiness", VStr "10")]%string.

End MoreExamples.
Example range_to_list_ex : range_to_list "0-2,5,7-9" = Ok [0; 1; 2; 5; 7; 8; 9].
Proof. vm_compute. reflexivity. Qed.
Example list_to_range_notation_ex :
  list_to_range_notation [0; 1; 2; 5; 7; 8; 9] = Ok "0-2,5,7-9"%string.
Proof. vm_compute. reflexivity. Qed.
Example list_to_mask_ex : list_to_mask [0; 3; 5] = Ok 41.
Proof. vm_compute. reflexivity. Qed.
Example mask_to_list_ex : mask_to_list 41 = Ok [0; 3; 5].
Proof. vm_compute. reflexivity. Qed.
Example split_ws_ex :
  PyStr.split_ws (Some 3%nat) " 42:  100 200   PCI-MSI  eth0 x"
  = ["42:"; "100"; "200"; "PCI-MSI  eth0 x"]%string.
Proof. vm_compute. reflexivity. Qed.
Example split_ws_ex2 :
  PyStr.split_ws None "   CPU0   CPU1 " = ["CPU0"; "CPU1"]%string.
Proof. vm_compute. reflexivity. Qed.
Example split_ws_ex3 :
  PyStr.split_ws (Some 2%nat) "a b  " = ["a"; "b"]%string
  /\ PyStr.split_ws (Some 1%nat) "a b  " = ["a"; "b  "]%string
  /\ PyStr.split_ws (Some 1%nat) "" = [].
Proof. vm_compute. auto. Qed.

Example int_ex :
  PyStr.int "42" = Ok 42 /\ PyStr.int " -7 " = Ok (-7) /\ PyStr.int "1_000" = Ok 1000
  /\ PyStr.int "" = Raise ValueError /\ PyStr.int "4_" = Raise ValueError
  /\ PyStr.int_base 16 "00ff" = Ok 255 /\ PyStr.int_base 16 "0x1F" = Ok 31
  /\ PyStr.int "0x1F" = Raise ValueError.
Proof. vm_compute. repeat split. Qed.

(* ===================================================================== *)
(** * Properties *)
(* ===================================================================== *)

(** ** Strings *)

Section string_facts.

Lemma str_app_cons c (s t : string) : String c s +:+ t = String c (s +:+ t).
Proof. reflexivity. Qed.

Lemma str_app_nil_l (t : string) : "" +:+ t = t.
Proof. reflexivity. Qed.

Lemma str_app_empty_r (s : string) : s +:+ "" = s.
Proof. induction s as [|c s IH]; [done | by rewrite str_app_cons, IH]. Qed.

Lemma str_app_assoc (a b c : string) : (a +:+ b) +:+ c = a +:+ (b +:+ c).
Proof. induction a as [|x a IH]; [done | by rewrite !str_app_cons, IH]. Qed.

Lemma mem_app c a b : PyStr.mem c (a +:+ b) = PyStr.mem c a || PyStr.mem c b.
Proof.
  induction a as [|x a IH]; [done|].
  rewrite str_app_cons. simpl. rewrite IH. by rewrite orb_assoc.
Qed.

Lemma all_chars_app P a b :
  PyStr.all_chars P (a +:+ b) = PyStr.all_chars P a && PyStr.all_chars P b.
Proof.
  induction a as [|x a IH]; [done|].
  rewrite str_app_cons. simpl. rewrite IH. by rewrite andb_assoc.
Qed.

Lemma all_chars_impl (P Q : ascii -> bool) s :
  (forall c, P c = true -> Q c = true) ->
  PyStr.all_chars P s = true -> PyStr.all_chars Q s = true.
Proof.
  intros HPQ. induction s as [|x s IH]; simpl; [done|].
  intros [Hx Hs]%andb_true_iff. rewrite (HPQ _ Hx). simpl. auto.
Qed.

Lemma all_chars_not_mem P c s :
  P c = false -> PyStr.all_chars P s = true -> PyStr.mem c s = false.
Proof.
  intros Hc. induction s as [|x s IH]; simpl; [done|].
  intros [Hx Hs]%andb_true_iff. rewrite (IH Hs), orb_false_r.
  destruct (Ascii.eqb_spec x c) as [->|]; [congruence | done].
Qed.

(** Splitting at a separator that the first piece does not hold. *)
Lemma split_app_sep sep u v :
  PyStr.mem sep u = false ->
  PyStr.split sep (u +:+ String sep v) = u :: PyStr.split sep v.
Proof.
  induction u as [|x u IH].
  - intros _. rewrite str_app_nil_l. simpl. by rewrite Ascii.eqb_refl.
  - simpl. intros [Hx Hu]%orb_false_iff. rewrite Hx, (IH Hu). done.
Qed.

Lemma split_no_sep sep u :
  PyStr.mem sep u = false -> PyStr.split sep u = [u].
Proof.
  induction u as [|x u IH]; simpl; [done|].
  intros [Hx Hu]%orb_false_iff. rewrite Hx, (IH Hu). done.
Qed.

(** No piece of a split holds the separator. *)
Lemma split_pieces sep s :
  Forall (fun w => PyStr.mem sep w = false) (PyStr.split sep s).
Proof.
  induction s as [|x s IH]; simpl.
  - by repeat constructor.
  - destruct (Ascii.eqb x sep) eqn:Hx.
    + constructor; [done | exact IH].
    + destruct (PyStr.split sep s) as [|w ws]; simpl.
      * repeat constructor. simpl. by rewrite Hx.
      * inversion IH; subst. constructor; [|done]. simpl. by rewrite Hx.
Qed.

Lemma lstrip_id s :
  PyStr.all_chars (fun c => negb (PyStr.is_space c)) s = true -> PyStr.lstrip s = s.
Proof.
  destruct s as [|x s]; simpl; [done|].
  intros [Hx _]%andb_true_iff. by apply negb_true_iff in Hx as ->.
Qed.

Lemma rstrip_id s :
  PyStr.all_chars (fun c => negb (PyStr.is_space c)) s = true -> PyStr.rstrip s = s.
Proof.
  induction s as [|x s IH]; simpl; [done|].
  intros [Hx Hs]%andb_true_iff. rewrite (IH Hs).
  apply negb_true_iff in Hx as ->. by destruct s.
Qed.

Lemma strip_id s :
  PyStr.all_chars (fun c => negb (PyStr.is_space c)) s = true -> PyStr.strip s = s.
Proof. intros H. unfold PyStr.strip. by rewrite lstrip_id, rstrip_id. Qed.

Lemma int_lstrip_id s :
  PyStr.all_chars (fun c => negb (PyStr.is_int_space c)) s = true ->
  PyStr.int_lstrip s = s.
Proof.
  destruct s as [|x s]; simpl; [done|].
  intros [Hx _]%andb_true_iff. by apply negb_true_iff in Hx as ->.
Qed.

Lemma int_rstrip_id s :
  PyStr.all_chars (fun c => negb (PyStr.is_int_space c)) s = true ->
  PyStr.int_rstrip s = s.
Proof.
  induction s as [|x s IH]; simpl; [done|].
  intros [Hx Hs]%andb_true_iff. rewrite (IH Hs).
  apply negb_true_iff in Hx as ->. by destruct s.
Qed.

Lemma int_strip_id s :
  PyStr.all_chars (fun c => negb (PyStr.is_int_space c)) s = true ->
  PyStr.int_strip s = s.
Proof. intros H. unfold PyStr.int_strip. by rewrite int_lstrip_id, int_rstrip_id. Qed.

End string_facts.

(** ** Decimal integers: [str] and [int] *)

Section decimal_facts.

Import PyStr (is_dec).

Lemma is_digit_digit_char d :
  0 <= d < 10 -> PyStr.is_digit (PyStr.digit_char d) = Some d.
Proof.
  intros Hd.
  assert (d = 0 \/ d = 1 \/ d = 2 \/ d = 3 \/ d = 4 \/ d = 5 \/ d = 6
          \/ d = 7 \/ d = 8 \/ d = 9) as Hc by lia.
  repeat (destruct Hc as [-> | Hc]; [reflexivity|]). subst. reflexivity.
Qed.

Lemma is_dec_digit_char d : 0 <= d < 10 -> is_dec (PyStr.digit_char d) = true.
Proof. intros Hd. unfold is_dec. by rewrite is_digit_digit_char. Qed.

Lemma is_dec_not_space c : is_dec c = true -> negb (PyStr.is_space c) = true.
Proof.
  destruct c as [[] [] [] [] [] [] [] []]; vm_compute; congruence.
Qed.

Lemma is_dec_not_int_space c :
  is_dec c = true -> negb (PyStr.is_int_space c) = true.
Proof.
  destruct c as [[] [] [] [] [] [] [] []]; vm_compute; congruence.
Qed.

Lemma is_dec_not_minus : is_dec "-" = false.
Proof. reflexivity. Qed.
Lemma is_dec_not_comma : is_dec "," = false.
Proof. reflexivity. Qed.

(** The digits [str_nonneg] puts in front of [acc], read back. *)
Lemma str_nonneg_spec fuel : forall n acc,
  0 <= n < 10 * 2 ^ Z.of_nat fuel ->
  exists u,
    PyStr.str_nonneg fuel n acc = u +:+ acc
    /\ PyStr.all_chars is_dec u = true
    /\ u <> ""
    /\ forall st a s,
         PyStr.parse_digits 10 st a (u +:+ s)
         = PyStr.parse_digits 10 PyStr.LexDigit
             (a * 10 ^ Z.of_nat (String.length u) + n) s.
Proof.
  assert (Hone : forall n acc, 0 <= n < 10 ->
    exists u,
      String (PyStr.digit_char (n mod 10)) acc = u +:+ acc
      /\ PyStr.all_chars is_dec u = true /\ u <> ""
      /\ forall st a s,
           PyStr.parse_digits 10 st a (u +:+ s)
           = PyStr.parse_digits 10 PyStr.LexDigit
               (a * 10 ^ Z.of_nat (String.length u) + n) s).
  { intros n acc Hn. exists (String (PyStr.digit_char n) "").
    rewrite (Z.mod_small n 10) by lia. repeat split.
    - simpl. by rewrite is_dec_digit_char.
    - discriminate.
    - intros st a s. simpl. unfold PyStr.digit_of. simpl.
      rewrite is_digit_digit_char by lia. f_equal. lia. }
  induction fuel as [|fuel IH]; intros n acc Hn.
  - simpl. apply Hone. simpl in Hn. lia.
  - cbn [PyStr.str_nonneg]. destruct (n <? 10) eqn:Hlt.
    + apply Hone. lia.
    + apply Z.ltb_ge in Hlt.
      destruct (IH (n / 10) (String (PyStr.digit_char (n mod 10)) acc))
        as (u & Hu & Hdig & Hne & Hparse).
      { split; [apply Z.div_pos; lia|].
        apply Z.div_lt_upper_bound; [lia|].
        rewrite Nat2Z.inj_succ, Z.pow_succ_r in Hn by lia. lia. }
      exists (u +:+ String (PyStr.digit_char (n mod 10)) "").
      assert (Hd : 0 <= n mod 10 < 10) by (apply Z.mod_pos_bound; lia).
      repeat split.
      * rewrite Hu, str_app_assoc. reflexivity.
      * rewrite all_chars_app, Hdig. simpl. by rewrite is_dec_digit_char.
      * destruct u; [done | discriminate].
      * intros st a s. rewrite str_app_assoc, Hparse. simpl.
        unfold PyStr.digit_of. simpl. rewrite is_digit_digit_char by done.
        f_equal.
        assert (Hlen : String.length (u +:+ String (PyStr.digit_char (n mod 10)) "")
                       = S (String.length u)).
        { clear. induction u as [|x u IHu]; [done|].
          rewrite str_app_cons. simpl. by rewrite IHu. }
        rewrite Hlen, Nat2Z.inj_succ, Z.pow_succ_r by lia.
        pose proof (Z.div_mod n 10 ltac:(lia)). lia.
Qed.

Lemma str_nonneg_digits n :
  0 <= n ->
  exists u,
    PyStr.str n = u
    /\ PyStr.all_chars is_dec u = true
    /\ u <> ""
    /\ PyStr.parse_digits 10 PyStr.LexStart 0 u = Some n.
Proof.
  intros Hn. unfold PyStr.str.
  destruct (n <? 0) eqn:Hneg; [apply Z.ltb_lt in Hneg; lia|].
  destruct (str_nonneg_spec (Z.to_nat (Z.log2 n)) n "") as (u & Hu & Hdig & Hne & Hparse).
  { split; [done|]. destruct (decide (n = 0)) as [->|]; [simpl; lia|].
    rewrite Z2Nat.id by apply Z.log2_nonneg.
    pose proof (Z.log2_spec n ltac:(lia)) as [_ Hup].
    rewrite Z.pow_succ_r in Hup by apply Z.log2_nonneg. lia. }
  exists u. rewrite Hu, str_app_empty_r. repeat split; try done.
  specialize (Hparse PyStr.LexStart 0 ""). rewrite str_app_empty_r in Hparse.
  rewrite Hparse. simpl. f_equal; lia.
Qed.

Lemma parse_unsigned_10 s :
  PyStr.parse_unsigned 10 s = PyStr.parse_digits 10 PyStr.LexStart 0 s.
Proof.
  unfold PyStr.parse_unsigned.
  destruct s as [|c s]; [done|].
  destruct c as [[] [] [] [] [] [] [] []]; try done.
  destruct s; done.
Qed.

(** [int] on a string that starts with a digit and holds no blank. *)
Lemma int_unsigned s :
  PyStr.all_chars is_dec s = true ->
  PyStr.int s = match PyStr.parse_digits 10 PyStr.LexStart 0 s with
                | Some z => Ok z
                | None => Raise ValueError
                end.
Proof.
  intros Hs. unfold PyStr.int, PyStr.int_base.
  rewrite int_strip_id by (eapply all_chars_impl; [apply is_dec_not_int_space | done]).
  destruct s as [|c s]; [done|].
  simpl in Hs. apply andb_true_iff in Hs as [Hc _].
  rewrite <- parse_unsigned_10.
  destruct c as [[] [] [] [] [] [] [] []]; try done.
Qed.

(** [int(str(n)) == n] for a non-negative [n]. *)
Lemma int_str n : 0 <= n -> PyStr.int (PyStr.str n) = Ok n.
Proof.
  intros (u & -> & Hdig & _ & Hparse)%str_nonneg_digits.
  by rewrite int_unsigned, Hparse.
Qed.

Lemma str_no_char n c :
  0 <= n -> is_dec c = false -> PyStr.mem c (PyStr.str n) = false.
Proof.
  intros (u & -> & Hdig & _)%str_nonneg_digits Hc.
  by eapply all_chars_not_mem.
Qed.

End decimal_facts.

(** ** Range notation *)

Section range_facts.
Import RangeNotation.

Lemma py_sort_sorted l : Sorted Z.le l -> py_sort l = l.
Proof.
  intros Hl. unfold py_sort.
  apply (Sorted_unique Z.le); [apply Sorted_merge_sort; apply _ | done |].
  apply merge_sort_Permutation.
Qed.

Lemma py_sort_perm l : py_sort l ≡ₚ l.
Proof. apply merge_sort_Permutation. Qed.

Lemma py_sort_is_sorted l : Sorted Z.le (py_sort l).
Proof. apply Sorted_merge_sort; apply _. Qed.

Lemma py_sort_idemp l : py_sort (py_sort l) = py_sort l.
Proof. apply py_sort_sorted, py_sort_is_sorted. Qed.

Lemma py_sort_Forall (P : Z -> Prop) l : Forall P l -> Forall P (py_sort l).
Proof. intros H. by rewrite py_sort_perm. Qed.

Lemma Sorted_lt_le l : Sorted Z.lt l -> Sorted Z.le l.
Proof.
  induction 1 as [|x l Hl IH Hhd]; constructor; [done|].
  destruct Hhd; constructor. by apply Z.lt_le_incl.
Qed.

(** The pending run, as the interval it is. *)
Lemma seqZ_1 m : seqZ m 1 = [m].
Proof. reflexivity. Qed.

Lemma seqZ_snoc lo n : 0 <= n -> seqZ lo n ++ [lo + n] = seqZ lo (n + 1).
Proof. intros Hn. by rewrite (seqZ_app lo n 1), seqZ_1 by lia. Qed.

Lemma seqZ_last lo n d : 0 < n -> List.last (seqZ lo n) d = lo + n - 1.
Proof.
  intros Hn. replace (seqZ lo n) with (seqZ lo (n - 1) ++ [lo + (n - 1)]).
  - rewrite List.last_last. lia.
  - rewrite seqZ_snoc by lia. f_equal. lia.
Qed.

Lemma step_pending lo n s c :
  0 < n ->
  range_notation_step (seqZ lo n, s) c
  = if decide (c = List.last (seqZ lo n) 0 + 1) then (seqZ lo n ++ [c], s)
    else if (length (seqZ lo n) =? 1)%nat then ([c], s +:+ "," +:+ PyStr.str lo)
    else ([c], s +:+ "," +:+ PyStr.str lo +:+ "-"
                 +:+ PyStr.str (List.last (seqZ lo n) 0)).
Proof.
  intros Hn. rewrite (seqZ_cons lo n) by done. reflexivity.
Qed.

Lemma step_extend lo hi s c :
  lo <= hi -> c = hi + 1 ->
  range_notation_step (seqZ lo (hi + 1 - lo), s) c = (seqZ lo (c + 1 - lo), s).
Proof.
  intros Hle ->. rewrite step_pending, seqZ_last by lia.
  rewrite decide_True by lia. f_equal.
  replace (hi + 1 + 1 - lo) with (hi + 1 - lo + 1) by lia.
  rewrite <- seqZ_snoc by lia. do 2 f_equal. lia.
Qed.

Lemma step_flush lo hi s c :
  lo <= hi -> c <> hi + 1 ->
  range_notation_step (seqZ lo (hi + 1 - lo), s) c
  = ([c], s +:+ "," +:+ token (lo, hi)).
Proof.
  intros Hle Hc. rewrite step_pending, seqZ_last by lia.
  rewrite decide_False by lia.
  rewrite length_seqZ. unfold token. simpl.
  destruct (decide (lo = hi)) as [->|Hne].
  - replace (hi + 1 - hi) with 1 by lia. done.
  - destruct (Z.to_nat (hi + 1 - lo) =? 1)%nat eqn:Hlen.
    + apply Nat.eqb_eq in Hlen. lia.
    + replace (lo + (hi + 1 - lo) - 1) with hi by lia. done.
Qed.

Lemma fold_runs l : forall lo hi s,
  lo <= hi -> 0 <= hi -> Forall (fun c => 0 <= c) l ->
  foldl range_notation_step (seqZ lo (hi + 1 - lo), s) (l ++ [-1])
  = ([-1], s +:+ flat (runs_from lo hi l)).
Proof.
  induction l as [|c l IH]; intros lo hi s Hle Hhi Hl.
  - cbn [app foldl]. rewrite step_flush by lia.
    cbn [runs_from flat foldr]. by rewrite str_app_empty_r.
  - inversion Hl as [|? ? Hc Hl']; subst. cbn [app foldl runs_from].
    destruct (decide (c = hi + 1)) as [->|Hne].
    + rewrite step_extend by lia. apply IH; [lia | lia | done].
    + rewrite step_flush by lia.
      replace [c] with (seqZ c (c + 1 - c))
        by (replace (c + 1 - c) with 1 by lia; apply seqZ_1).
      rewrite IH by (done || lia). cbn [flat foldr]. by rewrite !str_app_assoc.
Qed.

Lemma concat_flat r rs :
  String.concat "," (token <$> (r :: rs)) = token r +:+ flat rs.
Proof.
  revert r. induction rs as [|r' rs IH]; intros r.
  - simpl. by rewrite str_app_empty_r.
  - change (String.concat "," (token <$> r :: r' :: rs))
      with (token r +:+ "," +:+ String.concat "," (token <$> r' :: rs)).
    by rewrite IH.
Qed.

Lemma tail_flat rs : PyStr.tail (flat rs) = String.concat "," (token <$> rs).
Proof.
  destruct rs as [|r rs]; [done|]. by rewrite concat_flat.
Qed.

Lemma list_to_range_notation_runs l :
  Forall (fun c => 0 <= c) l ->
  list_to_range_notation l
  = Ok (String.concat "," (token <$> runs (py_sort l))).
Proof.
  intros Hl. unfold list_to_range_notation.
  apply (py_sort_Forall _ _) in Hl. destruct (py_sort l) as [|c l'].
  - reflexivity.
  - inversion Hl; subst. cbn [app foldl]. unfold range_notation_step at 2.
    replace [c] with (seqZ c (c + 1 - c))
      by (replace (c + 1 - c) with 1 by lia; apply seqZ_1).
    rewrite fold_runs by (done || lia).
    rewrite decide_True by done. by rewrite <- tail_flat.
Qed.

End range_facts.

Section range_parse_facts.
Import RangeNotation.

Lemma str_nonempty n : 0 <= n -> PyStr.str n <> "".
Proof. by intros (u & -> & _ & Hne & _)%str_nonneg_digits. Qed.

Lemma token_no_comma r : 0 <= r.1 -> 0 <= r.2 -> PyStr.mem "," (token r) = false.
Proof.
  intros H1 H2. unfold token. destruct (decide (r.1 = r.2)).
  - by apply str_no_char.
  - rewrite !mem_app, !str_no_char by done. reflexivity.
Qed.

Lemma token_nonempty r : 0 <= r.1 -> token r <> "".
Proof.
  intros H1. unfold token. pose proof (str_nonempty _ H1) as Hne.
  destruct (decide (r.1 = r.2)); [done|].
  destruct (PyStr.str r.1); [done | discriminate].
Qed.

(** One token parses to the run it was printed from. *)
Lemma range_token_token acc r :
  0 <= r.1 <= r.2 ->
  range_token acc (token r) = Ok (acc ++ seqZ r.1 (r.2 + 1 - r.1)).
Proof.
  intros [H1 H2]. unfold range_token, token.
  destruct (decide (r.1 = r.2)) as [Heq|Hne].
  - rewrite str_no_char by done. rewrite int_str by done. simpl.
    rewrite <- Heq. replace (r.1 + 1 - r.1) with 1 by lia. by rewrite seqZ_1.
  - rewrite mem_app. replace (PyStr.mem "-" ("-" +:+ PyStr.str r.2)) with true
      by reflexivity.
    rewrite orb_true_r.
    change ("-" +:+ PyStr.str r.2) with (String "-" (PyStr.str r.2)).
    rewrite split_app_sep by (apply str_no_char; [lia | done]).
    rewrite split_no_sep by (apply str_no_char; [lia | done]).
    simpl. rewrite !int_str by lia. simpl.
    destruct (r.1 <=? r.2) eqn:Hle; [done|]. apply Z.leb_gt in Hle. lia.
Qed.

Lemma split_concat toks :
  toks <> [] -> Forall (fun t => PyStr.mem "," t = false) toks ->
  PyStr.split "," (String.concat "," toks) = toks.
Proof.
  induction toks as [|t toks IH]; [done|]. intros _ Hall.
  inversion Hall as [|? ? Ht Hall']; subst.
  destruct toks as [|t' toks].
  - simpl. by apply split_no_sep.
  - change (String.concat "," (t :: t' :: toks))
      with (t +:+ String "," (String.concat "," (t' :: toks))).
    rewrite split_app_sep by done. f_equal. by apply IH.
Qed.

Lemma foldM_tokens rs : forall acc,
  Forall (fun r => 0 <= r.1 <= r.2) rs ->
  res_foldM range_token acc (token <$> rs) = Ok (acc ++ expand rs).
Proof.
  induction rs as [|r rs IH]; intros acc Hall.
  - simpl. unfold expand. simpl. by rewrite List.app_nil_r.
  - inversion Hall as [|? ? Hr Hall']; subst.
    cbn [fmap list_fmap res_foldM]. rewrite range_token_token by done.
    change (Ok (acc ++ seqZ r.1 (r.2 + 1 - r.1)) ≫= _)
      with (res_foldM range_token (acc ++ seqZ r.1 (r.2 + 1 - r.1)) (token <$> rs)).
    rewrite IH by done. unfold expand. cbn [fmap list_fmap mjoin list_join].
    by rewrite <- List.app_assoc.
Qed.

(** Parsing undoes printing, run by run. *)
Lemma range_to_list_concat rs :
  Forall (fun r => 0 <= r.1 <= r.2) rs ->
  range_to_list (String.concat "," (token <$> rs)) = Ok (expand rs).
Proof.
  intros Hall. unfold range_to_list. destruct rs as [|r rs]; [done|].
  assert (Hne : String.concat "," (token <$> r :: rs) <> "").
  { rewrite concat_flat. inversion Hall; subst.
    pose proof (token_nonempty r ltac:(lia)).
    destruct (token r); [done | discriminate]. }
  destruct (String.concat "," (token <$> r :: rs)) as [|x s] eqn:Hs; [done|].
  cbn [String.length Nat.eqb]. rewrite <- Hs.
  rewrite split_concat; [by apply (foldM_tokens (r :: rs) []) | done |].
  apply Forall_fmap. eapply Forall_impl; [exact Hall|].
  intros r' Hr'. simpl in *. apply token_no_comma; lia.
Qed.

Lemma runs_from_expand l : forall lo hi,
  lo <= hi -> expand (runs_from lo hi l) = seqZ lo (hi + 1 - lo) ++ l.
Proof.
  induction l as [|c l IH]; intros lo hi Hle; cbn [runs_from].
  - unfold expand. simpl. by rewrite !List.app_nil_r.
  - destruct (decide (c = hi + 1)) as [->|Hne].
    + rewrite IH by lia.
      replace (hi + 1 + 1 - lo) with (hi + 1 - lo + 1) by lia.
      rewrite <- seqZ_snoc by lia. rewrite <- List.app_assoc. simpl.
      do 2 f_equal. lia.
    + change (expand ((lo, hi) :: runs_from c c l))
        with (seqZ lo (hi + 1 - lo) ++ expand (runs_from c c l)).
      rewrite IH by lia. replace (c + 1 - c) with 1 by lia. by rewrite seqZ_1.
Qed.

Lemma runs_expand l : expand (runs l) = l.
Proof.
  destruct l as [|c l]; [done|]. unfold runs.
  rewrite runs_from_expand by lia. replace (c + 1 - c) with 1 by lia.
  by rewrite seqZ_1.
Qed.

Lemma runs_from_bounds l : forall lo hi,
  0 <= lo <= hi -> Forall (fun c => 0 <= c) l ->
  Forall (fun r => 0 <= r.1 <= r.2) (runs_from lo hi l).
Proof.
  induction l as [|c l IH]; intros lo hi Hle Hl; cbn [runs_from].
  - constructor; [simpl; lia | constructor].
  - inversion Hl; subst. destruct (decide (c = hi + 1)).
    + apply IH; [lia | done].
    + constructor; [simpl; lia|]. apply IH; [lia | done].
Qed.

Lemma runs_bounds l :
  Forall (fun c => 0 <= c) l -> Forall (fun r => 0 <= r.1 <= r.2) (runs l).
Proof.
  destruct l as [|c l]; [constructor|]. intros Hl. inversion Hl; subst.
  apply runs_from_bounds; [lia | done].
Qed.

Lemma runs_from_head l lo hi :
  exists hi' rest, runs_from lo hi l = (lo, hi') :: rest.
Proof.
  revert lo hi. induction l as [|c l IH]; intros lo hi; cbn [runs_from].
  - eauto.
  - destruct (decide (c = hi + 1)); [apply IH | eauto].
Qed.

Lemma runs_from_gapped l : forall lo hi,
  Sorted Z.lt (hi :: l) -> gapped (runs_from lo hi l).
Proof.
  induction l as [|c l IH]; intros lo hi Hs; cbn [runs_from].
  - done.
  - inversion Hs as [|? ? Hs' Hhd]; subst. inversion Hhd; subst.
    destruct (decide (c = hi + 1)).
    + by apply IH.
    + destruct (runs_from_head l c c) as (hi' & rest & Heq).
      specialize (IH c c Hs'). rewrite Heq in *. simpl. split; [lia | done].
Qed.

Lemma runs_gapped l : Sorted Z.lt l -> gapped (runs l).
Proof.
  destruct l as [|c l]; [done|]. apply runs_from_gapped.
Qed.

End range_parse_facts.

(** C2.  For every sorted, duplicate-free list [L] of non-negative
    integers, [list_to_range_notation L] returns the comma-joined tokens
    of the maximal consecutive runs of [L] (each run one integer or
    [low-high], consecutive runs separated by a gap), and [range_to_list] of
    that string returns [L]; [[]] and [""], and [[0,1,2,5,7,8,9]] and
    ["0-2,5,7-9"], are carried to each other. *)
Theorem range_notation_round_trip :
  (forall L : list Z,
      Sorted Z.lt L -> Forall (fun c => 0 <= c) L ->
      exists (s : string) (rs : list (Z * Z)),
        list_to_range_notation L = Ok s
        /\ range_to_list s = Ok L
        /\ s = String.concat "," (RangeNotation.token <$> rs)
        /\ RangeNotation.expand rs = L
        /\ Forall (fun r => r.1 <= r.2) rs
        /\ RangeNotation.gapped rs)
  /\ list_to_range_notation [] = Ok ""
  /\ range_to_list "" = Ok []
  /\ list_to_range_notation [0; 1; 2; 5; 7; 8; 9] = Ok "0-2,5,7-9"
  /\ range_to_list "0-2,5,7-9" = Ok [0; 1; 2; 5; 7; 8; 9].
Proof.
  split; [|by vm_compute].
  intros L Hsorted Hnonneg.
  exists (String.concat "," (RangeNotation.token <$> RangeNotation.runs L)),
         (RangeNotation.runs L).
  pose proof (runs_bounds L Hnonneg) as Hb.
  split; [|split; [|split; [done|split; [|split]]]].
  - rewrite list_to_range_notation_runs by done.
    by rewrite py_sort_sorted by by apply Sorted_lt_le.
  - rewrite range_to_list_concat by done. by rewrite runs_expand.
  - apply runs_expand.
  - eapply Forall_impl; [exact Hb|]. simpl. lia.
  - by apply runs_gapped.
Qed.

Lemma range_notation_round_trip_witness :
  exists (s : string) (rs : list (Z * Z)),
    list_to_range_notation [3; 4; 8] = Ok s
    /\ range_to_list s = Ok [3; 4; 8]
    /\ s = String.concat "," (RangeNotation.token <$> rs)
    /\ RangeNotation.expand rs = [3; 4; 8]
    /\ Forall (fun r => r.1 <= r.2) rs
    /\ RangeNotation.gapped rs.
Proof.
  apply (proj1 range_notation_round_trip [3; 4; 8]).
  - repeat constructor.
  - repeat constructor; lia.
Defined.

(** ** Bit masks *)

Section mask_facts.

Lemma land_1_testbit m : (Z.land m 1 =? 0) = negb (Z.testbit m 0).
Proof.
  rewrite Z.bit0_odd. change 1 with (Z.ones 1).
  rewrite Z.land_ones by lia. rewrite Z.pow_1_r.
  rewrite Zmod_odd. by destruct (Z.odd m).
Qed.

(** The loop of [mask_to_list] ends within its fuel, with the set bits
    of [mask], shifted by [cc], appended in increasing order. *)
Lemma mask_to_list_loop_spec fuel : forall mask cc acc,
  0 <= mask < 2 ^ Z.of_nat fuel -> 0 <= cc ->
  exists l,
    mask_to_list_loop fuel mask cc acc = Some (acc ++ l)
    /\ Sorted Z.lt l
    /\ forall i, i ∈ l <-> cc <= i /\ Z.testbit mask (i - cc) = true.
Proof.
  induction fuel as [|fuel IH]; intros mask cc acc Hm Hcc.
  - assert (mask = 0) as -> by (simpl in Hm; lia).
    exists []. simpl. rewrite List.app_nil_r. split; [done|]. split; [constructor|].
    intros i. rewrite Z.bits_0. split; [by intros ?%elem_of_nil | by intros [_ ?]].
  - cbn [mask_to_list_loop]. destruct (0 <? mask) eqn:Hpos.
    + apply Z.ltb_lt in Hpos.
      destruct (IH (Z.shiftr mask 1) (cc + 1)
                   (if Z.land mask 1 =? 0 then acc else acc ++ [cc]))
        as (l & Hl & Hsorted & Hmem); [|lia|].
      { rewrite Z.shiftr_div_pow2 by lia. rewrite Z.pow_1_r.
        rewrite Nat2Z.inj_succ, Z.pow_succ_r in Hm by lia.
        split; [apply Z.div_pos; lia | apply Z.div_lt_upper_bound; lia]. }
      assert (Hshift : forall i, cc + 1 <= i ->
                Z.testbit (Z.shiftr mask 1) (i - (cc + 1)) = Z.testbit mask (i - cc)).
      { intros i Hi. rewrite Z.shiftr_spec by lia. f_equal. lia. }
      rewrite land_1_testbit in *.
      destruct (Z.testbit mask 0) eqn:Hbit; cbn [negb] in *.
      * exists (cc :: l). rewrite Hl, <- List.app_assoc. split; [done|]. split.
        -- constructor; [done|]. destruct l as [|x l]; constructor.
           assert (cc + 1 <= x) by (apply (proj1 (Hmem x)); by left). lia.
        -- intros i. rewrite elem_of_cons, Hmem. split.
           ++ intros [->|[Hi Hb]].
              ** by rewrite Z.sub_diag.
              ** rewrite <- Hshift by done. split; [lia | done].
           ++ intros [Hi Hb]. destruct (decide (i = cc)) as [|Hne]; [by left|].
              right. rewrite Hshift by lia. split; [lia | done].
      * exists l. rewrite Hl. split; [done|]. split; [done|].
        intros i. rewrite Hmem. split.
        -- intros [Hi Hb]. rewrite <- Hshift by done. split; [lia | done].
        -- intros [Hi Hb]. destruct (decide (i = cc)) as [->|Hne].
           ++ rewrite Z.sub_diag in Hb. congruence.
           ++ rewrite Hshift by lia. split; [lia | done].
    + apply Z.ltb_ge in Hpos. assert (mask = 0) as -> by lia.
      exists []. rewrite List.app_nil_r. split; [done|]. split; [constructor|].
      intros i. rewrite Z.bits_0. split; [by intros ?%elem_of_nil | by intros [_ ?]].
Qed.

Lemma mask_to_list_spec mask :
  0 <= mask ->
  exists l,
    mask_to_list mask = Ok l
    /\ Sorted Z.lt l
    /\ forall i, i ∈ l <-> Z.testbit mask i = true.
Proof.
  intros Hm. unfold mask_to_list.
  destruct (0 <=? mask) eqn:Hle; [|apply Z.leb_gt in Hle; lia].
  destruct (mask_to_list_loop_spec (S (Z.to_nat (Z.log2 mask))) mask 0 [])
    as (l & Hl & Hsorted & Hmem); [|lia|].
  { split; [done|]. rewrite Nat2Z.inj_succ, Z2Nat.id by apply Z.log2_nonneg.
    destruct (decide (mask = 0)) as [->|]; [done|].
    apply Z.log2_spec. lia. }
  exists l. rewrite Hl. split; [done|]. split; [done|].
  intros i. rewrite Hmem, Z.sub_0_r. split; [by intros [_ ?]|].
  intros Hb. split; [|done].
  destruct (decide (0 <= i)); [done|]. rewrite Z.testbit_neg_r in Hb by lia. done.
Qed.

Lemma mask_to_list_neg mask : mask < 0 -> mask_to_list mask = Raise AssertionError.
Proof.
  intros Hm. unfold mask_to_list.
  destruct (0 <=? mask) eqn:Hle; [apply Z.leb_le in Hle; lia | done].
Qed.

Lemma testbit_one_shiftl c i :
  0 <= c -> Z.testbit (Z.shiftl 1 c) i = true <-> i = c.
Proof.
  intros Hc. destruct (decide (0 <= i)) as [Hi|Hi].
  - rewrite Z.shiftl_spec by done.
    destruct (decide (i = c)) as [->|Hne].
    + rewrite Z.sub_diag. done.
    + split; [|done]. intros Hb.
      destruct (decide (i < c)); [rewrite Z.testbit_neg_r in Hb by lia; done|].
      rewrite (Z.bits_above_log2 1 (i - c)) in Hb by (simpl; lia). done.
  - rewrite Z.testbit_neg_r by lia. split; [done | lia].
Qed.

(** The loop of [list_to_mask]: it returns exactly when no CPU id is
    negative, and then adds the bits of the list. *)
Lemma list_to_mask_loop_spec l : forall m0 m,
  res_foldM list_to_mask_step m0 l = Ok m ->
  Forall (fun c => 0 <= c) l
  /\ forall i, Z.testbit m i = true <-> Z.testbit m0 i = true \/ i ∈ l.
Proof.
  induction l as [|c l IH]; intros m0 m Hrun.
  - simpl in Hrun. injection Hrun as <-. split; [constructor|].
    intros i. rewrite elem_of_nil. tauto.
  - cbn [res_foldM] in Hrun.
    destruct (list_to_mask_step m0 c) as [m1|] eqn:Hstep; [|done].
    unfold list_to_mask_step in Hstep.
    destruct (c <? 0) eqn:Hc; [done|]. apply Z.ltb_ge in Hc.
    injection Hstep as <-. cbn [mbind res_bind] in Hrun.
    apply IH in Hrun as [Hall Hbits]. split; [by constructor|].
    intros i. rewrite Hbits, Z.lor_spec, orb_true_iff, testbit_one_shiftl by done.
    rewrite elem_of_cons. tauto.
Qed.

Lemma list_to_mask_loop_total l : forall m0,
  Forall (fun c => 0 <= c) l -> exists m, res_foldM list_to_mask_step m0 l = Ok m.
Proof.
  induction l as [|c l IH]; intros m0 Hl; [by eexists|].
  inversion Hl; subst. cbn [res_foldM].
  replace (list_to_mask_step m0 c) with (Ok (A:=Z) (Z.lor m0 (Z.shiftl 1 c))).
  - cbn [mbind res_bind]. by apply IH.
  - unfold list_to_mask_step.
    destruct (c <? 0) eqn:Hc; [apply Z.ltb_lt in Hc; lia | done].
Qed.

Lemma list_to_mask_spec l m :
  list_to_mask l = Ok m ->
  Forall (fun c => 0 <= c) l /\ forall i, Z.testbit m i = true <-> i ∈ l.
Proof.
  intros [Hall Hbits]%list_to_mask_loop_spec. split; [done|].
  intros i. rewrite Hbits, Z.bits_0. split; [by intros [?|?] | by right].
Qed.

End mask_facts.

(** ** What [range_to_list] can return *)

Section range_nonneg.

Lemma is_digit_range c d : PyStr.is_digit c = Some d -> 0 <= d < 10.
Proof.
  unfold PyStr.is_digit. destruct (_ && _) eqn:H; [|done]. intros [= <-].
  apply andb_true_iff in H as [H1%Z.leb_le H2%Z.leb_le]. lia.
Qed.

Lemma digit_of_nonneg base c d : PyStr.digit_of base c = Some d -> 0 <= d.
Proof.
  unfold PyStr.digit_of, PyStr.hex_digit. destruct (base =? 16).
  - destruct (PyStr.is_digit c) as [d'|] eqn:H.
    + intros [= <-]. apply is_digit_range in H. lia.
    + clear H. destruct c as [[] [] [] [] [] [] [] []]; intros; simplify_eq; lia.
  - intros H%is_digit_range. lia.
Qed.

Lemma parse_digits_nonneg base s : forall st acc z,
  0 <= base -> 0 <= acc ->
  PyStr.parse_digits base st acc s = Some z -> 0 <= z.
Proof.
  induction s as [|c s IH]; intros st acc z Hb Hacc; simpl.
  - destruct st; intros; simplify_eq; done.
  - destruct (PyStr.digit_of base c) as [d|] eqn:Hd.
    + apply digit_of_nonneg in Hd. apply IH; [done | nia].
    + destruct (Ascii.eqb c "_"); [|done].
      destruct st; try done; by apply IH.
Qed.

Lemma parse_unsigned_nonneg base s z :
  0 <= base -> PyStr.parse_unsigned base s = Some z -> 0 <= z.
Proof.
  intros Hb. unfold PyStr.parse_unsigned.
  assert (forall st s', PyStr.parse_digits base st 0 s' = Some z -> 0 <= z)
    as Hp by (intros st s'; apply parse_digits_nonneg; lia).
  destruct s as [|c s]; [apply Hp|].
  destruct c as [[] [] [] [] [] [] [] []]; try apply Hp.
  destruct s as [|x s]; [apply Hp|].
  destruct ((base =? 16) && _); apply Hp.
Qed.

Lemma mem_int_lstrip c s :
  PyStr.mem c (PyStr.int_lstrip s) = true -> PyStr.mem c s = true.
Proof.
  induction s as [|x s IH]; simpl; [done|].
  destruct (PyStr.is_int_space x); [|done].
  intros H%IH. rewrite H. apply orb_true_r.
Qed.

Lemma mem_int_rstrip c s :
  PyStr.mem c (PyStr.int_rstrip s) = true -> PyStr.mem c s = true.
Proof.
  induction s as [|x s IH]; simpl; [done|].
  destruct (PyStr.int_rstrip s) as [|y r] eqn:Hr.
  - destruct (PyStr.is_int_space x); [done|]. simpl. rewrite orb_false_r.
    intros ->. done.
  - intros H. simpl in H. apply orb_true_iff in H as [->|H]; [done|].
    rewrite IH; [apply orb_true_r | done].
Qed.

(** A string without a minus sign is never read as a negative integer. *)
Lemma int_nonneg s z :
  PyStr.mem "-" s = false -> PyStr.int s = Ok z -> 0 <= z.
Proof.
  intros Hmem. unfold PyStr.int, PyStr.int_base.
  assert (Hstrip : PyStr.mem "-" (PyStr.int_strip s) = false).
  { destruct (PyStr.mem "-" (PyStr.int_strip s)) eqn:H; [|done].
    unfold PyStr.int_strip in H. apply mem_int_rstrip, mem_int_lstrip in H.
    congruence. }
  assert (Hp : forall s', match PyStr.parse_unsigned 10 s' with
                          | Some z => Ok z | None => Raise ValueError end = Ok z
                          -> 0 <= z).
  { intros s'. destruct (PyStr.parse_unsigned 10 s') eqn:Hs'; [|done].
    intros [= ->]. eapply parse_unsigned_nonneg; [|done]. lia. }
  destruct (PyStr.int_strip s) as [|c s']; [apply Hp|].
  destruct c as [[] [] [] [] [] [] [] []]; try apply Hp.
  simpl in Hstrip. done.
Qed.

Lemma mapM_int_nonneg ws : forall zs,
  Forall (fun w => PyStr.mem "-" w = false) ws ->
  res_mapM PyStr.int ws = Ok zs -> Forall (fun z => 0 <= z) zs.
Proof.
  induction ws as [|w ws IH]; intros zs Hall; simpl.
  - intros [= <-]. constructor.
  - inversion Hall; subst.
    destruct (PyStr.int w) as [z|] eqn:Hz; [|done]. simpl.
    destruct (res_mapM PyStr.int ws) as [zs'|] eqn:Hzs; [|done]. simpl.
    intros [= <-]. constructor; [by eapply int_nonneg | by apply IH].
Qed.

Lemma range_token_nonneg acc token l :
  Forall (fun z => 0 <= z) acc ->
  range_token acc token = Ok l -> Forall (fun z => 0 <= z) l.
Proof.
  intros Hacc. unfold range_token.
  destruct (PyStr.mem "-" token) eqn:Hmem.
  - destruct (res_mapM PyStr.int (PyStr.split "-" token)) as [zs|] eqn:Hzs; [|done].
    apply mapM_int_nonneg in Hzs; [|apply split_pieces]. simpl.
    destruct zs as [|lo [|hi [|]]]; try done.
    destruct (lo <=? hi); [|done]. intros [= <-].
    apply Forall_app. split; [done|]. apply Forall_seqZ.
    inversion Hzs; subst. intros; lia.
  - destruct (PyStr.int token) as [v|] eqn:Hv; [|done]. simpl.
    intros [= <-]. apply Forall_app. split; [done|].
    constructor; [by eapply int_nonneg | constructor].
Qed.

Lemma range_to_list_nonneg s l :
  range_to_list s = Ok l -> Forall (fun z => 0 <= z) l.
Proof.
  unfold range_to_list. destruct (String.length s =? 0)%nat.
  { intros [= <-]. constructor. }
  assert (forall toks acc l, Forall (fun z => 0 <= z) acc ->
            res_foldM range_token acc toks = Ok l -> Forall (fun z => 0 <= z) l)
    as Hfold.
  { induction toks as [|t toks IH]; intros acc l' Hacc; simpl.
    - by intros [= <-].
    - destruct (range_token acc t) as [acc'|] eqn:Ht; [|done]. simpl.
      apply IH. by eapply range_token_nonneg. }
  apply Hfold. constructor.
Qed.

End range_nonneg.

(** ** Running the machine *)

Section machine_facts.
Context {S : Type}.

Lemma bind_run {A B} (m : M S A) (k : A -> M S B) s :
  (m ≫= k) s = match m s with
               | (Ok a, s') => k a s'
               | (Raise e, s') => (Raise e, s')
               end.
Proof. reflexivity. Qed.

Lemma bind_run_ok {A B} (m : M S A) (k : A -> M S B) s a s' :
  m s = (Ok a, s') -> (m ≫= k) s = k a s'.
Proof. intros H. by rewrite bind_run, H. Qed.

Lemma bind_run_raise {A B} (m : M S A) (k : A -> M S B) s e s' :
  m s = (Raise e, s') -> (m ≫= k) s = (Raise e, s').
Proof. intros H. by rewrite bind_run, H. Qed.

(** A successful bind ran both halves successfully. *)
Lemma bind_ok_inv {A B} (m : M S A) (k : A -> M S B) s b s2 :
  (m ≫= k) s = (Ok b, s2) ->
  exists a s1, m s = (Ok a, s1) /\ k a s1 = (Ok b, s2).
Proof.
  rewrite bind_run. destruct (m s) as [[a|e] s1]; [eauto | done].
Qed.

End machine_facts.

Lemma Sorted_lt_NoDup (l : list Z) : Sorted Z.lt l -> NoDup l.
Proof.
  intros Hs. apply Sorted_StronglySorted in Hs; [|apply _].
  induction Hs as [|x l Hl IH Hx]; constructor; [|done].
  intros Hin. rewrite Forall_forall in Hx. specialize (Hx _ Hin). lia.
Qed.

(** ** [CPUSpec] *)

Section cpuspec_facts.
Context {W : Type}.

(** [__init__], once the debug record is written. *)
Lemma cpuspec_init_run name str_spec cpu_list mem_list mask nib (s : sys W) :
  CPUSpec.__init__ name str_spec cpu_list mem_list mask nib s
  = let s1 := Sys (world s) (trace s ++ [EvLog DEBUG "CPUSpec::__init__"]) in
    if CPUSpec.is_None str_spec + CPUSpec.is_None cpu_list + CPUSpec.is_None mask =? 2
    then
      match (match str_spec with
             | Some x => range_to_list x
             | None => match mask with
                       | Some m => mask_to_list m
                       | None => match cpu_list with
                                 | Some l => Ok l
                                 | None => Raise AssertionError
                                 end
                       end
             end) with
      | Ok src =>
          match list_to_mask (py_sort src) with
          | Ok m => (Ok (CPUSpec.Make name (py_sort src) m mem_list nib), s1)
          | Raise e => (Raise e, s1)
          end
      | Raise e => (Raise e, s1)
      end
    else (Raise AssertionError, s1).
Proof.
  unfold CPUSpec.__init__. rewrite bind_run. cbn [log emit modify].
  cbv zeta.
  destruct (_ =? 2); rewrite bind_run; cbn [py_assert mret M_ret raise]; [|done].
  rewrite bind_run.
  destruct str_spec as [x|]; [|destruct mask as [m|]; [|destruct cpu_list as [l|]]];
    cbn [lift_res mret M_ret raise]; done.
Qed.

(** What a constructed [CPUSpec] holds, given the list its source
    stands for. *)
Lemma cpuspec_of_source (src : list Z) :
  Forall (fun c => 0 <= c) src ->
  exists m,
    list_to_mask (py_sort src) = Ok m
    /\ forall i, Z.testbit m i = true <-> i ∈ py_sort src.
Proof.
  intros Hsrc.
  destruct (list_to_mask_loop_total (py_sort src) 0) as [m Hm];
    [by apply py_sort_Forall|].
  exists m. split; [done|]. by apply list_to_mask_spec.
Qed.


Lemma mask_round_trip (m m' : Z) (l : list Z) :
  0 <= m ->
  (forall i, i ∈ l <-> Z.testbit m i = true) ->
  (forall i, Z.testbit m' i = true <-> i ∈ py_sort l) ->
  m' = m.
Proof.
  intros Hm Hl Hm'. apply Z.bits_inj'. intros i _.
  assert (Z.testbit m' i = true <-> Z.testbit m i = true) as Hiff.
  { rewrite Hm', <- Hl. apply elem_of_Permutation_proper, py_sort_perm. }
  destruct (Z.testbit m' i), (Z.testbit m i); try done.
  - by apply proj1 in Hiff; specialize (Hiff eq_refl).
  - by apply proj2 in Hiff; specialize (Hiff eq_refl).
Qed.

End cpuspec_facts.

(** C5 (amended).  A [CPUSpec] is constructed from exactly one of
    {range string, explicit list, bit mask}: with none or several given,
    construction raises.  A constructed spec holds the source's CPU list
    sorted in ascending order and the mask whose bit [i] is set iff CPU
    [i] is in the list.  The list is a permutation of the source's list:
    repeated CPUs of a list or of overlapping range tokens are kept, so
    it is duplicate-free exactly when the source names no CPU twice, as
    is always the case for a mask (whose value is then the stored mask).
    Every list of non-negative ids, every non-negative mask and every
    range string that parses is accepted. *)
Theorem cpuspec_init_normalizes {W : Type}
    (name : string) (str_spec : option string) (cpu_list : option (list Z))
    (mem_list : option (list Z)) (mask : option Z) (nib : bool) (s : sys W) :
  let r := (CPUSpec.__init__ name str_spec cpu_list mem_list mask nib s).1 in
  (CPUSpec.is_None str_spec + CPUSpec.is_None cpu_list + CPUSpec.is_None mask <> 2 ->
   r = Raise AssertionError)
  /\ (forall c, r = Ok c ->
        Sorted Z.le (CPUSpec.cpu_list c)
        /\ (forall i, Z.testbit (CPUSpec.mask c) i = true <-> i ∈ CPUSpec.cpu_list c)
        /\ (forall l, cpu_list = Some l ->
              CPUSpec.cpu_list c = py_sort l
              /\ CPUSpec.cpu_list c ≡ₚ l
              /\ (NoDup (CPUSpec.cpu_list c) <-> NoDup l))
        /\ (forall x, str_spec = Some x ->
              exists l, range_to_list x = Ok l
                        /\ CPUSpec.cpu_list c = py_sort l
                        /\ CPUSpec.cpu_list c ≡ₚ l
                        /\ (NoDup (CPUSpec.cpu_list c) <-> NoDup l))
        /\ (forall m, mask = Some m ->
              0 <= m /\ CPUSpec.mask c = m
              /\ Sorted Z.lt (CPUSpec.cpu_list c) /\ NoDup (CPUSpec.cpu_list c)))
  /\ (forall l, str_spec = None -> mask = None -> cpu_list = Some l ->
        Forall (fun c => 0 <= c) l -> exists c, r = Ok c)
  /\ (forall m, str_spec = None -> cpu_list = None -> mask = Some m ->
        0 <= m -> exists c, r = Ok c)
  /\ (forall x l, cpu_list = None -> mask = None -> str_spec = Some x ->
        range_to_list x = Ok l -> exists c, r = Ok c).
Proof.
  intros r. subst r. rewrite cpuspec_init_run. cbv zeta.
  assert (Hperm : forall l, (NoDup (py_sort l) <-> NoDup l)).
  { intros l. by rewrite py_sort_perm. }
  split; [|split; [|split; [|split]]].
  - intros Hcount. destruct (_ =? 2) eqn:Heq; [apply Z.eqb_eq in Heq; lia | done].
  - intros c. destruct (_ =? 2) eqn:Hcount; [|done]. apply Z.eqb_eq in Hcount.
    destruct str_spec as [x|]; [|destruct mask as [m|]; [|destruct cpu_list as [l|]]];
      try done.
    + destruct cpu_list, mask; simpl in Hcount; try lia.
      destruct (range_to_list x) as [src|] eqn:Hsrc; [|done].
      destruct (list_to_mask (py_sort src)) as [m|] eqn:Hm; [|done].
      intros [= <-]. apply list_to_mask_spec in Hm as [_ Hbits]. simpl.
      split; [apply py_sort_is_sorted|]. split; [done|].
      split; [done|]. split; [|done].
      intros ? [= <-]. exists src.
      split; [done|]. split; [done|]. split; [apply py_sort_perm | apply Hperm].
    + destruct cpu_list; simpl in Hcount; try lia.
      destruct (mask_to_list m) as [src|] eqn:Hsrc; [|done].
      destruct (list_to_mask (py_sort src)) as [m'|] eqn:Hm; [|done].
      intros [= <-]. apply list_to_mask_spec in Hm as [_ Hbits]. simpl.
      split; [apply py_sort_is_sorted|]. split; [done|].
      split; [done|]. split; [done|].
      intros ? [= <-].
      destruct (decide (0 <= m)) as [Hpos|Hneg];
        [|rewrite mask_to_list_neg in Hsrc by lia; done].
      destruct (mask_to_list_spec m Hpos) as (l & Hl & Hsorted & Hmem).
      rewrite Hl in Hsrc. injection Hsrc as <-.
      rewrite (py_sort_sorted l) in * by by apply Sorted_lt_le.
      split; [done|]. split; [|split; [done | by apply Sorted_lt_NoDup]].
      eapply mask_round_trip; [done | exact Hmem |].
      by rewrite py_sort_sorted by by apply Sorted_lt_le.
    + destruct (list_to_mask (py_sort l)) as [m|] eqn:Hm; [|done].
      intros [= <-]. apply list_to_mask_spec in Hm as [_ Hbits]. simpl.
      split; [apply py_sort_is_sorted|]. split; [done|].
      split; [|done]. intros ? [= <-].
      split; [done|]. split; [apply py_sort_perm | apply Hperm].
  - intros l -> -> -> Hl. simpl.
    destruct (cpuspec_of_source l Hl) as (m & -> & _). eauto.
  - intros m -> -> -> Hm. simpl.
    destruct (mask_to_list_spec m Hm) as (l & -> & Hsorted & Hmem).
    destruct (cpuspec_of_source l) as (m' & -> & _); [|eauto].
    apply Forall_forall. intros i Hi%Hmem.
    destruct (decide (0 <= i)); [done|]. by rewrite Z.testbit_neg_r in Hi by lia.
  - intros x l -> -> -> Hx. simpl. rewrite Hx.
    destruct (cpuspec_of_source l) as (m' & -> & _); [|eauto].
    by eapply range_to_list_nonneg.
Qed.

Lemma cpuspec_init_normalizes_witness :
  exists c,
    (CPUSpec.__init__
       "isolated" None (Some [3; 1; 2]) None None false Scripted.start).1 = Ok c.
Proof.
  apply (proj1 (proj2 (proj2 (cpuspec_init_normalizes
           "isolated" None (Some [3; 1; 2]) None None false Scripted.start)))
           [3; 1; 2]); try reflexivity.
  repeat constructor; lia.
Defined.

(** C5, as stated, fails: duplicates of a list input, and of overlapping
    range tokens, stay in [cpu_list]. *)
Lemma cpuspec_init_keeps_duplicates :
  (exists c,
     (CPUSpec.__init__
        "isolated" None (Some [2; 1; 1]) None None false Scripted.start).1 = Ok c
     /\ CPUSpec.cpu_list c = [1; 1; 2]
     /\ ~ NoDup (CPUSpec.cpu_list c))
  /\ (exists c,
        (CPUSpec.__init__
           "isolated" (Some "0-2,1-3"%string) None None None false Scripted.start).1 = Ok c
        /\ CPUSpec.cpu_list c = [0; 1; 1; 2; 2; 3]
        /\ ~ NoDup (CPUSpec.cpu_list c)).
Proof.
  split.
  - eexists. split; [vm_compute; reflexivity|]. split; [reflexivity|].
    simpl. intros Hnd. inversion Hnd as [|? ? Hnot _]; subst.
    apply Hnot. by left.
  - eexists. split; [vm_compute; reflexivity|]. split; [reflexivity|].
    simpl. intros Hnd. inversion Hnd as [|? ? _ Hnd']; subst.
    inversion Hnd' as [|? ? Hnot _]; subst. apply Hnot. by left.
Qed.

(** ** Properties kept by a computation *)

Section keeps_facts.
Context {S : Type} (I : S -> Prop).

Lemma keeps_bind {A B} (m : M S A) (k : A -> M S B) :
  keeps I m -> (forall a, keeps I (k a)) -> keeps I (m ≫= k).
Proof.
  intros Hm Hk s Hs. rewrite bind_run. specialize (Hm s Hs).
  destruct (m s) as [[a|e] s1]; simpl in *; [by apply Hk | done].
Qed.

Lemma keeps_ret {A} (a : A) : keeps I (mret a).
Proof. by intros s Hs. Qed.

Lemma keeps_raise {A} e : keeps I (raise (A := A) e).
Proof. by intros s Hs. Qed.

Lemma keeps_lift_res {A} (r : Res A) : keeps I (lift_res r).
Proof. by intros s Hs. Qed.

Lemma keeps_get_state : keeps I get_state.
Proof. by intros s Hs. Qed.

Lemma keeps_assert b : keeps I (py_assert b).
Proof. by destruct b; intros s Hs. Qed.

Lemma keeps_modify f : (forall s, I s -> I (f s)) -> keeps I (modify f).
Proof. intros Hf s Hs. by apply Hf. Qed.

Lemma keeps_try_except {A} (m : M S A) sel h :
  keeps I m -> (forall e, keeps I (h e)) -> keeps I (try_except m sel h).
Proof.
  intros Hm Hh s Hs. unfold try_except. specialize (Hm s Hs).
  destruct (m s) as [[a|e] s1]; simpl in *; [done|].
  destruct (sel e); [by apply Hh | done].
Qed.

Lemma keeps_for_each {A} (l : list A) body :
  (forall x, keeps I (body x)) -> keeps I (for_each l body).
Proof.
  intros Hb. induction l as [|x l IH]; simpl; [apply keeps_ret|].
  apply keeps_bind; [apply Hb | by intros _].
Qed.

End keeps_facts.

Section keeps_object.
Context {T W : Type} (P : T -> Prop).

Lemma keeps_on_sys {A} (m : M (sys W) A) :
  keeps (on_obj (W := W) P) (on_sys m).
Proof.
  intros [t s] Ht. unfold on_sys, zoom. simpl. by destruct (m s).
Qed.

Lemma keeps_get_self : keeps (on_obj (W := W) P) get_self.
Proof. by intros s Hs. Qed.

Lemma keeps_set_self f :
  (forall t, P t -> P (f t)) -> keeps (on_obj (W := W) P) (set_self f).
Proof. intros Hf [t s] Ht. by apply Hf. Qed.

End keeps_object.

(** Walks through a computation, leaving the setters to the caller. *)
Ltac keeps_step :=
  lazymatch goal with
  | |- keeps _ (_ ≫= _) => apply keeps_bind; [|intros ?]
  | |- keeps _ (mret _) => apply keeps_ret
  | |- keeps _ (raise _) => apply keeps_raise
  | |- keeps _ (lift_res _) => apply keeps_lift_res
  | |- keeps _ (py_assert _) => apply keeps_assert
  | |- keeps _ (on_sys _) => apply keeps_on_sys
  | |- keeps _ get_self => apply keeps_get_self
  | |- keeps _ get_state => apply keeps_get_state
  | |- keeps _ (try_except _ _ _) => apply keeps_try_except; [|intros ?]
  | |- keeps _ (for_each _ _) => apply keeps_for_each; intros ?
  | |- keeps _ (if ?b then _ else _) => destruct b
  | |- keeps _ (match ?x with _ => _ end) => destruct x
  end.

Ltac keeps_walk := repeat keeps_step.

(** ** [IRQ] methods *)

Section irq_facts.
Context {W : Type} {Hos : OS W} {pf : Platform}.

Ltac irq_unfold :=
  progress unfold IRQ.update_counts, IRQ.refresh_contents, IRQ.procfs_read,
    IRQ.procfs_write, IRQ.__repr__, IRQ.register_pci_device,
    IRQ.register_kthread, IRQ.get_pin_to_cpu, IRQ.set_pin_to_cpu,
    IRQ.set_pin_to_cpu_body, IRQ.numa_effective, IRQ.write_and_verify.

Ltac irq_keeps HP :=
  repeat (keeps_step || irq_unfold);
  try (apply keeps_set_self; intros x Hx;
       destruct HP as (H1 & H2 & H3 & H4 & H5); eauto; fail).

Lemma refresh_contents_keeps P :
  irq_stable P ->
  keeps (on_obj (W := W) P) IRQ.refresh_contents.
Proof. intros HP. irq_keeps HP. Qed.

Lemma repr_keeps P :
  irq_stable P -> keeps (on_obj (W := W) P) IRQ.__repr__.
Proof. intros HP. irq_keeps HP. Qed.

Lemma get_pin_to_cpu_keeps P :
  irq_stable P -> keeps (on_obj (W := W) P) IRQ.get_pin_to_cpu.
Proof. intros HP. irq_keeps HP. Qed.

Lemma no_baseline_stable id : irq_stable (no_baseline id).
Proof.
  unfold no_baseline. repeat split; intros; destruct x; simpl in *; tauto.
Qed.

Lemma init_no_baseline id s0 self s1 :
  IRQ.__init__ id s0 = (Ok self, s1) -> no_baseline id self.
Proof.
  unfold IRQ.__init__.
  pose proof (keeps_bind (on_obj (W := W) (no_baseline id))
                (on_sys (log DEBUG "IRQ::__init__")) (fun _ => IRQ.refresh_contents)
                (keeps_on_sys _ _)
                (fun _ => refresh_contents_keeps _ (no_baseline_stable id))
                (IRQ.fresh id, s0)) as Hk.
  destruct ((on_sys (log DEBUG "IRQ::__init__") ≫= λ _, IRQ.refresh_contents)
              (IRQ.fresh id, s0)) as [r [self' s']].
  destruct r; [|done]. intros [= <- <-]. apply Hk. by repeat split.
Qed.

(** [update_counts], run. *)
Lemma update_counts_run time_now counts (self : IRQ.t) (s : sys W) :
  IRQ.update_counts time_now counts (self, s)
  = let s1 := Sys (world s) (trace s ++ [EvLog DEBUG "IRQ::update_counts()"]) in
    if (np_len counts =? CPU_COUNT)%nat then
      match delta ← np_sub counts (IRQ._counts self) ;
            np_div delta (f64_sub time_now (IRQ._counts_time self)) with
      | Ok hz => (Ok tt, (IRQ.set_counts counts time_now hz self, s1))
      | Raise e => (Raise e, (self, s1))
      end
    else (Raise AssertionError, (self, s1)).
Proof.
  unfold IRQ.update_counts. rewrite bind_run. cbv zeta.
  cbn [on_sys zoom log emit modify snd fst].
  destruct (np_len counts =? CPU_COUNT)%nat; [|done].
  rewrite bind_run. cbn [py_assert mret M_ret].
  rewrite bind_run. cbn [get_self fst].
  rewrite bind_run. cbn [lift_res].
  destruct (np_sub counts (IRQ._counts self)) as [delta|e]; [|done].
  cbn [mbind res_bind]. rewrite bind_run. cbn [lift_res].
  destruct (np_div delta _) as [hz|e]; [|done].
  by destruct self.
Qed.

Lemma update_counts_id time_now counts (st : IRQ.t * sys W) :
  IRQ.id (IRQ.update_counts time_now counts st).2.1 = IRQ.id st.1.
Proof.
  destruct st as [self s]. rewrite update_counts_run. cbv zeta.
  destruct (_ =? _)%nat; [|done].
  destruct (_ ≫= _); [|done]. by destruct self.
Qed.

End irq_facts.

(** ** The sampler *)

Section sampler_facts.
Context {W : Type} {Hos : OS W} {pf : Platform}.

Lemma on_irq_run {A} a (m : M (IRQ.t * sys W) A) (os : objs) (s : sys W) :
  on_irq a m (os, s)
  = ((m (irq_store os a, s)).1,
     (Objs (upd a (m (irq_store os a, s)).2.1 (irq_store os)) (kthread_store os),
      (m (irq_store os a, s)).2.2)).
Proof. unfold on_irq, zoom. simpl. by destruct (m _) as [r [i' s']]. Qed.

Lemma on_kthread_run {A} a (m : M (KThread.t * sys W) A) (os : objs) (s : sys W) :
  on_kthread a m (os, s)
  = ((m (kthread_store os a, s)).1,
     (Objs (irq_store os) (upd a (m (kthread_store os a, s)).2.1 (kthread_store os)),
      (m (kthread_store os a, s)).2.2)).
Proof. unfold on_kthread, zoom. simpl. by destruct (m _) as [r [i' s']]. Qed.

Lemma upd_eq {A} a (v : A) h : upd a v h a = v.
Proof. unfold upd. by rewrite decide_True. Qed.

Lemma upd_ne {A} a b (v : A) h : b <> a -> upd a v h b = h b.
Proof. intros. unfold upd. by rewrite decide_False. Qed.

Lemma tracked_frame_refl data l os : tracked_frame data l os os.
Proof. by repeat split. Qed.

Lemma track_one_frame t data irq os (s : sys W) :
  tracked_frame data [irq] os (track_one t data irq (os, s)).2.1.
Proof.
  unfold track_one. rewrite bind_run. cbn [the_irq fst].
  destruct (data !! PyStr.str (IRQ.id (irq_store os irq))) as [row|] eqn:Hrow.
  - rewrite on_irq_run. unfold tracked_frame.
    cbn [fst snd irq_store kthread_store].
    split; [done|]. split.
    + intros a. destruct (decide (a = irq)) as [->|Hne].
      * rewrite upd_eq. apply update_counts_id.
      * by rewrite upd_ne.
    + intros a [Ha|Ha].
      * rewrite upd_ne; [done|]. intros ->. apply Ha. by left.
      * destruct (decide (a = irq)) as [->|Hne]; [congruence|]. by rewrite upd_ne.
  - apply tracked_frame_refl.
Qed.

Lemma tracked_frame_step data irq l os os1 os' :
  tracked_frame data [irq] os os1 -> tracked_frame data l os1 os' ->
  tracked_frame data (irq :: l) os os'.
Proof.
  intros (Hk1 & Hid1 & Hf1) (Hk2 & Hid2 & Hf2). split; [congruence|]. split.
  - intros a. by rewrite Hid2, Hid1.
  - intros a Ha.
    assert (irq_store os1 a = irq_store os a) as H1.
    { apply Hf1. destruct Ha as [Ha|Ha]; [left | by right].
      intros ->%list_elem_of_singleton. apply Ha. by left. }
    rewrite <- H1. apply Hf2. destruct Ha as [Ha|Ha].
    + left. intros Hin. apply Ha. by right.
    + right. by rewrite Hid1.
Qed.

Lemma update_tracked_cons t data irq l (st : objs * sys W) :
  update_tracked t data (irq :: l) st
  = match track_one t data irq st with
    | (Ok _, st1) => update_tracked t data l st1
    | (Raise e, st1) => (Raise e, st1)
    end.
Proof. reflexivity. Qed.

Lemma update_tracked_frame t data l : forall os (s : sys W),
  tracked_frame data l os (update_tracked t data l (os, s)).2.1.
Proof.
  induction l as [|irq l IH]; intros os s; [apply tracked_frame_refl|].
  rewrite update_tracked_cons.
  pose proof (track_one_frame t data irq os s) as H1.
  destruct (track_one t data irq (os, s)) as [[[]|e] [os1 s1]]; simpl in H1.
  - eapply tracked_frame_step; [exact H1 | apply IH].
  - simpl. eapply tracked_frame_step; [exact H1 | apply tracked_frame_refl].
Qed.

(** The pass reads the table only at the names of the tracked IRQs. *)
Lemma update_tracked_agree t data1 data2 l : forall os (s : sys W),
  (forall a, a ∈ l ->
     data1 !! PyStr.str (IRQ.id (irq_store os a))
     = data2 !! PyStr.str (IRQ.id (irq_store os a))) ->
  update_tracked t data1 l (os, s) = update_tracked t data2 l (os, s).
Proof.
  induction l as [|irq l IH]; intros os s Hagree; [done|].
  rewrite !update_tracked_cons.
  assert (track_one t data1 irq (os, s) = track_one t data2 irq (os, s)) as Heq.
  { unfold track_one. rewrite !bind_run. cbn [the_irq fst].
    rewrite Hagree by by left. done. }
  rewrite <- Heq.
  pose proof (track_one_frame t data1 irq os s) as (_ & Hid & _).
  destruct (track_one t data1 irq (os, s)) as [[[]|e] [os1 s1]]; [|done].
  apply IH. intros a Ha. simpl in Hid. rewrite !Hid. apply Hagree. by right.
Qed.

Lemma py_index_0 {A} (l : list A) x : py_index l 0 = Ok x -> head l = Some x.
Proof.
  unfold py_index. simpl. destruct l as [|y l]; simpl; [done|].
  destruct (0 <? Z.pos (Pos.of_succ_nat (length l))); simpl; congruence.
Qed.

(** Every parsed row is filed under its row name. *)
Lemma parse_interrupt_line_insert cpu_names data line data' :
  parse_interrupt_line cpu_names data line = Ok data' ->
  exists one, data' = <[row_name cpu_names line := one]> data.
Proof.
  unfold parse_interrupt_line, row_name.
  destruct (py_index _ 0) as [first|] eqn:Hfirst; [|done].
  apply py_index_0 in Hfirst. rewrite Hfirst. cbn [mbind res_bind default].
  match goal with |- context [if ?b then _ else _] => destruct b end.
  - destruct (py_index _ (-1)); [|done]. cbn [mbind res_bind].
    destruct (res_mapM _ _); [|done]. cbn [mbind res_bind].
    intros [= <-]. eauto.
  - destruct (res_mapM _ _); [|done]. cbn [mbind res_bind].
    intros [= <-]. eauto.
Qed.

Lemma parse_table_names cpu_names lines : forall data data',
  res_foldM (parse_interrupt_line cpu_names) data lines = Ok data' ->
  forall k, data' !! k = None
            <-> data !! k = None /\ k ∉ row_name cpu_names <$> lines.
Proof.
  induction lines as [|line lines IH]; intros data data' Hrun k.
  - simpl in Hrun. injection Hrun as <-. rewrite elem_of_nil. tauto.
  - cbn [res_foldM] in Hrun.
    destruct (parse_interrupt_line cpu_names data line) as [data1|] eqn:Hline;
      [|done].
    cbn [mbind res_bind] in Hrun.
    apply parse_interrupt_line_insert in Hline as [one ->].
    rewrite (IH _ _ Hrun k), fmap_cons, not_elem_of_cons, lookup_insert_None.
    intuition congruence.
Qed.

(** The table [take_snapshot] returns holds exactly the row names of the
    lines the kernel gave. *)
Lemma take_snapshot_names (s : sys W) t data s' :
  take_snapshot s = (Ok (t, data), s') ->
  exists w1 raw w2,
    os_time (world s) = (t, w1)
    /\ os_readlines "/proc/interrupts" w1 = (Ok raw, w2)
    /\ forall k, data !! k = None <-> k ∉ row_names (PyStr.rstrip <$> raw).
Proof.
  unfold take_snapshot. rewrite bind_run.
  unfold time_time at 1. unfold os_call at 1.
  destruct (os_time (world s)) as [t0 w1] eqn:Htime.
  rewrite bind_run. unfold procfs_read at 1. rewrite bind_run.
  unfold os_call at 1. cbn [world trace].
  destruct (os_readlines "/proc/interrupts" w1) as [[raw|e] w2] eqn:Hread; [|done].
  cbn [mret M_ret]. rewrite bind_run. cbn [log emit modify].
  rewrite bind_run. unfold read_interrupt_table. rewrite bind_run.
  unfold try_except. rewrite bind_run. cbn [lift_res].
  destruct (py_index (PyStr.rstrip <$> raw) 0) as [line0|] eqn:Hline0;
    [|by cbn [log emit modify raise mbind M_bind]].
  cbn [mret M_ret].
  match goal with |- context [if ?b then _ else _] => destruct b end; [done|].
  rewrite bind_run. cbn [lift_res].
  destruct (res_foldM _ ∅ _) as [data0|] eqn:Hparse; [|done].
  destruct (size data0 <? 1)%nat; [done|]. cbn [mret M_ret].
  intros [= <- <- <-]. exists w1, raw, w2. split; [done|]. split; [done|].
  intros k. rewrite (parse_table_names _ _ _ _ Hparse k), lookup_empty.
  unfold row_names. apply py_index_0 in Hline0. rewrite Hline0. simpl. tauto.
Qed.

Lemma update_from_proc_interrupts_run irq_list (os : objs) (s : sys W) :
  update_from_proc_interrupts irq_list (os, s)
  = match take_snapshot s with
    | (Ok (t, data), s1) => update_tracked t data irq_list (os, s1)
    | (Raise e, s1) => (Raise e, (os, s1))
    end.
Proof.
  unfold update_from_proc_interrupts. rewrite bind_run.
  unfold on_sys, zoom. cbn [fst snd].
  destruct (take_snapshot s) as [[[t data]|e] s1]; [|done].
  reflexivity.
Qed.

End sampler_facts.

Section first_sample.
Context {W : Type} {Hos : OS W} {pf : Platform}.

Lemma zip_with_replicate_r {A B C} (f : A -> B -> C) (l : list A) (y : B) :
  zip_with f l (replicate (length l) y) = (fun x => f x y) <$> l.
Proof. induction l as [|x l IH]; simpl; [done | by rewrite IH]. Qed.

Lemma wrap64_int64 z : int64 z -> wrap64 z = z.
Proof.
  unfold int64, wrap64. intros Hz. rewrite Z.mod_small by lia. lia.
Qed.

Lemma fits_int64_spec z : fits_int64 z = true <-> int64 z.
Proof. unfold fits_int64, int64. lia. Qed.

(** Subtracting [0.0] changes no [float64]. *)
Lemma f64_sub_zero (x : float) : f64_sub x f64_zero = x.
Proof. by destruct x as [[]| | |]. Qed.

Lemma broadcast_replicate {A B C} (f : A -> B -> C) (l : list A) (y : B) :
  broadcast f l (replicate (length l) y) = Ok ((fun x => f x y) <$> l).
Proof.
  unfold broadcast. by rewrite length_replicate, Nat.eqb_refl, zip_with_replicate_r.
Qed.

Lemma res_mapM_id_ok {A} (l : list A) : res_mapM id (Ok <$> l) = Ok l.
Proof. induction l as [|x l IH]; [done|]. cbn. by rewrite IH. Qed.

(** Dividing an [object] array of Python [int]s: when no element raises,
    the quotients are those of [float64]. *)
Lemma truediv_ints t (l : list Z) l' :
  res_mapM (fun x => py_truediv x t) (PyInt <$> l) = Ok l' ->
  l' = PyFloat <$> first_rates t l.
Proof.
  revert l'. induction l as [|c l IH]; intros l'; cbn [fmap list_fmap res_mapM].
  - by intros [= <-].
  - destruct (py_truediv (PyInt c) t) as [y|e] eqn:Hy; [|done].
    cbn [mbind res_bind].
    destruct (res_mapM _ _) as [l1|e] eqn:Hl; [|done].
    cbn [mbind res_bind]. intros [= <-]. rewrite (IH l1 eq_refl).
    unfold first_rates. cbn [fmap list_fmap]. f_equal.
    unfold py_truediv, py_float_of_int in Hy.
    destruct (f64_of_Z c) as [s| [] | |s m e] eqn:Hc; cbn [mbind res_bind] in Hy;
      try done; destruct t as [[]| | |]; first [done | by injection Hy as <-].
Qed.

Lemma np_asarray_nonempty l :
  l <> [] ->
  np_asarray l
  = if forallb fits_int64 l then Int64Array l
    else if forallb (fun z => fits_uint64 z && negb (fits_int64 z)) l
    then Uint64Array l
    else if forallb (fun z => fits_int64 z || fits_uint64 z) l
    then Float64Array (f64_of_Z <$> l)
    else ObjectArray (PyInt <$> l).
Proof. by destruct l. Qed.

(** The difference of a sample and the constructor's zero counts, then
    its quotient by the time. *)
Lemma first_sample_quotient t (l : list Z) :
  let r := delta ← np_sub (np_asarray l) (np_zeros_int64 (length l)) ;
           np_div delta t in
  (forall hz, r = Ok hz ->
     hz = Float64Array (first_rates t l)
     \/ hz = ObjectArray (PyFloat <$> first_rates t l))
  /\ (Forall (fun c => - 2 ^ 63 <= c < 2 ^ 64) l ->
      r = Ok (Float64Array (first_rates t l))).
Proof.
  assert (Hfloat : forall fs : list float,
            fs = f64_of_Z <$> l ->
            (l0 ← broadcast f64_sub fs (f64_of_Z <$> replicate (length l) 0) ;
             Ok (Float64Array l0)) ≫= (fun delta => np_div delta t)
            = Ok (Float64Array (first_rates t l))).
  { intros fs ->. rewrite fmap_replicate.
    replace (length l) with (length (f64_of_Z <$> l)) by apply length_fmap.
    rewrite broadcast_replicate. cbn [mbind res_bind np_div].
    rewrite <- !list_fmap_compose. unfold first_rates. do 2 f_equal.
    apply list_fmap_ext. intros i c _. cbn.
    change (f64_of_Z 0) with f64_zero. by rewrite f64_sub_zero. }
  cbv zeta. unfold np_zeros_int64.
  destruct (decide (l = [])) as [->|Hne].
  { cbn. split; [intros hz [= <-]; by left | done]. }
  rewrite np_asarray_nonempty by done.
  destruct (forallb fits_int64 l) eqn:Hi.
  - (* int64 *)
    assert (Hd : (delta ← np_sub (Int64Array l) (Int64Array (replicate (length l) 0)) ;
                  np_div delta t) = Ok (Float64Array (first_rates t l))).
    { cbn [np_sub]. rewrite broadcast_replicate. cbn [mbind res_bind np_div].
      rewrite <- list_fmap_compose. unfold first_rates. do 2 f_equal.
      apply list_fmap_ext. intros i c Hc. cbn.
      rewrite Z.sub_0_r, wrap64_int64; [done|].
      apply fits_int64_spec. rewrite forallb_forall in Hi. apply Hi.
      apply list_elem_of_In. by eapply list_elem_of_lookup_2. }
    rewrite Hd. split; [intros hz [= <-]; by left | done].
  - destruct (forallb (fun z => fits_uint64 z && negb (fits_int64 z)) l) eqn:Hu.
    + (* uint64 *)
      assert (Hd : (delta ← np_sub (Uint64Array l) (Int64Array (replicate (length l) 0)) ;
                    np_div delta t) = Ok (Float64Array (first_rates t l))).
      { cbn [np_sub as_float64]. by apply Hfloat. }
      rewrite Hd. split; [intros hz [= <-]; by left | done].
    + destruct (forallb (fun z => fits_int64 z || fits_uint64 z) l) eqn:Hm.
      * (* both kinds: float64 *)
        assert (Hd : (delta ← np_sub (Float64Array (f64_of_Z <$> l))
                                (Int64Array (replicate (length l) 0)) ;
                      np_div delta t) = Ok (Float64Array (first_rates t l))).
        { cbn [np_sub as_float64]. by apply Hfloat. }
        rewrite Hd. split; [intros hz [= <-]; by left | done].
      * (* object *)
        split.
        -- cbn [np_sub as_float64 as_object].
           rewrite fmap_replicate.
           replace (length l) with (length (PyInt <$> l)) by apply length_fmap.
           rewrite broadcast_replicate. cbn [mbind res_bind].
           rewrite <- list_fmap_compose.
           rewrite (list_fmap_ext _ (Ok ∘ PyInt) l)
             by (by intros i c _; cbn; rewrite Z.sub_0_r).
           rewrite list_fmap_compose, res_mapM_id_ok. cbn [mbind res_bind np_div].
           intros hz Hhz. right.
           destruct (res_mapM _ _) as [l'|e] eqn:Hdiv; [|done].
           cbn [mbind res_bind] in Hhz. injection Hhz as <-.
           by rewrite (truediv_ints _ _ _ Hdiv).
        -- intros Hrange. exfalso.
           apply not_true_iff_false in Hm. apply Hm.
           apply forallb_forall. intros c Hc%list_elem_of_In.
           rewrite Forall_forall in Hrange. specialize (Hrange c Hc).
           unfold fits_int64, fits_uint64. lia.
Qed.

End first_sample.

Section first_update.
Context {W : Type} {Hos : OS W} {pf : Platform}.

Lemma parse_interrupt_line_parsed cpu_names data line data' :
  rows_parsed data ->
  parse_interrupt_line cpu_names data line = Ok data' -> rows_parsed data'.
Proof.
  intros Hdata. unfold parse_interrupt_line.
  destruct (py_index _ 0) as [first|]; [|done]. cbn [mbind res_bind].
  assert (Hins : forall one, (exists l, counts one = np_asarray l) ->
            rows_parsed (<[PyStr.remove_char ":" first := one]> data)).
  { intros one Hone k row. destruct (decide (k = PyStr.remove_char ":" first)) as [->|Hk].
    - rewrite lookup_insert_eq. by intros [= <-].
    - rewrite lookup_insert_ne by done. apply Hdata. }
  match goal with |- context [if ?b then _ else _] => destruct b end.
  - destruct (py_index _ (-1)); [|done]. cbn [mbind res_bind].
    destruct (res_mapM _ _) as [l|]; [|done]. cbn [mbind res_bind].
    intros [= <-]. apply Hins. by exists l.
  - destruct (res_mapM _ _) as [l|]; [|done]. cbn [mbind res_bind].
    intros [= <-]. apply Hins. by exists l.
Qed.

Lemma parse_table_parsed cpu_names lines : forall data data',
  rows_parsed data ->
  res_foldM (parse_interrupt_line cpu_names) data lines = Ok data' ->
  rows_parsed data'.
Proof.
  induction lines as [|line lines IH]; intros data data' Hdata; cbn [res_foldM].
  - by intros [= <-].
  - destruct (parse_interrupt_line cpu_names data line) as [data1|] eqn:Hline;
      [|done].
    cbn [mbind res_bind]. apply IH. by eapply parse_interrupt_line_parsed.
Qed.

Lemma take_snapshot_parsed (s : sys W) t data s' :
  take_snapshot s = (Ok (t, data), s') -> rows_parsed data.
Proof.
  unfold take_snapshot. rewrite bind_run.
  unfold time_time at 1. unfold os_call at 1.
  destruct (os_time (world s)) as [t0 w1] eqn:Htime.
  rewrite bind_run. unfold procfs_read at 1. rewrite bind_run.
  unfold os_call at 1. cbn [world trace].
  destruct (os_readlines "/proc/interrupts" w1) as [[raw|e] w2] eqn:Hread; [|done].
  cbn [mret M_ret]. rewrite bind_run. cbn [log emit modify].
  rewrite bind_run. unfold read_interrupt_table. rewrite bind_run.
  unfold try_except. rewrite bind_run. cbn [lift_res].
  destruct (py_index (PyStr.rstrip <$> raw) 0) as [line0|] eqn:Hline0;
    [|by cbn [log emit modify raise mbind M_bind]].
  cbn [mret M_ret].
  match goal with |- context [if ?b then _ else _] => destruct b end; [done|].
  rewrite bind_run. cbn [lift_res].
  destruct (res_foldM _ ∅ _) as [data0|] eqn:Hparse; [|done].
  destruct (size data0 <? 1)%nat; [done|]. cbn [mret M_ret].
  intros [= <- <- <-]. eapply parse_table_parsed; [|exact Hparse].
  intros k row. by rewrite lookup_empty.
Qed.

Lemma np_len_asarray l : np_len (np_asarray l) = length l.
Proof.
  unfold np_asarray. destruct l as [|c l]; [done|].
  repeat case_match; cbn [np_len]; by rewrite ?length_fmap.
Qed.

(** The first update of an [IRQ] whose sampler fields are still those
    of its constructor. *)
Lemma update_counts_first (self : IRQ.t) (s : sys W) t l :
  IRQ._counts self = np_zeros_int64 CPU_COUNT ->
  IRQ._counts_time self = f64_zero ->
  let s1 := Sys (world s) (trace s ++ [EvLog DEBUG "IRQ::update_counts()"]) in
  (forall self' s',
     IRQ.update_counts t (np_asarray l) (self, s) = (Ok tt, (self', s')) ->
     length l = CPU_COUNT
     /\ s' = s1
     /\ exists hz,
          self' = IRQ.set_counts (np_asarray l) t hz self
          /\ (hz = Float64Array (first_rates t l)
              \/ hz = ObjectArray (PyFloat <$> first_rates t l)))
  /\ (length l = CPU_COUNT ->
      Forall (fun c => - 2 ^ 63 <= c < 2 ^ 64) l ->
      IRQ.update_counts t (np_asarray l) (self, s)
      = (Ok tt,
         (IRQ.set_counts (np_asarray l) t (Float64Array (first_rates t l)) self, s1))).
Proof.
  intros Hc Ht s1. rewrite update_counts_run. cbv zeta. fold s1.
  rewrite np_len_asarray, Hc, Ht, f64_sub_zero.
  destruct (Nat.eqb_spec (length l) CPU_COUNT) as [Hlen|Hlen].
  - rewrite <- Hlen.
    destruct (first_sample_quotient t l) as [Hany Hrange]. cbv zeta in Hany, Hrange.
    split.
    + intros self' s'.
      destruct (_ ≫= _) as [hz|e]; [|done].
      intros [= <- <-]. split; [done|]. split; [done|].
      exists hz. split; [done|]. by apply Hany.
    + intros _ Hl. by rewrite (Hrange Hl).
  - split; [done|]. intros Hl. by destruct Hlen.
Qed.

(** In a pass that returns, an [IRQ] listed once is updated once, from
    the fields it had before the pass. *)
Lemma update_tracked_once t data a row l : forall os (s : sys W) os' s',
  NoDup l -> a ∈ l ->
  data !! PyStr.str (IRQ.id (irq_store os a)) = Some row ->
  update_tracked t data l (os, s) = (Ok tt, (os', s')) ->
  exists s1 s1' : sys W,
    IRQ.update_counts t (counts row) (irq_store os a, s1)
    = (Ok tt, (irq_store os' a, s1')).
Proof.
  induction l as [|x l IH]; intros os s os' s' Hnd Hin Hrow Hrun.
  { by apply elem_of_nil in Hin. }
  apply NoDup_cons in Hnd as [Hx Hnd]. rewrite update_tracked_cons in Hrun.
  pose proof (track_one_frame t data x os s) as (_ & Hid & Hf).
  destruct (track_one t data x (os, s)) as [[[]|e] [os1 s1]] eqn:Hone; [|done].
  cbn [fst snd] in Hid, Hf.
  destruct (decide (x = a)) as [->|Hne].
  - pose proof (update_tracked_frame t data l os1 s1) as (_ & _ & Hrest).
    rewrite Hrun in Hrest. cbn [fst snd] in Hrest.
    rewrite Hrest by (by left).
    unfold track_one in Hone. rewrite bind_run in Hone. cbn [the_irq fst] in Hone.
    rewrite Hrow, on_irq_run in Hone.
    destruct (IRQ.update_counts t (counts row) (irq_store os a, s))
      as [r [self1 s2]] eqn:Hupd.
    cbn [fst snd] in Hone. injection Hone as -> <- <-.
    cbn [irq_store]. rewrite upd_eq. eauto.
  - apply elem_of_cons in Hin as [->|Hin]; [done|].
    assert (Hsame : irq_store os1 a = irq_store os a).
    { apply Hf. left. by intros ->%list_elem_of_singleton. }
    rewrite <- Hsame. eapply IH; [done | done | by rewrite Hsame | exact Hrun].
Qed.

End first_update.

(** C1 (amended).  The first counts update of an [IRQ] has the constructor's
    fields as its baseline (zero [int64] counts, timestamp 0) and computes
    its rate from them.  For an [IRQ] whose counts and timestamp are still
    those of the constructor, listed once in a pass of
    [update_from_proc_interrupts] that returns and whose table has a row
    for it: the row is [np.asarray] of as many integers as there are CPUs,
    and after the pass the [IRQ] holds that array, the time of the
    snapshot and, as its rate, the [float64] quotient of every count by
    that time: nothing is lost in [counts - 0] and [time_now - 0].  The
    rate is a [float64] array when every count is in the range of [int64]
    or [uint64], and then the update itself never raises. *)
Theorem first_sample_rate {W : Type} {Hos : OS W} {pf : Platform}
    (irq_list : list ref) (a : ref) (os : objs) (s s2 : sys W)
    (t : float) (data : gmap string one_int) (row : one_int) :
  IRQ._counts (irq_store os a) = np_zeros_int64 CPU_COUNT ->
  IRQ._counts_time (irq_store os a) = f64_zero ->
  take_snapshot s = (Ok (t, data), s2) ->
  data !! PyStr.str (IRQ.id (irq_store os a)) = Some row ->
  exists l,
    counts row = np_asarray l
    /\ (NoDup irq_list -> a ∈ irq_list ->
        forall os' s',
          update_from_proc_interrupts irq_list (os, s) = (Ok tt, (os', s')) ->
          length l = CPU_COUNT
          /\ IRQ._counts (irq_store os' a) = np_asarray l
          /\ IRQ._counts_time (irq_store os' a) = t
          /\ (IRQ._counts_hz (irq_store os' a) = Float64Array (first_rates t l)
              \/ IRQ._counts_hz (irq_store os' a)
                 = ObjectArray (PyFloat <$> first_rates t l))
          /\ (Forall (fun c => - 2 ^ 63 <= c < 2 ^ 64) l ->
              IRQ._counts_hz (irq_store os' a) = Float64Array (first_rates t l)))
    /\ (length l = CPU_COUNT ->
        Forall (fun c => - 2 ^ 63 <= c < 2 ^ 64) l ->
        let r := update_from_proc_interrupts [a] (os, s) in
        r.1 = Ok tt
        /\ IRQ._counts_hz (irq_store r.2.1 a) = Float64Array (first_rates t l)).
Proof.
  intros Hc Ht Hsnap Hrow.
  destruct (take_snapshot_parsed _ _ _ _ Hsnap _ _ Hrow) as [l Hl].
  exists l. split; [done|]. split.
  - intros Hnd Hin os' s' Hrun.
    rewrite update_from_proc_interrupts_run, Hsnap in Hrun.
    destruct (update_tracked_once _ _ _ _ _ _ _ _ _ Hnd Hin Hrow Hrun)
      as (s1 & s1' & Hupd).
    rewrite Hl in Hupd.
    destruct (update_counts_first (irq_store os a) s1 t l Hc Ht) as [Hany _].
    destruct (Hany _ _ Hupd) as (Hlen & _ & hz & Hself & Hhz).
    rewrite Hself. split; [done|].
    split; [by destruct (irq_store os a)|]. split; [by destruct (irq_store os a)|].
    assert (Hfield : IRQ._counts_hz
                       (IRQ.set_counts (np_asarray l) t hz (irq_store os a)) = hz)
      by by destruct (irq_store os a).
    rewrite Hfield. split; [done|].
    intros Hrange.
    destruct (update_counts_first (irq_store os a) s1 t l Hc Ht) as [_ Htot].
    rewrite (Htot Hlen Hrange) in Hupd. injection Hupd as Hupd _.
    rewrite Hself in Hupd.
    apply (f_equal IRQ._counts_hz) in Hupd.
    assert (forall h, IRQ._counts_hz (IRQ.set_counts (np_asarray l) t h (irq_store os a)) = h)
      as Hget by (intros h; by destruct (irq_store os a)).
    by rewrite !Hget in Hupd.
  - intros Hlen Hrange r. subst r.
    rewrite update_from_proc_interrupts_run, Hsnap.
    unfold update_tracked. cbn [for_each]. rewrite bind_run.
    unfold track_one. rewrite bind_run. cbn [the_irq fst].
    rewrite Hrow, on_irq_run, Hl.
    destruct (update_counts_first (irq_store os a) s2 t l Hc Ht) as [_ Htot].
    rewrite (Htot Hlen Hrange). cbn [fst snd mret M_ret irq_store]. rewrite upd_eq.
    split; [done|]. by destruct (irq_store os a).
Qed.

Lemma first_sample_rate_witness :
  let r := update_from_proc_interrupts
             (Hos := Scripted.os ScriptedExamples.sampled_at_ten)
             (pf := ScriptedExamples.one_cpu)
             [0%nat]
             (ScriptedExamples.store_of SamplerExample.irq42,
              SamplerExample.constructed) in
  exists l,
    counts SamplerExample.row42 = np_asarray l
    /\ (length l = CPU_COUNT (Platform := ScriptedExamples.one_cpu) ->
        Forall (fun c => - 2 ^ 63 <= c < 2 ^ 64) l ->
        r.1 = Ok tt
        /\ IRQ._counts_hz (irq_store r.2.1 0%nat)
           = Float64Array (first_rates ScriptedExamples.ten l)).
Proof.
  intros r.
  destruct (first_sample_rate (Hos := Scripted.os ScriptedExamples.sampled_at_ten)
              (pf := ScriptedExamples.one_cpu)
              [0%nat] 0%nat (ScriptedExamples.store_of SamplerExample.irq42)
              SamplerExample.constructed
              (take_snapshot (Hos := Scripted.os ScriptedExamples.sampled_at_ten)
                 SamplerExample.constructed).2
              ScriptedExamples.ten
              (<["42"%string := SamplerExample.row42]>
                 (<["NMI"%string := OneInt 1 (Some "Non-maskable interrupts"%string)
                                      (Int64Array [0])]> ∅))
              SamplerExample.row42)
    as (l & Hl & _ & Hrun).
  - vm_compute. reflexivity.
  - reflexivity.
  - vm_compute. reflexivity.
  - vm_compute. reflexivity.
  - exists l. split; [exact Hl | exact Hrun].
Defined.

(** C1, as stated, fails: the first sample of IRQ 42, a count of 100 read
    at time 10, stores the rate [(100 - 0) / (10 - 0) = 10.0], which is
    neither zero nor undefined; read at time 0 it stores the infinity of
    a division by zero. *)
Lemma first_sample_rate_not_zero :
  (let r := update_from_proc_interrupts
              (Hos := Scripted.os ScriptedExamples.sampled_at_ten)
              (pf := ScriptedExamples.one_cpu)
              [0%nat]
              (ScriptedExamples.store_of SamplerExample.irq42,
               SamplerExample.constructed) in
   IRQ.__init__ (Hos := Scripted.os ScriptedExamples.sampled_at_ten)
     (pf := ScriptedExamples.one_cpu) 42 Scripted.start
   = (Ok SamplerExample.irq42, SamplerExample.constructed)
   /\ r.1 = Ok tt
   /\ IRQ._counts_hz (irq_store r.2.1 0%nat) = Float64Array [f64_of_Z 10]
   /\ IRQ._counts_hz (irq_store r.2.1 0%nat) <> Float64Array [f64_zero]
   /\ IRQ._counts_hz (irq_store r.2.1 0%nat) <> Float64Array [S754_nan])
  /\ (let init := IRQ.__init__ (Hos := Scripted.os ScriptedExamples.sampled_at_zero)
                    (pf := ScriptedExamples.one_cpu) 42 Scripted.start in
      let r := update_from_proc_interrupts
                 (Hos := Scripted.os ScriptedExamples.sampled_at_zero)
                 (pf := ScriptedExamples.one_cpu)
                 [0%nat] (ScriptedExamples.store_of SamplerExample.irq42, init.2) in
      init.1 = Ok SamplerExample.irq42
      /\ r.1 = Ok tt
      /\ IRQ._counts_hz (irq_store r.2.1 0%nat) = Float64Array [S754_infinity false]).
Proof.
  split.
  - cbv zeta.
    assert (Hhz : IRQ._counts_hz
              (irq_store
                 (update_from_proc_interrupts
                    (Hos := Scripted.os ScriptedExamples.sampled_at_ten)
                    (pf := ScriptedExamples.one_cpu) [0%nat]
                    (ScriptedExamples.store_of SamplerExample.irq42,
                     SamplerExample.constructed)).2.1 0%nat)
            = Float64Array [f64_of_Z 10]).
    { vm_compute. reflexivity. }
    split; [vm_compute; reflexivity|]. split; [vm_compute; reflexivity|].
    split; [exact Hhz|]. rewrite Hhz. split; vm_compute; discriminate.
  - cbv zeta. split; [vm_compute; reflexivity|]. split; vm_compute; reflexivity.
Qed.

(** C8.  One pass of [update_from_proc_interrupts], however it ends,
    leaves every kernel thread alone, leaves alone every [IRQ] that is not
    in [irq_list], and leaves alone every [IRQ] whose id is not among the
    row names of the snapshot the kernel returned: its counts, timestamp
    and rates (all its fields) stay as they were.  A row whose name
    matches no tracked [IRQ] can be dropped from the table without
    changing what the pass does. *)
Theorem sampler_frame {W : Type} {Hos : OS W} {pf : Platform}
    (irq_list : list ref) (os : objs) (s : sys W) :
  let os' := (update_from_proc_interrupts irq_list (os, s)).2.1 in
  kthread_store os' = kthread_store os
  /\ (forall a, a ∉ irq_list -> irq_store os' a = irq_store os a)
  /\ (forall t w1 raw w2 a,
        os_time (world s) = (t, w1) ->
        os_readlines "/proc/interrupts" w1 = (Ok raw, w2) ->
        PyStr.str (IRQ.id (irq_store os a)) ∉ row_names (PyStr.rstrip <$> raw) ->
        irq_store os' a = irq_store os a)
  /\ (forall t data k (s1 : sys W),
        (forall a, a ∈ irq_list -> PyStr.str (IRQ.id (irq_store os a)) <> k) ->
        update_tracked t (delete k data) irq_list (os, s1)
        = update_tracked t data irq_list (os, s1)).
Proof.
  intros os'. subst os'. rewrite update_from_proc_interrupts_run.
  destruct (take_snapshot s) as [[[t0 data0]|e] s1] eqn:Hsnap.
  - pose proof (update_tracked_frame t0 data0 irq_list os s1) as (Hk & _ & Hf).
    split; [done|]. split; [intros a Ha; apply Hf; by left|]. split.
    + intros t w1 raw w2 a Htime Hread Hname. apply Hf. right.
      destruct (take_snapshot_names _ _ _ _ Hsnap) as (w1' & raw' & w2' & Ht & Hr & Hn).
      rewrite Htime in Ht. injection Ht as <- <-.
      rewrite Hread in Hr. injection Hr as <- <-. by apply Hn.
    + intros t data k s2 Hk'. apply update_tracked_agree.
      intros a Ha. apply lookup_delete_ne. intros Heq. by eapply Hk'.
  - cbn [fst snd]. split; [done|]. split; [done|]. split; [done|].
    intros t data k s2 Hk'. apply update_tracked_agree.
    intros a Ha. apply lookup_delete_ne. intros Heq. by eapply Hk'.
Qed.

Lemma sampler_frame_witness :
  let os' := (update_from_proc_interrupts
                (Hos := Scripted.os ScriptedExamples.sampled_at_ten)
                (pf := ScriptedExamples.one_cpu)
                [0%nat; 1%nat]
                (SamplerExample.two_irqs, SamplerExample.constructed)).2.1 in
  irq_store os' 1%nat = IRQ.fresh (pf := ScriptedExamples.one_cpu) 7
  /\ IRQ._counts (irq_store os' 0%nat) = Int64Array [100].
Proof.
  split.
  - eapply (proj1 (proj2 (proj2 (sampler_frame
              (Hos := Scripted.os ScriptedExamples.sampled_at_ten)
              (pf := ScriptedExamples.one_cpu)
              [0%nat; 1%nat] SamplerExample.two_irqs SamplerExample.constructed)))
              _ _ _ _ 1%nat).
    + reflexivity.
    + reflexivity.
    + apply (bool_decide_unpack _). vm_compute. exact I.
  - vm_compute. reflexivity.
Defined.

(** ** IRQ and PCI device correlation *)

Section string_order.

Lemma leb_refl s : String.leb s s = true.
Proof.
  apply Is_true_true. apply (PreOrder_Reflexive (R := String.le) s).
Qed.

Lemma leb_trans a b c :
  String.leb a b = true -> String.leb b c = true -> String.leb a c = true.
Proof.
  intros Hab Hbc. apply Is_true_true.
  apply (PreOrder_Transitive (R := String.le) a b c); by apply Is_true_true.
Qed.

Lemma ltb_leb a b : String.ltb a b = true -> String.leb a b = true.
Proof. unfold String.ltb, String.leb. by destruct (String.compare a b). Qed.

Lemma ltb_false_leb a b : String.ltb a b = false -> String.leb b a = true.
Proof.
  unfold String.ltb, String.leb. rewrite (String.compare_antisym a b).
  by destruct (String.compare b a).
Qed.

End string_order.

Section pci_facts.
Context {W : Type} {Hos : OS W} {pf : Platform}.

Lemma pci_reverse_lookup_claims devs :
  pci_reverse_lookup devs
  = foldl (fun rl p => claim p.1 rl p.2) ∅ (claims devs).
Proof.
  unfold pci_reverse_lookup, claims. generalize (∅ : gmap Z PCIDevice.t).
  induction devs as [|dev devs IH]; intros rl; [done|].
  cbn [foldl mbind list_bind]. rewrite foldl_app, IH. f_equal.
  generalize (PCIDevice.irq_list dev). intros l. revert rl.
  induction l as [|n l IHl]; intros rl; [done|]. simpl. apply IHl.
Qed.

Lemma claim_greatest cl rl dev n :
  greatest_claimant cl rl -> greatest_claimant (cl ++ [(dev, n)]) (claim dev rl n).
Proof.
  intros Hinv n'. specialize (Hinv n') as Hn'. pose proof (Hinv n) as Hn.
  unfold claim.
  assert (Hin : forall d m, (d, m) ∈ cl ++ [(dev, n)]
                            <-> (d, m) ∈ cl \/ (d = dev /\ m = n)).
  { intros d m. rewrite elem_of_app, list_elem_of_singleton.
    split; intros [?|H]; auto; right; [by injection H | by destruct H as [-> ->]]. }
  destruct (rl !! n) as [holder|] eqn:Hholder.
  - destruct Hn as [Hh Hmax].
    destruct (str_lt _ _) eqn:Hlt; unfold str_lt in Hlt.
    + destruct (decide (n' = n)) as [->|Hne].
      * rewrite lookup_insert_eq. split; [apply Hin; by right|].
        intros d [Hd|[-> _]]%Hin; [|apply leb_refl].
        eapply leb_trans; [by apply Hmax | by apply ltb_leb].
      * rewrite lookup_insert_ne by done.
        destruct (rl !! n') as [w|].
        -- destruct Hn' as [Hw Hmax']. split; [apply Hin; by left|].
           intros d [Hd|[_ ?]]%Hin; [by apply Hmax' | done].
        -- intros d [Hd|[_ ?]]%Hin; [by apply (Hn' d) | done].
    + destruct (decide (n' = n)) as [->|Hne].
      * rewrite Hholder. split; [apply Hin; by left|].
        intros d [Hd|[-> _]]%Hin; [by apply Hmax | by apply ltb_false_leb].
      * destruct (rl !! n') as [w|].
        -- destruct Hn' as [Hw Hmax']. split; [apply Hin; by left|].
           intros d [Hd|[_ ?]]%Hin; [by apply Hmax' | done].
        -- intros d [Hd|[_ ?]]%Hin; [by apply (Hn' d) | done].
  - destruct (decide (n' = n)) as [->|Hne].
    + rewrite lookup_insert_eq. split; [apply Hin; by right|].
      intros d [Hd|[-> _]]%Hin; [by apply Hn in Hd | apply leb_refl].
    + rewrite lookup_insert_ne by done.
      destruct (rl !! n') as [w|].
      * destruct Hn' as [Hw Hmax']. split; [apply Hin; by left|].
        intros d [Hd|[_ ?]]%Hin; [by apply Hmax' | done].
      * intros d [Hd|[_ ?]]%Hin; [by apply (Hn' d) | done].
Qed.

Lemma pci_reverse_lookup_greatest devs :
  greatest_claimant (claims devs) (pci_reverse_lookup devs).
Proof.
  rewrite pci_reverse_lookup_claims. generalize (claims devs). intros cl.
  induction cl as [|[dev n] cl IH] using rev_ind.
  - intros n. cbn [foldl]. rewrite lookup_empty. intros d. apply not_elem_of_nil.
  - rewrite foldl_app. simpl. by apply claim_greatest.
Qed.

Lemma elem_of_claims devs d n :
  (d, n) ∈ claims devs <-> d ∈ devs /\ n ∈ PCIDevice.irq_list d.
Proof.
  unfold claims. rewrite list_elem_of_bind. split.
  - intros (dev & Hin & Hdev). apply list_elem_of_fmap in Hin as (m & [= -> ->] & Hm).
    done.
  - intros [Hd Hn]. exists d. split; [|done]. apply list_elem_of_fmap. eauto.
Qed.

End pci_facts.

Section match_pci_facts.
Context {W : Type} {Hos : OS W} {pf : Platform}.

Lemma register_pci_device_ok dev (self : IRQ.t) (s : sys W) self' s' :
  IRQ.register_pci_device dev (self, s) = (Ok tt, (self', s')) ->
  IRQ.id self' = IRQ.id self
  /\ IRQ.pci_device self' = Some dev
  /\ IRQ.best_node self' = PCIDevice.numa_node dev.
Proof.
  unfold IRQ.register_pci_device. rewrite bind_run.
  pose proof (repr_keeps (W := W) (fun x => IRQ.id x = IRQ.id self)) as Hk.
  specialize (Hk ltac:(repeat split; intros; by destruct x) (self, s) eq_refl).
  destruct (IRQ.__repr__ (self, s)) as [[[]|e] [self1 s1]]; [|done].
  simpl in Hk. cbn. intros [= <- <-]. by destruct self1.
Qed.

Lemma attach_ok rl irq os (s : sys W) os1 s1 :
  attach rl irq (os, s) = (Ok tt, (os1, s1)) ->
  (forall a, IRQ.id (irq_store os1 a) = IRQ.id (irq_store os a))
  /\ (forall a, matched rl (irq_store os a) -> matched rl (irq_store os1 a))
  /\ matched rl (irq_store os1 irq).
Proof.
  unfold attach. rewrite bind_run. cbn [the_irq fst].
  destruct (rl !! IRQ.id (irq_store os irq)) as [dev|] eqn:Hdev.
  - rewrite on_irq_run.
    destruct (IRQ.register_pci_device dev (irq_store os irq, s))
      as [r [self' s']] eqn:Hreg.
    cbn [fst snd]. intros [= -> <- <-].
    apply register_pci_device_ok in Hreg as (Hid & Hpci & Hnode).
    cbn [irq_store].
    assert (Hm : matched rl self').
    { intros w Hw. rewrite Hid, Hdev in Hw. injection Hw as <-. done. }
    split; [|split].
    + intros a. destruct (decide (a = irq)) as [->|]; [by rewrite upd_eq|].
      by rewrite upd_ne.
    + intros a Ha. destruct (decide (a = irq)) as [->|]; [by rewrite upd_eq|].
      by rewrite upd_ne.
    + by rewrite upd_eq.
  - cbn. intros [= <- <-]. split; [done|]. split; [done|].
    intros w Hw. congruence.
Qed.

Lemma attach_all_ok rl irqs : forall os (s : sys W) os' s',
  for_each irqs (attach rl) (os, s) = (Ok tt, (os', s')) ->
  (forall a, IRQ.id (irq_store os' a) = IRQ.id (irq_store os a))
  /\ (forall a, matched rl (irq_store os a) -> matched rl (irq_store os' a))
  /\ (forall a, a ∈ irqs -> matched rl (irq_store os' a)).
Proof.
  induction irqs as [|irq irqs IH]; intros os s os' s'.
  - cbn. intros [= <- <-]. split; [done|]. split; [done|].
    intros a Ha. by apply elem_of_nil in Ha.
  - cbn [for_each]. rewrite bind_run.
    destruct (attach rl irq (os, s)) as [[[]|e] [os1 s1]] eqn:Hstep; [|done].
    apply attach_ok in Hstep as (Hid1 & Hkeep1 & Hirq).
    intros (Hid2 & Hkeep2 & Hall)%IH. split; [|split].
    + intros a. by rewrite Hid2, Hid1.
    + intros a Ha. by apply Hkeep2, Hkeep1.
    + intros a [->|Ha]%elem_of_cons; [by apply Hkeep2 | by apply Hall].
Qed.

Lemma match_irq_and_pci_run irqs devs (st : objs * sys W) os' s' :
  match_irq_and_pci irqs devs st = (Ok tt, (os', s')) ->
  exists (s1 s2 : sys W),
    for_each irqs (attach (pci_reverse_lookup devs)) (st.1, s1) = (Ok tt, (os', s2)).
Proof.
  destruct st as [os s]. unfold match_irq_and_pci. rewrite bind_run.
  cbn [on_sys zoom log emit modify fst snd]. cbv zeta. rewrite bind_run.
  destruct (for_each irqs _ _) as [[[]|e] [os1 s1]] eqn:Hloop; [|done].
  cbn. intros [= <- <-]. eauto.
Qed.

End match_pci_facts.

(** C4.  After [match_irq_and_pci] every IRQ of the list whose id some
    device claims carries a device that claims it and whose bus address
    is, in the order of Python strings, at least that of every other
    claimant (the greater of two distinct addresses), and has that
    device's NUMA node as its preferred node.  Devices ["0000:01:00.0"]
    and ["0000:02:00.0"] both claiming IRQ 42 resolve to ["0000:02:00.0"],
    in whichever order they are listed. *)
Theorem irq_pci_tie_break {W : Type}
    (irqs : list ref) (devs : list PCIDevice.t) (os os' : objs) (s s' : sys W) :
  (match_irq_and_pci irqs devs (os, s) = (Ok tt, (os', s')) ->
   forall a d,
     a ∈ irqs -> d ∈ devs -> IRQ.id (irq_store os a) ∈ PCIDevice.irq_list d ->
     exists w,
       IRQ.pci_device (irq_store os' a) = Some w
       /\ IRQ.best_node (irq_store os' a) = PCIDevice.numa_node w
       /\ w ∈ devs
       /\ IRQ.id (irq_store os a) ∈ PCIDevice.irq_list w
       /\ forall d', d' ∈ devs -> IRQ.id (irq_store os a) ∈ PCIDevice.irq_list d' ->
                     String.leb (PCIDevice.pci_addr d') (PCIDevice.pci_addr w) = true)
  /\ pci_reverse_lookup [PciExample.dev01; PciExample.dev02] !! 42
     = Some PciExample.dev02
  /\ pci_reverse_lookup [PciExample.dev02; PciExample.dev01] !! 42
     = Some PciExample.dev02.
Proof.
  split; [|split; vm_compute; reflexivity].
  intros (s1 & s2 & Hloop)%match_irq_and_pci_run a d Ha Hd Hclaim.
  apply attach_all_ok in Hloop as (Hid & _ & Hall). specialize (Hall a Ha).
  pose proof (pci_reverse_lookup_greatest devs (IRQ.id (irq_store os a))) as Hg.
  cbn [fst] in *.
  destruct (pci_reverse_lookup devs !! IRQ.id (irq_store os a)) as [w|] eqn:Hw.
  - destruct Hg as [[Hwin Hwclaim]%elem_of_claims Hmax].
    destruct (Hall w) as [Hpci Hnode]; [by rewrite Hid|].
    exists w. repeat split; try done.
    intros d' Hd' Hclaim'. apply Hmax. by apply elem_of_claims.
  - exfalso. apply (Hg d). by apply elem_of_claims.
Qed.

Lemma irq_pci_tie_break_witness :
  let r := match_irq_and_pci [0%nat] [PciExample.dev01; PciExample.dev02]
             (ScriptedExamples.store_of SamplerExample.irq42, Scripted.start) in
  exists w,
    IRQ.pci_device (irq_store r.2.1 0%nat) = Some w
    /\ IRQ.best_node (irq_store r.2.1 0%nat) = PCIDevice.numa_node w
    /\ w ∈ [PciExample.dev01; PciExample.dev02]
    /\ 42 ∈ PCIDevice.irq_list w
    /\ forall d', d' ∈ [PciExample.dev01; PciExample.dev02] ->
                  42 ∈ PCIDevice.irq_list d' ->
                  String.leb (PCIDevice.pci_addr d') (PCIDevice.pci_addr w) = true.
Proof.
  intros r.
  apply (proj1 (irq_pci_tie_break [0%nat] [PciExample.dev01; PciExample.dev02]
                  (ScriptedExamples.store_of SamplerExample.irq42) r.2.1
                  Scripted.start r.2.2)
               ltac:(vm_compute; reflexivity) 0%nat PciExample.dev01).
  - by left.
  - by left.
  - vm_compute. by left.
Defined.

(** ** Device bundles *)

Section bundle_facts.
Context {W : Type}.

(** [EDTObject.__init__], run. *)
Lemma edt_init_run irq kthread (os : objs) (s : sys W) :
  EDTObject.__init__ irq kthread (os, s)
  = let s1 := Sys (world s) (trace s ++ [EvLog DEBUG "EDTObject::__init__"]) in
    let bound := Sys (world s)
                     (trace s ++ [EvLog DEBUG "EDTObject::__init__";
                                  EvLog WARNING "EDTObject::__init__ - bound together"]) in
    match irq with
    | Some i =>
        match IRQ.kthread (irq_store os i) with
        | Some k =>
            match IRQ.pci_device (irq_store os i) with
            | Some d => (Ok (EDTObject.Make i k d), (os, bound))
            | None => (Raise AssertionError, (os, s1))
            end
        | None => (Raise AssertionError, (os, s1))
        end
    | None =>
        match kthread with
        | Some k =>
            match KThread._irq_obj (kthread_store os k) with
            | Some i =>
                match IRQ.pci_device (irq_store os i) with
                | Some d => (Ok (EDTObject.Make i k d), (os, bound))
                | None => (Raise AssertionError, (os, s1))
                end
            | None => (Raise AssertionError, (os, s1))
            end
        | None => (Raise ValueError, (os, s1))
        end
    end.
Proof.
  unfold EDTObject.__init__. rewrite bind_run.
  cbn [on_sys zoom log emit modify fst snd]. cbv zeta. rewrite bind_run.
  destruct irq as [i|]; [|destruct kthread as [k|]].
  - rewrite bind_run. cbn [the_irq fst].
    destruct (IRQ.kthread (irq_store os i)) as [k|]; [|done].
    cbn [mret M_ret]. rewrite bind_run. cbn [the_irq fst].
    destruct (IRQ.pci_device (irq_store os i)) as [d|]; [|done].
    rewrite bind_run. cbn [on_sys zoom log emit modify fst snd world trace].
    unfold mret, M_ret. by rewrite <- List.app_assoc.
  - rewrite bind_run. cbn [the_kthread fst].
    destruct (KThread._irq_obj (kthread_store os k)) as [i|]; [|done].
    cbn [mret M_ret]. rewrite bind_run. cbn [the_irq fst].
    destruct (IRQ.pci_device (irq_store os i)) as [d|]; [|done].
    rewrite bind_run. cbn [on_sys zoom log emit modify fst snd world trace].
    unfold mret, M_ret. by rewrite <- List.app_assoc.
  - done.
Qed.

End bundle_facts.

(** C7 (amended).  A [DeviceBundle] is constructed exactly from the
    forward references: given an IRQ, when the IRQ names a kernel thread
    and a PCI device; given only a kernel thread, when the thread names an
    IRQ and that IRQ names a PCI device.  When one of these is missing, or
    neither an IRQ nor a thread is given, construction raises and nothing
    is touched.  The reference back (thread to IRQ when built from an IRQ,
    IRQ to thread when built from a thread) is not looked at. *)
Theorem device_bundle_constructible {W : Type}
    (irq kthread : option ref) (os : objs) (s : sys W) :
  let r := EDTObject.__init__ irq kthread (os, s) in
  (forall e, r.1 = Ok e <->
     (exists i, irq = Some i /\ EDTObject.irq e = i
                /\ IRQ.kthread (irq_store os i) = Some (EDTObject.kthread e)
                /\ IRQ.pci_device (irq_store os i) = Some (EDTObject.pci_device e))
     \/ (irq = None
         /\ exists k, kthread = Some k /\ EDTObject.kthread e = k
                      /\ KThread._irq_obj (kthread_store os k) = Some (EDTObject.irq e)
                      /\ IRQ.pci_device (irq_store os (EDTObject.irq e))
                         = Some (EDTObject.pci_device e)))
  /\ (irq = None -> kthread = None -> r.1 = Raise ValueError)
  /\ (forall i, irq = Some i ->
        IRQ.kthread (irq_store os i) = None \/ IRQ.pci_device (irq_store os i) = None ->
        r.1 = Raise AssertionError)
  /\ (forall k, irq = None -> kthread = Some k ->
        KThread._irq_obj (kthread_store os k) = None
        \/ (exists i, KThread._irq_obj (kthread_store os k) = Some i
                      /\ IRQ.pci_device (irq_store os i) = None) ->
        r.1 = Raise AssertionError)
  /\ r.2.1 = os.
Proof.
  intros r. subst r. rewrite edt_init_run. cbv zeta.
  split; [|split; [|split; [|split]]].
  - intros [ei ek ed]. cbn [EDTObject.irq EDTObject.kthread EDTObject.pci_device].
    destruct irq as [i|]; [|destruct kthread as [k|]].
    + destruct (IRQ.kthread (irq_store os i)) as [k'|] eqn:Hk;
        [destruct (IRQ.pci_device (irq_store os i)) as [d|] eqn:Hd|]; cbn [fst].
      * split.
        -- intros [= <- <- <-]. left. eauto.
        -- intros [(i' & [= <-] & <- & Hk' & Hd')|[[=] _]]. congruence.
      * split; [done|]. intros [(i' & [= <-] & <- & Hk' & Hd')|[[=] _]]. congruence.
      * split; [done|]. intros [(i' & [= <-] & <- & Hk' & Hd')|[[=] _]]. congruence.
    + destruct (KThread._irq_obj (kthread_store os k)) as [i|] eqn:Hi;
        [destruct (IRQ.pci_device (irq_store os i)) as [d|] eqn:Hd|]; cbn [fst].
      * split.
        -- intros [= <- <- <-]. right. split; [done|]. eauto.
        -- intros [(i' & [=] & _)|[_ (k' & [= <-] & <- & Hi' & Hd')]].
           rewrite Hi in Hi'. injection Hi' as <-. congruence.
      * split; [done|]. intros [(i' & [=] & _)|[_ (k' & [= <-] & <- & Hi' & Hd')]].
        rewrite Hi in Hi'. injection Hi' as <-. congruence.
      * split; [done|]. intros [(i' & [=] & _)|[_ (k' & [= <-] & <- & Hi' & Hd')]].
        congruence.
    + cbn [fst]. split; [done|]. by intros [(i' & [=] & _)|[_ (k' & [=] & _)]].
  - by intros -> ->.
  - intros i -> [Hk|Hd].
    + by rewrite Hk.
    + rewrite Hd. by destruct (IRQ.kthread (irq_store os i)).
  - intros k -> -> [Hi|(i & Hi & Hd)].
    + by rewrite Hi.
    + by rewrite Hi, Hd.
  - destruct irq as [i|]; [|destruct kthread as [k|]]; [| |done].
    + by destruct (IRQ.kthread (irq_store os i)), (IRQ.pci_device (irq_store os i)).
    + destruct (KThread._irq_obj (kthread_store os k)) as [i|]; [|done].
      by destruct (IRQ.pci_device (irq_store os i)).
Qed.

Lemma device_bundle_constructible_witness :
  (EDTObject.__init__ None None
     (ScriptedExamples.store_of SamplerExample.irq42, Scripted.start)).1
  = Raise ValueError
  /\ (EDTObject.__init__ (Some 0%nat) None
        (ScriptedExamples.store_of SamplerExample.irq42, Scripted.start)).1
     = Raise AssertionError.
Proof.
  split.
  - apply (proj1 (proj2 (device_bundle_constructible None None
             (ScriptedExamples.store_of SamplerExample.irq42) Scripted.start)));
      reflexivity.
  - apply (proj1 (proj2 (proj2 (device_bundle_constructible (Some 0%nat) None
             (ScriptedExamples.store_of SamplerExample.irq42) Scripted.start)))
             0%nat); [reflexivity|]. left. vm_compute. reflexivity.
Defined.

(** C7, as stated, fails: a bundle is constructed from an IRQ that names
    a kernel thread and a device although the thread names no IRQ, or
    names another one. *)
Lemma device_bundle_ignores_back_reference :
  (exists e,
     (EDTObject.__init__ (Some 0%nat) None (BundleExample.half_linked, Scripted.start)).1
     = Ok e
     /\ KThread._irq_obj (kthread_store BundleExample.half_linked (EDTObject.kthread e))
        = None)
  /\ (exists e,
        (EDTObject.__init__ (Some 0%nat) None
           (BundleExample.cross_linked, Scripted.start)).1 = Ok e
        /\ EDTObject.irq e = 0%nat
        /\ KThread._irq_obj (kthread_store BundleExample.cross_linked (EDTObject.kthread e))
           = Some 1%nat).
Proof.
  split; eexists; (split; [vm_compute; reflexivity|]); vm_compute; auto.
Qed.

(** ** Pre- and postconditions *)

Section hoare_facts.
Context {S : Type}.



Lemma keeps_apply {A} (P : S -> Prop) (m : M S A) s :
  keeps P m -> P s -> P (m s).2.
Proof. intros Hm. apply Hm. Qed.

End hoare_facts.

(** ** [KThread] methods *)

Section kthread_facts.
Context {W : Type} {Hos : OS W} {pf : Platform}.

Ltac kthread_unfold :=
  progress unfold KThread.alive, KThread.refresh_contents, KThread.procfs_read,
    KThread.procfs_write, KThread.register_interrupt, KThread.get_taskset,
    KThread.pin_taskset, KThread.pin_cset, KThread.chrt_ff, KThread.chrt_oth.

Ltac kthread_keeps :=
  repeat (keeps_step || kthread_unfold);
  try (apply keeps_set_self; intros [] ?; simpl in *; done);
  try done.

(** A thread once found dead stays so through every method. *)
Lemma kthread_step_keeps_dead c (st : KThread.t * sys W) :
  KThread._alive st.1 = false -> KThread._alive (kthread_step c st).1 = false.
Proof.
  destruct c; cbn [kthread_step];
    apply (keeps_apply (on_obj (W := W) (fun x => KThread._alive x = false)));
    kthread_keeps.
Qed.

Lemma kthread_steps_keep_dead cs : forall st : KThread.t * sys W,
  KThread._alive st.1 = false -> KThread._alive (kthread_steps cs st).1 = false.
Proof.
  induction cs as [|c cs IH]; intros st Hst; [done|].
  cbn [kthread_steps foldl]. apply IH. by apply kthread_step_keeps_dead.
Qed.


Lemma alive_of_dead (st : KThread.t * sys W) :
  KThread._alive st.1 = false -> KThread.alive st = (Ok false, st).
Proof.
  destruct st as [self s]. simpl. intros Hdead.
  unfold KThread.alive. rewrite bind_run. cbn [get_self fst]. by rewrite Hdead.
Qed.

Lemma alive_false (st : KThread.t * sys W) :
  (KThread.alive st).1 = Ok false -> KThread._alive (KThread.alive st).2.1 = false.
Proof.
  destruct st as [self s]. unfold KThread.alive. rewrite bind_run.
  cbn [get_self fst]. destruct (KThread._alive self) eqn:Halive; [|done].
  cbn [negb]. unfold try_except. rewrite bind_run.
  unfold on_sys, zoom, os_call. cbn [fst snd world trace].
  destruct (os_kill (KThread.pid self) 0 (world s)) as [[[]|e] w']; [done|].
  destruct e; try done; cbn; by destruct self.
Qed.

Lemma get_taskset_dead (st : KThread.t * sys W) w' :
  os_sched_getaffinity (KThread.pid st.1) (world st.2) = (Raise ProcessLookupError, w') ->
  KThread._alive (KThread.get_taskset st).2.1 = false.
Proof.
  destruct st as [self s]. cbn [fst snd]. intros Hdead.
  unfold KThread.get_taskset. rewrite bind_run. cbn [get_self fst].
  rewrite bind_run. unfold try_except at 1.
  unfold on_sys at 1, zoom, os_call. cbn [fst snd world trace]. rewrite Hdead.
  cbn [fst snd]. rewrite bind_run.
  cbn [set_self modify fst snd mret M_ret].
  set (dead := KThread.set_alive false self).
  assert (Hd : KThread._alive dead = false) by by destruct self.
  match goal with
  | |- KThread._alive (match ?m ?st0 with _ => _ end).2.1 = _ =>
      change (KThread._alive ((fun st1 => m st1) st0).2.1 = false)
  | _ => idtac
  end.
  match goal with
  | |- KThread._alive (?m ?st0).2.1 = _ =>
      apply (keeps_apply (on_obj (W := W) (fun x => KThread._alive x = false)) m);
        [|done]
  end.
  kthread_keeps.
Qed.

End kthread_facts.

(** C9.  Once [alive()] has returned [False], whatever methods of the
    thread are called next and however the kernel answers them, the next
    [alive()] returns [False] and leaves the machine exactly as it was:
    no probe is sent, nothing is logged.  The same holds once
    [get_taskset] has found the process gone. *)
Theorem dead_stays_dead {W : Type} {Hos : OS W} {pf : Platform}
    (st : KThread.t * sys W) (calls : list kthread_call) :
  ((KThread.alive st).1 = Ok false ->
   let st' := kthread_steps calls (KThread.alive st).2 in
   KThread.alive st' = (Ok false, st'))
  /\ (forall w',
        os_sched_getaffinity (KThread.pid st.1) (world st.2)
        = (Raise ProcessLookupError, w') ->
        let st' := kthread_steps calls (KThread.get_taskset st).2 in
        KThread.alive st' = (Ok false, st')).
Proof.
  split.
  - intros Hfalse st'. apply alive_of_dead. subst st'.
    by apply kthread_steps_keep_dead, alive_false.
  - intros w' Hgone st'. apply alive_of_dead. subst st'.
    by eapply kthread_steps_keep_dead, get_taskset_dead.
Qed.

Lemma dead_stays_dead_witness :
  let st := (ScriptedExamples.no_kthread, Scripted.start) in
  let st' := kthread_steps (Hos := Scripted.os ScriptedExamples.vanished)
               (pf := ScriptedExamples.one_cpu)
               [KtAlive; KtGetTaskset; KtAlive]
               (KThread.alive (Hos := Scripted.os ScriptedExamples.vanished) st).2 in
  KThread.alive (Hos := Scripted.os ScriptedExamples.vanished) st' = (Ok false, st').
Proof.
  apply (proj1 (dead_stays_dead (Hos := Scripted.os ScriptedExamples.vanished)
                  (pf := ScriptedExamples.one_cpu)
                  (ScriptedExamples.no_kthread, Scripted.start)
                  [KtAlive; KtGetTaskset; KtAlive])).
  vm_compute. reflexivity.
Defined.

(** ** The success flags *)

Section flag_facts.
Context {W : Type} {Hos : OS W} {pf : Platform}.

Ltac irq_unfold :=
  progress unfold IRQ.update_counts, IRQ.refresh_contents, IRQ.procfs_read,
    IRQ.procfs_write, IRQ.__repr__, IRQ.register_pci_device,
    IRQ.register_kthread, IRQ.get_pin_to_cpu, IRQ.set_pin_to_cpu,
    IRQ.set_pin_to_cpu_body, IRQ.numa_effective, IRQ.write_and_verify.

Ltac irq_keeps :=
  repeat (keeps_step || irq_unfold);
  try (apply keeps_set_self; intros [] ?; simpl in *; done);
  try done.

Ltac kthread_unfold :=
  progress unfold KThread.alive, KThread.refresh_contents, KThread.procfs_read,
    KThread.procfs_write, KThread.register_interrupt, KThread.get_taskset,
    KThread.pin_taskset, KThread.pin_cset, KThread.chrt_ff, KThread.chrt_oth.

Ltac kthread_keeps :=
  repeat (keeps_step || kthread_unfold);
  try (apply keeps_set_self; intros [] ?; simpl in *; done);
  try done.

Lemma log_at {T} lvl site (self : T) (s : sys W) :
  on_sys (log lvl site) (self, s)
  = (Ok tt, (self, Sys (world s) (trace s ++ [EvLog lvl site]))).
Proof. reflexivity. Qed.













End flag_facts.




(** ** Pinning an IRQ *)

Section pin_facts.
Context {W : Type} {Hos : OS W} {pf : Platform}.

Lemma getuid_run {T} (self : T) (s : sys W) :
  on_sys getuid (self, s)
  = (Ok (os_getuid (world s)), (self, Sys (world s) (trace s ++ [EvGetuid]))).
Proof. reflexivity. Qed.

Lemma log_run {T} lvl site (self : T) (s : sys W) :
  on_sys (log lvl site) (self, s)
  = (Ok tt, (self, Sys (world s) (trace s ++ [EvLog lvl site]))).
Proof. reflexivity. Qed.

Lemma py_index_lookup {A} (l : list A) i x :
  0 <= i -> l !! Z.to_nat i = Some x -> py_index l i = Ok x.
Proof.
  intros Hi Hx. unfold py_index.
  pose proof (lookup_lt_Some _ _ _ Hx) as Hlt.
  destruct (i <? 0) eqn:Hneg; [apply Z.ltb_lt in Hneg; lia|].
  destruct (0 <=? i) eqn:H0; [|apply Z.leb_gt in H0; lia].
  destruct (i <? Z.of_nat (length l)) eqn:Hn; [|apply Z.ltb_ge in Hn; lia].
  simpl. by rewrite Hx.
Qed.

Lemma list_to_range_notation_total l :
  Forall (fun c => 0 <= c) l -> exists s, list_to_range_notation l = Ok s.
Proof. intros Hl. rewrite list_to_range_notation_runs by done. eauto. Qed.

(** The choice of the effective target, for a target outside the
    preferred node. *)
Lemma numa_effective_outside (self : IRQ.t) (s : sys W) target relax node :
  Forall (fun c => 0 <= c) target ->
  0 <= IRQ.best_node self ->
  NUMA_CPULIST !! Z.to_nat (IRQ.best_node self) = Some node ->
  ~ Forall (fun c => c ∈ node) target ->
  IRQ.numa_effective target relax (self, s)
  = (Ok (if relax then filter (fun c => c ∈ node) target else target),
     (self,
      Sys (world s)
          (trace s ++ if relax then []
                      else [EvLog ERROR "Pinning IRQ to CPUs not on NUMA node"]))).
Proof.
  intros Hnonneg Hnode Hlookup Hout.
  unfold IRQ.numa_effective. rewrite bind_run. cbn [get_self fst].
  destruct (0 <=? IRQ.best_node self) eqn:Hge; [|apply Z.leb_gt in Hge; lia].
  rewrite bind_run. rewrite (py_index_lookup _ _ _ Hnode Hlookup). cbn [lift_res].
  rewrite bool_decide_eq_false_2 by done. cbn [negb].
  destruct relax.
  - cbn [mret M_ret]. rewrite List.app_nil_r. by destruct s.
  - rewrite bind_run.
    destruct (list_to_range_notation_total target Hnonneg) as [str ->].
    cbn [lift_res]. rewrite bind_run, log_run. reflexivity.
Qed.

End pin_facts.

(** C3.  For an IRQ with a known preferred NUMA node and a non-empty
    target of CPU ids that is not inside the node's CPU set,
    [set_pin_to_cpu] (run as root) goes on to write and verify an effective
    target: with relaxation, the CPUs of the target that are in the node's
    set, in ascending order (possibly none), and nothing is logged about
    the node; without relaxation, the target itself, in ascending order
    (the first log line sorts the caller's list in place), after an error
    record about the node.  With node set {0,1,2,3} and target [1,2,9] the
    effective target is [1,2] when relaxed and [1,2,9] when not. *)
Theorem numa_relaxation :
  (forall {W : Type} {Hos : OS W} {pf : Platform}
          (self : IRQ.t) (s : sys W) (cpu_list : list Z) (relax : bool)
          (node : gset Z),
      os_getuid (world s) = 0 ->
      cpu_list <> [] ->
      Forall (fun c => 0 <= c) cpu_list ->
      0 <= IRQ.best_node self ->
      NUMA_CPULIST !! Z.to_nat (IRQ.best_node self) = Some node ->
      ~ Forall (fun c => c ∈ node) cpu_list ->
      let target := py_sort cpu_list in
      let effective := if relax then filter (fun c => c ∈ node) target else target in
      let violation :=
        if relax then [] else [EvLog ERROR "Pinning IRQ to CPUs not on NUMA node"] in
      IRQ.set_pin_to_cpu cpu_list relax (self, s)
      = IRQ.write_and_verify target effective
          (self,
           Sys (world s)
               (trace s ++ [EvGetuid; EvLog INFO "IRQ::set_pin_to_cpu()"] ++ violation))
      /\ target ≡ₚ cpu_list
      /\ (Sorted Z.le cpu_list -> target = cpu_list)
      /\ (forall c, c ∈ effective <-> c ∈ cpu_list /\ (relax = true -> c ∈ node)))
  /\ (IRQ.numa_effective (W := nat) (pf := PinExample.one_node) [1; 2; 9] true
        (PinExample.irq_on_node0, Scripted.start)).1 = Ok [1; 2]
  /\ IRQ.numa_effective (W := nat) (pf := PinExample.one_node) [1; 2; 9] false
       (PinExample.irq_on_node0, Scripted.start)
     = (Ok [1; 2; 9],
        (PinExample.irq_on_node0,
         Sys O [EvLog ERROR "Pinning IRQ to CPUs not on NUMA node"]))
  /\ PinExample.calls_after 0
       (IRQ.set_pin_to_cpu (Hos := Scripted.os ScriptedExamples.sampled_at_ten)
          (pf := PinExample.one_node) [1; 2; 9] true
          (PinExample.irq_on_node0, Scripted.start)).2.2
     = [EvGetuid; EvGetuid; EvGetuid;
        EvWrite "/proc/irq/42/smp_affinity_list" "1-2";
        EvRead "/proc/irq/42/smp_affinity";
        EvRead "/proc/irq/42/effective_affinity";
        EvRead "/proc/irq/42/spurious"]
  /\ PinExample.calls_after 0
       (IRQ.set_pin_to_cpu (Hos := Scripted.os ScriptedExamples.sampled_at_ten)
          (pf := PinExample.one_node) [1; 2; 9] false
          (PinExample.irq_on_node0, Scripted.start)).2.2
     = [EvGetuid; EvGetuid; EvGetuid;
        EvWrite "/proc/irq/42/smp_affinity_list" "1-2,9";
        EvRead "/proc/irq/42/smp_affinity";
        EvRead "/proc/irq/42/effective_affinity";
        EvRead "/proc/irq/42/spurious"].
Proof.
  split; [|repeat split; vm_compute; reflexivity].
  intros W Hos pf self s cpu_list relax node Hroot Hne Hnonneg Hnode Hlookup Hout
         target effective violation.
  assert (Hperm : target ≡ₚ cpu_list) by apply py_sort_perm.
  assert (Htnonneg : Forall (fun c => 0 <= c) target) by by apply py_sort_Forall.
  assert (Htout : ~ Forall (fun c => c ∈ node) target).
  { intros H. apply Hout. by rewrite <- Hperm. }
  split; [|split; [done|split; [apply py_sort_sorted|]]].
  - unfold IRQ.set_pin_to_cpu. rewrite bind_run, getuid_run, Hroot.
    cbn [negb Z.eqb]. unfold IRQ.set_pin_to_cpu_body. rewrite bind_run.
    destruct (list_to_range_notation_total cpu_list Hnonneg) as [str ->].
    cbn [lift_res]. cbv zeta. rewrite bind_run, log_run. rewrite bind_run.
    assert ((0 <? length (py_sort cpu_list))%nat = true) as ->.
    { apply Nat.ltb_lt. fold target. rewrite Hperm.
      destruct cpu_list; [done | simpl; lia]. }
    cbn [py_assert mret M_ret]. rewrite bind_run.
    fold target. rewrite (numa_effective_outside _ _ target relax node) by done.
    cbn [world trace]. fold effective. subst violation.
    by rewrite <- !List.app_assoc.
  - intros c. subst effective. destruct relax.
    + rewrite list_elem_of_filter, Hperm. intuition.
    + rewrite Hperm. intuition. discriminate.
Qed.

Lemma numa_relaxation_witness :
  let target := py_sort [9; 1; 2] in
  let effective := filter (fun c => c ∈ ({[0; 1; 2; 3]} : gset Z)) target in
  IRQ.set_pin_to_cpu (Hos := Scripted.os ScriptedExamples.sampled_at_ten)
    (pf := PinExample.one_node) [9; 1; 2] true
    (PinExample.irq_on_node0, Scripted.start)
  = IRQ.write_and_verify (Hos := Scripted.os ScriptedExamples.sampled_at_ten)
      target effective
      (PinExample.irq_on_node0,
       Sys O ([] ++ [EvGetuid; EvLog INFO "IRQ::set_pin_to_cpu()"] ++ []))
  /\ target ≡ₚ [9; 1; 2]
  /\ (Sorted Z.le [9; 1; 2] -> target = [9; 1; 2])
  /\ (forall c, c ∈ effective <->
                c ∈ [9; 1; 2] /\ (true = true -> c ∈ ({[0; 1; 2; 3]} : gset Z))).
Proof.
  apply (proj1 numa_relaxation nat (Scripted.os ScriptedExamples.sampled_at_ten)
           PinExample.one_node PinExample.irq_on_node0 Scripted.start
           [9; 1; 2] true {[0; 1; 2; 3]}).
  - reflexivity.
  - discriminate.
  - repeat constructor; lia.
  - vm_compute. discriminate.
  - reflexivity.
  - intros H. inversion H as [|? ? H9 _]; subst.
    apply (bool_decide_pack _) in H9. vm_compute in H9. exact H9.
Defined.

(** ** The composite bind *)

Section bind_facts.
Context {W : Type} {Hos : OS W} {pf : Platform}.

Lemma list_to_range_notation_raises l e :
  list_to_range_notation l = Raise e -> e = AssertionError.
Proof.
  unfold list_to_range_notation.
  destruct (foldl _ _ _) as [pending s]. destruct (decide _); [done|].
  by intros [= <-].
Qed.

Lemma list_to_range_notation_single cpu :
  cpu <> -2 -> list_to_range_notation [cpu] = Ok (PyStr.str cpu).
Proof.
  intros Hcpu. unfold list_to_range_notation.
  change (py_sort [cpu]) with [cpu]. cbn [app foldl].
  unfold range_notation_step at 2. unfold range_notation_step. cbn [List.last length].
  rewrite decide_False by lia. cbn [Nat.eqb]. by rewrite decide_True.
Qed.

Lemma py_sort_length l : length (py_sort l) = length l.
Proof. by rewrite py_sort_perm. Qed.

Lemma log_run_objs lvl site (os : objs) (s : sys W) :
  on_sys (log lvl site) (os, s)
  = (Ok tt, (os, Sys (world s) (trace s ++ [EvLog lvl site]))).
Proof. reflexivity. Qed.

End bind_facts.

(** C6.  A composite bind to a [CPUSpec] whose list does not name exactly
    one CPU raises before anything is done: no object of the run changes,
    the outside world is as it was, and at most one log record is written.
    So does a composite bind to a single CPU that is not in the CPU set of
    the IRQ's preferred NUMA node; for a CPU id other than -2 it raises
    [RuntimeError] after a critical log record. *)
Theorem composite_bind_rejects {W : Type} {Hos : OS W} {pf : Platform}
    (self : EDTObject.t) (cset : CPUSpec.t) (ktprio : option Z)
    (os : objs) (s : sys W) :
  (length (CPUSpec.cpu_list cset) <> 1%nat ->
   exists evs,
     EDTObject.bind_to_cset self cset ktprio (os, s)
     = (Raise AssertionError, (os, Sys (world s) (trace s ++ evs)))
     /\ Forall (fun ev => is_kernel_write ev = false) evs)
  /\ (forall cpu node,
        CPUSpec.cpu_list cset = [cpu] ->
        py_index NUMA_CPULIST (IRQ.best_node (irq_store os (EDTObject.irq self)))
        = Ok node ->
        cpu ∉ node ->
        exists e evs,
          EDTObject.bind_to_cset self cset ktprio (os, s)
          = (Raise e, (os, Sys (world s) (trace s ++ evs)))
          /\ Forall (fun ev => is_kernel_write ev = false) evs
          /\ (cpu <> -2 ->
              e = RuntimeError
              /\ evs = [EvLog INFO "EDTObject::bind_to_cset";
                        EvLog CRITICAL "EDTObj: use of favorite NUMA node required."])).
Proof.
  split.
  - intros Hlen. unfold EDTObject.bind_to_cset. rewrite bind_run. cbn [lift_res].
    unfold CPUSpec.get_str.
    destruct (list_to_range_notation (CPUSpec.cpu_list cset)) as [str|e] eqn:Hstr.
    + cbv zeta. rewrite bind_run, log_run_objs. rewrite bind_run.
      cbn [CPUSpec.sorted CPUSpec.cpu_list]. rewrite py_sort_length.
      destruct (length (CPUSpec.cpu_list cset) =? 1)%nat eqn:Heq;
        [apply Nat.eqb_eq in Heq; done|].
      cbn [py_assert raise]. eexists. split; [reflexivity|].
      by repeat constructor.
    + apply list_to_range_notation_raises in Hstr as ->.
      exists []. rewrite List.app_nil_r. split; [by destruct s | constructor].
  - intros cpu node Hcpu Hnode Hout.
    unfold EDTObject.bind_to_cset. rewrite bind_run. cbn [lift_res].
    unfold CPUSpec.get_str. rewrite Hcpu.
    destruct (list_to_range_notation [cpu]) as [str|e] eqn:Hstr.
    + cbv zeta. rewrite bind_run, log_run_objs. rewrite bind_run.
      cbn [CPUSpec.sorted CPUSpec.cpu_list]. rewrite Hcpu.
      change (py_sort [cpu]) with [cpu]. cbn [length Nat.eqb py_assert mret M_ret].
      rewrite bind_run. change (py_index [cpu] 0) with (Ok cpu). cbn [lift_res].
      rewrite bind_run. cbn [the_irq fst]. rewrite bind_run, Hnode. cbn [lift_res].
      rewrite bool_decide_eq_false_2 by done. cbn [negb].
      rewrite bind_run, log_run_objs. cbn [raise world trace].
      rewrite <- List.app_assoc. do 2 eexists. split; [reflexivity|].
      split; [by repeat constructor | done].
    + apply list_to_range_notation_raises in Hstr as Heq. subst e.
      exists AssertionError, []. rewrite List.app_nil_r.
      split; [by destruct s|]. split; [constructor|].
      intros Hne. by rewrite list_to_range_notation_single in Hstr.
Qed.

Lemma composite_bind_rejects_witness :
  (exists evs,
     EDTObject.bind_to_cset (Hos := Scripted.os BundleExample.settled)
       (pf := ScriptedExamples.one_cpu)
       BundleExample.bundle BundleExample.cpu0_and_1 (Some 50)
       (BundleExample.linked, Scripted.start)
     = (Raise AssertionError, (BundleExample.linked, Sys O ([] ++ evs)))
     /\ Forall (fun ev => is_kernel_write ev = false) evs)
  /\ (exists e evs,
        EDTObject.bind_to_cset (Hos := Scripted.os BundleExample.settled)
          (pf := ScriptedExamples.one_cpu)
          BundleExample.bundle BundleExample.cpu5 (Some 50)
          (BundleExample.linked, Scripted.start)
        = (Raise e, (BundleExample.linked, Sys O ([] ++ evs)))
        /\ Forall (fun ev => is_kernel_write ev = false) evs
        /\ (5 <> -2 ->
            e = RuntimeError
            /\ evs = [EvLog INFO "EDTObject::bind_to_cset";
                      EvLog CRITICAL "EDTObj: use of favorite NUMA node required."])).
Proof.
  split.
  - apply (proj1 (composite_bind_rejects (Hos := Scripted.os BundleExample.settled)
                    (pf := ScriptedExamples.one_cpu)
                    BundleExample.bundle BundleExample.cpu0_and_1 (Some 50)
                    BundleExample.linked Scripted.start)).
    simpl. lia.
  - apply (proj2 (composite_bind_rejects (Hos := Scripted.os BundleExample.settled)
                    (pf := ScriptedExamples.one_cpu)
                    BundleExample.bundle BundleExample.cpu5 (Some 50)
                    BundleExample.linked Scripted.start) 5 {[0]}).
    + reflexivity.
    + reflexivity.
    + apply (bool_decide_unpack _). vm_compute. exact I.
Defined.

(** The composite bind does pin when it accepts its target: on a machine
    that answers as asked, the bundle of IRQ 42 and thread 77 bound to CPU
    0 writes the IRQ affinity, moves and pins the thread, sets its
    priority, and both success flags are set. *)
Example composite_bind_pins :
  let r := EDTObject.bind_to_cset (Hos := Scripted.os BundleExample.settled)
             (pf := ScriptedExamples.one_cpu)
             BundleExample.bundle BundleExample.cpu0 (Some 50)
             (BundleExample.linked, Scripted.start) in
  r.1 = Ok tt
  /\ List.filter is_kernel_write (trace r.2.2)
     = [EvWrite "/proc/irq/42/smp_affinity_list" "0";
        EvCsetProc "-k -m --force 77 root";
        EvRun ["taskset"; "-pc"; "0"; "77"];
        EvCsetProc "-k -m --force 77 rt";
        EvRun ["chrt"; "-f"; "-p"; "50"; "77"]]
  /\ IRQ.was_pinned_successfully_once (irq_store r.2.1 0%nat) = true
  /\ KThread.was_cset_successfully_once (kthread_store r.2.1 0%nat) = true.
Proof. vm_compute. repeat split. Qed.

(** * Further properties of the package *)

(** ** The bit-mask codec, both ways *)

Section mask_codec.

Lemma list_to_mask_loop_nonneg l : forall m0 m,
  0 <= m0 -> res_foldM list_to_mask_step m0 l = Ok m -> 0 <= m.
Proof.
  induction l as [|c l IH]; intros m0 m Hm0; cbn [res_foldM].
  - by intros [= <-].
  - destruct (list_to_mask_step m0 c) as [m1|] eqn:Hstep; [|done].
    unfold list_to_mask_step in Hstep.
    destruct (c <? 0) eqn:Hc; [done|]. apply Z.ltb_ge in Hc.
    injection Hstep as <-. cbn [mbind res_bind]. apply IH.
    apply Z.lor_nonneg. split; [done|]. apply Z.shiftl_nonneg. lia.
Qed.

Lemma list_to_mask_loop_raises l : forall m0,
  ~ Forall (fun c => 0 <= c) l ->
  res_foldM list_to_mask_step m0 l = Raise ValueError.
Proof.
  induction l as [|c l IH]; intros m0 Hneg.
  - destruct Hneg. constructor.
  - cbn [res_foldM].
    destruct (list_to_mask_step m0 c) as [m1|e] eqn:Hstep;
      unfold list_to_mask_step in Hstep;
      destruct (c <? 0) eqn:Hc; try done.
    apply Z.ltb_ge in Hc. cbn [mbind res_bind].
    apply IH. intros Hl. apply Hneg. by constructor.
Qed.

Lemma testbit_true_nonneg m i : Z.testbit m i = true -> 0 <= i.
Proof.
  intros Hb. destruct (decide (0 <= i)) as [|Hn]; [done|].
  rewrite Z.testbit_neg_r in Hb by lia. done.
Qed.

Lemma bits_eq m m' :
  (forall i, Z.testbit m i = true <-> Z.testbit m' i = true) -> m = m'.
Proof.
  intros H. apply Z.bits_inj. intros i. specialize (H i).
  destruct (Z.testbit m i), (Z.testbit m' i); intuition congruence.
Qed.

End mask_codec.

(** X1.  [mask_to_list] of a non-negative mask returns the positions of
    its set bits, in strictly increasing order, and [list_to_mask] of that
    list is the mask again.  A negative mask is refused with
    [AssertionError]. *)
Theorem mask_to_list_inverse (mask : Z) :
  (0 <= mask ->
   exists l,
     mask_to_list mask = Ok l
     /\ Sorted Z.lt l
     /\ (forall i, i ∈ l <-> Z.testbit mask i = true)
     /\ list_to_mask l = Ok mask)
  /\ (mask < 0 -> mask_to_list mask = Raise AssertionError).
Proof.
  split; [|apply mask_to_list_neg].
  intros Hm. destruct (mask_to_list_spec mask Hm) as (l & Hl & Hsorted & Hbits).
  exists l. split; [done|]. split; [done|]. split; [done|].
  assert (Hnonneg : Forall (fun c => 0 <= c) l).
  { apply Forall_forall. intros c Hc. apply Hbits in Hc.
    by eapply testbit_true_nonneg. }
  destruct (list_to_mask_loop_total l 0 Hnonneg) as [m' Hm'].
  unfold list_to_mask. rewrite Hm'. f_equal.
  destruct (list_to_mask_spec l m' Hm') as [_ Hbits'].
  apply bits_eq. intros i. by rewrite Hbits', Hbits.
Qed.

Lemma mask_to_list_inverse_witness :
  exists l,
    mask_to_list 41 = Ok l
    /\ Sorted Z.lt l
    /\ (forall i, i ∈ l <-> Z.testbit 41 i = true)
    /\ list_to_mask l = Ok 41.
Proof. apply (proj1 (mask_to_list_inverse 41)). lia. Defined.

(** X2.  [list_to_mask] accepts exactly the lists without a negative
    entry, whatever their order and repetitions; the mask it returns is
    non-negative and [mask_to_list] of it is the list's entries, each once,
    in increasing order.  A negative entry raises [ValueError]. *)
Theorem list_to_mask_inverse (cpu_list : list Z) :
  (Forall (fun c => 0 <= c) cpu_list ->
   exists m l,
     list_to_mask cpu_list = Ok m
     /\ 0 <= m
     /\ (forall i, Z.testbit m i = true <-> i ∈ cpu_list)
     /\ mask_to_list m = Ok l
     /\ Sorted Z.lt l
     /\ (forall i, i ∈ l <-> i ∈ cpu_list))
  /\ (~ Forall (fun c => 0 <= c) cpu_list ->
      list_to_mask cpu_list = Raise ValueError).
Proof.
  split; [|apply list_to_mask_loop_raises].
  intros Hnonneg.
  destruct (list_to_mask_loop_total cpu_list 0 Hnonneg) as [m Hm].
  assert (Hpos : 0 <= m) by by eapply list_to_mask_loop_nonneg.
  destruct (list_to_mask_spec cpu_list m Hm) as [_ Hbits].
  destruct (mask_to_list_spec m Hpos) as (l & Hl & Hsorted & Hmem).
  exists m, l. repeat split; try done.
  - by apply Hbits.
  - by apply Hbits.
  - intros Hi. apply Hbits. by apply Hmem.
  - intros Hi. apply Hmem. by apply Hbits.
Qed.

Lemma list_to_mask_inverse_witness :
  (exists m l,
     list_to_mask [5; 0; 3; 5] = Ok m
     /\ 0 <= m
     /\ (forall i, Z.testbit m i = true <-> i ∈ [5; 0; 3; 5])
     /\ mask_to_list m = Ok l
     /\ Sorted Z.lt l
     /\ (forall i, i ∈ l <-> i ∈ [5; 0; 3; 5]))
  /\ list_to_mask [2; -1] = Raise ValueError.
Proof.
  split.
  - apply (proj1 (list_to_mask_inverse [5; 0; 3; 5])). repeat constructor; lia.
  - apply (proj2 (list_to_mask_inverse [2; -1])).
    intros H. inversion H as [|? ? _ H']; subst. inversion H' as [|? ? Hneg _]; subst. lia.
Defined.

(** ** Range notation beyond sorted lists *)

Section range_more.
Import RangeNotation.

Lemma int_raises s e : PyStr.int s = Raise e -> e = ValueError.
Proof.
  unfold PyStr.int, PyStr.int_base.
  by destruct (match PyStr.int_strip s with
               | String "-" s' => Z.opp <$> PyStr.parse_unsigned 10 s'
               | String "+" s' => PyStr.parse_unsigned 10 s'
               | s' => PyStr.parse_unsigned 10 s'
               end); [|intros [= <-]].
Qed.

Lemma mapM_int_raises ws e : res_mapM PyStr.int ws = Raise e -> e = ValueError.
Proof.
  induction ws as [|w ws IH]; [done|]. cbn [res_mapM].
  destruct (PyStr.int w) eqn:Hw; cbn [mbind res_bind].
  - destruct (res_mapM PyStr.int ws); cbn [mbind res_bind]; [done|].
    intros [= <-]. by apply IH.
  - intros [= <-]. by eapply int_raises.
Qed.

Lemma range_token_raises acc token e :
  range_token acc token = Raise e -> e = ValueError \/ e = AssertionError.
Proof.
  unfold range_token. destruct (PyStr.mem "-" token).
  - destruct (res_mapM PyStr.int (PyStr.split "-" token)) as [zs|e'] eqn:Hzs;
      cbn [mbind res_bind].
    + destruct zs as [|lo [|hi [|]]]; try (intros [= <-]; by left).
      destruct (lo <=? hi); [done|]. intros [= <-]. by right.
    + intros [= <-]. left. by eapply mapM_int_raises.
  - destruct (PyStr.int token) eqn:Hv; cbn [mbind res_bind]; [done|].
    intros [= <-]. left. by eapply int_raises.
Qed.

Lemma foldM_range_token_raises toks : forall acc e,
  res_foldM range_token acc toks = Raise e -> e = ValueError \/ e = AssertionError.
Proof.
  induction toks as [|t toks IH]; intros acc e; [done|]. cbn [res_foldM].
  destruct (range_token acc t) as [acc'|e'] eqn:Ht; cbn [mbind res_bind].
  - apply IH.
  - intros [= <-]. by eapply range_token_raises.
Qed.

(** A pair whose bounds are the wrong way round. *)
Lemma range_to_list_descending lo hi :
  0 <= hi < lo ->
  range_to_list (PyStr.str lo +:+ "-" +:+ PyStr.str hi) = Raise AssertionError.
Proof.
  intros [Hhi Hlt]. unfold range_to_list.
  assert (Hcomma : PyStr.mem "," (PyStr.str lo +:+ "-" +:+ PyStr.str hi) = false).
  { rewrite !mem_app, !str_no_char by (done || lia). reflexivity. }
  destruct (PyStr.str lo +:+ "-" +:+ PyStr.str hi) as [|x s] eqn:Hs.
  { pose proof (str_nonempty lo ltac:(lia)) as Hne.
    destruct (PyStr.str lo); [done | discriminate]. }
  cbn [String.length Nat.eqb]. rewrite <- Hs in *.
  rewrite split_no_sep by done. cbn [res_foldM].
  unfold range_token. rewrite mem_app.
  replace (PyStr.mem "-" ("-" +:+ PyStr.str hi)) with true by reflexivity.
  rewrite orb_true_r.
  change ("-" +:+ PyStr.str hi) with (String "-" (PyStr.str hi)).
  rewrite split_app_sep by (apply str_no_char; [lia | done]).
  rewrite split_no_sep by (apply str_no_char; [lia | done]).
  simpl. rewrite !int_str by lia. simpl.
  destruct (lo <=? hi) eqn:Hle; [apply Z.leb_le in Hle; lia | done].
Qed.

Lemma py_sort_permutation l l' : l ≡ₚ l' -> py_sort l = py_sort l'.
Proof.
  intros Hperm. apply (Sorted_unique Z.le); try apply py_sort_is_sorted.
  by rewrite !py_sort_perm.
Qed.

(** After the loop of the serializer has read a non-empty list, the
    pending run ends with the list's last element. *)
Lemma fold_pending_last l : forall pending s,
  l <> [] ->
  exists p x s',
    foldl range_notation_step (pending, s) l = (p ++ [x], s')
    /\ x = List.last l 0.
Proof.
  induction l as [|c l IH]; intros pending s Hne; [done|].
  cbn [foldl].
  assert (exists p s1, range_notation_step (pending, s) c = (p ++ [c], s1))
    as (p1 & s1 & Hstep).
  { unfold range_notation_step. destruct pending as [|p0 pending'].
    - by exists [], s.
    - destruct (decide _); [by eexists _, _|].
      destruct (_ =? _)%nat; by eexists [], _. }
  rewrite Hstep. destruct l as [|c' l'].
  - by exists p1, c, s1.
  - destruct (IH (p1 ++ [c]) s1 ltac:(done)) as (p & x & s' & Hrun & Hx).
    exists p, x, s'. split; [done|]. by rewrite Hx.
Qed.

Lemma last_snoc_default (p : list Z) x d : List.last (p ++ [x]) d = x.
Proof. apply List.last_last. Qed.

Lemma list_to_range_notation_last l :
  list_to_range_notation l = Raise AssertionError
  <-> l <> [] /\ List.last (py_sort l) 0 = -2.
Proof.
  unfold list_to_range_notation. rewrite foldl_app. cbn [foldl].
  destruct (decide (l = [])) as [->|Hne].
  { change (py_sort []) with (@nil Z). cbn. split; [done | by intros [? _]]. }
  assert (Hsne : py_sort l <> []).
  { intros Hnil. apply Hne. apply Permutation_nil_r.
    rewrite <- Hnil. by rewrite py_sort_perm. }
  destruct (fold_pending_last (py_sort l) [] "" Hsne) as (p & x & s' & -> & <-).
  unfold range_notation_step.
  destruct (p ++ [x]) as [|p0 rest] eqn:Hp; [by destruct p|].
  rewrite <- Hp. rewrite last_snoc_default.
  destruct (decide (-1 = x + 1)) as [Hx|Hx].
  - rewrite decide_False by (by destruct p as [|? [|]]).
    split; [intros _; split; [done | lia] | done].
  - assert (forall s, (if decide ([-1] = [-1]) then Ok (PyStr.tail s)
                       else Raise AssertionError) <> Raise AssertionError) as Hok.
    { intros s. by rewrite decide_True. }
    split; [|intros [_ ?]; lia].
    destruct (_ =? _)%nat; intros H; by apply Hok in H.
Qed.

Lemma sorted_last_max (l : list Z) :
  Sorted Z.le l -> l <> [] ->
  List.last l 0 ∈ l /\ Forall (fun c => c <= List.last l 0) l.
Proof.
  intros Hs Hne. apply Sorted_StronglySorted in Hs; [|apply _].
  induction Hs as [|x l Hl IH Hx]; [done|].
  destruct l as [|y l'].
  - simpl. split; [by left | by constructor].
  - destruct (IH ltac:(done)) as [Hin Hall].
    change (List.last (x :: y :: l') 0) with (List.last (y :: l') 0).
    split; [by right|]. constructor; [|done].
    rewrite Forall_forall in Hx. by apply Hx.
Qed.

End range_more.

(** X3.  Whatever string it is given, [range_to_list] never returns a
    negative number (a minus sign is always read as the dash of a pair); it
    raises nothing but [ValueError] and [AssertionError]; and a pair whose
    bounds are the wrong way round raises [AssertionError]. *)
Theorem range_to_list_never_negative (range_str : string) :
  (forall l, range_to_list range_str = Ok l -> Forall (fun c => 0 <= c) l)
  /\ (forall e, range_to_list range_str = Raise e ->
        e = ValueError \/ e = AssertionError)
  /\ (forall lo hi, 0 <= hi < lo ->
        range_str = PyStr.str lo +:+ "-" +:+ PyStr.str hi ->
        range_to_list range_str = Raise AssertionError).
Proof.
  split; [|split].
  - intros l. apply range_to_list_nonneg.
  - intros e. unfold range_to_list.
    destruct (String.length range_str =? 0)%nat; [done|].
    apply foldM_range_token_raises.
  - intros lo hi Hlh ->. by apply range_to_list_descending.
Qed.

Lemma range_to_list_never_negative_witness :
  (exists l, range_to_list "0-2,5" = Ok l /\ Forall (fun c => 0 <= c) l)
  /\ (range_to_list "-3" = Raise ValueError
      /\ (ValueError = ValueError \/ ValueError = AssertionError))
  /\ range_to_list "7-4" = Raise AssertionError.
Proof.
  split; [|split].
  - exists [0; 1; 2; 5]. split; [reflexivity|].
    apply (proj1 (range_to_list_never_negative "0-2,5")). reflexivity.
  - split; [reflexivity|].
    apply (proj1 (proj2 (range_to_list_never_negative "-3"))). reflexivity.
  - apply (proj2 (proj2 (range_to_list_never_negative "7-4")) 7 4); [lia | reflexivity].
Defined.

(** X4.  For every list of non-negative integers, in any order and with
    repetitions, [list_to_range_notation] returns a string that
    [range_to_list] parses to the sorted list. *)
Theorem range_notation_parses_to_sorted (L : list Z) :
  Forall (fun c => 0 <= c) L ->
  exists s, list_to_range_notation L = Ok s /\ range_to_list s = Ok (py_sort L).
Proof.
  intros Hnonneg. eexists. split; [by apply list_to_range_notation_runs|].
  rewrite range_to_list_concat.
  - by rewrite runs_expand.
  - apply runs_bounds. by apply py_sort_Forall.
Qed.

Lemma range_notation_parses_to_sorted_witness :
  exists s, list_to_range_notation [7; 1; 2; 2; 0] = Ok s
            /\ range_to_list s = Ok (py_sort [7; 1; 2; 2; 0]).
Proof.
  apply (range_notation_parses_to_sorted [7; 1; 2; 2; 0]). repeat constructor; lia.
Defined.

(** X5.  The string [list_to_range_notation] returns, or its failure,
    does not depend on the order of the list it is given. *)
Theorem list_to_range_notation_any_order (l l' : list Z) :
  l ≡ₚ l' -> list_to_range_notation l = list_to_range_notation l'.
Proof.
  intros Hperm. unfold list_to_range_notation.
  by rewrite (py_sort_permutation l l').
Qed.

Lemma list_to_range_notation_any_order_witness :
  list_to_range_notation [9; 1; 2] = list_to_range_notation [2; 9; 1].
Proof.
  apply list_to_range_notation_any_order.
  apply (Permutation_cons_app [2] [1] 9). apply perm_swap.
Defined.

(** X6.  [list_to_range_notation] fails, with [AssertionError], exactly
    on the lists whose greatest entry is -2: the -1 the loop appends then
    extends the last run instead of closing it.  Every other list, the
    empty one included, is serialized. *)
Theorem list_to_range_notation_fails (cpu_list : list Z) :
  (list_to_range_notation cpu_list = Raise AssertionError
   <-> -2 ∈ cpu_list /\ Forall (fun c => c <= -2) cpu_list)
  /\ (forall e, list_to_range_notation cpu_list = Raise e -> e = AssertionError).
Proof.
  split; [|intros e; apply list_to_range_notation_raises].
  rewrite list_to_range_notation_last. split.
  - intros [Hne Hlast].
    assert (Hsne : py_sort cpu_list <> []).
    { intros Hnil. apply Hne. apply Permutation_nil_r.
      rewrite <- Hnil. by rewrite py_sort_perm. }
    destruct (sorted_last_max (py_sort cpu_list) (py_sort_is_sorted _) Hsne)
      as [Hin Hall].
    rewrite Hlast in Hin, Hall. by rewrite py_sort_perm in Hin, Hall.
  - intros [Hin Hall].
    assert (Hne : cpu_list <> []) by (intros ->; by apply elem_of_nil in Hin).
    split; [done|].
    assert (Hsne : py_sort cpu_list <> []).
    { intros Hnil. apply Hne. apply Permutation_nil_r.
      rewrite <- Hnil. by rewrite py_sort_perm. }
    destruct (sorted_last_max (py_sort cpu_list) (py_sort_is_sorted _) Hsne)
      as [Hlin Hlall].
    remember (List.last (py_sort cpu_list) 0) as x eqn:Hx. clear Hx.
    rewrite py_sort_perm in Hlin. rewrite Forall_forall in Hall, Hlall.
    specialize (Hall _ Hlin). rewrite <- (py_sort_perm cpu_list) in Hin.
    specialize (Hlall _ Hin). lia.
Qed.

(** ** The root check *)

Section root_facts.
Context {W : Type} {Hos : OS W}.

Lemma root_decorator_refuses {A} (func : M (sys W) A) (s : sys W) :
  os_getuid (world s) <> 0 ->
  root_decorator func s
  = (Raise PermissionError, Sys (world s) (trace s ++ [EvGetuid])).
Proof.
  intros Hne. unfold root_decorator. rewrite bind_run.
  cbn [getuid os_call world trace].
  by destruct (Z.eqb_spec (os_getuid (world s)) 0).
Qed.

Lemma root_decorator_admits {A} (func : M (sys W) A) (s : sys W) :
  os_getuid (world s) = 0 ->
  root_decorator func s = func (Sys (world s) (trace s ++ [EvGetuid])).
Proof.
  intros Hroot. unfold root_decorator. rewrite bind_run.
  cbn [getuid os_call world trace]. by rewrite Hroot.
Qed.

Lemma on_sys_run {T A} (m : M (sys W) A) (self : T) (s : sys W) :
  on_sys m (self, s) = ((m s).1, (self, (m s).2)).
Proof. unfold on_sys, zoom. cbn. by destruct (m s). Qed.

Lemma refused_at_object {T A} (k : Z -> M (T * sys W) A) (self : T) (s : sys W) :
  os_getuid (world s) <> 0 ->
  (forall uid, uid <> 0 -> k uid = raise PermissionError) ->
  (on_sys getuid ≫= k) (self, s)
  = (Raise PermissionError, (self, Sys (world s) (trace s ++ [EvGetuid]))).
Proof.
  intros Hne Hk. rewrite bind_run, on_sys_run. cbn [getuid os_call world trace fst snd].
  by rewrite Hk.
Qed.

End root_facts.

(** X7.  Called by a user other than root, every operation behind
    [root_decorator] raises [PermissionError] at once: the only thing it
    does is ask for the user id; nothing is logged, no file is written, no
    command is run and no object changes. *)
Theorem non_root_is_refused {W : Type} {Hos : OS W} {pf : Platform} (s : sys W) :
  os_getuid (world s) <> 0 ->
  let s' := Sys (world s) (trace s ++ [EvGetuid]) in
  (forall file content, procfs_write file content s = (Raise PermissionError, s'))
  /\ (forall config, procfs_write_list config s = (Raise PermissionError, s'))
  /\ (forall key contents, sysctl_write key contents s = (Raise PermissionError, s'))
  /\ (forall config, sysctl_write_list config s = (Raise PermissionError, s'))
  /\ (forall args, cset_proc_call args s = (Raise PermissionError, s'))
  /\ (forall cpuset, CPUSpec_create cpuset s = (Raise PermissionError, s'))
  /\ (forall csets shield,
        cset_creation csets shield s = (Raise PermissionError, s'))
  /\ (forall (self : IRQ.t) file content,
        IRQ.procfs_write file content (self, s) = (Raise PermissionError, (self, s')))
  /\ (forall (self : IRQ.t) cpu_list numaify_subset_ok,
        IRQ.set_pin_to_cpu cpu_list numaify_subset_ok (self, s)
        = (Raise PermissionError, (self, s')))
  /\ (forall (self : KThread.t) file content,
        KThread.procfs_write file content (self, s)
        = (Raise PermissionError, (self, s')))
  /\ (forall (self : KThread.t) taskset,
        KThread.pin_taskset taskset (self, s) = (Raise PermissionError, (self, s')))
  /\ (forall (self : KThread.t) cpuset,
        KThread.pin_cset cpuset (self, s) = (Raise PermissionError, (self, s')))
  /\ (forall (self : KThread.t) rtprio,
        KThread.chrt_ff rtprio (self, s) = (Raise PermissionError, (self, s')))
  /\ (forall (self : KThread.t),
        KThread.chrt_oth (self, s) = (Raise PermissionError, (self, s')))
  /\ (forall (os : objs) irqs cpus,
        irq_parking irqs cpus (os, s) = (Raise PermissionError, (os, s'))).
Proof.
  intros Hne s'.
  assert (Hif : forall (T A : Type) (m : M (T * sys W) A) uid,
            uid <> 0 ->
            (if negb (uid =? 0) then raise PermissionError else m)
            = raise PermissionError).
  { intros T A m uid Huid. by destruct (Z.eqb_spec uid 0). }
  repeat split; intros.
  - by apply root_decorator_refuses.
  - by apply root_decorator_refuses.
  - by apply root_decorator_refuses.
  - by apply root_decorator_refuses.
  - by apply root_decorator_refuses.
  - by apply root_decorator_refuses.
  - by apply root_decorator_refuses.
  - unfold IRQ.procfs_write. rewrite bind_run. cbn [get_self fst].
    rewrite on_sys_run, root_decorator_refuses by done. reflexivity.
  - unfold IRQ.set_pin_to_cpu. apply refused_at_object; [done|].
    intros uid Huid. by apply Hif.
  - unfold KThread.procfs_write. rewrite bind_run. cbn [get_self fst].
    rewrite on_sys_run, root_decorator_refuses by done. reflexivity.
  - unfold KThread.pin_taskset. apply refused_at_object; [done|].
    intros uid Huid. by apply Hif.
  - unfold KThread.pin_cset. apply refused_at_object; [done|].
    intros uid Huid. by apply Hif.
  - unfold KThread.chrt_ff. apply refused_at_object; [done|].
    intros uid Huid. by apply Hif.
  - unfold KThread.chrt_oth. apply refused_at_object; [done|].
    intros uid Huid. by apply Hif.
  - unfold irq_parking. apply refused_at_object; [done|].
    intros uid Huid. by apply Hif.
Qed.

Lemma non_root_is_refused_witness :
  IRQ.set_pin_to_cpu (Hos := Scripted.os MoreExamples.user)
    (pf := ScriptedExamples.one_cpu) [0] false
    (SamplerExample.irq42, Scripted.start)
  = (Raise PermissionError, (SamplerExample.irq42, Sys O ([] ++ [EvGetuid])))
  /\ (forall config,
        sysctl_write_list (Hos := Scripted.os MoreExamples.user) config Scripted.start
        = (Raise PermissionError, Sys O ([] ++ [EvGetuid]))).
Proof.
  pose proof (non_root_is_refused (Hos := Scripted.os MoreExamples.user)
                (pf := ScriptedExamples.one_cpu) Scripted.start) as H.
  cbv zeta in H. split.
  - apply H. vm_compute. discriminate.
  - apply H. vm_compute. discriminate.
Defined.

(** ** sysctl keys *)

Section sysctl_facts.
Context {W : Type} {Hos : OS W}.

Lemma procfs_write_run file content (s : sys W) :
  os_getuid (world s) = 0 ->
  procfs_write file content s
  = let tr := trace s ++ [EvGetuid; EvWrite file content] in
    match os_write file content (world s) with
    | (Ok n, w') =>
        (if n <=? 0 then Raise ProcfsWriteError else Ok tt, Sys w' tr)
    | (Raise e, w') => (Raise e, Sys w' tr)
    end.
Proof.
  intros Hroot. unfold procfs_write. rewrite root_decorator_admits by done.
  rewrite bind_run. unfold os_call. cbn [world trace].
  rewrite <- List.app_assoc. cbn [app].
  destruct (os_write file content (world s)) as [[n|e] w']; [|done].
  by destruct (n <=? 0).
Qed.

(** One call of [sysctl_write] by root. *)
Lemma sysctl_write_run key contents (s : sys W) :
  os_getuid (world s) = 0 ->
  sysctl_write key contents s
  = let file := "/proc/sys/" +:+ str_replace_char "." "/" key in
    let tr := trace s ++ [EvGetuid; EvGetuid; EvWrite file contents] in
    match os_write file contents (world s) with
    | (Ok n, w') =>
        (if n <=? 0 then Raise ProcfsWriteError else Ok tt, Sys w' tr)
    | (Raise e, w') =>
        if is_FileNotFoundError e
        then (Ok tt, Sys w' (tr ++ [EvLog ERROR "sysctl_write: key does not exist"]))
        else (Raise e, Sys w' tr)
    end.
Proof.
  intros Hroot. unfold sysctl_write. rewrite root_decorator_admits by done.
  cbv zeta. unfold try_except. rewrite procfs_write_run by done.
  cbn [world trace]. rewrite <- List.app_assoc. cbn [app].
  destruct (os_write _ contents (world s)) as [[n|e] w']; cbv zeta.
  - by destruct (n <=? 0).
  - by destruct e.
Qed.

Lemma filter_app_writes (l1 l2 : list event) :
  List.filter is_kernel_write (l1 ++ l2)
  = List.filter is_kernel_write l1 ++ List.filter is_kernel_write l2.
Proof. apply List.filter_app. Qed.

(** The loop of [sysctl_write_list], on a machine where a key is either
    written or missing. *)
Lemma sysctl_loop_run config :
  (forall w, os_getuid w = 0) ->
  Forall (fun kv =>
            forall w,
              let file := "/proc/sys/" +:+ str_replace_char "." "/" kv.1 in
              (exists w', os_write file (py_str kv.2) w = (Raise FileNotFoundError, w'))
              \/ (exists n w', 0 < n /\ os_write file (py_str kv.2) w = (Ok n, w')))
         config ->
  forall s : sys W,
    exists s',
      for_each config (fun kv => sysctl_write kv.1 (py_str kv.2)) s = (Ok tt, s')
      /\ List.filter is_kernel_write (trace s')
         = List.filter is_kernel_write (trace s)
           ++ ((fun kv => EvWrite ("/proc/sys/" +:+ str_replace_char "." "/" kv.1)
                                  (py_str kv.2)) <$> config).
Proof.
  intros Hroot Hwrite.
  induction config as [|[key value] config IH]; intros s.
  - exists s. split; [done|]. cbn. by rewrite List.app_nil_r.
  - inversion Hwrite as [|? ? Hhead Htail]; subst. specialize (IH Htail).
    cbn [for_each]. rewrite bind_run. cbn [fst snd].
    rewrite sysctl_write_run by done. cbv zeta.
    destruct (Hhead (world s)) as [[w' Hw]|(n & w' & Hn & Hw)];
      cbn [fst snd] in Hw; rewrite Hw.
    + cbn [is_FileNotFoundError].
      destruct (IH (Sys w' ((trace s ++ [EvGetuid; EvGetuid;
                    EvWrite ("/proc/sys/" +:+ str_replace_char "." "/" key)
                            (py_str value)])
                   ++ [EvLog ERROR "sysctl_write: key does not exist"])))
        as (s' & Hrun & Htr).
      exists s'. split; [done|]. rewrite Htr. cbn [trace fmap list_fmap].
      rewrite !filter_app_writes. cbn. rewrite List.app_nil_r.
      by rewrite <- List.app_assoc.
    + destruct (Z.leb_spec n 0); [lia|].
      destruct (IH (Sys w' (trace s ++ [EvGetuid; EvGetuid;
                    EvWrite ("/proc/sys/" +:+ str_replace_char "." "/" key)
                            (py_str value)])))
        as (s' & Hrun & Htr).
      exists s'. split; [done|]. rewrite Htr. cbn [trace fmap list_fmap].
      rewrite !filter_app_writes. cbn.
      by rewrite <- List.app_assoc.
Qed.

End sysctl_facts.

(** X8.  Run by root on a machine where every key is either written or
    missing, [sysctl_write_list] goes through the whole list and returns: a
    missing key is logged and skipped, and each entry is written once, in
    order, to [/proc/sys/] followed by the key with its dots turned into
    slashes.  A write that returns no byte count stops the list with
    [ProcfsWriteError]. *)
Theorem sysctl_write_list_skips_missing {W : Type} {Hos : OS W}
    (config : list (string * str_or_int)) (s : sys W) :
  (forall w, os_getuid w = 0) ->
  (Forall (fun kv =>
             forall w,
               let file := "/proc/sys/" +:+ str_replace_char "." "/" kv.1 in
               (exists w', os_write file (py_str kv.2) w = (Raise FileNotFoundError, w'))
               \/ (exists n w', 0 < n /\ os_write file (py_str kv.2) w = (Ok n, w')))
          config ->
   exists s',
     sysctl_write_list config s = (Ok tt, s')
     /\ List.filter is_kernel_write (trace s')
        = List.filter is_kernel_write (trace s)
          ++ ((fun kv => EvWrite ("/proc/sys/" +:+ str_replace_char "." "/" kv.1)
                                 (py_str kv.2)) <$> config))
  /\ (forall key value rest n w',
        config = (key, value) :: rest ->
        os_write ("/proc/sys/" +:+ str_replace_char "." "/" key) (py_str value) (world s)
        = (Ok n, w') ->
        n <= 0 ->
        sysctl_write_list config s
        = (Raise ProcfsWriteError,
           Sys w' (trace s ++ [EvGetuid; EvGetuid; EvGetuid;
                               EvWrite ("/proc/sys/" +:+ str_replace_char "." "/" key)
                                       (py_str value)]))).
Proof.
  intros Hroot. split.
  - intros Hwrite. unfold sysctl_write_list. rewrite root_decorator_admits by done.
    destruct (sysctl_loop_run config Hroot Hwrite
                (Sys (world s) (trace s ++ [EvGetuid]))) as (s' & Hrun & Htr).
    exists s'. split; [done|]. rewrite Htr. cbn [trace].
    rewrite filter_app_writes. cbn. by rewrite List.app_nil_r.
  - intros key value rest n w' -> Hw Hn.
    unfold sysctl_write_list. rewrite root_decorator_admits by done.
    cbn [for_each]. rewrite bind_run. cbn [fst snd].
    rewrite sysctl_write_run by done. cbv zeta. cbn [world trace]. rewrite Hw.
    destruct (Z.leb_spec n 0); [|lia].
    by rewrite <- List.app_assoc.
Qed.

Lemma sysctl_write_list_skips_missing_witness :
  exists s',
    sysctl_write_list (Hos := Scripted.os MoreExamples.sysctl_machine)
      MoreExamples.tweaks Scripted.start = (Ok tt, s')
    /\ List.filter is_kernel_write (trace s')
       = List.filter is_kernel_write []
         ++ ((fun kv => EvWrite ("/proc/sys/" +:+ str_replace_char "." "/" kv.1)
                                (py_str kv.2)) <$> MoreExamples.tweaks).
Proof.
  apply (proj1 (sysctl_write_list_skips_missing
                  (Hos := Scripted.os MoreExamples.sysctl_machine)
                  MoreExamples.tweaks Scripted.start ltac:(reflexivity))).
  constructor; [|constructor; [|constructor]]; intros w; cbv zeta.
  - left. by exists (S w).
  - right. exists 2, (S w). split; [lia | reflexivity].
Defined.

(** X9.  [sysctl_read] of a key that does not exist returns the empty
    string, after an error record, and not an exception; of a key whose
    file is empty it raises [IndexError]; otherwise it returns the first
    line of the file, trailing whitespace removed. *)
Theorem sysctl_read_missing_key {W : Type} {Hos : OS W} (key : string) (s : sys W) :
  let file := "/proc/sys/" +:+ str_replace_char "." "/" key in
  (forall w',
     os_readlines file (world s) = (Raise FileNotFoundError, w') ->
     sysctl_read key s
     = (Ok ""%string,
        Sys w' (trace s ++ [EvRead file;
                            EvLog ERROR "sysctl_read: key does not exist"])))
  /\ (forall w',
        os_readlines file (world s) = (Ok [], w') ->
        sysctl_read key s = (Raise IndexError, Sys w' (trace s ++ [EvRead file])))
  /\ (forall line rest w',
        os_readlines file (world s) = (Ok (line :: rest), w') ->
        sysctl_read key s
        = (Ok (PyStr.rstrip line), Sys w' (trace s ++ [EvRead file]))).
Proof.
  intros file. unfold sysctl_read, try_except, procfs_read. fold file.
  repeat split; intros; rewrite !bind_run; unfold os_call; rewrite H; cbn.
  - rewrite bind_run. cbn [log emit modify world trace mret M_ret].
    by rewrite <- List.app_assoc.
  - done.
  - done.
Qed.

Lemma sysctl_read_missing_key_witness :
  sysctl_read (Hos := Scripted.os MoreExamples.sysctl_machine) "vm.nothing" Scripted.start
  = (Ok ""%string,
     Sys 1%nat ([] ++ [EvRead "/proc/sys/vm/nothing";
                       EvLog ERROR "sysctl_read: key does not exist"]))
  /\ sysctl_read (Hos := Scripted.os MoreExamples.sysctl_machine) "vm.empty" Scripted.start
     = (Raise IndexError, Sys 1%nat ([] ++ [EvRead "/proc/sys/vm/empty"]))
  /\ sysctl_read (Hos := Scripted.os MoreExamples.sysctl_machine) "vm.swappiness"
       Scripted.start
     = (Ok (PyStr.rstrip ("60" +:+ String LF "")),
        Sys 1%nat ([] ++ [EvRead "/proc/sys/vm/swappiness"])).
Proof.
  pose proof (sysctl_read_missing_key (Hos := Scripted.os MoreExamples.sysctl_machine))
    as H.
  split; [|split].
  - apply (proj1 (H "vm.nothing"%string Scripted.start)). reflexivity.
  - apply (proj1 (proj2 (H "vm.empty"%string Scripted.start))). reflexivity.
  - apply (proj2 (proj2 (H "vm.swappiness"%string Scripted.start)) _ []). reflexivity.
Defined.

(** ** Pairing kernel threads with IRQs *)

Section match_kthread_facts.
Context {W : Type} {Hos : OS W} {pf : Platform}.

Lemma register_kthread_ok k (self : IRQ.t) (s : sys W) self' s' :
  IRQ.register_kthread k (self, s) = (Ok tt, (self', s')) ->
  IRQ.id self' = IRQ.id self /\ IRQ.kthread self' = Some k.
Proof.
  unfold IRQ.register_kthread. rewrite bind_run.
  pose proof (repr_keeps (W := W) (fun x => IRQ.id x = IRQ.id self)) as Hk.
  specialize (Hk ltac:(repeat split; intros; by destruct x) (self, s) eq_refl).
  destruct (IRQ.__repr__ (self, s)) as [[[]|e] [self1 s1]]; [|done].
  simpl in Hk. cbn. intros [= <- <-]. by destruct self1.
Qed.

Lemma register_interrupt_run irq (kt : KThread.t) (s : sys W) :
  KThread.register_interrupt irq (kt, s)
  = (Ok tt, (KThread.set_irq_obj (Some irq) kt,
             Sys (world s) (trace s ++ [EvLog INFO "KThread::register_interrupt"]))).
Proof. reflexivity. Qed.

Lemma kthread_reverse_lookup_snoc store kthreads k :
  kthread_reverse_lookup store (kthreads ++ [k])
  = match KThread._irq_number (store k) with
    | Some n => <[n := k]> (kthread_reverse_lookup store kthreads)
    | None => kthread_reverse_lookup store kthreads
    end.
Proof. unfold kthread_reverse_lookup. by rewrite foldl_app. Qed.

Lemma kthread_reverse_lookup_spec store kthreads n :
  match kthread_reverse_lookup store kthreads !! n with
  | Some k => last_with store kthreads n k
  | None => Forall (fun k2 => KThread._irq_number (store k2) <> Some n) kthreads
  end.
Proof.
  induction kthreads as [|k kthreads IH] using rev_ind.
  - cbn. constructor.
  - rewrite kthread_reverse_lookup_snoc.
    destruct (KThread._irq_number (store k)) as [m|] eqn:Hk.
    + destruct (decide (m = n)) as [->|Hne].
      * rewrite lookup_insert_eq. exists kthreads, []. by repeat split.
      * rewrite lookup_insert_ne by done.
        destruct (kthread_reverse_lookup store kthreads !! n) as [k'|].
        -- destruct IH as (l1 & l2 & -> & Hk' & Hl2).
           exists l1, (l2 ++ [k]). rewrite <- List.app_assoc. split; [done|].
           split; [done|]. apply Forall_app. split; [done|].
           constructor; [congruence | constructor].
        -- apply Forall_app. split; [done|]. constructor; [congruence | constructor].
    + destruct (kthread_reverse_lookup store kthreads !! n) as [k'|].
      * destruct IH as (l1 & l2 & -> & Hk' & Hl2).
        exists l1, (l2 ++ [k]). rewrite <- List.app_assoc. split; [done|].
        split; [done|]. apply Forall_app. split; [done|].
        constructor; [congruence | constructor].
      * apply Forall_app. split; [done|]. constructor; [congruence | constructor].
Qed.

(** What one round of the pairing loop does. *)
Lemma pair_up_ok rl irq os (s : sys W) os1 s1 :
  pair_up rl irq (os, s) = (Ok tt, (os1, s1)) ->
  (forall a, IRQ.id (irq_store os1 a) = IRQ.id (irq_store os a))
  /\ (forall a, a <> irq -> irq_store os1 a = irq_store os a)
  /\ (forall y, KThread._irq_number (kthread_store os1 y)
                = KThread._irq_number (kthread_store os y))
  /\ match rl !! IRQ.id (irq_store os irq) with
     | Some k =>
         IRQ.kthread (irq_store os1 irq) = Some k
         /\ KThread._irq_obj (kthread_store os1 k) = Some irq
         /\ forall y, y <> k -> kthread_store os1 y = kthread_store os y
     | None => os1 = os
     end.
Proof.
  unfold pair_up. rewrite bind_run. cbn [the_irq fst].
  destruct (rl !! IRQ.id (irq_store os irq)) as [k|] eqn:Hk.
  - rewrite bind_run, on_irq_run.
    destruct (IRQ.register_kthread k (irq_store os irq, s))
      as [[[]|e] [self' s']] eqn:Hreg; [|done].
    cbn [fst snd]. rewrite on_kthread_run, register_interrupt_run.
    cbn [fst snd kthread_store irq_store]. intros [= <- <-].
    apply register_kthread_ok in Hreg as [Hid Hkt].
    cbn [irq_store kthread_store]. repeat split.
    + intros a. destruct (decide (a = irq)) as [->|]; [by rewrite upd_eq|].
      by rewrite upd_ne.
    + intros a Ha. by rewrite upd_ne.
    + intros y. destruct (decide (y = k)) as [->|]; [|by rewrite upd_ne].
      rewrite upd_eq. by destruct (kthread_store os k).
    + by rewrite upd_eq.
    + rewrite upd_eq. by destruct (kthread_store os k).
    + intros y Hy. by rewrite upd_ne.
  - cbn. by intros [= <- <-].
Qed.

(** The pairing loop, from a state in which the IRQs [done] are
    already paired. *)
Lemma pair_up_all_ok rl store0 ids0 (irqs : list ref) :
  (forall n k, rl !! n = Some k -> KThread._irq_number (store0 k) = Some n) ->
  (forall a b, a ∈ irqs -> b ∈ irqs -> ids0 a = ids0 b -> a = b) ->
  forall rest done os (s : sys W) os' s',
    (forall a, a ∈ done ++ rest -> a ∈ irqs) ->
    (forall a, IRQ.id (irq_store os a) = ids0 a) ->
    (forall y, KThread._irq_number (kthread_store os y)
               = KThread._irq_number (store0 y)) ->
    (forall a k, a ∈ done -> rl !! ids0 a = Some k ->
                 IRQ.kthread (irq_store os a) = Some k
                 /\ KThread._irq_obj (kthread_store os k) = Some a) ->
    for_each rest (pair_up rl) (os, s) = (Ok tt, (os', s')) ->
    (forall a, IRQ.id (irq_store os' a) = ids0 a)
    /\ (forall a k, a ∈ done ++ rest -> rl !! ids0 a = Some k ->
                    IRQ.kthread (irq_store os' a) = Some k
                    /\ KThread._irq_obj (kthread_store os' k) = Some a).
Proof.
  intros Hrl Hdistinct.
  induction rest as [|irq rest IH]; intros done os s os' s' Hin Hids Hnum Hdone.
  - cbn. intros [= <- <-]. rewrite List.app_nil_r. by split.
  - cbn [for_each]. rewrite bind_run.
    destruct (pair_up rl irq (os, s)) as [[[]|e] [os1 s1]] eqn:Hstep; [|done].
    apply pair_up_ok in Hstep as (Hid1 & Hother1 & Hnum1 & Hirq).
    intros Hrun.
    apply (IH (done ++ [irq])) in Hrun.
    + by rewrite <- List.app_assoc in Hrun.
    + intros a Ha. apply Hin. by rewrite <- List.app_assoc in Ha.
    + intros a. by rewrite Hid1.
    + intros y. by rewrite Hnum1.
    + intros a k Ha Hk. rewrite Hids in Hirq.
      assert (Hirq_in : irq ∈ irqs).
      { apply Hin. apply elem_of_app. right. by left. }
      apply elem_of_app in Ha as [Ha|Ha%list_elem_of_singleton].
      * destruct (Hdone a k Ha Hk) as [Hkt Hobj].
        assert (Ha_in : a ∈ irqs).
        { apply Hin. apply elem_of_app. by left. }
        destruct (decide (a = irq)) as [->|Hne].
        -- rewrite Hk in Hirq. by destruct Hirq as (? & ? & _).
        -- rewrite Hother1 by done. split; [done|].
           destruct (rl !! ids0 irq) as [k'|] eqn:Hk'; [|by subst].
           destruct Hirq as (_ & _ & Hframe).
           destruct (decide (k = k')) as [<-|Hkk]; [|by rewrite Hframe].
           exfalso. apply Hne. apply Hdistinct; [done..|].
           apply Hrl in Hk, Hk'. congruence.
      * subst a. rewrite Hk in Hirq. by destruct Hirq as (? & ? & _).
Qed.

End match_kthread_facts.

(** X10.  When [match_kthread_and_irq] returns and the IRQs of the list
    have distinct ids, every IRQ of the list whose id is the interrupt
    number of some listed thread is paired with the last such thread of
    the list, and the pair agrees: the IRQ names the thread and the thread
    names the IRQ. *)
Theorem kthread_irq_pairs_agree {W : Type}
    (irqs kthreads : list ref) (os os' : objs) (s s' : sys W) :
  match_kthread_and_irq irqs kthreads (os, s) = (Ok tt, (os', s')) ->
  (forall a b, a ∈ irqs -> b ∈ irqs ->
               IRQ.id (irq_store os a) = IRQ.id (irq_store os b) -> a = b) ->
  forall a k,
    a ∈ irqs -> k ∈ kthreads ->
    KThread._irq_number (kthread_store os k) = Some (IRQ.id (irq_store os a)) ->
    exists k' before after,
      kthreads = before ++ k' :: after
      /\ KThread._irq_number (kthread_store os k') = Some (IRQ.id (irq_store os a))
      /\ Forall (fun k2 => KThread._irq_number (kthread_store os k2)
                           <> Some (IRQ.id (irq_store os a))) after
      /\ IRQ.kthread (irq_store os' a) = Some k'
      /\ KThread._irq_obj (kthread_store os' k') = Some a.
Proof.
  unfold match_kthread_and_irq. rewrite bind_run.
  cbn [on_sys zoom log emit modify fst snd]. rewrite bind_run. cbn [get_state fst].
  cbv zeta. rewrite bind_run.
  set (rl := kthread_reverse_lookup (kthread_store os) kthreads).
  destruct (for_each irqs (pair_up rl) _) as [[[]|e] [os1 s1]] eqn:Hloop; [|done].
  cbn. intros [= <- <-] Hdistinct a k Ha Hk Hnum.
  pose proof (kthread_reverse_lookup_spec (kthread_store os) kthreads
                (IRQ.id (irq_store os a))) as Hspec. fold rl in Hspec.
  destruct (rl !! IRQ.id (irq_store os a)) as [k'|] eqn:Hk'.
  - destruct Hspec as (before & after & Hsplit & Hnum' & Hafter).
    exists k', before, after. split; [done|]. split; [done|]. split; [done|].
    assert (Hrl : forall n k0, rl !! n = Some k0 ->
                    KThread._irq_number (kthread_store os k0) = Some n).
    { intros n k0 Hk0.
      pose proof (kthread_reverse_lookup_spec (kthread_store os) kthreads n) as H0.
      fold rl in H0. rewrite Hk0 in H0. by destruct H0 as (? & ? & _ & ? & _). }
    destruct (pair_up_all_ok rl (kthread_store os)
                (fun a => IRQ.id (irq_store os a)) irqs Hrl Hdistinct
                irqs [] os
                (Sys (world s) (trace s ++ [EvLog DEBUG "match_kthread_and_irq()"]))
                os1 s1) as [_ Hpairs]; try done.
    { intros ? ? Hnil. by apply elem_of_nil in Hnil. }
    by apply Hpairs.
  - exfalso. rewrite Forall_forall in Hspec. by apply (Hspec k).
Qed.

Lemma kthread_irq_pairs_agree_witness :
  let r := match_kthread_and_irq (W := nat) [0%nat] [0%nat]
             (MoreExamples.unpaired, Scripted.start) in
  exists k' before after,
    [0%nat] = before ++ k' :: after
    /\ KThread._irq_number (kthread_store MoreExamples.unpaired k')
       = Some (IRQ.id (irq_store MoreExamples.unpaired 0%nat))
    /\ Forall (fun k2 => KThread._irq_number (kthread_store MoreExamples.unpaired k2)
                         <> Some (IRQ.id (irq_store MoreExamples.unpaired 0%nat))) after
    /\ IRQ.kthread (irq_store r.2.1 0%nat) = Some k'
    /\ KThread._irq_obj (kthread_store r.2.1 k') = Some 0%nat.
Proof.
  intros r.
  assert (Hrun : r = (Ok tt, (r.2.1, r.2.2))).
  { assert (Hok : r.1 = Ok tt) by (vm_compute; reflexivity).
    destruct r as [res [os' s']]. simpl in *. by rewrite Hok. }
  assert (Hdistinct : forall a b : ref,
            a ∈ [0%nat] -> b ∈ [0%nat] ->
            IRQ.id (irq_store MoreExamples.unpaired a)
            = IRQ.id (irq_store MoreExamples.unpaired b) -> a = b).
  { intros a b Ha%list_elem_of_singleton Hb%list_elem_of_singleton _. congruence. }
  apply (kthread_irq_pairs_agree [0%nat] [0%nat] MoreExamples.unpaired r.2.1
           Scripted.start r.2.2 Hrun Hdistinct 0%nat 0%nat).
  - by left.
  - by left.
  - vm_compute. reflexivity.
Defined.

(** ** An interrupt table that cannot be read *)

Section table_facts.
Context {W : Type} {Hos : OS W} {pf : Platform}.

Lemma take_snapshot_run (s : sys W) t w1 raw w2 :
  os_time (world s) = (t, w1) ->
  os_readlines "/proc/interrupts" w1 = (Ok raw, w2) ->
  take_snapshot s
  = match read_interrupt_table (PyStr.rstrip <$> raw)
            (Sys w2 (trace s ++ [EvTime; EvRead "/proc/interrupts";
                                 EvLog DEBUG "update_from_proc_interrupts"])) with
    | (Ok data, s1) => (Ok (t, data), s1)
    | (Raise e, s1) => (Raise e, s1)
    end.
Proof.
  intros Htime Hread. unfold take_snapshot. rewrite bind_run.
  unfold time_time at 1. unfold os_call at 1. rewrite Htime.
  rewrite bind_run. unfold procfs_read at 1. rewrite bind_run.
  unfold os_call at 1. cbn [world trace]. rewrite Hread.
  cbn [mret M_ret]. rewrite bind_run. cbn [log emit modify world trace].
  rewrite bind_run. rewrite <- !List.app_assoc. cbn [app].
  by destruct (read_interrupt_table _ _) as [[data|e] s1].
Qed.

Lemma py_index_head {A} (x : A) l : py_index (x :: l) 0 = Ok x.
Proof. apply py_index_lookup; [lia | done]. Qed.

Lemma read_interrupt_table_header content (s : sys W) :
  let cpu_names := PyStr.split_ws None (default ""%string (head content)) in
  (content = [] ->
   read_interrupt_table content s
   = (Raise AssertionError,
      Sys (world s)
          (trace s ++ [EvLog CRITICAL
                         "Invalid first line of content for /proc/interrupts"])))
  /\ (content <> [] ->
      (length cpu_names <? 1)%nat
      || negb (PyStr.startswith "CPU" (default ""%string (head cpu_names))) = true ->
      read_interrupt_table content s
      = (Raise AssertionError,
         Sys (world s)
             (trace s ++ [EvLog CRITICAL
                            "Unable to determine number of CPUs in /proc/interrupts"])))
  /\ (forall line,
        content = [line] ->
        (length cpu_names <? 1)%nat
        || negb (PyStr.startswith "CPU" (default ""%string (head cpu_names))) = false ->
        read_interrupt_table content s
        = (Raise AssertionError,
           Sys (world s)
               (trace s ++ [EvLog CRITICAL "No information in /proc/interrupts"]))).
Proof.
  intros cpu_names. subst cpu_names. split; [|split].
  - intros ->. reflexivity.
  - intros Hne Hbad. destruct content as [|line content]; [done|].
    change (default ""%string (head (line :: content))) with line in Hbad.
    unfold read_interrupt_table. rewrite bind_run. unfold try_except.
    rewrite bind_run. rewrite py_index_head. cbn [lift_res mret M_ret].
    rewrite Hbad. reflexivity.
  - intros line -> Hgood.
    change (default ""%string (head [line])) with line in Hgood.
    unfold read_interrupt_table. rewrite bind_run. unfold try_except.
    rewrite bind_run. rewrite py_index_head. cbn [lift_res mret M_ret].
    rewrite Hgood. reflexivity.
Qed.

End table_facts.

(** X11.  An interrupt table without a usable header stops the sampler
    before any IRQ is touched: when [/proc/interrupts] has no line, when
    its first line has no word or its first word does not start with
    [CPU], and when the header is its only line,
    [update_from_proc_interrupts] raises [AssertionError] after one
    critical record, and every object is as it was.  The same holds for any
    failure while the table is parsed. *)
Theorem malformed_interrupt_table {W : Type} {Hos : OS W} {pf : Platform}
    (irq_list : list ref) (os : objs) (s : sys W) (t : float) (w1 w2 : W)
    (raw : list string) :
  os_time (world s) = (t, w1) ->
  os_readlines "/proc/interrupts" w1 = (Ok raw, w2) ->
  let content := PyStr.rstrip <$> raw in
  let cpu_names := PyStr.split_ws None (default ""%string (head content)) in
  let bad_header :=
    (length cpu_names <? 1)%nat
    || negb (PyStr.startswith "CPU" (default ""%string (head cpu_names))) in
  let read := trace s ++ [EvTime; EvRead "/proc/interrupts";
                          EvLog DEBUG "update_from_proc_interrupts"] in
  (raw = [] ->
   update_from_proc_interrupts irq_list (os, s)
   = (Raise AssertionError,
      (os, Sys w2 (read ++ [EvLog CRITICAL
                              "Invalid first line of content for /proc/interrupts"]))))
  /\ (raw <> [] -> bad_header = true ->
      update_from_proc_interrupts irq_list (os, s)
      = (Raise AssertionError,
         (os, Sys w2 (read ++ [EvLog CRITICAL
                                 "Unable to determine number of CPUs in /proc/interrupts"]))))
  /\ (forall line, raw = [line] -> bad_header = false ->
        update_from_proc_interrupts irq_list (os, s)
        = (Raise AssertionError,
           (os, Sys w2 (read ++ [EvLog CRITICAL "No information in /proc/interrupts"]))))
  /\ (forall e s1,
        read_interrupt_table content (Sys w2 read) = (Raise e, s1) ->
        update_from_proc_interrupts irq_list (os, s) = (Raise e, (os, s1))).
Proof.
  intros Htime Hread content cpu_names bad_header read.
  rewrite update_from_proc_interrupts_run, (take_snapshot_run s t w1 raw w2) by done.
  fold content. fold read.
  destruct (read_interrupt_table_header content (Sys w2 read)) as (Hempty & Hbad & Hone).
  split; [|split; [|split]].
  - intros Hraw. rewrite Hempty by (subst content; by rewrite Hraw). reflexivity.
  - intros Hraw Hb. rewrite Hbad; [reflexivity | | done].
    subst content. by destruct raw.
  - intros line Hraw Hb. rewrite (Hone (PyStr.rstrip line)); [reflexivity | | done].
    subst content. by rewrite Hraw.
  - intros e s1 ->. reflexivity.
Qed.

Lemma malformed_interrupt_table_witness :
  update_from_proc_interrupts (Hos := Scripted.os (MoreExamples.table_machine []))
    (pf := ScriptedExamples.one_cpu) [0%nat]
    (ScriptedExamples.store_of SamplerExample.irq42, Scripted.start)
  = (Raise AssertionError,
     (ScriptedExamples.store_of SamplerExample.irq42,
      Sys 2%nat (([] ++ [EvTime; EvRead "/proc/interrupts";
                         EvLog DEBUG "update_from_proc_interrupts"])
                 ++ [EvLog CRITICAL
                       "Invalid first line of content for /proc/interrupts"])))
  /\ update_from_proc_interrupts
       (Hos := Scripted.os (MoreExamples.table_machine ["           CPU0"]))
       (pf := ScriptedExamples.one_cpu) [0%nat]
       (ScriptedExamples.store_of SamplerExample.irq42, Scripted.start)
     = (Raise AssertionError,
        (ScriptedExamples.store_of SamplerExample.irq42,
         Sys 2%nat (([] ++ [EvTime; EvRead "/proc/interrupts";
                            EvLog DEBUG "update_from_proc_interrupts"])
                    ++ [EvLog CRITICAL "No information in /proc/interrupts"]))).
Proof.
  split.
  - apply (proj1 (malformed_interrupt_table
                    (Hos := Scripted.os (MoreExamples.table_machine []))
                    (pf := ScriptedExamples.one_cpu) [0%nat]
                    (ScriptedExamples.store_of SamplerExample.irq42) Scripted.start
                    ScriptedExamples.ten 1%nat 2%nat [] eq_refl eq_refl)).
    reflexivity.
  - apply (proj1 (proj2 (proj2 (malformed_interrupt_table
                    (Hos := Scripted.os (MoreExamples.table_machine ["           CPU0"]))
                    (pf := ScriptedExamples.one_cpu) [0%nat]
                    (ScriptedExamples.store_of SamplerExample.irq42) Scripted.start
                    ScriptedExamples.ten 1%nat 2%nat ["           CPU0"%string]
                    eq_refl eq_refl))) "           CPU0"%string).
    + reflexivity.
    + vm_compute. reflexivity.
Defined.

(** ** What the device pass leaves alone *)

Section match_pci_frame.
Context {W : Type} {Hos : OS W} {pf : Platform}.

Lemma same_but_device_refl x : same_but_device x x.
Proof. by repeat split. Qed.

Lemma same_but_device_trans x y z :
  same_but_device x y -> same_but_device y z -> same_but_device x z.
Proof.
  unfold same_but_device. intros Hxy Hyz.
  destruct Hxy as (?&?&?&Hp1&?&Hp2&?&?&?&?&?&?&?&?).
  destruct Hyz as (?&?&?&Hq1&?&Hq2&?&?&?&?&?&?&?&?).
  repeat split; try congruence.
  - by rewrite Hq1.
  - by rewrite Hq2.
Qed.

(** [__repr__] sorts the two affinity lists, the second one only when
    the first could be printed. *)
Lemma repr_state (self : IRQ.t) (s : sys W) :
  (IRQ.__repr__ (self, s)).2.2 = s
  /\ same_but_device self (IRQ.__repr__ (self, s)).2.1
  /\ IRQ.pci_device (IRQ.__repr__ (self, s)).2.1 = IRQ.pci_device self
  /\ IRQ.best_node (IRQ.__repr__ (self, s)).2.1 = IRQ.best_node self.
Proof.
  unfold IRQ.__repr__. rewrite bind_run. cbn [get_self fst].
  rewrite bind_run. cbn [set_self modify fst snd]. rewrite bind_run.
  destruct (list_to_range_notation (IRQ._smp_affinity_list self)) as [str|e];
    cbn [lift_res].
  - rewrite bind_run. cbn [set_self modify fst snd]. rewrite bind_run.
    destruct (list_to_range_notation (IRQ._eff_affinity_list self)) as [str'|e'];
      cbn [lift_res mret M_ret fst snd]; destruct self;
      cbn -[py_sort]; repeat split; try done; apply py_sort_perm.
  - cbn [fst snd]. destruct self; cbn -[py_sort]; repeat split; try done;
      apply py_sort_perm.
Qed.

Lemma register_pci_device_frame dev (self : IRQ.t) (s : sys W) :
  same_but_device self (IRQ.register_pci_device dev (self, s)).2.1.
Proof.
  unfold IRQ.register_pci_device. rewrite bind_run.
  destruct (repr_state self s) as (_ & Hsame & _).
  destruct (IRQ.__repr__ (self, s)) as [[[]|e] [self1 s1]]; [|done].
  cbn [fst snd] in Hsame. cbn.
  eapply same_but_device_trans; [exact Hsame|]. by destruct self1.
Qed.

Lemma attach_frame rl irq os (s : sys W) :
  let os1 := (attach rl irq (os, s)).2.1 in
  kthread_store os1 = kthread_store os
  /\ (forall a, same_but_device (irq_store os a) (irq_store os1 a))
  /\ (forall a, a <> irq \/ rl !! IRQ.id (irq_store os a) = None ->
                irq_store os1 a = irq_store os a).
Proof.
  unfold attach. rewrite bind_run. cbn [the_irq fst].
  destruct (rl !! IRQ.id (irq_store os irq)) as [dev|] eqn:Hdev.
  - rewrite on_irq_run. cbn [fst snd irq_store kthread_store].
    split; [done|]. split.
    + intros a. destruct (decide (a = irq)) as [->|Hne].
      * rewrite upd_eq. apply register_pci_device_frame.
      * rewrite upd_ne by done. apply same_but_device_refl.
    + intros a [Hne|Hnone].
      * by rewrite upd_ne.
      * destruct (decide (a = irq)) as [->|Hne]; [congruence|]. by rewrite upd_ne.
  - cbn. split; [done|]. split; [intros; apply same_but_device_refl | done].
Qed.

Lemma attach_all_frame rl irqs : forall os (s : sys W),
  let os' := (for_each irqs (attach rl) (os, s)).2.1 in
  kthread_store os' = kthread_store os
  /\ (forall a, same_but_device (irq_store os a) (irq_store os' a))
  /\ (forall a, a ∉ irqs \/ rl !! IRQ.id (irq_store os a) = None ->
                irq_store os' a = irq_store os a).
Proof.
  induction irqs as [|irq irqs IH]; intros os s.
  - cbn. split; [done|]. split; [intros; apply same_but_device_refl | done].
  - cbn [for_each]. rewrite bind_run.
    destruct (attach_frame rl irq os s) as (Hk1 & Hsame1 & Heq1).
    destruct (attach rl irq (os, s)) as [[[]|e] [os1 s1]]; cbn [fst snd] in *.
    + destruct (IH os1 s1) as (Hk2 & Hsame2 & Heq2).
      split; [congruence|]. split.
      * intros a. eapply same_but_device_trans; [apply Hsame1 | apply Hsame2].
      * intros a Ha.
        assert (Hid : IRQ.id (irq_store os1 a) = IRQ.id (irq_store os a))
          by apply Hsame1.
        rewrite Heq2, Heq1; [done | |].
        -- destruct Ha as [Ha|Ha]; [left | by right].
           intros ->. apply Ha. by left.
        -- destruct Ha as [Ha|Ha]; [left | right; by rewrite Hid].
           intros Hin. apply Ha. by right.
    + split; [done|]. split; [done|].
      intros a Ha. apply Heq1. destruct Ha as [Ha|Ha]; [left | by right].
      intros ->. apply Ha. by left.
Qed.

Lemma unclaimed_lookup devs n :
  (forall d, d ∈ devs -> n ∉ PCIDevice.irq_list d) ->
  pci_reverse_lookup devs !! n = None.
Proof.
  intros Hnone. pose proof (pci_reverse_lookup_greatest devs n) as Hg.
  destruct (pci_reverse_lookup devs !! n) as [w|]; [|done].
  destruct Hg as [Hin _]. apply elem_of_claims in Hin as [Hw Hn].
  by destruct (Hnone w Hw).
Qed.

End match_pci_frame.

(** X12.  However it ends, [match_irq_and_pci] changes no kernel thread
    and leaves every IRQ that is not in its list, or whose id no listed
    device claims, exactly as it was; in the others it changes at most the
    device, the preferred node and the order of the affinity lists. *)
Theorem match_irq_and_pci_frame {W : Type}
    (irqs : list ref) (devs : list PCIDevice.t) (os : objs) (s : sys W) :
  let os' := (match_irq_and_pci irqs devs (os, s)).2.1 in
  kthread_store os' = kthread_store os
  /\ (forall a, same_but_device (irq_store os a) (irq_store os' a))
  /\ (forall a, a ∉ irqs -> irq_store os' a = irq_store os a)
  /\ (forall a,
        (forall d, d ∈ devs -> IRQ.id (irq_store os a) ∉ PCIDevice.irq_list d) ->
        irq_store os' a = irq_store os a).
Proof.
  unfold match_irq_and_pci. rewrite bind_run.
  cbn [on_sys zoom log emit modify fst snd]. cbv zeta. rewrite bind_run.
  match goal with
  | |- context [for_each irqs (attach ?rl) (os, ?s1)] =>
      destruct (attach_all_frame (W := W) rl irqs os s1) as (Hk & Hsame & Heq);
      destruct (for_each irqs (attach rl) (os, s1)) as [[[]|e] [os1 s2]]
  end; cbn [fst snd] in *.
  - split; [done|]. split; [done|]. split.
    + intros a Ha. apply Heq. by left.
    + intros a Ha. apply Heq. right. by apply unclaimed_lookup.
  - split; [done|]. split; [done|]. split.
    + intros a Ha. apply Heq. by left.
    + intros a Ha. apply Heq. right. by apply unclaimed_lookup.
Qed.

Lemma match_irq_and_pci_frame_witness :
  let os' := (match_irq_and_pci [0%nat] [PciExample.dev01; PciExample.dev02]
                (SamplerExample.two_irqs, Scripted.start)).2.1 in
  irq_store os' 1%nat = irq_store SamplerExample.two_irqs 1%nat
  /\ irq_store os' 2%nat = irq_store SamplerExample.two_irqs 2%nat.
Proof.
  pose proof (match_irq_and_pci_frame [0%nat] [PciExample.dev01; PciExample.dev02]
                SamplerExample.two_irqs Scripted.start) as (_ & _ & Hout & Hunclaimed).
  split.
  - apply Hout. intros Hin%list_elem_of_singleton. discriminate.
  - apply Hunclaimed. intros d Hd.
    apply elem_of_cons in Hd as [->|Hd]; [|apply list_elem_of_singleton in Hd as ->];
      intros Hin%list_elem_of_singleton; vm_compute in Hin; discriminate.
Defined.

(** ** The bundles of a driver or of a network interface *)

Section identify_facts.
Context {W : Type}.

Lemma bundles_where_spec test irq_list (os : objs) : forall s : sys W,
  let r := bundles_where test irq_list (os, s) in
  let matching :=
    List.filter (fun a => device_has test (irq_store os a)) irq_list in
  r.2.1 = os
  /\ (Forall (fun a => IRQ.kthread (irq_store os a) <> None) matching ->
      exists es,
        r.1 = Ok es
        /\ EDTObject.irq <$> es = matching
        /\ Forall (fun e =>
                     IRQ.kthread (irq_store os (EDTObject.irq e))
                     = Some (EDTObject.kthread e)
                     /\ IRQ.pci_device (irq_store os (EDTObject.irq e))
                        = Some (EDTObject.pci_device e)
                     /\ test (EDTObject.pci_device e) = true) es)
  /\ (~ Forall (fun a => IRQ.kthread (irq_store os a) <> None) matching ->
      r.1 = Raise AssertionError).
Proof.
  induction irq_list as [|irq rest IH]; intros s.
  - cbn. split; [done|]. split.
    + intros _. exists []. by repeat split.
    + intros Hno. destruct Hno. constructor.
  - cbn [bundles_where List.filter]. rewrite bind_run. cbn [the_irq fst].
    destruct (device_has test (irq_store os irq)) eqn:Htest; [|apply IH].
    rewrite bind_run, edt_init_run. cbv zeta.
    unfold device_has in Htest.
    destruct (IRQ.pci_device (irq_store os irq)) as [d|] eqn:Hd; [|done].
    destruct (IRQ.kthread (irq_store os irq)) as [k|] eqn:Hk.
    + rewrite bind_run.
      match goal with
      | |- context [bundles_where test rest (os, ?s1)] =>
          destruct (IH s1) as (Hos & Hall & Hnot);
          destruct (bundles_where test rest (os, s1)) as [[es|e] [os1 s2]]
      end; cbn [fst snd] in *.
      * split; [done|]. split.
        -- intros Hf. inversion Hf as [|? ? _ Hf']; subst.
           destruct (Hall Hf') as (es' & [= <-] & Hirqs & Hes).
           exists (EDTObject.Make irq k d :: es). split; [done|]. split.
           ++ cbn. by rewrite Hirqs.
           ++ constructor; [by cbn | done].
        -- intros Hno. exfalso.
           assert (Hno' : ~ Forall (fun a => IRQ.kthread (irq_store os a) <> None)
                            (List.filter (fun a => device_has test (irq_store os a))
                                         rest)).
           { intros Hf. apply Hno. constructor; [congruence | done]. }
           by specialize (Hnot Hno').
      * split; [done|]. split.
        -- intros Hf. inversion Hf as [|? ? _ Hf']; subst.
           by destruct (Hall Hf') as (es' & [=] & _).
        -- intros Hno.
           destruct (decide (Forall (fun a => IRQ.kthread (irq_store os a) <> None)
                       (List.filter (fun a => device_has test (irq_store os a)) rest)))
             as [Hf|Hf]; [|by apply Hnot].
           by destruct (Hall Hf) as (es' & [=] & _).
    + cbn [fst snd]. split; [done|]. split; [|done].
      intros Hf. inversion Hf; subst. congruence.
Qed.

(** The stable sort by a string key. *)
Lemma insert_by_key_perm {A} (key : A -> string) x (l : list A) :
  insert_by_key key x l ≡ₚ x :: l.
Proof.
  induction l as [|y l IH]; [done|]. cbn [insert_by_key].
  destruct (str_lt (key y) (key x)); [|done].
  rewrite IH. apply perm_swap.
Qed.

Lemma py_sort_by_key_perm {A} (key : A -> string) (l : list A) :
  py_sort_by_key key l ≡ₚ l.
Proof.
  induction l as [|x l IH]; [done|]. cbn [py_sort_by_key foldr].
  rewrite insert_by_key_perm. by f_equiv.
Qed.

Lemma insert_by_key_sorted {A} (key : A -> string) x (l : list A) :
  Sorted (fun a b => String.leb (key a) (key b) = true) l ->
  Sorted (fun a b => String.leb (key a) (key b) = true) (insert_by_key key x l).
Proof.
  induction l as [|y l IH]; intros Hs; [by repeat constructor|].
  cbn [insert_by_key]. unfold str_lt.
  destruct (String.ltb (key y) (key x)) eqn:Hlt.
  - inversion Hs as [|? ? Hs' Hhd]; subst. constructor; [by apply IH|].
    destruct l as [|z l]; cbn [insert_by_key].
    + constructor. by apply ltb_leb.
    + unfold str_lt. destruct (String.ltb (key z) (key x)).
      * constructor. by inversion Hhd.
      * constructor. by apply ltb_leb.
  - constructor; [done|]. constructor. by apply ltb_false_leb.
Qed.

Lemma py_sort_by_key_sorted {A} (key : A -> string) (l : list A) :
  Sorted (fun a b => String.leb (key a) (key b) = true) (py_sort_by_key key l).
Proof.
  induction l as [|x l IH]; [constructor|]. by apply insert_by_key_sorted.
Qed.

End identify_facts.

(** X13.  [identify_net_objs] builds one bundle for each IRQ of the
    list whose device has the given network interface, in the order of the
    list, each from the IRQ, the thread the IRQ names and the IRQ's device;
    it raises [AssertionError] as soon as one of these IRQs names no
    thread.  No object changes either way. *)
Theorem identify_net_objs_bundles {W : Type}
    (irq_list : list ref) (iface : string) (os : objs) (s : sys W) :
  let r := identify_net_objs irq_list iface (os, s) in
  let matching :=
    List.filter
      (fun a => device_has (fun dev => bool_decide (PCIDevice.net_iface dev = iface))
                           (irq_store os a)) irq_list in
  r.2.1 = os
  /\ (Forall (fun a => IRQ.kthread (irq_store os a) <> None) matching ->
      exists es,
        r.1 = Ok es
        /\ EDTObject.irq <$> es = matching
        /\ Forall (fun e =>
                     IRQ.kthread (irq_store os (EDTObject.irq e))
                     = Some (EDTObject.kthread e)
                     /\ IRQ.pci_device (irq_store os (EDTObject.irq e))
                        = Some (EDTObject.pci_device e)
                     /\ PCIDevice.net_iface (EDTObject.pci_device e) = iface) es)
  /\ (~ Forall (fun a => IRQ.kthread (irq_store os a) <> None) matching ->
      r.1 = Raise AssertionError).
Proof.
  intros r matching. subst r. unfold identify_net_objs.
  destruct (bundles_where_spec
              (fun dev => bool_decide (PCIDevice.net_iface dev = iface))
              irq_list os s) as (Hos & Hall & Hnot).
  split; [done|]. split; [|done].
  intros Hf. destruct (Hall Hf) as (es & Hr & Hirqs & Hes).
  exists es. split; [done|]. split; [done|].
  eapply Forall_impl; [exact Hes|]. intros e (Hk & Hd & Ht).
  split; [done|]. split; [done|]. by apply bool_decide_eq_true in Ht.
Qed.

(** X14.  [identify_fg_objs] builds one bundle for each IRQ of the list
    whose device has the given driver and returns them in the order of
    their bus addresses; it raises [AssertionError] when one of these IRQs
    names no thread.  No object changes either way. *)
Theorem identify_fg_objs_sorted {W : Type}
    (irq_list : list ref) (driver : string) (os : objs) (s : sys W) :
  let r := identify_fg_objs irq_list driver (os, s) in
  let matching :=
    List.filter
      (fun a => device_has (fun dev => bool_decide (PCIDevice.driver dev = driver))
                           (irq_store os a)) irq_list in
  r.2.1 = os
  /\ (Forall (fun a => IRQ.kthread (irq_store os a) <> None) matching ->
      exists es,
        r.1 = Ok es
        /\ EDTObject.irq <$> es ≡ₚ matching
        /\ Sorted (fun e1 e2 =>
                     String.leb (PCIDevice.pci_addr (EDTObject.pci_device e1))
                                (PCIDevice.pci_addr (EDTObject.pci_device e2)) = true) es
        /\ Forall (fun e =>
                     IRQ.kthread (irq_store os (EDTObject.irq e))
                     = Some (EDTObject.kthread e)
                     /\ IRQ.pci_device (irq_store os (EDTObject.irq e))
                        = Some (EDTObject.pci_device e)
                     /\ PCIDevice.driver (EDTObject.pci_device e) = driver) es)
  /\ (~ Forall (fun a => IRQ.kthread (irq_store os a) <> None) matching ->
      r.1 = Raise AssertionError).
Proof.
  intros r matching. subst r. unfold identify_fg_objs. rewrite bind_run.
  destruct (bundles_where_spec
              (fun dev => bool_decide (PCIDevice.driver dev = driver))
              irq_list os s) as (Hos & Hall & Hnot).
  destruct (bundles_where _ irq_list (os, s)) as [[es|e] [os1 s1]];
    cbn [fst snd mret M_ret] in *.
  - split; [done|]. split; [|intros Hno; by specialize (Hnot Hno)].
    intros Hf. destruct (Hall Hf) as (es' & [= <-] & Hirqs & Hes).
    eexists. split; [done|]. split; [|split].
    + fold matching in Hirqs. rewrite <- Hirqs. by rewrite py_sort_by_key_perm.
    + apply (py_sort_by_key_sorted
               (fun e => PCIDevice.pci_addr (EDTObject.pci_device e))).
    + rewrite py_sort_by_key_perm.
      eapply Forall_impl; [exact Hes|]. intros e' (Hk & Hd & Ht).
      split; [done|]. split; [done|]. by apply bool_decide_eq_true in Ht.
  - split; [done|]. split; [|done].
    intros Hf. by destruct (Hall Hf) as (es' & [=] & _).
Qed.

Lemma identify_net_objs_bundles_witness :
  let r := identify_net_objs (W := nat) [0%nat; 1%nat] "eth0"
             (MoreExamples.with_nic, Scripted.start) in
  exists es,
    r.1 = Ok es
    /\ EDTObject.irq <$> es
       = List.filter
           (fun a => device_has (fun dev => bool_decide (PCIDevice.net_iface dev = "eth0"%string))
                                (irq_store MoreExamples.with_nic a)) [0%nat; 1%nat]
    /\ Forall (fun e =>
                 IRQ.kthread (irq_store MoreExamples.with_nic (EDTObject.irq e))
                 = Some (EDTObject.kthread e)
                 /\ IRQ.pci_device (irq_store MoreExamples.with_nic (EDTObject.irq e))
                    = Some (EDTObject.pci_device e)
                 /\ PCIDevice.net_iface (EDTObject.pci_device e) = "eth0"%string) es.
Proof.
  apply (proj1 (proj2 (identify_net_objs_bundles [0%nat; 1%nat] "eth0"
                         MoreExamples.with_nic Scripted.start))).
  vm_compute. constructor; [discriminate | constructor].
Defined.

Lemma identify_fg_objs_sorted_witness :
  (let r := identify_fg_objs (W := nat) [0%nat; 1%nat] "edt"
              (MoreExamples.two_boards, Scripted.start) in
   exists es,
     r.1 = Ok es
     /\ EDTObject.irq <$> es
        ≡ₚ List.filter
             (fun a => device_has (fun dev => bool_decide (PCIDevice.driver dev = "edt"%string))
                                  (irq_store MoreExamples.two_boards a)) [0%nat; 1%nat]
     /\ Sorted (fun e1 e2 =>
                  String.leb (PCIDevice.pci_addr (EDTObject.pci_device e1))
                             (PCIDevice.pci_addr (EDTObject.pci_device e2)) = true) es
     /\ Forall (fun e =>
                  IRQ.kthread (irq_store MoreExamples.two_boards (EDTObject.irq e))
                  = Some (EDTObject.kthread e)
                  /\ IRQ.pci_device (irq_store MoreExamples.two_boards (EDTObject.irq e))
                     = Some (EDTObject.pci_device e)
                  /\ PCIDevice.driver (EDTObject.pci_device e) = "edt"%string) es)
  /\ (identify_fg_objs (W := nat) [0%nat; 1%nat] "edt"
        (MoreExamples.one_board_unserved, Scripted.start)).1 = Raise AssertionError.
Proof.
  split.
  - apply (proj1 (proj2 (identify_fg_objs_sorted [0%nat; 1%nat] "edt"
                           MoreExamples.two_boards Scripted.start))).
    vm_compute. constructor; [discriminate | constructor; [discriminate | constructor]].
  - apply (proj2 (proj2 (identify_fg_objs_sorted [0%nat; 1%nat] "edt"
                           MoreExamples.one_board_unserved Scripted.start))).
    vm_compute. intros H. inversion H as [|? ? _ H']; subst.
    inversion H' as [|? ? Hnone _]; subst. by apply Hnone.
Defined.

(** The two boards come back in the order of their addresses, not of the
    list. *)
Example identify_fg_objs_order :
  (fun e => PCIDevice.pci_addr (EDTObject.pci_device e))
    <$> match (identify_fg_objs (W := nat) [0%nat; 1%nat] "edt"
                 (MoreExamples.two_boards, Scripted.start)).1 with
        | Ok es => es
        | Raise _ => []
        end
  = ["0000:01:00.0"; "0000:02:00.0"]%string.
Proof. vm_compute. reflexivity. Qed.

(** ** The name of a kernel thread *)

Section kthread_name_facts.
Context {W : Type} {Hos : OS W} {pf : Platform}.

Lemma drop_last_snoc a c : KThread.drop_last (a +:+ String c "") = a.
Proof.
  induction a as [|x a IH]; [done|]. rewrite str_app_cons.
  cbn [KThread.drop_last]. rewrite IH.
  destruct a as [|y a]; [done|]. by rewrite str_app_cons.
Qed.

Lemma split_not_nil sep s : PyStr.split sep s <> [].
Proof.
  destruct s as [|c s]; [done|]. cbn [PyStr.split].
  destruct (Ascii.eqb c sep); [done|]. by destruct (PyStr.split sep s).
Qed.

(** A prefix without the separator stays in the first piece. *)
Lemma split_app_prefix sep u v :
  PyStr.mem sep u = false ->
  exists w ws,
    PyStr.split sep v = w :: ws /\ PyStr.split sep (u +:+ v) = (u +:+ w) :: ws.
Proof.
  intros Hu. induction u as [|c u IH].
  - rewrite str_app_nil_l. destruct (PyStr.split sep v) as [|w ws] eqn:Hv.
    + by destruct (split_not_nil sep v).
    + exists w, ws. by rewrite str_app_nil_l.
  - cbn [PyStr.mem] in Hu. apply orb_false_iff in Hu as [Hc Hu].
    destruct (IH Hu) as (w & ws & Hv & Huv). exists w, ws. split; [done|].
    rewrite str_app_cons. cbn [PyStr.split]. rewrite Hc, Huv.
    by rewrite str_app_cons.
Qed.

(** The attributes read from the name of an IRQ thread. *)
Lemma parse_name_irq n dev (s : sys W) :
  0 <= n ->
  KThread.parse_name ("[irq/" +:+ PyStr.str n +:+ "-" +:+ dev +:+ "]") s
  = (Ok (KT_IRQ, Some n, false, None), s).
Proof.
  intros Hn. unfold KThread.parse_name. cbv zeta.
  assert (Hinner : KThread.inner ("[irq/" +:+ PyStr.str n +:+ "-" +:+ dev +:+ "]")
                   = "irq" +:+ String "/" (PyStr.str n +:+ "-" +:+ dev)).
  { unfold KThread.inner.
    change ("[irq/" +:+ PyStr.str n +:+ "-" +:+ dev +:+ "]")
      with (String "[" ("irq/" +:+ PyStr.str n +:+ "-" +:+ dev +:+ "]")).
    cbn [PyStr.tail].
    replace ("irq/" +:+ PyStr.str n +:+ "-" +:+ dev +:+ "]")
      with (("irq/" +:+ PyStr.str n +:+ "-" +:+ dev) +:+ "]")
      by (by rewrite !str_app_assoc).
    by rewrite drop_last_snoc. }
  rewrite Hinner.
  rewrite split_app_sep by reflexivity.
  assert (Hmem : PyStr.mem "/" ("[irq/" +:+ PyStr.str n +:+ "-" +:+ dev +:+ "]") = true).
  { change ("[irq/" +:+ PyStr.str n +:+ "-" +:+ dev +:+ "]")
      with ("[irq" +:+ String "/" (PyStr.str n +:+ "-" +:+ dev +:+ "]")).
    rewrite mem_app. apply orb_true_iff. right. reflexivity. }
  rewrite Hmem. rewrite bind_run, bind_run. rewrite py_index_head.
  cbn [lift_res].
  change (KThread.KThreadTypeEnum_call "irq" s) with (Ok KT_IRQ, s).
  cbv iota beta.
  destruct (split_app_prefix "/" (PyStr.str n +:+ "-") dev) as (w & ws & Hdev & Hsplit).
  { rewrite mem_app, str_no_char by done. reflexivity. }
  rewrite str_app_assoc in Hsplit. rewrite Hsplit.
  rewrite bind_run. cbn [length Nat.ltb Nat.leb py_assert mret M_ret].
  rewrite bind_run.
  replace (py_index ("irq"%string :: ((PyStr.str n +:+ "-") +:+ w) :: ws) 1)
    with (Ok (A := string) ((PyStr.str n +:+ "-") +:+ w))
    by (symmetry; apply py_index_lookup; [lia | done]).
  cbn [mbind res_bind lift_res].
  rewrite str_app_assoc.
  change ("-" +:+ w) with (String "-" w).
  rewrite split_app_sep by (by apply str_no_char).
  rewrite py_index_head. cbn [mbind res_bind]. rewrite int_str by done.
  reflexivity.
Qed.

Lemma parse_name_plain name (s : sys W) :
  PyStr.mem "/" name = false ->
  KThread.parse_name name s = (Ok (OTHER, None, false, None), s).
Proof. intros Hmem. unfold KThread.parse_name. by rewrite Hmem. Qed.

Ltac kthread_unfold :=
  progress unfold KThread.alive, KThread.refresh_contents, KThread.procfs_read,
    KThread.procfs_write, KThread.register_interrupt, KThread.get_taskset,
    KThread.pin_taskset, KThread.pin_cset, KThread.chrt_ff, KThread.chrt_oth.

Ltac kthread_keeps :=
  repeat (keeps_step || kthread_unfold);
  try (apply keeps_set_self; intros [] ?; simpl in *; done);
  try done.

Lemma refresh_contents_keeps_named pid name ty num rcu cpu :
  keeps (on_obj (W := W) (named pid name ty num rcu cpu)) KThread.refresh_contents.
Proof. unfold named. kthread_keeps. Qed.

(** [__init__] sets the attributes [parse_name] reads from the name. *)
Lemma init_named pid name sched_cls ty num rcu cpu (s s' : sys W) kt :
  (forall s0 : sys W, KThread.parse_name name s0 = (Ok (ty, num, rcu, cpu), s0)) ->
  KThread.__init__ pid name sched_cls s = (Ok kt, s') ->
  named pid name ty num rcu cpu kt.
Proof.
  intros Hparse. unfold KThread.__init__.
  destruct ((on_sys (log DEBUG "KThread::__init__") ≫= _) _)
    as [r [self s1]] eqn:Hm.
  destruct r as [[]|e]; [|done]. cbn [mbind res_bind]. intros [= -> <-].
  apply bind_ok_inv in Hm as (? & st1 & _ & Hm).
  apply bind_ok_inv in Hm as (? & st2 & _ & Hm).
  apply bind_ok_inv in Hm as (sc & st3 & _ & Hm).
  apply bind_ok_inv in Hm as (tup & st4 & Hp & Hm).
  destruct st3 as [self3 s3]. rewrite on_sys_run, Hparse in Hp.
  cbn [fst snd] in Hp. injection Hp as <- <-.
  apply bind_ok_inv in Hm as (? & st5 & Hset & Hm).
  cbn [set_self modify fst snd] in Hset. injection Hset as _ <-.
  pose proof (refresh_contents_keeps_named pid name ty num rcu cpu) as Hk.
  match type of Hm with
  | KThread.refresh_contents ?st = _ => specialize (Hk st)
  end.
  rewrite Hm in Hk. apply Hk. by repeat split.
Qed.

End kthread_name_facts.

(** X15.  A [KThread] constructed from the name [[irq/N-device]], for a
    number [N >= 0] and any device text, has type [IRQ] and interrupt
    number [N]; one constructed from a name without a slash has type
    [OTHER] and no interrupt number.  Either way it starts bound to no IRQ
    object and never pinned. *)
Theorem irq_thread_number {W : Type} {Hos : OS W} {pf : Platform}
    (pid : Z) (sched_cls : string) (s s' : sys W) (kt : KThread.t) :
  (forall n dev,
     0 <= n ->
     KThread.__init__ pid ("[irq/" +:+ PyStr.str n +:+ "-" +:+ dev +:+ "]") sched_cls s
     = (Ok kt, s') ->
     KThread.pid kt = pid
     /\ KThread.name kt = "[irq/" +:+ PyStr.str n +:+ "-" +:+ dev +:+ "]"
     /\ KThread.kthread_type kt = KT_IRQ
     /\ KThread._irq_number kt = Some n
     /\ KThread._is_rcu kt = false
     /\ KThread._rcuc_cpu kt = None
     /\ KThread._irq_obj kt = None
     /\ KThread.was_cset_successfully_once kt = false)
  /\ (forall name,
        PyStr.mem "/" name = false ->
        KThread.__init__ pid name sched_cls s = (Ok kt, s') ->
        KThread.pid kt = pid
        /\ KThread.name kt = name
        /\ KThread.kthread_type kt = OTHER
        /\ KThread._irq_number kt = None
        /\ KThread._is_rcu kt = false
        /\ KThread._rcuc_cpu kt = None
        /\ KThread._irq_obj kt = None
        /\ KThread.was_cset_successfully_once kt = false).
Proof.
  split.
  - intros n dev Hn Hinit.
    eapply (init_named pid _ sched_cls KT_IRQ (Some n) false None) in Hinit; [done|].
    intros s0. by apply parse_name_irq.
  - intros name Hmem Hinit.
    eapply (init_named pid _ sched_cls OTHER None false None) in Hinit; [done|].
    intros s0. by apply parse_name_plain.
Qed.

Lemma irq_thread_number_witness :
  exists kt s',
    KThread.__init__ (Hos := Scripted.os BundleExample.settled)
      (pf := ScriptedExamples.one_cpu) 77 "[irq/42-eth0]" "FF" Scripted.start
    = (Ok kt, s')
    /\ KThread.kthread_type kt = KT_IRQ
    /\ KThread._irq_number kt = Some 42.
Proof.
  remember (KThread.__init__ (Hos := Scripted.os BundleExample.settled)
              (pf := ScriptedExamples.one_cpu) 77 "[irq/42-eth0]" "FF" Scripted.start)
    as r eqn:Hr.
  assert (Hok : is_Ok r.1) by (subst r; vm_compute; exact I).
  destruct r as [[kt|e] s']; [|done].
  exists kt, s'. split; [done|].
  pose proof (proj1 (irq_thread_number (Hos := Scripted.os BundleExample.settled)
                       (pf := ScriptedExamples.one_cpu) 77 "FF" Scripted.start s' kt)
                42 "eth0"%string ltac:(lia)) as H.
  destruct H as (_ & _ & Hty & Hnum & _); [by symmetry|]. by split.
Defined.

(** ** The CPUs a thread may run on *)

Section taskset_facts.
Context {W : Type} {Hos : OS W}.

Lemma sorted_le_nodup_lt (l : list Z) : Sorted Z.le l -> NoDup l -> Sorted Z.lt l.
Proof.
  intros Hs Hnd. apply Sorted_StronglySorted in Hs; [|apply _].
  induction Hs as [|x l Hl IH Hx]; [constructor|].
  apply NoDup_cons in Hnd as [Hnotin Hnd]. constructor; [by apply IH|].
  destruct l as [|y l]; constructor.
  rewrite Forall_forall in Hx. assert (x <= y) by (apply Hx; by left).
  assert (x <> y) by (intros ->; apply Hnotin; by left). lia.
Qed.

(** [get_taskset], once the affinity is known. *)
Lemma get_taskset_with (self : KThread.t) (s1 : sys W) (aff : gset Z) :
  (forall c, c ∈ aff -> 0 <= c) ->
  exists m,
    list_to_mask (py_sort (elements aff)) = Ok m
    /\ (forall i, Z.testbit m i = true <-> i ∈ aff)
    /\ Sorted Z.lt (py_sort (elements aff))
    /\ (forall i, i ∈ py_sort (elements aff) <-> i ∈ aff)
    /\ (a ← lift_res (list_to_range_notation (elements aff)) ;
        on_sys (log INFO "KThread::get_taskset") ;;
        on_sys (CPUSpec.__init__ ("kt_anon@" +:+ PyStr.str (KThread.pid self)) None
                  (Some (elements aff)) None None false)) (self, s1)
       = (Ok (CPUSpec.Make ("kt_anon@" +:+ PyStr.str (KThread.pid self))
                           (py_sort (elements aff)) m None false),
          (self, Sys (world s1)
                     (trace s1 ++ [EvLog INFO "KThread::get_taskset";
                                   EvLog DEBUG "CPUSpec::__init__"]))).
Proof.
  intros Hnonneg.
  assert (Hall : Forall (fun c => 0 <= c) (elements aff)).
  { apply Forall_forall. intros c Hc. apply Hnonneg. by apply elem_of_elements. }
  destruct (cpuspec_of_source (elements aff) Hall) as (m & Hm & Hbits).
  assert (Hmem : forall i, i ∈ py_sort (elements aff) <-> i ∈ aff).
  { intros i. by rewrite py_sort_perm, elem_of_elements. }
  exists m. split; [done|]. split; [|split; [|split; [done|]]].
  - intros i. by rewrite Hbits, Hmem.
  - apply sorted_le_nodup_lt; [apply py_sort_is_sorted|].
    rewrite py_sort_perm. apply NoDup_elements.
  - rewrite bind_run.
    destruct (list_to_range_notation_total (elements aff) Hall) as [str ->].
    cbn [lift_res]. rewrite bind_run, log_run. rewrite on_sys_run.
    rewrite cpuspec_init_run. cbv zeta. cbn [CPUSpec.is_None Z.add Z.eqb Pos.eqb].
    rewrite Hm. cbn [fst snd world trace]. by rewrite <- List.app_assoc.
Qed.

End taskset_facts.

(** X16.  [get_taskset] of a thread whose process is gone does not
    raise: it marks the thread dead and returns the empty specification,
    named after the pid.  For a process with the affinity set [aff] (of
    non-negative CPU ids) it returns the specification whose list is [aff]
    in increasing order and whose mask has exactly the bits of [aff], and
    leaves the thread as it was. *)
Theorem get_taskset_returns {W : Type} {Hos : OS W}
    (self : KThread.t) (s : sys W) :
  (forall w',
     os_sched_getaffinity (KThread.pid self) (world s) = (Raise ProcessLookupError, w') ->
     exists s',
       KThread.get_taskset (self, s)
       = (Ok (CPUSpec.Make ("kt_anon@" +:+ PyStr.str (KThread.pid self)) [] 0 None false),
          (KThread.set_alive false self, s')))
  /\ (forall aff w',
        os_sched_getaffinity (KThread.pid self) (world s) = (Ok aff, w') ->
        (forall c, c ∈ aff -> 0 <= c) ->
        exists c s',
          KThread.get_taskset (self, s) = (Ok c, (self, s'))
          /\ CPUSpec.name c = "kt_anon@" +:+ PyStr.str (KThread.pid self)
          /\ Sorted Z.lt (CPUSpec.cpu_list c)
          /\ (forall i, i ∈ CPUSpec.cpu_list c <-> i ∈ aff)
          /\ (forall i, Z.testbit (CPUSpec.mask c) i = true <-> i ∈ aff)).
Proof.
  split.
  - intros w' Hgone. unfold KThread.get_taskset. rewrite bind_run. cbn [get_self fst].
    rewrite bind_run. unfold try_except. rewrite on_sys_run. unfold os_call.
    rewrite Hgone. cbn [fst snd]. rewrite bind_run.
    cbn [set_self modify mret M_ret fst snd].
    destruct (get_taskset_with (KThread.set_alive false self)
                (Sys w' (trace s ++ [EvGetaffinity (KThread.pid self)])) ∅)
      as (m & Hm & _ & _ & _ & Hrun); [set_solver|].
    rewrite elements_empty in Hm, Hrun.
    change (py_sort []) with (@nil Z) in Hm, Hrun. injection Hm as <-.
    replace (KThread.pid (KThread.set_alive false self)) with (KThread.pid self) in Hrun
      by (by destruct self).
    rewrite elements_empty. rewrite Hrun. eauto.
  - intros aff w' Haff Hnonneg. unfold KThread.get_taskset.
    rewrite bind_run. cbn [get_self fst].
    rewrite bind_run. unfold try_except. rewrite on_sys_run. unfold os_call.
    rewrite Haff. cbn [fst snd].
    destruct (get_taskset_with self
                (Sys w' (trace s ++ [EvGetaffinity (KThread.pid self)])) aff Hnonneg)
      as (m & Hm & Hbits & Hsorted & Hmem & Hrun).
    rewrite Hrun. eexists _, _. split; [done|].
    cbn [CPUSpec.name CPUSpec.cpu_list CPUSpec.mask]. by split; [|split; [|split]].
Qed.

Lemma get_taskset_returns_witness :
  (exists s',
     KThread.get_taskset (Hos := Scripted.os MoreExamples.gone)
       (BundleExample.thread77, Scripted.start)
     = (Ok (CPUSpec.Make ("kt_anon@" +:+ PyStr.str 77) [] 0 None false),
        (KThread.set_alive false BundleExample.thread77, s')))
  /\ (exists c s',
        KThread.get_taskset (Hos := Scripted.os BundleExample.settled)
          (BundleExample.thread77, Scripted.start)
        = (Ok c, (BundleExample.thread77, s'))
        /\ CPUSpec.name c = "kt_anon@" +:+ PyStr.str 77
        /\ Sorted Z.lt (CPUSpec.cpu_list c)
        /\ (forall i, i ∈ CPUSpec.cpu_list c <-> i ∈ ({[0]} : gset Z))
        /\ (forall i, Z.testbit (CPUSpec.mask c) i = true <-> i ∈ ({[0]} : gset Z))).
Proof.
  split.
  - apply (proj1 (get_taskset_returns (Hos := Scripted.os MoreExamples.gone)
                    BundleExample.thread77 Scripted.start) 1%nat).
    reflexivity.
  - apply (proj2 (get_taskset_returns (Hos := Scripted.os BundleExample.settled)
                    BundleExample.thread77 Scripted.start) {[0]} 1%nat).
    + reflexivity.
    + intros c Hc%elem_of_singleton. lia.
Defined.

(** ** The commands a thread is moved and scheduled with *)

Section command_facts.
Context {W : Type} {Hos : OS W}.

Lemma split_ws_inword_word w rest :
  PyStr.all_chars no_space w = true ->
  PyStr.split_ws_go None true (w +:+ String " " rest)
  = w :: PyStr.split_ws_go None false rest.
Proof.
  induction w as [|c w IH]; intros Hw.
  - by rewrite str_app_nil_l.
  - cbn [PyStr.all_chars] in Hw. apply andb_true_iff in Hw as [Hc Hw].
    rewrite str_app_cons. cbn [PyStr.split_ws_go].
    unfold no_space in Hc. apply negb_true_iff in Hc. rewrite Hc.
    by rewrite IH.
Qed.

Lemma split_ws_inword_end w :
  PyStr.all_chars no_space w = true ->
  PyStr.split_ws_go None true w = [w].
Proof.
  induction w as [|c w IH]; intros Hw; [done|].
  cbn [PyStr.all_chars] in Hw. apply andb_true_iff in Hw as [Hc Hw].
  cbn [PyStr.split_ws_go].
  unfold no_space in Hc. apply negb_true_iff in Hc. rewrite Hc.
  by rewrite IH.
Qed.

(** A word followed by a blank is the first word of the split. *)
Lemma split_ws_word w rest :
  PyStr.all_chars no_space w = true -> w <> ""%string ->
  PyStr.split_ws None (w +:+ String " " rest) = w :: PyStr.split_ws None rest.
Proof.
  intros Hw Hne. destruct w as [|c w]; [done|].
  cbn [PyStr.all_chars] in Hw. apply andb_true_iff in Hw as [Hc Hw].
  unfold PyStr.split_ws. rewrite str_app_cons. cbn [PyStr.split_ws_go].
  unfold no_space in Hc. apply negb_true_iff in Hc. rewrite Hc.
  cbn [fmap option_fmap option_map].
  by rewrite split_ws_inword_word.
Qed.

Lemma split_ws_last w :
  PyStr.all_chars no_space w = true -> w <> ""%string ->
  PyStr.split_ws None w = [w].
Proof.
  intros Hw Hne. destruct w as [|c w]; [done|].
  cbn [PyStr.all_chars] in Hw. apply andb_true_iff in Hw as [Hc Hw].
  unfold PyStr.split_ws. cbn [PyStr.split_ws_go].
  unfold no_space in Hc. apply negb_true_iff in Hc. rewrite Hc.
  cbn [fmap option_fmap option_map].
  by rewrite split_ws_inword_end.
Qed.

Lemma str_negative n : n < 0 -> PyStr.str n = String "-" (PyStr.str (- n)).
Proof.
  intros Hn. unfold PyStr.str.
  destruct (Z.ltb_spec n 0); [|lia]. destruct (Z.ltb_spec (- n) 0); [lia | done].
Qed.

(** The text of an integer is one word. *)
Lemma str_word n :
  PyStr.all_chars no_space (PyStr.str n) = true /\ PyStr.str n <> ""%string.
Proof.
  assert (Hpos : forall m, 0 <= m ->
            PyStr.all_chars no_space (PyStr.str m) = true
            /\ PyStr.str m <> ""%string).
  { intros m Hm. destruct (str_nonneg_digits m Hm) as (u & Hu & Hdec & Hne & _).
    rewrite Hu. split; [|done].
    eapply all_chars_impl; [|exact Hdec]. apply is_dec_not_space. }
  destruct (Z.lt_ge_cases n 0) as [Hn|Hn]; [|by apply Hpos].
  rewrite str_negative by done. split; [|done].
  cbn [PyStr.all_chars]. apply andb_true_iff. split; [done|].
  apply Hpos. lia.
Qed.

Lemma chrt_ff_argv a b :
  PyStr.split_ws None ("chrt -f -p " +:+ PyStr.str a +:+ " " +:+ PyStr.str b)
  = ["chrt"; "-f"; "-p"; PyStr.str a; PyStr.str b]%string.
Proof.
  destruct (str_word a) as [Ha Ha'], (str_word b) as [Hb Hb'].
  change ("chrt -f -p " +:+ PyStr.str a +:+ " " +:+ PyStr.str b)
    with ("chrt" +:+ String " " ("-f" +:+ String " " ("-p" +:+ String " "
            (PyStr.str a +:+ String " " (PyStr.str b))))).
  rewrite !split_ws_word by done. by rewrite split_ws_last.
Qed.

Lemma chrt_oth_argv b :
  PyStr.split_ws None ("chrt -o -p 0 " +:+ PyStr.str b)
  = ["chrt"; "-o"; "-p"; "0"; PyStr.str b]%string.
Proof.
  destruct (str_word b) as [Hb Hb'].
  change ("chrt -o -p 0 " +:+ PyStr.str b)
    with ("chrt" +:+ String " " ("-o" +:+ String " " ("-p" +:+ String " "
            ("0" +:+ String " " (PyStr.str b))))).
  rewrite !split_ws_word by done. by rewrite split_ws_last.
Qed.

End command_facts.

(** X17.  Run by root, [chrt_ff] runs exactly the command
    [chrt -f -p <rtprio> <pid>] and [chrt_oth] exactly
    [chrt -o -p 0 <pid>], each as five arguments whatever the two numbers
    are; the exit code is not looked at, so both return normally unless the
    command could not be started, and the thread object is not changed. *)
Theorem chrt_commands {W : Type} {Hos : OS W} (self : KThread.t) (s : sys W) :
  os_getuid (world s) = 0 ->
  (forall rtprio res w',
     let argv := ["chrt"; "-f"; "-p"; PyStr.str rtprio;
                  PyStr.str (KThread.pid self)]%string in
     os_run argv (world s) = (res, w') ->
     KThread.chrt_ff rtprio (self, s)
     = (match res with Ok _ => Ok tt | Raise e => Raise e end,
        (self, Sys w' (trace s ++ [EvGetuid; EvLog INFO "KThread::chrt_ff";
                                   EvRun argv]))))
  /\ (forall res w',
        let argv := ["chrt"; "-o"; "-p"; "0"; PyStr.str (KThread.pid self)]%string in
        os_run argv (world s) = (res, w') ->
        KThread.chrt_oth (self, s)
        = (match res with Ok _ => Ok tt | Raise e => Raise e end,
           (self, Sys w' (trace s ++ [EvGetuid; EvLog INFO "KThread::chrt_oth";
                                      EvRun argv])))).
Proof.
  intros Hroot. split.
  - intros rtprio res w' argv Hrun. unfold KThread.chrt_ff.
    rewrite bind_run, getuid_run, Hroot. cbn [negb Z.eqb].
    rewrite bind_run, log_run. rewrite bind_run. cbn [get_self fst].
    rewrite bind_run, on_sys_run. unfold sproc_run. rewrite chrt_ff_argv.
    fold argv. unfold os_call. cbn [world trace]. rewrite Hrun.
    cbn [fst snd]. rewrite <- !List.app_assoc. cbn [app].
    by destruct res.
  - intros res w' argv Hrun. unfold KThread.chrt_oth.
    rewrite bind_run, getuid_run, Hroot. cbn [negb Z.eqb].
    rewrite bind_run, log_run. rewrite bind_run. cbn [get_self fst].
    rewrite bind_run, on_sys_run. unfold sproc_run. rewrite chrt_oth_argv.
    fold argv. unfold os_call. cbn [world trace]. rewrite Hrun.
    cbn [fst snd]. rewrite <- !List.app_assoc. cbn [app].
    by destruct res.
Qed.

Lemma chrt_commands_witness :
  KThread.chrt_ff (Hos := Scripted.os MoreExamples.gone) (-3)
    (BundleExample.thread77, Scripted.start)
  = (Ok tt,
     (BundleExample.thread77,
      Sys 1%nat ([] ++ [EvGetuid; EvLog INFO "KThread::chrt_ff";
                        EvRun ["chrt"; "-f"; "-p"; PyStr.str (-3); PyStr.str 77]]))).
Proof.
  apply (proj1 (chrt_commands (Hos := Scripted.os MoreExamples.gone)
                  BundleExample.thread77 Scripted.start eq_refl) (-3) (Ok 1) 1%nat).
  reflexivity.
Defined.


Section taskset_command_facts.
Context {W : Type} {Hos : OS W}.
Import RangeNotation.

Lemma token_word r :
  0 <= r.1 -> 0 <= r.2 -> PyStr.all_chars no_space (token r) = true.
Proof.
  intros H1 H2. unfold token. destruct (decide (r.1 = r.2)).
  - apply str_word.
  - rewrite !all_chars_app. rewrite (proj1 (str_word r.1)), (proj1 (str_word r.2)).
    reflexivity.
Qed.

Lemma concat_tokens_word rs :
  Forall (fun r => 0 <= r.1 <= r.2) rs ->
  PyStr.all_chars no_space (String.concat "," (token <$> rs)) = true.
Proof.
  induction rs as [|r rs IH]; intros Hall; [done|].
  inversion Hall as [|? ? Hr Hall']; subst.
  destruct rs as [|r' rs].
  - cbn. apply token_word; lia.
  - change (String.concat "," (token <$> r :: r' :: rs))
      with (token r +:+ String "," (String.concat "," (token <$> r' :: rs))).
    rewrite all_chars_app, token_word by lia.
    cbn [PyStr.all_chars andb]. rewrite IH by done. reflexivity.
Qed.

(** The range notation of a non-empty list is one word. *)
Lemma range_notation_word l :
  Forall (fun c => 0 <= c) l -> l <> [] ->
  exists str,
    list_to_range_notation l = Ok str
    /\ PyStr.all_chars no_space str = true /\ str <> ""%string.
Proof.
  intros Hl Hne. rewrite list_to_range_notation_runs by done.
  eexists. split; [done|].
  assert (Hbounds : Forall (fun r => 0 <= r.1 <= r.2) (runs (py_sort l))).
  { apply runs_bounds. by apply py_sort_Forall. }
  split; [by apply concat_tokens_word|].
  destruct (py_sort l) as [|c l'] eqn:Hs.
  { exfalso. apply Hne. apply Permutation_nil_r. rewrite <- Hs.
    by rewrite py_sort_perm. }
  unfold runs in *. destruct (runs_from_head l' c c) as (hi & rest & Hrun).
  rewrite Hrun in *. rewrite concat_flat.
  inversion Hbounds as [|? ? Hr _]; subst. cbn [fst snd] in Hr.
  pose proof (token_nonempty (c, hi) ltac:(cbn; lia)) as Htok.
  destruct (token (c, hi)); [done | discriminate].
Qed.

Lemma taskset_argv cpus pid :
  PyStr.all_chars no_space cpus = true ->
  PyStr.split_ws None ("taskset -pc " +:+ cpus +:+ " " +:+ PyStr.str pid)
  = if decide (cpus = ""%string) then ["taskset"; "-pc"; PyStr.str pid]%string
    else ["taskset"; "-pc"; cpus; PyStr.str pid]%string.
Proof.
  intros Hcpus. destruct (str_word pid) as [Hp Hp'].
  change ("taskset -pc " +:+ cpus +:+ " " +:+ PyStr.str pid)
    with ("taskset" +:+ String " " ("-pc" +:+ String " "
            (cpus +:+ String " " (PyStr.str pid)))).
  rewrite !split_ws_word by done.
  destruct (decide (cpus = ""%string)) as [->|Hne].
  - rewrite str_app_nil_l.
    change (PyStr.split_ws None (String " " (PyStr.str pid)))
      with (PyStr.split_ws None (PyStr.str pid)).
    by rewrite split_ws_last.
  - rewrite split_ws_word by done. by rewrite split_ws_last.
Qed.

End taskset_command_facts.

(** X18.  Run by root with a specification of non-negative CPUs,
    [pin_taskset] runs [taskset -pc <ranges> <pid>], the ranges being one
    argument; for an empty specification the ranges vanish from the command
    line, which is then [taskset -pc <pid>].  A non-zero exit code is
    logged as a warning and nothing more: the call returns normally and the
    thread object is not changed. *)
Theorem pin_taskset_command {W : Type} {Hos : OS W}
    (self : KThread.t) (s : sys W) (taskset : CPUSpec.t) :
  os_getuid (world s) = 0 ->
  Forall (fun c => 0 <= c) (CPUSpec.cpu_list taskset) ->
  exists cpus,
    CPUSpec.get_str taskset = Ok cpus
    /\ (cpus = ""%string <-> CPUSpec.cpu_list taskset = [])
    /\ let argv :=
         if decide (CPUSpec.cpu_list taskset = [])
         then ["taskset"; "-pc"; PyStr.str (KThread.pid self)]%string
         else ["taskset"; "-pc"; cpus; PyStr.str (KThread.pid self)]%string in
       forall code w',
         os_run argv (world s) = (Ok code, w') ->
         KThread.pin_taskset taskset (self, s)
         = (Ok tt,
            (self,
             Sys w' (trace s ++ [EvGetuid; EvLog INFO "KThread::pin_taskset"; EvRun argv]
                             ++ if code =? 0 then []
                                else [EvLog WARNING "KThread::pin_taskset failed"]))).
Proof.
  intros Hroot Hnonneg.
  assert (exists cpus,
            CPUSpec.get_str taskset = Ok cpus
            /\ PyStr.all_chars no_space cpus = true
            /\ (cpus = ""%string <-> CPUSpec.cpu_list taskset = []))
    as (cpus & Hstr & Hword & Hempty).
  { unfold CPUSpec.get_str. destruct (CPUSpec.cpu_list taskset) as [|c l] eqn:Hl.
    - exists ""%string. by repeat split.
    - destruct (range_notation_word (c :: l) Hnonneg ltac:(done))
        as (str & Hstr & Hw & Hne).
      exists str. repeat split; try done. }
  exists cpus. split; [done|]. split; [done|].
  intros argv code w' Hrun. unfold KThread.pin_taskset.
  rewrite bind_run, getuid_run, Hroot. cbn [negb Z.eqb].
  rewrite bind_run, Hstr. cbn [lift_res]. rewrite bind_run, log_run.
  rewrite bind_run. cbn [get_self fst]. rewrite bind_run. cbn [lift_res].
  rewrite bind_run, on_sys_run. unfold sproc_run. rewrite taskset_argv by done.
  assert (Hargv : (if decide (cpus = ""%string)
                   then ["taskset"; "-pc"; PyStr.str (KThread.pid self)]%string
                   else ["taskset"; "-pc"; cpus; PyStr.str (KThread.pid self)]%string)
                  = argv).
  { subst argv. destruct (decide (cpus = ""%string)) as [He|He].
    - by rewrite decide_True by by apply Hempty.
    - rewrite decide_False; [done|]. intros Hl. by apply He, Hempty. }
  rewrite Hargv. unfold os_call. cbn [world trace]. rewrite Hrun. cbn [fst snd].
  rewrite <- !List.app_assoc. cbn [app].
  destruct (code =? 0); cbn [negb].
  - by rewrite ?List.app_nil_r.
  - rewrite log_run. cbn [world trace]. by rewrite <- ?List.app_assoc.
Qed.

Lemma pin_taskset_command_witness :
  exists cpus,
    CPUSpec.get_str (CPUSpec.Make "none" [] 0 None false) = Ok cpus
    /\ (cpus = ""%string <-> @nil Z = [])
    /\ forall code w',
         os_run (OS := Scripted.os MoreExamples.gone)
                ["taskset"; "-pc"; PyStr.str 77]%string O = (Ok code, w') ->
         KThread.pin_taskset (Hos := Scripted.os MoreExamples.gone)
           (CPUSpec.Make "none" [] 0 None false)
           (BundleExample.thread77, Scripted.start)
         = (Ok tt,
            (BundleExample.thread77,
             Sys w' ([] ++ [EvGetuid; EvLog INFO "KThread::pin_taskset";
                            EvRun ["taskset"; "-pc"; PyStr.str 77]%string]
                        ++ if code =? 0 then []
                           else [EvLog WARNING "KThread::pin_taskset failed"]))).
Proof.
  apply (pin_taskset_command (Hos := Scripted.os MoreExamples.gone)
           BundleExample.thread77 Scripted.start
           (CPUSpec.Make "none" [] 0 None false) eq_refl).
  constructor.
Defined.

(** ** A relaxed pin with nothing left to pin to *)

Section relaxed_pin_facts.
Context {W : Type} {Hos : OS W} {pf : Platform}.

Lemma filter_none {A} (P : A -> Prop) `{!forall x, Decision (P x)} (l : list A) :
  Forall (fun x => ~ P x) l -> filter P l = [].
Proof.
  induction 1 as [|x l Hx Hl IH]; [done|].
  rewrite filter_cons, decide_False by done. exact IH.
Qed.

(** [IRQ.procfs_write], run by root. *)
Lemma irq_procfs_write_run file content (self : IRQ.t) (s : sys W) :
  os_getuid (world s) = 0 ->
  IRQ.procfs_write file content (self, s)
  = let path := IRQ.procfs_folder self +:+ "/" +:+ file in
    let tr := trace s ++ [EvGetuid; EvGetuid; EvWrite path content] in
    match os_write path content (world s) with
    | (Ok n, w') =>
        (if n <=? 0 then Raise ProcfsWriteError else Ok tt, (self, Sys w' tr))
    | (Raise e, w') => (Raise e, (self, Sys w' tr))
    end.
Proof.
  intros Hroot. unfold IRQ.procfs_write. rewrite bind_run. cbn [get_self fst].
  rewrite on_sys_run, root_decorator_admits by done.
  rewrite procfs_write_run by done. cbv zeta. cbn [world trace].
  rewrite <- List.app_assoc. cbn [app].
  by destruct (os_write _ content (world s)) as [[n|e] w'].
Qed.

End relaxed_pin_facts.

(** X19.  A relaxed pin whose target has no CPU on the preferred node of
    the IRQ is left with an empty effective target, writes the empty string
    to [smp_affinity_list] and, on a kernel that reports zero bytes written
    for it, raises [ProcfsWriteError]: the affinity is not read back and
    the IRQ object is not changed. *)
Theorem relaxed_pin_off_node {W : Type} {Hos : OS W} {pf : Platform}
    (self : IRQ.t) (s : sys W) (cpu_list : list Z) (node : gset Z) (w' : W) :
  os_getuid (world s) = 0 ->
  cpu_list <> [] ->
  Forall (fun c => 0 <= c) cpu_list ->
  0 <= IRQ.best_node self ->
  NUMA_CPULIST !! Z.to_nat (IRQ.best_node self) = Some node ->
  Forall (fun c => c ∉ node) cpu_list ->
  let path := IRQ.procfs_folder self +:+ "/" +:+ "smp_affinity_list" in
  os_write path "" (world s) = (Ok 0, w') ->
  IRQ.set_pin_to_cpu cpu_list true (self, s)
  = (Raise ProcfsWriteError,
     (self,
      Sys w' (trace s ++ [EvGetuid; EvLog INFO "IRQ::set_pin_to_cpu()";
                          EvGetuid; EvGetuid; EvWrite path ""]))).
Proof.
  intros Hroot Hne Hnonneg Hnode Hlookup Hout path Hwrite.
  assert (Hperm : py_sort cpu_list ≡ₚ cpu_list) by apply py_sort_perm.
  assert (Htnonneg : Forall (fun c => 0 <= c) (py_sort cpu_list))
    by by apply py_sort_Forall.
  assert (Htout : Forall (fun c => c ∉ node) (py_sort cpu_list)) by by rewrite Hperm.
  assert (Hsne : py_sort cpu_list <> []).
  { intros Hnil. apply Hne. apply Permutation_nil_r. by rewrite <- Hnil. }
  unfold IRQ.set_pin_to_cpu. rewrite bind_run, getuid_run, Hroot.
  cbn [negb Z.eqb]. unfold IRQ.set_pin_to_cpu_body. rewrite bind_run.
  destruct (list_to_range_notation_total cpu_list Hnonneg) as [str ->].
  cbn [lift_res]. cbv zeta. rewrite bind_run, log_run. rewrite bind_run.
  assert ((0 <? length (py_sort cpu_list))%nat = true) as ->.
  { apply Nat.ltb_lt. destruct (py_sort cpu_list); [done | simpl; lia]. }
  cbn [py_assert mret M_ret]. rewrite bind_run.
  rewrite (numa_effective_outside _ _ (py_sort cpu_list) true node); try done.
  - rewrite filter_none by done. cbn [world trace]. rewrite List.app_nil_r.
    unfold IRQ.write_and_verify. rewrite bind_run. unfold try_except.
    rewrite bind_run. change (list_to_range_notation []) with (Ok ""%string).
    cbn [lift_res]. rewrite irq_procfs_write_run by done. cbv zeta.
    cbn [world trace]. fold path. rewrite Hwrite.
    cbn [Z.leb is_OSError]. by rewrite <- !List.app_assoc.
  - intros Hall. destruct (py_sort cpu_list) as [|c l]; [done|].
    inversion Hall; subst. by inversion Htout.
Qed.

Lemma relaxed_pin_off_node_witness :
  IRQ.set_pin_to_cpu (Hos := Scripted.os ScriptedExamples.sampled_at_ten)
    (pf := ScriptedExamples.one_cpu) [5; 3] true
    (MoreExamples.irq42_on_node0, Scripted.start)
  = (Raise ProcfsWriteError,
     (MoreExamples.irq42_on_node0,
      Sys 1%nat ([] ++ [EvGetuid; EvLog INFO "IRQ::set_pin_to_cpu()";
                        EvGetuid; EvGetuid;
                        EvWrite (IRQ.procfs_folder MoreExamples.irq42_on_node0
                                 +:+ "/" +:+ "smp_affinity_list") ""]))).
Proof.
  apply (relaxed_pin_off_node (Hos := Scripted.os ScriptedExamples.sampled_at_ten)
           (pf := ScriptedExamples.one_cpu) MoreExamples.irq42_on_node0 Scripted.start
           [5; 3] {[0]} 1%nat).
  - reflexivity.
  - discriminate.
  - repeat constructor; lia.
  - vm_compute. discriminate.
  - reflexivity.
  - repeat constructor; intros H%elem_of_singleton; lia.
  - reflexivity.
Defined.

(** ** The rate of an IRQ over successive samples *)

Section sample_facts.
Context {W : Type} {Hos : OS W} {pf : Platform}.

Lemma broadcast_same_length {A B C} (f : A -> B -> C) (a : list A) (b : list B) :
  length a = length b -> broadcast f a b = Ok (zip_with f a b).
Proof. intros Hlen. unfold broadcast. by rewrite Hlen, Nat.eqb_refl. Qed.

(** The time between two samples with the same timestamp is [0.0], or
    a NaN when the timestamp is not finite. *)
Lemma f64_sub_diag (t : float) : f64_sub t t = f64_zero \/ f64_sub t t = S754_nan.
Proof.
  destruct t as [[]|[]| |sg m e]; cbn; auto.
  left. unfold f64_sub, SFsub. rewrite Z.sub_diag. reflexivity.
Qed.

Lemma f64_div_zero (x : float) :
  f64_div x f64_zero = S754_infinity false
  \/ f64_div x f64_zero = S754_infinity true
  \/ f64_div x f64_zero = S754_nan.
Proof. destruct x as [[]|[]| |[] m e]; cbn; auto. Qed.

Lemma f64_div_nan (x : float) : f64_div x S754_nan = S754_nan.
Proof. by destruct x. Qed.

Lemma set_counts_twice c t h c' t' h' (self : IRQ.t) :
  IRQ.set_counts c t h (IRQ.set_counts c' t' h' self) = IRQ.set_counts c t h self.
Proof. by destruct self. Qed.

Lemma fmap_zip_with {A B C D} (f : A -> B -> C) (g : C -> D) la lb :
  g <$> zip_with f la lb = zip_with (fun a b => g (f a b)) la lb.
Proof.
  revert lb. induction la as [|a la IH]; intros [|b lb]; try done.
  cbn. by rewrite IH.
Qed.

(** An accepted [int64] sample on top of [int64] counts. *)
Lemma update_counts_int64 (self : IRQ.t) (s : sys W) t c0 c :
  IRQ._counts self = Int64Array c0 ->
  length c0 = CPU_COUNT -> length c = CPU_COUNT ->
  IRQ.update_counts t (Int64Array c) (self, s)
  = (Ok tt,
     (IRQ.set_counts (Int64Array c) t
        (Float64Array
           (zip_with (fun a b => f64_div (f64_of_Z (wrap64 (a - b)))
                                   (f64_sub t (IRQ._counts_time self))) c c0))
        self,
      Sys (world s) (trace s ++ [EvLog DEBUG "IRQ::update_counts()"]))).
Proof.
  intros Hc0 H0 H1. rewrite update_counts_run. cbv zeta. cbn [np_len].
  rewrite H1, Nat.eqb_refl, Hc0. cbn [np_sub].
  rewrite broadcast_same_length by congruence. cbn [mbind res_bind np_div].
  by rewrite fmap_zip_with.
Qed.

End sample_facts.

(** X20.  Two accepted [int64] samples in a row (arrays of values in the
    range of [int64]), on an IRQ that holds [int64] counts: the counts and the timestamp are then those of the
    second sample and the rate is, CPU by CPU, the [int64] difference of
    the second counts and the first, as a [float64], divided by the
    [float64] time between them; nothing of the state before the first
    sample is left in the counts, the timestamp or the rate.  Two samples
    with the same timestamp do not raise, every rate is then an infinity
    or a NaN.  A sample of the wrong length raises [AssertionError] and
    leaves the IRQ as it was. *)
Theorem update_counts_last_two {W : Type} {pf : Platform}
    (self : IRQ.t) (s : sys W) (t1 t2 : float) (c0 c1 c2 : list Z) :
  IRQ._counts self = Int64Array c0 ->
  length c0 = CPU_COUNT ->
  length c1 = CPU_COUNT ->
  length c2 = CPU_COUNT ->
  Forall int64 c0 -> Forall int64 c1 -> Forall int64 c2 ->
  let hz := zip_with (fun a b => f64_div (f64_of_Z (wrap64 (a - b))) (f64_sub t2 t1))
                     c2 c1 in
  (IRQ.update_counts t1 (Int64Array c1) ;; IRQ.update_counts t2 (Int64Array c2)) (self, s)
  = (Ok tt,
     (IRQ.set_counts (Int64Array c2) t2 (Float64Array hz) self,
      Sys (world s) (trace s ++ [EvLog DEBUG "IRQ::update_counts()";
                                 EvLog DEBUG "IRQ::update_counts()"])))
  /\ length hz = CPU_COUNT
  /\ (t2 = t1 ->
      Forall (fun v => v = S754_infinity false \/ v = S754_infinity true \/ v = S754_nan)
             hz)
  /\ (forall t bad, np_len bad <> CPU_COUNT ->
        IRQ.update_counts t bad (self, s)
        = (Raise AssertionError,
           (self, Sys (world s) (trace s ++ [EvLog DEBUG "IRQ::update_counts()"])))).
Proof.
  intros Hself H0 H1 H2 _ _ _ hz. repeat split.
  - rewrite bind_run, (update_counts_int64 self s t1 c0 c1) by done.
    rewrite (update_counts_int64 _ _ t2 c1 c2); [|by destruct self|done|done].
    cbn [world trace]. rewrite <- List.app_assoc. cbn [app].
    rewrite set_counts_twice. by destruct self.
  - subst hz. rewrite length_zip_with. lia.
  - intros ->. subst hz. clear. revert c1.
    induction c2 as [|a c2 IH]; intros [|b c1]; cbn [zip_with]; try done.
    constructor; [|apply IH].
    destruct (f64_sub_diag t1) as [-> | ->].
    + apply f64_div_zero.
    + right; right. apply f64_div_nan.
  - intros t bad Hbad. rewrite update_counts_run. cbv zeta.
    by apply Nat.eqb_neq in Hbad as ->.
Qed.

Lemma update_counts_last_two_witness :
  let hz := zip_with (fun a b => f64_div (f64_of_Z (wrap64 (a - b)))
                                   (f64_sub ScriptedExamples.ten f64_zero))
                     [130] [100] in
  (IRQ.update_counts (pf := ScriptedExamples.one_cpu) f64_zero (Int64Array [100]) ;;
   IRQ.update_counts (pf := ScriptedExamples.one_cpu) ScriptedExamples.ten
     (Int64Array [130]))
    (SamplerExample.irq42, Scripted.start)
  = (Ok tt,
     (IRQ.set_counts (Int64Array [130]) ScriptedExamples.ten (Float64Array hz)
        SamplerExample.irq42,
      Sys O ([] ++ [EvLog DEBUG "IRQ::update_counts()";
                    EvLog DEBUG "IRQ::update_counts()"])))
  /\ hz = [f64_of_Z 3].
Proof.
  split.
  - apply (update_counts_last_two (pf := ScriptedExamples.one_cpu)
             SamplerExample.irq42 Scripted.start
             f64_zero ScriptedExamples.ten [0] [100] [130]);
      first [reflexivity | repeat constructor; unfold int64; lia].
  - vm_compute. reflexivity.
Defined.

(** ** What a refresh leaves in the affinity fields *)

Section refresh_facts.
Context {W : Type} {Hos : OS W} {pf : Platform}.

Lemma lift_res_inv {S A} (r : Res A) (s s' : S) a :
  lift_res r s = (Ok a, s') -> r = Ok a /\ s' = s.
Proof. unfold lift_res. by intros [= -> ->]. Qed.

Lemma set_self_inv {T} (f : T -> T) (st st' : T * sys W) u :
  set_self f st = (Ok u, st') -> st' = (f st.1, st.2).
Proof. unfold set_self, modify. by intros [= _ <-]. Qed.

Lemma on_sys_inv {T A} (m : M (sys W) A) (st st' : T * sys W) a :
  on_sys m st = (Ok a, st') -> st'.1 = st.1 /\ m st.2 = (Ok a, st'.2).
Proof.
  destruct st as [self s]. rewrite on_sys_run. intros [= Ha <-].
  split; [done|]. cbn [snd]. by destruct (m s) as [r s1]; simplify_eq/=.
Qed.

Lemma irq_procfs_read_inv file (st st' : IRQ.t * sys W) lines :
  IRQ.procfs_read file st = (Ok lines, st') ->
  st'.1 = st.1
  /\ exists content,
       os_readlines (IRQ.procfs_folder st.1 +:+ "/" +:+ file) (world st.2)
       = (Ok content, world st'.2)
       /\ lines = PyStr.rstrip <$> content.
Proof.
  unfold IRQ.procfs_read. intros H.
  apply bind_ok_inv in H as (self & st1 & Hget & H).
  unfold get_self in Hget. injection Hget as <- <-.
  apply on_sys_inv in H as [Hself H]. split; [done|].
  unfold procfs_read in H. apply bind_ok_inv in H as (content & s1 & Hread & H).
  unfold os_call in Hread.
  destruct (os_readlines _ (world st.2)) as [r w1] eqn:Hos1.
  unfold mret, M_ret in H. destruct r as [content'|e]; [|done].
  injection Hread as -> <-. injection H as <- <-. cbn [world]. eauto.
Qed.

(** The fields of a refreshed [IRQ] in terms of what was read. *)
Lemma irq_refresh_contents_inv (st st' : IRQ.t * sys W) :
  IRQ.refresh_contents st = (Ok tt, st') ->
  exists smp eff w1 w2,
    os_readlines (IRQ.procfs_folder st.1 +:+ "/" +:+ "smp_affinity") (world st.2)
    = (Ok smp, w1)
    /\ os_readlines (IRQ.procfs_folder st.1 +:+ "/" +:+ "effective_affinity") w1
       = (Ok eff, w2)
    /\ (line ← py_index (PyStr.rstrip <$> smp) 0 ; maskstr_to_int line)
       = Ok (IRQ._smp_affinity st'.1)
    /\ (line ← py_index (PyStr.rstrip <$> eff) 0 ; maskstr_to_int line)
       = Ok (IRQ._eff_affinity st'.1)
    /\ mask_to_list (IRQ._smp_affinity st'.1) = Ok (IRQ._smp_affinity_list st'.1)
    /\ mask_to_list (IRQ._eff_affinity st'.1) = Ok (IRQ._eff_affinity_list st'.1).
Proof.
  unfold IRQ.refresh_contents. intros H.
  apply bind_ok_inv in H as (? & st1 & Hlog & H).
  apply bind_ok_inv in H as (lines1 & st2 & Hread1 & H).
  apply bind_ok_inv in H as (m1 & st3 & Hm1 & H).
  apply bind_ok_inv in H as (? & st4 & Hs1 & H).
  apply bind_ok_inv in H as (l1 & st5 & Hl1 & H).
  apply bind_ok_inv in H as (? & st6 & Hs2 & H).
  apply bind_ok_inv in H as (lines2 & st7 & Hread2 & H).
  apply bind_ok_inv in H as (m2 & st8 & Hm2 & H).
  apply bind_ok_inv in H as (? & st9 & Hs3 & H).
  apply bind_ok_inv in H as (l2 & st10 & Hl2 & H).
  apply bind_ok_inv in H as (? & st11 & Hs4 & H).
  apply bind_ok_inv in H as (spurious & st12 & Hread3 & H).
  apply bind_ok_inv in H as (c & st13 & Hc & H).
  apply bind_ok_inv in H as (self14 & st14 & Hget & H).
  apply bind_ok_inv in H as (? & st15 & Hs5 & H).
  apply bind_ok_inv in H as (u & st16 & Hu & H).
  apply bind_ok_inv in H as (? & st17 & Hs6 & H).
  apply bind_ok_inv in H as (l & st18 & Hl & H).
  destruct st as [self s]. rewrite log_at in Hlog.
  apply irq_procfs_read_inv in Hread1 as (Hself2 & smp & Hos1 & ->).
  apply lift_res_inv in Hm1 as [Hm1 ->].
  apply set_self_inv in Hs1 as ->.
  apply lift_res_inv in Hl1 as [Hl1 ->].
  apply set_self_inv in Hs2 as ->.
  apply irq_procfs_read_inv in Hread2 as (Hself7 & eff & Hos2 & ->).
  apply lift_res_inv in Hm2 as [Hm2 ->].
  apply set_self_inv in Hs3 as ->.
  apply lift_res_inv in Hl2 as [Hl2 ->].
  apply set_self_inv in Hs4 as ->.
  apply irq_procfs_read_inv in Hread3 as (Hself12 & sp & Hos3 & ->).
  apply lift_res_inv in Hc as [Hc ->].
  unfold get_self in Hget.
  apply set_self_inv in Hs5 as ->.
  apply lift_res_inv in Hu as [Hu ->].
  apply set_self_inv in Hs6 as ->.
  apply lift_res_inv in Hl as [Hl ->].
  apply set_self_inv in H as ->.
  simplify_eq. destruct st2 as [self2 s2], st7 as [self7 s7], st14 as [self14 s14].
  cbn [fst snd world] in *. subst self2 self7 self14.
  exists smp, eff, (world s2), (world s7).
  destruct self. cbn in *. by repeat split.
Qed.

(** The fields of an [IRQ] whose affinity was read back. *)
Lemma get_pin_to_cpu_post (st st' : IRQ.t * sys W) (pinned : list Z) :
  IRQ.get_pin_to_cpu st = (Ok pinned, st') ->
  (exists content w1,
     os_readlines (IRQ.procfs_folder st.1 +:+ "/" +:+ "smp_affinity") (world st.2)
     = (Ok content, w1)
     /\ (line ← py_index (PyStr.rstrip <$> content) 0 ; maskstr_to_int line)
        = Ok (IRQ._smp_affinity st'.1))
  /\ IRQ._smp_affinity_list st'.1 = pinned
  /\ Sorted Z.lt pinned
  /\ (forall i, i ∈ pinned <-> Z.testbit (IRQ._smp_affinity st'.1) i = true)
  /\ Sorted Z.lt (IRQ._eff_affinity_list st'.1)
  /\ (forall i, i ∈ IRQ._eff_affinity_list st'.1
                <-> Z.testbit (IRQ._eff_affinity st'.1) i = true).
Proof.
  assert (Hbits : forall m l, mask_to_list m = Ok l ->
            Sorted Z.lt l /\ (forall i, i ∈ l <-> Z.testbit m i = true)).
  { intros m l Hl. destruct (Z.lt_ge_cases m 0) as [Hneg|Hpos].
    - by rewrite mask_to_list_neg in Hl.
    - destruct (mask_to_list_spec m Hpos) as (l' & Hl' & Hsorted & Hmem).
      rewrite Hl in Hl'. by injection Hl' as ->. }
  unfold IRQ.get_pin_to_cpu. intros H.
  apply bind_ok_inv in H as ([] & st1 & Hrefresh & H).
  apply bind_ok_inv in H as (self1 & st2 & Hget1 & H).
  apply bind_ok_inv in H as (? & st3 & Hset & H).
  apply bind_ok_inv in H as (? & st4 & Hstr & H).
  apply bind_ok_inv in H as (? & st5 & Hlog & H).
  apply bind_ok_inv in H as (self5 & st6 & Hget5 & H).
  apply irq_refresh_contents_inv in Hrefresh
    as (smp & eff & w1 & w2 & Hos1 & _ & Hm1 & Hm2 & Hl1 & Hl2).
  unfold get_self in Hget1. injection Hget1 as <- <-.
  apply set_self_inv in Hset as ->.
  apply lift_res_inv in Hstr as [_ ->].
  destruct st1 as [self1 s1]. cbn [fst snd] in *. rewrite log_at in Hlog.
  unfold get_self in Hget5. unfold mret, M_ret in H. simplify_eq.
  destruct (Hbits _ _ Hl1) as [Hsorted1 Hmem1], (Hbits _ _ Hl2) as [Hsorted2 Hmem2].
  cbn [fst snd]. rewrite py_sort_sorted by by apply Sorted_lt_le.
  destruct self1. cbn in *.
  split; [by exists smp, w1|].
  repeat split; try done; intros; first [by apply Hmem1 | by apply Hmem2].
Qed.

End refresh_facts.

(** X21.  When [get_pin_to_cpu] returns, the list it returns is the
    [_smp_affinity_list] of the IRQ and holds, in strictly increasing order,
    exactly the set bits of its [_smp_affinity], which is the mask on the
    first line of the [smp_affinity] file as read by this call; the
    effective affinity list holds the set bits of [_eff_affinity] in the
    same way. *)
Theorem get_pin_to_cpu_reads_mask {W : Type} {Hos : OS W}
    (st st' : IRQ.t * sys W) (pinned : list Z) :
  IRQ.get_pin_to_cpu st = (Ok pinned, st') ->
  (exists content w1,
     os_readlines (IRQ.procfs_folder st.1 +:+ "/" +:+ "smp_affinity") (world st.2)
     = (Ok content, w1)
     /\ (line ← py_index (PyStr.rstrip <$> content) 0 ; maskstr_to_int line)
        = Ok (IRQ._smp_affinity st'.1))
  /\ IRQ._smp_affinity_list st'.1 = pinned
  /\ Sorted Z.lt pinned
  /\ (forall i, i ∈ pinned <-> Z.testbit (IRQ._smp_affinity st'.1) i = true)
  /\ Sorted Z.lt (IRQ._eff_affinity_list st'.1)
  /\ (forall i, i ∈ IRQ._eff_affinity_list st'.1
                <-> Z.testbit (IRQ._eff_affinity st'.1) i = true).
Proof. apply get_pin_to_cpu_post. Qed.

Lemma get_pin_to_cpu_reads_mask_witness :
  let st := (IRQ.fresh (pf := ScriptedExamples.one_cpu) 42, Scripted.start) in
  let st' := (IRQ.get_pin_to_cpu (Hos := Scripted.os ScriptedExamples.sampled_at_ten) st).2 in
  IRQ._smp_affinity_list st'.1 = [0]
  /\ Sorted Z.lt [0]
  /\ (forall i, i ∈ [0] <-> Z.testbit (IRQ._smp_affinity st'.1) i = true).
Proof.
  intros st st'.
  destruct (get_pin_to_cpu_reads_mask (Hos := Scripted.os ScriptedExamples.sampled_at_ten)
              st st' [0]) as (_ & H1 & H2 & H3 & _).
  - vm_compute. reflexivity.
  - exact (conj H1 (conj H2 H3)).
Defined.

(** ** The command a cpuset is created with *)

Section create_facts.
Context {W : Type} {Hos : OS W}.

Lemma word_no_blank w : PyStr.all_chars no_space w = true -> PyStr.mem " " w = false.
Proof.
  induction w as [|c w IH]; [done|]. cbn [PyStr.all_chars PyStr.mem].
  intros [Hc Hw]%andb_true_iff. rewrite IH by done.
  destruct (Ascii.eqb_spec c " ") as [->|]; [done | reflexivity].
Qed.

(** The range notation of a list, empty or not, has no blank. *)
Lemma range_notation_no_blank l :
  Forall (fun c => 0 <= c) l ->
  exists str,
    list_to_range_notation l = Ok str
    /\ PyStr.mem " " str = false /\ (str = ""%string <-> l = []).
Proof.
  intros Hl. destruct l as [|c l].
  - exists ""%string. by repeat split.
  - destruct (range_notation_word (c :: l) Hl ltac:(done)) as (str & Hstr & Hw & Hne).
    exists str. split; [done|]. split; [by apply word_no_blank|]. by split.
Qed.

Lemma create_argv cpus name :
  PyStr.mem " " cpus = false -> PyStr.mem " " name = false ->
  PyStr.split " " (("cset set --cpu " +:+ cpus) +:+ " --set " +:+ name)
  = ["cset"; "set"; "--cpu"; cpus; "--set"; name]%string.
Proof.
  intros Hcpus Hname.
  change (("cset set --cpu " +:+ cpus) +:+ " --set " +:+ name)
    with ("cset" +:+ String " " ("set" +:+ String " " ("--cpu" +:+ String " "
            (cpus +:+ String " " ("--set" +:+ String " " name))))).
  rewrite !split_app_sep by done. by rewrite split_no_sep.
Qed.

Lemma create_argv_mem cpus mems name :
  PyStr.mem " " cpus = false -> PyStr.mem " " mems = false ->
  PyStr.mem " " name = false ->
  PyStr.split " " ((("cset set --cpu " +:+ cpus) +:+ " -m " +:+ mems)
                   +:+ " --set " +:+ name)
  = ["cset"; "set"; "--cpu"; cpus; "-m"; mems; "--set"; name]%string.
Proof.
  intros Hcpus Hmems Hname. rewrite !str_app_assoc.
  change ("cset set --cpu " +:+ cpus +:+ " -m " +:+ mems +:+ " --set " +:+ name)
    with ("cset" +:+ String " " ("set" +:+ String " " ("--cpu" +:+ String " "
            (cpus +:+ String " " ("-m" +:+ String " "
               (mems +:+ String " " ("--set" +:+ String " " name))))))).
  rewrite !split_app_sep by done. by rewrite split_no_sep.
Qed.

End create_facts.

(** X22.  Run by root for a specification with non-negative CPUs and
    memory nodes and a name without a blank, [create] runs
    [cset set --cpu <cpus> [-m <mems>] --set <name>], the [-m] pair being
    there exactly when the specification has a memory list.  The line is
    split at every single blank, so an empty CPU list (or memory list) is
    passed on as an empty argument rather than dropped.  A non-zero exit
    code is logged as an error and nothing more. *)
Theorem cpuspec_create_command {W : Type} {Hos : OS W}
    (self : CPUSpec.t) (s : sys W) :
  os_getuid (world s) = 0 ->
  Forall (fun c => 0 <= c) (CPUSpec.cpu_list self) ->
  Forall (fun c => 0 <= c) (default [] (CPUSpec.mem_list self)) ->
  PyStr.mem " " (CPUSpec.name self) = false ->
  exists cpus mems,
    CPUSpec.get_str self = Ok cpus
    /\ (cpus = ""%string <-> CPUSpec.cpu_list self = [])
    /\ list_to_range_notation (default [] (CPUSpec.mem_list self)) = Ok mems
    /\ (mems = ""%string <-> default [] (CPUSpec.mem_list self) = [])
    /\ let argv :=
         ["cset"; "set"; "--cpu"; cpus]%string
         ++ match CPUSpec.mem_list self with
            | Some _ => ["-m"; mems]%string
            | None => []
            end
         ++ ["--set"; CPUSpec.name self]%string in
       forall code w',
         os_run argv (world s) = (Ok code, w') ->
         CPUSpec_create self s
         = (Ok tt,
            Sys w' (trace s ++ [EvGetuid; EvLog INFO "CPUSpec::create"; EvRun argv]
                            ++ if code =? 0 then []
                               else [EvLog ERROR "CPUSpec::create failed"])).
Proof.
  intros Hroot Hcpus Hmems Hname.
  destruct (range_notation_no_blank _ Hcpus) as (cpus & Hc & Hcb & Hce).
  destruct (range_notation_no_blank _ Hmems) as (mems & Hm & Hmb & Hme).
  exists cpus, mems. split; [exact Hc|]. split; [done|]. split; [done|].
  split; [done|]. intros argv code w' Hrun.
  unfold CPUSpec_create. rewrite root_decorator_admits by done.
  rewrite bind_run. unfold CPUSpec.get_str in Hc. unfold CPUSpec.get_str.
  rewrite Hc. cbn [lift_res]. rewrite bind_run. cbn [log emit modify].
  rewrite bind_run.
  assert (Hargv : forall s0 : sys W,
            (match CPUSpec.mem_list self with
             | Some mem_list =>
                 mem_str ← lift_res (list_to_range_notation mem_list) ;
                 mret (("cset set --cpu " +:+ cpus) +:+ " -m " +:+ mem_str)
             | None => mret ("cset set --cpu " +:+ cpus)
             end) s0
            = (Ok (match CPUSpec.mem_list self with
                   | Some _ => ("cset set --cpu " +:+ cpus) +:+ " -m " +:+ mems
                   | None => "cset set --cpu " +:+ cpus
                   end), s0)).
  { intros s0. destruct (CPUSpec.mem_list self) as [ml|]; [|done].
    simpl in Hm. rewrite bind_run, Hm. done. }
  rewrite Hargv. cbv zeta. rewrite bind_run. unfold sproc_run_argv, os_call.
  assert (Hsplit : PyStr.split " "
                     (match CPUSpec.mem_list self with
                      | Some _ => ("cset set --cpu " +:+ cpus) +:+ " -m " +:+ mems
                      | None => "cset set --cpu " +:+ cpus
                      end +:+ " --set " +:+ CPUSpec.name self) = argv).
  { subst argv. destruct (CPUSpec.mem_list self).
    - by apply create_argv_mem.
    - by apply create_argv. }
  rewrite Hsplit. cbn [world trace]. rewrite Hrun.
  rewrite <- !List.app_assoc. cbn [app].
  destruct (code =? 0); cbn [negb].
  - reflexivity.
  - unfold log, emit, modify. cbn [world trace]. by rewrite <- List.app_assoc.
Qed.

Lemma cpuspec_create_command_witness :
  exists cpus mems,
    CPUSpec.get_str (CPUSpec.Make "rt" [] 0 (Some [1; 0]) false) = Ok cpus
    /\ (cpus = ""%string <-> @nil Z = [])
    /\ list_to_range_notation [1; 0] = Ok mems
    /\ (mems = ""%string <-> [1; 0] = [])
    /\ forall code w',
         os_run (OS := Scripted.os MoreExamples.gone)
                ["cset"; "set"; "--cpu"; cpus; "-m"; mems; "--set"; "rt"]%string O
         = (Ok code, w') ->
         CPUSpec_create (Hos := Scripted.os MoreExamples.gone)
           (CPUSpec.Make "rt" [] 0 (Some [1; 0]) false) Scripted.start
         = (Ok tt,
            Sys w' ([] ++ [EvGetuid; EvLog INFO "CPUSpec::create";
                           EvRun ["cset"; "set"; "--cpu"; cpus; "-m"; mems;
                                  "--set"; "rt"]%string]
                       ++ if code =? 0 then []
                          else [EvLog ERROR "CPUSpec::create failed"])).
Proof.
  apply (cpuspec_create_command (Hos := Scripted.os MoreExamples.gone)
           (CPUSpec.Make "rt" [] 0 (Some [1; 0]) false) Scripted.start eq_refl).
  - constructor.
  - repeat constructor; lia.
  - reflexivity.
Defined.

(** ** Creating the cpusets without a memory list *)

Section shield_facts.
Context {W : Type} {Hos : OS W}.

Lemma shield_argv cpus :
  PyStr.mem " " cpus = false ->
  PyStr.split " " ("cset shield -c " +:+ cpus)
  = ["cset"; "shield"; "-c"; cpus]%string.
Proof.
  intros Hcpus.
  change ("cset shield -c " +:+ cpus)
    with ("cset" +:+ String " " ("shield" +:+ String " " ("-c" +:+ String " " cpus))).
  rewrite !split_app_sep by done. by rewrite split_no_sep.
Qed.

Lemma list_to_range_notation_sorted_arg l :
  list_to_range_notation (py_sort l) = list_to_range_notation l.
Proof. unfold list_to_range_notation. by rewrite py_sort_idemp. Qed.

End shield_facts.

(** X23.  [cset_creation] looks at the memory list of the shield only
    after it has run [cset shield -c <cpus>] and [cset set -d user]: run by
    root with a shield specification that has no memory list, it runs
    these two commands, whatever their exit codes, and then raises
    [AssertionError]; none of the cpusets asked for is created and no
    process is moved. *)
Theorem cset_creation_needs_mem_list {W : Type} {Hos : OS W}
    (csets : list CPUSpec.t) (shield_cpus : CPUSpec.t) (s : sys W) :
  os_getuid (world s) = 0 ->
  Forall (fun c => 0 <= c) (CPUSpec.cpu_list shield_cpus) ->
  CPUSpec.mem_list shield_cpus = None ->
  exists cpus,
    CPUSpec.get_str shield_cpus = Ok cpus
    /\ forall c1 w1 c2 w2,
         os_run ["cset"; "shield"; "-c"; cpus]%string (world s) = (Ok c1, w1) ->
         os_run ["cset"; "set"; "-d"; "user"]%string w1 = (Ok c2, w2) ->
         cset_creation csets shield_cpus s
         = (Raise AssertionError,
            Sys w2 (trace s ++ [EvGetuid; EvLog WARNING "cset_creation()";
                                EvRun ["cset"; "shield"; "-c"; cpus]%string;
                                EvRun ["cset"; "set"; "-d"; "user"]%string])).
Proof.
  intros Hroot Hcpus Hmem.
  destruct (range_notation_no_blank _ Hcpus) as (cpus & Hc & Hcb & _).
  exists cpus. split; [exact Hc|]. intros c1 w1 c2 w2 Hrun1 Hrun2.
  unfold cset_creation. rewrite root_decorator_admits by done.
  rewrite bind_run. unfold CPUSpec.get_str. rewrite Hc. cbn [lift_res].
  cbv zeta. rewrite bind_run. unfold log, emit, modify. rewrite bind_run.
  assert (Hsorted : list_to_range_notation (CPUSpec.cpu_list (CPUSpec.sorted shield_cpus))
                    = Ok cpus).
  { unfold CPUSpec.sorted. cbn [CPUSpec.cpu_list].
    by rewrite list_to_range_notation_sorted_arg. }
  rewrite Hsorted. cbn [lift_res]. rewrite bind_run.
  rewrite shield_argv by done. unfold sproc_run_argv, os_call. cbn [world trace].
  rewrite Hrun1. rewrite bind_run.
  change (PyStr.split " " "cset set -d user") with ["cset"; "set"; "-d"; "user"]%string.
  cbn [world trace]. rewrite Hrun2.
  assert (CPUSpec.mem_list (CPUSpec.sorted shield_cpus) = None) as ->
    by (by destruct shield_cpus).
  unfold raise. by rewrite <- !List.app_assoc.
Qed.

Lemma cset_creation_needs_mem_list_witness :
  exists cpus,
    CPUSpec.get_str (CPUSpec.Make "shield" [3; 2] 12 None false) = Ok cpus
    /\ forall c1 w1 c2 w2,
         os_run (OS := Scripted.os MoreExamples.gone)
                ["cset"; "shield"; "-c"; cpus]%string O = (Ok c1, w1) ->
         os_run (OS := Scripted.os MoreExamples.gone)
                ["cset"; "set"; "-d"; "user"]%string w1 = (Ok c2, w2) ->
         cset_creation (Hos := Scripted.os MoreExamples.gone)
           [CPUSpec.Make "rt" [2] 4 None false]
           (CPUSpec.Make "shield" [3; 2] 12 None false) Scripted.start
         = (Raise AssertionError,
            Sys w2 ([] ++ [EvGetuid; EvLog WARNING "cset_creation()";
                           EvRun ["cset"; "shield"; "-c"; cpus]%string;
                           EvRun ["cset"; "set"; "-d"; "user"]%string])).
Proof.
  apply (cset_creation_needs_mem_list (Hos := Scripted.os MoreExamples.gone)
           [CPUSpec.Make "rt" [2] 4 None false]
           (CPUSpec.Make "shield" [3; 2] 12 None false) Scripted.start eq_refl).
  - repeat constructor; lia.
  - reflexivity.
Defined.

(** ** The NUMA layout read from [lscpu] *)

Section numa_facts.

Lemma res_mapM_Forall2 {A B} (f : A -> Res B) l ys :
  res_mapM f l = Ok ys -> Forall2 (fun x y => f x = Ok y) l ys.
Proof.
  revert ys. induction l as [|x l IH]; intros ys; cbn [res_mapM].
  - intros [= <-]. constructor.
  - destruct (f x) as [y|e] eqn:Hx; [|done]. cbn [mbind res_bind].
    destruct (res_mapM f l) as [ys'|e]; [|done]. cbn [mbind res_bind].
    intros [= <-]. constructor; [done | by apply IH].
Qed.

Lemma py_index_ok_lt {A} (l : list A) i x :
  0 <= i -> py_index l i = Ok x -> i < Z.of_nat (length l).
Proof.
  intros Hi. unfold py_index. cbv zeta.
  destruct (i <? 0) eqn:Hneg; [apply Z.ltb_lt in Hneg; lia|].
  destruct (0 <=? i); [|done].
  destruct (i <? Z.of_nat (length l)) eqn:Hlt; [|done].
  intros _. by apply Z.ltb_lt.
Qed.

(** What a successful parse of the lines says about them. *)
Lemma parse_numa_lines_shape res nodes sets_per_node :
  parse_numa_lines res = Ok (nodes, sets_per_node) ->
  length sets_per_node = Z.to_nat nodes
  /\ nodes < Z.of_nat (length res)
  /\ Forall (fun cpus : gset Z => forall c, c ∈ cpus -> 0 <= c) sets_per_node.
Proof.
  unfold parse_numa_lines.
  destruct (py_index res 0) as [first|e] eqn:Hfirst; [|done]. cbn [mbind res_bind].
  destruct (py_index (PyStr.split ":" first) 1) as [field|e]; [|done].
  cbn [mbind res_bind].
  destruct (PyStr.int field) as [n|e]; [|done]. cbn [mbind res_bind].
  destruct (res_mapM (numa_node_cpus res) (seqZ 0 n)) as [sets|e] eqn:Hsets; [|done].
  cbn [mbind res_bind]. intros [= <- <-].
  apply res_mapM_Forall2 in Hsets.
  pose proof (Forall2_length _ _ _ Hsets) as Hlen. rewrite length_seqZ in Hlen.
  split; [done|]. split.
  - destruct (Z.le_gt_cases n 0) as [Hle|Hgt].
    + apply py_index_ok_lt in Hfirst; lia.
    + assert (Hlast : seqZ 0 n !! Z.to_nat (n - 1) = Some (n - 1)).
      { rewrite lookup_seqZ. lia. }
      destruct (Forall2_lookup_l _ _ _ _ _ Hsets Hlast) as (cpus & _ & Hcpus).
      unfold numa_node_cpus in Hcpus.
      destruct (py_index res (n - 1 + 1)) as [line|e] eqn:Hline; [|done].
      apply py_index_ok_lt in Hline; lia.
  - apply Forall_forall. intros cpus Hin.
    apply list_elem_of_lookup in Hin as [i Hi].
    destruct (Forall2_lookup_r _ _ _ _ _ Hsets Hi) as (nn & _ & Hcpus).
    unfold numa_node_cpus in Hcpus.
    destruct (py_index res (nn + 1)) as [line|e]; [|done]. cbn [mbind res_bind] in Hcpus.
    destruct (py_index (PyStr.split ":" line) 1) as [field'|e]; [|done].
    cbn [mbind res_bind] in Hcpus.
    destruct (range_to_list (PyStr.strip field')) as [l|e] eqn:Hl; [|done].
    cbn [mbind res_bind] in Hcpus. injection Hcpus as <-.
    intros c Hc%elem_of_list_to_set.
    apply range_to_list_nonneg in Hl. rewrite Forall_forall in Hl. by apply Hl.
Qed.

End numa_facts.

(** X24.  [parse_numa_info] runs the one pipeline [lscpu | grep NUMA].
    When it returns [(nodes, sets_per_node)], the list has one set per
    node ([max nodes 0] sets), the output had more than [nodes] lines and no
    set holds a negative CPU id.  When the pipeline prints nothing, it
    raises [IndexError]. *)
Theorem parse_numa_info_shape {W : Type} {Hsh : Shell W}
    (s : sys W) (text : string) (w' : W) :
  os_shell_stdout "lscpu | grep NUMA" (world s) = (Ok text, w') ->
  let s1 := Sys w' (trace s ++ [EvRun ["/bin/sh"; "-c"; "lscpu | grep NUMA"]%string]) in
  (forall nodes sets_per_node s',
     parse_numa_info s = (Ok (nodes, sets_per_node), s') ->
     s' = s1
     /\ length sets_per_node = Z.to_nat nodes
     /\ nodes < Z.of_nat (length (output_lines text))
     /\ Forall (fun cpus : gset Z => forall c, c ∈ cpus -> 0 <= c) sets_per_node)
  /\ (text = ""%string -> parse_numa_info s = (Raise IndexError, s1)).
Proof.
  intros Hrun s1.
  assert (Hinfo : parse_numa_info s = (parse_numa_lines (output_lines text), s1)).
  { unfold parse_numa_info. rewrite bind_run. unfold shell_stdout, os_call.
    by rewrite Hrun. }
  rewrite Hinfo. split.
  - intros nodes sets s' [= Hparse <-]. split; [done|].
    by apply parse_numa_lines_shape.
  - by intros ->.
Qed.

Lemma parse_numa_info_shape_witness :
  let r := parse_numa_info (Hsh := MoreExamples.printing MoreExamples.two_nodes)
             Scripted.start in
  exists nodes sets_per_node,
    r.1 = Ok (nodes, sets_per_node)
    /\ r.2 = Sys 1%nat ([] ++ [EvRun ["/bin/sh"; "-c"; "lscpu | grep NUMA"]%string])
    /\ length sets_per_node = Z.to_nat nodes
    /\ nodes < Z.of_nat (length (output_lines MoreExamples.two_nodes))
    /\ Forall (fun cpus : gset Z => forall c, c ∈ cpus -> 0 <= c) sets_per_node.
Proof.
  intros r.
  exists 2, [list_to_set [0; 1; 2; 3]; list_to_set [4; 5; 6; 7]].
  assert (Hok : r.1 = Ok (2, [list_to_set [0; 1; 2; 3]; list_to_set [4; 5; 6; 7]]))
    by (vm_compute; reflexivity).
  split; [exact Hok|].
  apply (proj1 (parse_numa_info_shape
                  (Hsh := MoreExamples.printing MoreExamples.two_nodes)
                  Scripted.start MoreExamples.two_nodes 1%nat eq_refl)).
  rewrite <- Hok. apply surjective_pairing.
Defined.

(** On the two-node machine the parse returns the two sets of four CPUs. *)
Example parse_numa_info_two_nodes :
  (parse_numa_info (Hsh := MoreExamples.printing MoreExamples.two_nodes)
     Scripted.start).1
  = Ok (2, [list_to_set [0; 1; 2; 3]; list_to_set [4; 5; 6; 7]]).
Proof. vm_compute. reflexivity. Qed.

(** ** What a composite bind that returns has established *)

Section bind_post_facts.
Context {W : Type} {Hos : OS W} {pf : Platform}.

Lemma on_irq_inv {A} a (m : M (IRQ.t * sys W) A) (st st' : objs * sys W) x :
  on_irq a m st = (Ok x, st') ->
  m (irq_store st.1 a, st.2) = (Ok x, (irq_store st'.1 a, st'.2))
  /\ kthread_store st'.1 = kthread_store st.1
  /\ forall b, b <> a -> irq_store st'.1 b = irq_store st.1 b.
Proof.
  destruct st as [os s]. rewrite on_irq_run. intros [= Hx <-]. cbn [fst snd].
  cbn [irq_store kthread_store]. rewrite upd_eq. split.
  - destruct (m (irq_store os a, s)) as [r [self' s1]]. simpl in *. by subst.
  - split; [done|]. intros b Hb. by rewrite upd_ne.
Qed.

Lemma on_kthread_inv {A} a (m : M (KThread.t * sys W) A) (st st' : objs * sys W) x :
  on_kthread a m st = (Ok x, st') ->
  m (kthread_store st.1 a, st.2) = (Ok x, (kthread_store st'.1 a, st'.2))
  /\ irq_store st'.1 = irq_store st.1
  /\ forall b, b <> a -> kthread_store st'.1 b = kthread_store st.1 b.
Proof.
  destruct st as [os s]. rewrite on_kthread_run. intros [= Hx <-]. cbn [fst snd].
  cbn [irq_store kthread_store]. rewrite upd_eq. split.
  - destruct (m (kthread_store os a, s)) as [r [self' s1]]. simpl in *. by subst.
  - split; [done|]. intros b Hb. by rewrite upd_ne.
Qed.

Lemma py_assert_inv {S} (b : bool) (s s' : S) u :
  py_assert b s = (Ok u, s') -> b = true /\ s' = s.
Proof. destruct b; [by intros [= _ <-] | done]. Qed.

Lemma py_sort_singleton l x : py_sort l = [x] -> l = [x].
Proof.
  intros Hs. pose proof (py_sort_perm l) as Hp. rewrite Hs in Hp.
  by apply Permutation_singleton_l in Hp.
Qed.

End bind_post_facts.

(** X25.  When a composite bind returns, its target names exactly one CPU,
    that CPU is in the CPU set of the IRQ's preferred NUMA node, and the
    affinity last read back into the IRQ object is that CPU alone: its
    [_smp_affinity_list] is [[cpu]] and [_smp_affinity] has bit [cpu] and no
    other.  No IRQ other than the bundle's and no thread other than the
    bundle's has changed. *)
Theorem composite_bind_post {W : Type} {Hos : OS W} {pf : Platform}
    (self : EDTObject.t) (cset : CPUSpec.t) (ktprio : option Z)
    (os os' : objs) (s s' : sys W) :
  EDTObject.bind_to_cset self cset ktprio (os, s) = (Ok tt, (os', s')) ->
  exists cpu node,
    CPUSpec.cpu_list cset = [cpu]
    /\ py_index NUMA_CPULIST (IRQ.best_node (irq_store os (EDTObject.irq self))) = Ok node
    /\ cpu ∈ node
    /\ 0 <= cpu
    /\ IRQ._smp_affinity_list (irq_store os' (EDTObject.irq self)) = [cpu]
    /\ (forall i, Z.testbit (IRQ._smp_affinity (irq_store os' (EDTObject.irq self))) i = true
                  <-> i = cpu)
    /\ (forall a, a <> EDTObject.irq self -> irq_store os' a = irq_store os a)
    /\ (forall k, k <> EDTObject.kthread self -> kthread_store os' k = kthread_store os k).
Proof.
  unfold EDTObject.bind_to_cset. intros H.
  apply bind_ok_inv in H as (? & st0 & Hstr & H).
  apply lift_res_inv in Hstr as [_ ->]. cbv zeta in H.
  apply bind_ok_inv in H as (? & st1 & Hlog & H).
  rewrite log_run_objs in Hlog. injection Hlog as _ <-.
  apply bind_ok_inv in H as (? & st2 & Hone & H).
  apply py_assert_inv in Hone as [Hone ->].
  apply bind_ok_inv in H as (cpu & st3 & Hcpu & H).
  apply lift_res_inv in Hcpu as [Hcpu ->].
  apply bind_ok_inv in H as (self_irq & st4 & Hthe & H).
  unfold the_irq in Hthe. cbn [fst] in Hthe. injection Hthe as <- <-.
  apply bind_ok_inv in H as (node & st5 & Hnode & H).
  apply lift_res_inv in Hnode as [Hnode ->].
  destruct (bool_decide (cpu ∈ node)) eqn:Hin; cbn [negb] in H.
  2:{ apply bind_ok_inv in H as (? & st6 & _ & H). done. }
  apply bool_decide_eq_true in Hin.
  apply bind_ok_inv in H as (? & st6 & Hpin & H).
  apply bind_ok_inv in H as (? & st7 & Hcs & H).
  apply bind_ok_inv in H as (? & st8 & Hprio & H).
  apply bind_ok_inv in H as (irq_cpulist & st9 & Hread & H).
  apply bind_ok_inv in H as (kt_cpuset & st10 & Htask & H).
  apply bind_ok_inv in H as (? & st11 & Hirq & H).
  apply py_assert_inv in Hirq as [Hirq ->].
  apply py_assert_inv in H as [_ H]. subst st10.
  apply on_irq_inv in Hpin as (_ & Hk6 & Hi6). cbn [fst snd] in Hk6, Hi6.
  apply on_kthread_inv in Hcs as (_ & Hi7 & Hk7).
  assert (Hi8 : irq_store st8.1 = irq_store st7.1
                /\ forall b, b <> EDTObject.kthread self ->
                     kthread_store st8.1 b = kthread_store st7.1 b).
  { destruct ktprio as [prio|].
    - by apply on_kthread_inv in Hprio as (_ & ? & ?).
    - unfold mret, M_ret in Hprio. by injection Hprio as _ <-. }
  destruct Hi8 as [Hi8 Hk8].
  apply on_irq_inv in Hread as (Hread & Hk9 & Hi9).
  apply on_kthread_inv in Htask as (_ & Hi10 & Hk10). cbn [fst snd] in *.
  apply get_pin_to_cpu_post in Hread as (_ & Hlist & _ & Hbits & _).
  cbn [fst snd] in Hlist, Hbits.
  apply andb_true_iff in Hirq as [Hlen Hhead].
  apply Nat.eqb_eq in Hlen. apply bool_decide_eq_true in Hhead.
  assert (Hpinned : irq_cpulist = [cpu]).
  { destruct irq_cpulist as [|c [|c' l]]; try done. cbn in Hhead. congruence. }
  rewrite Hpinned in Hlist, Hbits.
  assert (Hcset : CPUSpec.cpu_list cset = [cpu]).
  { apply Nat.eqb_eq in Hone. cbn [CPUSpec.sorted CPUSpec.cpu_list] in Hone, Hcpu.
    apply py_sort_singleton.
    destruct (py_sort (CPUSpec.cpu_list cset)) as [|c [|c' l]]; try done.
    vm_compute in Hcpu. congruence. }
  exists cpu, node. rewrite Hi10. rewrite Hlist.
  assert (Hcpu_bit : Z.testbit (IRQ._smp_affinity (irq_store st9.1 (EDTObject.irq self))) cpu
                     = true) by (apply Hbits; by left).
  repeat split; try done.
  - by eapply testbit_true_nonneg.
  - intros Hi%Hbits. by apply list_elem_of_singleton in Hi.
  - intros ->. done.
  - intros a Ha. rewrite Hi9, Hi8, Hi7 by done. by apply Hi6.
  - intros k Hk. rewrite Hk10, Hk9, Hk8, Hk7 by done. by rewrite Hk6.
Qed.

Lemma composite_bind_post_witness :
  let r := EDTObject.bind_to_cset (Hos := Scripted.os BundleExample.settled)
             (pf := ScriptedExamples.one_cpu)
             BundleExample.bundle BundleExample.cpu0 (Some 50)
             (BundleExample.linked, Scripted.start) in
  exists cpu node,
    CPUSpec.cpu_list BundleExample.cpu0 = [cpu]
    /\ py_index (NUMA_CPULIST (Platform := ScriptedExamples.one_cpu))
         (IRQ.best_node (irq_store BundleExample.linked
                           (EDTObject.irq BundleExample.bundle))) = Ok node
    /\ cpu ∈ node
    /\ 0 <= cpu
    /\ IRQ._smp_affinity_list (irq_store r.2.1 (EDTObject.irq BundleExample.bundle)) = [cpu]
    /\ (forall i, Z.testbit (IRQ._smp_affinity
                               (irq_store r.2.1 (EDTObject.irq BundleExample.bundle))) i
                  = true <-> i = cpu)
    /\ (forall a, a <> EDTObject.irq BundleExample.bundle ->
          irq_store r.2.1 a = irq_store BundleExample.linked a)
    /\ (forall k, k <> EDTObject.kthread BundleExample.bundle ->
          kthread_store r.2.1 k = kthread_store BundleExample.linked k).
Proof.
  intros r.
  assert (Hrun : r = (Ok tt, (r.2.1, r.2.2))).
  { assert (Hok : r.1 = Ok tt) by (vm_compute; reflexivity).
    destruct r as [res [os' s']]. simpl in *. by rewrite Hok. }
  exact (composite_bind_post (Hos := Scripted.os BundleExample.settled)
           (pf := ScriptedExamples.one_cpu)
           BundleExample.bundle BundleExample.cpu0 (Some 50)
           BundleExample.linked r.2.1 Scripted.start r.2.2 Hrun).
Defined.

(** ** Parking the IRQs *)

Section parking_facts.
Context {W : Type} {Hos : OS W} {pf : Platform}.

(** A loop over IRQs touches the IRQs of its list and nothing else. *)
Lemma irq_loop_frame {A} (m : M (IRQ.t * sys W) A) irqs : forall os (s : sys W),
  let r := for_each irqs (fun irq => _ ← on_irq irq m ; mret tt) (os, s) in
  kthread_store r.2.1 = kthread_store os
  /\ forall a, a ∉ irqs -> irq_store r.2.1 a = irq_store os a.
Proof.
  induction irqs as [|irq irqs IH]; intros os s; [done|].
  cbn [for_each]. cbv zeta. rewrite !bind_run, on_irq_run.
  destruct (m (irq_store os irq, s)) as [[x|e] [self' s1]]; cbn [fst snd].
  - cbn [mret M_ret].
    destruct (IH (Objs (upd irq self' (irq_store os)) (kthread_store os)) s1)
      as [Hk Hi].
    split; [exact Hk|]. intros a Ha. rewrite Hi.
    + cbn [irq_store]. apply upd_ne. intros ->. apply Ha. by left.
    + intros Hin. apply Ha. by right.
  - split; [done|]. intros a Ha. cbn [irq_store]. apply upd_ne.
    intros ->. apply Ha. by left.
Qed.

End parking_facts.

(** X26.  However it ends, [irq_parking] changes no kernel thread and no
    IRQ outside its list.  Run by root onto a specification with no CPU, it
    stops [irqbalance] and then raises [AssertionError] at the first IRQ of
    the list: nothing is written and no IRQ object has changed. *)
Theorem irq_parking_frame {W : Type} {Hos : OS W} {pf : Platform}
    (irqs : list ref) (cpus : CPUSpec.t) (os : objs) (s : sys W) :
  (kthread_store (irq_parking irqs cpus (os, s)).2.1 = kthread_store os
   /\ forall a, a ∉ irqs ->
        irq_store (irq_parking irqs cpus (os, s)).2.1 a = irq_store os a)
  /\ (os_getuid (world s) = 0 ->
      CPUSpec.cpu_list cpus = [] ->
      irqs <> [] ->
      forall code w',
        os_run ["systemctl"; "stop"; "irqbalance"]%string (world s) = (Ok code, w') ->
        os_getuid w' = 0 ->
        exists os',
          irq_parking irqs cpus (os, s)
          = (Raise AssertionError,
             (os',
              Sys w' (trace s ++ [EvGetuid; EvLog WARNING "irq_parking()";
                                  EvRun ["systemctl"; "stop"; "irqbalance"]%string;
                                  EvGetuid; EvLog INFO "IRQ::set_pin_to_cpu()"])))
          /\ forall a, irq_store os' a = irq_store os a).
Proof.
  split.
  - unfold irq_parking. rewrite bind_run, on_sys_run. cbn [getuid os_call fst snd].
    destruct (negb (os_getuid (world s) =? 0)); [done|].
    rewrite bind_run. destruct (CPUSpec.get_str cpus) as [str|e]; [|done].
    cbn [lift_res]. cbv zeta. rewrite bind_run, on_sys_run. cbn [log emit modify fst snd].
    rewrite bind_run, on_sys_run.
    destruct (sproc_run_argv _ _) as [[code|e] s1]; [|done]. cbn [fst snd].
    apply irq_loop_frame.
  - intros Hroot Hempty Hirqs code w' Hrun Hroot'.
    destruct irqs as [|irq rest]; [done|].
    unfold irq_parking. rewrite bind_run, on_sys_run. cbn [getuid os_call fst snd].
    rewrite Hroot. cbn [Z.eqb negb]. rewrite bind_run.
    unfold CPUSpec.get_str. rewrite Hempty.
    change (list_to_range_notation []) with (Ok ""%string). cbn [lift_res]. cbv zeta.
    rewrite bind_run, on_sys_run. cbn [log emit modify fst snd world trace].
    rewrite bind_run, on_sys_run. unfold sproc_run_argv, os_call. cbn [world trace].
    rewrite Hrun. cbn [fst snd for_each]. rewrite !bind_run, on_irq_run.
    cbn [CPUSpec.sorted CPUSpec.cpu_list]. rewrite Hempty.
    change (py_sort []) with (@nil Z).
    unfold IRQ.set_pin_to_cpu. rewrite bind_run, on_sys_run.
    cbn [getuid os_call fst snd world trace]. rewrite Hroot'. cbn [Z.eqb negb].
    unfold IRQ.set_pin_to_cpu_body. rewrite bind_run.
    change (list_to_range_notation []) with (Ok ""%string). cbn [lift_res]. cbv zeta.
    rewrite bind_run, on_sys_run. cbn [log emit modify fst snd world trace].
    rewrite bind_run. change (py_sort []) with (@nil Z).
    cbn [length Nat.ltb Nat.leb py_assert raise fst snd].
    eexists. split.
    + rewrite <- !List.app_assoc. reflexivity.
    + intros a. cbn [irq_store]. unfold upd. by destruct (decide (a = irq)) as [->|].
Qed.

Lemma irq_parking_frame_witness :
  exists os',
    irq_parking (Hos := Scripted.os MoreExamples.gone) (pf := ScriptedExamples.one_cpu)
      [0%nat] (CPUSpec.Make "none" [] 0 None false)
      (SamplerExample.two_irqs, Scripted.start)
    = (Raise AssertionError,
       (os',
        Sys 1%nat ([] ++ [EvGetuid; EvLog WARNING "irq_parking()";
                          EvRun ["systemctl"; "stop"; "irqbalance"]%string;
                          EvGetuid; EvLog INFO "IRQ::set_pin_to_cpu()"])))
    /\ forall a, irq_store os' a = irq_store SamplerExample.two_irqs a.
Proof.
  apply (proj2 (irq_parking_frame (Hos := Scripted.os MoreExamples.gone)
                  (pf := ScriptedExamples.one_cpu)
                  [0%nat] (CPUSpec.Make "none" [] 0 None false)
                  SamplerExample.two_irqs Scripted.start)
           eq_refl eq_refl ltac:(discriminate) 1 1%nat eq_refl eq_refl).
Defined.

(** ** The bus addresses read from [lspci] *)

Section lspci_facts.

Lemma output_lines_printed lines rest :
  Forall (fun l => PyStr.mem LF l = false) lines ->
  PyStr.mem LF rest = false ->
  output_lines (printed lines rest) = lines.
Proof.
  intros Hlines Hrest. unfold output_lines.
  assert (Hsplit : PyStr.split LF (printed lines rest) = lines ++ [rest]).
  { unfold printed. induction Hlines as [|l lines Hl _ IH]; cbn [foldr].
    - by apply split_no_sep.
    - rewrite split_app_sep by done. by rewrite IH. }
  rewrite Hsplit. apply removelast_last.
Qed.

Lemma remove_char_absent c s : PyStr.mem c s = false -> PyStr.remove_char c s = s.
Proof.
  induction s as [|x s IH]; [done|]. cbn [PyStr.mem PyStr.remove_char].
  intros [Hx Hs]%orb_false_iff. by rewrite Hx, IH.
Qed.

Lemma remove_char_app c a b :
  PyStr.remove_char c (a +:+ b) = PyStr.remove_char c a +:+ PyStr.remove_char c b.
Proof.
  induction a as [|x a IH]; [done|]. rewrite str_app_cons.
  cbn [PyStr.remove_char]. rewrite IH. by destruct (Ascii.eqb x c).
Qed.

(** The short key of [bus:dev.fn]. *)
Lemma short_address_key bus dev fn :
  PyStr.mem "." bus = false -> PyStr.mem "." dev = false ->
  PyStr.mem ":" bus = false -> PyStr.mem ":" dev = false ->
  short_address (bus +:+ ":" +:+ dev +:+ "." +:+ fn) = bus +:+ dev.
Proof.
  intros Hb Hd Hb' Hd'. unfold short_address.
  change (bus +:+ ":" +:+ dev +:+ "." +:+ fn)
    with (bus +:+ String ":" (dev +:+ String "." fn)).
  replace (bus +:+ String ":" (dev +:+ String "." fn))
    with ((bus +:+ String ":" dev) +:+ String "." fn)
    by (rewrite str_app_assoc; by rewrite str_app_cons).
  rewrite split_app_sep.
  - cbn [head default from_option id]. rewrite remove_char_app.
    rewrite remove_char_absent by done. cbn [PyStr.remove_char Ascii.eqb].
    change (Ascii.eqb ":" ":") with true. cbv iota.
    by rewrite remove_char_absent.
  - rewrite mem_app, Hb. cbn [PyStr.mem]. by rewrite Hd.
Qed.

End lspci_facts.

(** X27.  The three [parse_lspci_for_*] functions run one pipeline each
    and return one entry per line of its output, in order; what follows
    the last line feed is dropped.  With [format_colons] an entry is the
    line after [0000:]; without, it is the line up to its first dot with
    the colons taken out, so that [bus:dev.fn] gives [busdev]. *)
Theorem parse_lspci_entries {W : Type} {Hsh : Shell W}
    (cmd : string) (s : sys W) (lines : list string) (rest : string) (w' : W) :
  Forall (fun l => PyStr.mem LF l = false) lines ->
  PyStr.mem LF rest = false ->
  os_shell_stdout cmd (world s) = (Ok (printed lines rest), w') ->
  let s1 := Sys w' (trace s ++ [EvRun ["/bin/sh"; "-c"; cmd]%string]) in
  parse_lspci cmd true s = (Ok ((fun r => "0000:" +:+ r) <$> lines), s1)
  /\ parse_lspci cmd false s = (Ok (short_address <$> lines), s1)
  /\ (forall bus dev fn,
        PyStr.mem "." bus = false -> PyStr.mem "." dev = false ->
        PyStr.mem ":" bus = false -> PyStr.mem ":" dev = false ->
        short_address (bus +:+ ":" +:+ dev +:+ "." +:+ fn) = bus +:+ dev).
Proof.
  intros Hlines Hrest Hrun s1.
  split; [|split; [|apply short_address_key]].
  - unfold parse_lspci. rewrite bind_run. unfold shell_stdout, os_call.
    rewrite Hrun. cbv zeta. by rewrite output_lines_printed.
  - unfold parse_lspci. rewrite bind_run. unfold shell_stdout, os_call.
    rewrite Hrun. cbv zeta. by rewrite output_lines_printed.
Qed.

Lemma parse_lspci_entries_witness :
  parse_lspci_for_pci_switches (Hsh := MoreExamples.printing MoreExamples.two_bridges)
    true Scripted.start
  = (Ok ["0000:00:1c.0"; "0000:3b:00.1"]%string,
     Sys 1%nat ([] ++ [EvRun ["/bin/sh"; "-c";
                              "lspci | grep " +:+ DQ +:+ "PCI bridge:" +:+ DQ
                              +:+ " | awk '{print $1}'"]%string]))
  /\ parse_lspci_for_pci_switches (Hsh := MoreExamples.printing MoreExamples.two_bridges)
       false Scripted.start
     = (Ok ["001c"; "3b00"]%string,
        Sys 1%nat ([] ++ [EvRun ["/bin/sh"; "-c";
                                 "lspci | grep " +:+ DQ +:+ "PCI bridge:" +:+ DQ
                                 +:+ " | awk '{print $1}'"]%string])).
Proof.
  destruct (parse_lspci_entries (Hsh := MoreExamples.printing MoreExamples.two_bridges)
              ("lspci | grep " +:+ DQ +:+ "PCI bridge:" +:+ DQ +:+ " | awk '{print $1}'")
              Scripted.start ["00:1c.0"; "3b:00.1"]%string ""%string 1%nat)
    as (H1 & H2 & _).
  - by repeat constructor.
  - reflexivity.
  - reflexivity.
  - split; [exact H1 | exact H2].
Defined.

(** ** The loaded modules read from [lsmod] *)

Section lsmod_facts.

Lemma first_words_ok (rows : list (string * string)) :
  Forall (fun r => PyStr.all_chars no_space r.1 = true /\ r.1 <> ""%string) rows ->
  res_mapM (fun l => py_index (PyStr.split_ws None l) 0)
           ((fun r => r.1 +:+ String " " r.2) <$> rows)
  = Ok (fst <$> rows).
Proof.
  induction 1 as [|r rows [Hw Hne] _ IH]; [done|].
  cbn [fmap list_fmap res_mapM]. rewrite split_ws_word by done.
  rewrite py_index_head. cbn [mbind res_bind].
  change (list_fmap _ _ ?f ?l) with (f <$> l). rewrite IH. done.
Qed.

Lemma first_words_raise (lines : list string) e :
  res_mapM (fun l => py_index (PyStr.split_ws None l) 0) lines = Raise e ->
  e = IndexError.
Proof.
  induction lines as [|l lines IH]; [done|]. cbn [res_mapM].
  destruct (py_index (PyStr.split_ws None l) 0) as [w|e'] eqn:Hw.
  - cbn [mbind res_bind]. destruct (res_mapM _ lines) as [ws|e'']; [done|].
    cbn [mbind res_bind]. intros [= <-]. by apply IH.
  - cbn [mbind res_bind]. intros [= <-]. unfold py_index in Hw. cbv zeta in Hw.
    repeat case_match; congruence.
Qed.

End lsmod_facts.

(** X28.  [parse_lsmod] runs [lsmod] and returns the first word of every
    line of its output but the first, in order: for a title line followed
    by rows that each start with a module name and a blank, it returns the
    names.  Whatever the output, it raises nothing but [IndexError] (a row
    without a word). *)
Theorem parse_lsmod_modules {W : Type} {Hsh : Shell W}
    (s : sys W) (text : string) (w' : W) :
  os_shell_stdout "lsmod" (world s) = (Ok text, w') ->
  let s1 := Sys w' (trace s ++ [EvRun ["/bin/sh"; "-c"; "lsmod"]%string]) in
  (forall title (rows : list (string * string)) rest,
     text = printed (title :: ((fun r => r.1 +:+ String " " r.2) <$> rows)) rest ->
     PyStr.mem LF title = false ->
     PyStr.mem LF rest = false ->
     Forall (fun r => PyStr.mem LF (r.1 +:+ String " " r.2) = false
                      /\ PyStr.all_chars no_space r.1 = true /\ r.1 <> ""%string) rows ->
     parse_lsmod s = (Ok (fst <$> rows), s1))
  /\ (forall e s', parse_lsmod s = (Raise e, s') -> e = IndexError /\ s' = s1).
Proof.
  intros Hrun s1.
  assert (Hmod : parse_lsmod s
                 = (res_mapM (fun l => py_index (PyStr.split_ws None l) 0)
                             (drop 1 (output_lines text)), s1)).
  { unfold parse_lsmod. rewrite bind_run. unfold shell_stdout, os_call.
    by rewrite Hrun. }
  rewrite Hmod. split.
  - intros title rows rest -> Htitle Hrest Hrows.
    rewrite output_lines_printed; [|constructor; [done|]|done].
    + cbn [skipn]. rewrite drop_0, first_words_ok; [done|].
      eapply Forall_impl; [exact Hrows|]. by intros r (_ & ? & ?).
    + apply Forall_fmap. eapply Forall_impl; [exact Hrows|]. by intros r (? & _).
  - intros e s' [= He <-]. split; [|done]. by eapply first_words_raise.
Qed.

Lemma parse_lsmod_modules_witness :
  parse_lsmod (Hsh := MoreExamples.printing MoreExamples.two_modules) Scripted.start
  = (Ok ["edt"; "nvme"]%string,
     Sys 1%nat ([] ++ [EvRun ["/bin/sh"; "-c"; "lsmod"]%string])).
Proof.
  apply (proj1 (parse_lsmod_modules
                  (Hsh := MoreExamples.printing MoreExamples.two_modules)
                  Scripted.start MoreExamples.two_modules 1%nat eq_refl)
           "Module                  Size  Used by"%string
           [("edt", "                  4096  0"); ("nvme", "                49152  2")]%string
           ""%string).
  - reflexivity.
  - reflexivity.
  - reflexivity.
  - repeat constructor; discriminate.
Defined.
